(* ===== verification/_CoqProject ===== *)
-Q . S2P
Prelude.v
Loop.v
Scalar.v
PyList.v
Transform.v
RealModel.v
Record.v
Repr.v
FloatModel.v
IntFloat.v
Binary64.v
DoubleCover.v
Decimal.v
Reader.v
World.v
Scenario.v
Rounds.v
Execute.v
FileReader.v
Buffer.v
Safety.v
Run.v
Interrupt.v
Invariant.v
Module.v
Settings.v
