(* ===== verification/Prelude.v ===== *)
(** * Verification of the sensor-frame lidar point-cloud client

    The program verified here is
    [src/PythonClient/multirotor/sensorframe_lidar_pointcloud.py]: a client
    that polls the lidar sensors of a simulated vehicle, rotates every
    returned point from the sensor frame by the sensor's orientation
    quaternion, translates it by the sensor's position, computes a range and
    an angle per point, and writes one text record per point to a file per
    sensor.  The whole program is the class [LidarTest] ([__init__],
    [execute]), six imports and a three-line main block.

    ** Parts of the program and where they are modelled

    - Python's exceptions and control flow (uncaught exceptions, [for],
      [while True], [try]/[except KeyboardInterrupt]): this file,
      [Prelude.v].  [result] is "a value or a raised exception", [prog] is a
      state-and-exception monad, [for_each] is the [for] statement,
      [forever] the [while True] loop with a round budget, [try_except] the
      [try] statement.
    - Python [float] arithmetic and the [math] functions the script calls
      ([math.sqrt], [math.acos]): [Scalar.v].  The class [Scalar] is the
      interface of a number type; the transform is written once against it
      and read twice, over the reals (ideal arithmetic, [RealModel.v]) and
      over IEEE binary64 ([FloatModel.v]).
    - [range(0, len(point_cloud), 3)] and the slice [point_cloud[i:i+3]]
      (lines 92-93): [PyList.v], with the equivalent structural chunking.
    - The point transformer (lines 84-108): [Transform.v].  Data types
      [Vector3r], [Quaternionr], [Pose], [LidarData], [MultirotorState] are
      the AirSim client types whose fields the script reads;
      [rotation_matrix] is lines 86-88, [matmul] is [np.matmul] of line 95,
      [from_quat]/[as_quat] are the two SciPy calls of lines 103-106 (the
      library normalises its argument and rejects a zero or NaN norm),
      [inner_product], [point_angle], [point_range] and [transform_point]
      are lines 95-108.
    - Ideal behaviour of the transformer: [RealModel.v].  Orthogonality and
      determinant of the rotation matrix, the matrix as the quaternion
      sandwich product, norm preservation, the range as the norm of the
      local point, absence of domain errors, the double-cover invariance of
      the angle, and what the angle really measures.
    - Machine behaviour of the transformer: [FloatModel.v].  The binary64
      instance of [Scalar], Python's [round], [float(int)] and ["%f"]
      formatting computed exactly from the float's mantissa and exponent,
      the end-to-end scenario evaluated by the kernel, and a binary64 input
      on which [math.acos] raises.
    - The integer of line 110 as the float of line 112: [IntFloat.v].
      [representable] is the set of integers that are binary64 floats;
      the facts about [float_of_int] are proved from the specification
      of binary64 in the Standard Library ([SpecFloat]), which the
      primitive floats of the kernel are assumed to follow.
    - The operations of lines 95-100 on arbitrary floats: [Binary64.v].
      [same_number] is equality up to the sign of a zero, [signed] and
      [not_negative] follow the sign of a result through the rounding of
      [SpecFloat].
    - The angle of lines 102-108 under negation of a quaternion:
      [DoubleCover.v].  [sf_same] is equality of [SpecFloat] numbers up to
      the sign of a zero, an equivalence that the addition respects.
    - The output record and the file name (lines 76 and 112): [Record.v].
    - The start time in the file name: [Repr.v].  [float_repr] is what an
      f-string prints for a binary64 float, [shortest] the search for the
      digits of the shortest decimal that reads back, [in_interval] the
      rounding interval of a float in integers.
    - Files ([open] in mode 'w' or 'a', [write], [close]), standard output,
      the clock, the simulator client and keyboard interrupts: [World.v].
      The state [World] holds the files (a map from names to text), the
      file object [f] with its buffer, the printed lines and a tick
      counter.  The environment [Env] is an oracle indexed by the tick:
      the clock, the replies of the simulator (a value or an exception),
      whether the file system grants an [open] ([env_open]), how many
      characters of the buffer the runtime flushes at a [write]
      ([env_flush]) and whether CTRL+C is pending.  Every primitive takes
      one tick and is an interrupt point.
    - [LidarTest.__init__], [LidarTest.execute] and the main block:
      [Execute.v].  [scan] is one iteration of the [for] body (lines
      76-113), [round_] one pass of the [while] body (lines 73-114),
      [polling_loop] the loop with the flag [existing_data_cleared],
      [execute] the whole method with its handler, [init] and [main] the
      constructor and the main block, [main_vehicle_name] and
      [main_lidar_names] the two literals of line 122 that [main] passes
      on.  The file proves that the program refines the specification of
      [Rounds.v].
    - What the scans of a run are to write: [Rounds.v].  [point_line] is
      the record of one slice, [scan_lines] the records of a scan,
      [round_lines] those of a pass over the sensors, [loop_lines] those
      of the first rounds; [write_rounds] is the file system after them
      and [healthy] the environments in which no call fails.
    - The text of a file between [open] and [close], in the file and in
      the buffer: [Buffer.v].  [written] is the two together,
      [with_flush] an environment with another buffering policy,
      [scan_records] the records a scan is to write.
    - What holds on every path, with interrupts and failures: [Safety.v]
      (which files a run may change, when the file object is open, what
      the handler does) and [Invariant.v] (the well-formedness of the
      world, [wf_world]: a property of the model of the file system, kept
      by every primitive and therefore by every program built from
      them).
    - The [while True] loop and [execute] without a bound: [Loop.v] and
      [Run.v].  [exits] is the relation "the loop leaves with this
      exception in this state", [polling_exits] the same for the loop of
      the script with its flag, [execute_start] lines 68-71 and
      [execute_ends] the ways in which [execute] ends.  The bounded
      program of [Execute.v] is proved adequate for them.
    - CTRL+C: [Interrupt.v].  [with_interrupt env t] is the environment
      [env] with CTRL+C pressed at tick [t]; [agree_until] relates the run
      of a program in it to the run in [env].
    - The output read back: [Decimal.v] has the reader [parse_f] of a
      field in the fixed format of [%f], [Reader.v] the reader
      [parse_record] of a line, which splits at white space as
      [str.split()] does, [FileReader.v] the reader [parse_file] of a
      file, which takes it line by line ([read_lines]) as the iteration
      over a Python file object does.  The readers are not code of the
      script: they are the reference against which what the script
      writes is judged.  [is_record] says where a written record comes
      from: a slice of a reply of the sensor, transformed by the loop
      body, and a reading of the clock.
    - The file as a whole: [Module.v].  [load_modules] is the imports of
      lines 51-56, each a primitive that raises [ModuleNotFoundError] when
      the module is not [installed]; [script] is the imports followed by
      the main block under the guard of line 120.
    - The sample [settings.json] of the module docstring (lines 4-50):
      [Settings.v].  [json] is the document model, [sample_settings] the
      document, [lidars_of] the strict reader of the lidar sensors of a
      vehicle.  The script never reads this text; the file records what
      the docstring says and checks the arguments of line 122 against
      it.
    - A concrete simulator over binary64, in which the theorems are
      instantiated and the program is run by the kernel: [Scenario.v].

    The files depend on each other in the order of [_CoqProject]:
    [Prelude], [Loop], [Scalar], [PyList], [Transform], [RealModel],
    [Record], [Repr], [FloatModel], [IntFloat], [Binary64], [DoubleCover],
    [Decimal], [Reader], [World], [Scenario], [Rounds], [Execute],
    [FileReader], [Buffer], [Safety], [Run], [Interrupt], [Invariant],
    [Module], [Settings].

    ** What the theorems show

    - Transformer, ideal arithmetic: for a unit sensor quaternion the matrix
      is a rotation; the loop body applied to a triple of a reply, with
      the sensor quaternion read as w, x, y, z, returns the vector part of
      [q p conj(q)] (the Hamilton products of [qmul], written without the
      matrix) plus the sensor position, the norm of the local point as
      range and an angle in [0, PI] ([transform_point_real]); the angle is
      always defined and is insensitive to the sign and the
      scale of either quaternion.  The angle is that of the composed
      rotation of vehicle and sensor, not of their relative rotation: it is
      0 for equal orientations only when the vector part vanishes.
    - Transformer, binary64: concrete scenarios are evaluated inside the
      kernel; rounding makes the argument of [math.acos] exceed 1 on simple
      inputs, and the script then raises [ValueError] where the
      specification asks for clamping.  For all floats ([Binary64.v]):
      [math.sqrt] of line 100 never raises, so a point fails only in
      [np.matmul] or in the angle; at the identity pose every finite point
      comes out equal to itself, with the range [sqrt(x*x + y*y + z*z)],
      and only the sign of a zero can change; the angle, or the exception
      raised for it, is the same bit for bit when the sensor quaternion
      or the vehicle quaternion is negated ([DoubleCover.v]).
    - Chunking: [range(start, stop, step)] is the list of the numbers
      [start + k * step] below [stop], in order ([py_range_elements]);
      the stride loop visits ceil(n/3) slices whose concatenation
      is the point cloud; all are triples exactly when 3 divides n; a
      trailing short slice makes [np.matmul] raise after the earlier points
      were written.
    - Record: distinct sensors of a run get distinct files; in binary64 the
      record of the worked example is computed by the kernel, and its time
      stamp field is printed by ["%f"], with six decimals.
    - File name ([Repr.v]): the search for the digits always ends; the
      decimal it prints is in the rounding interval of the float, no
      decimal with fewer digits is, none with as many is nearer, and it
      has no trailing zero; the text agrees with CPython on the recorded
      values.
    - Runs without interrupts ([Rounds.v], [Execute.v]): the records of a
      scan are one per slice, in order; a scan refines [scan_lines]
      (open, one record per slice in order, close; two ticks per point);
      the first round truncates each sensor's file and every later round
      appends; with pairwise distinct sensor names the file of a sensor
      holds the records of all rounds in order; a sensor listed twice
      loses its first scan; a point that raises ends the scan with the
      earlier records written, in the file or in the buffer, and the file
      open; a point cloud whose length is not a multiple of 3 always ends
      so; in a healthy environment the loop never returns; a failed
      connection ends the script in [__init__].
    - Buffering ([Buffer.v]): however a scan ends and whatever the
      runtime has flushed, the text of the sensor's file, on disk and
      pending, is what [open] left followed by the first records of the
      scan, whole and in order; a run that goes through leaves the same
      files under every buffering policy.
    - Every run ([Safety.v]): no file other than the sensors' files is
      ever changed; the file of a scan is closed exactly when the scan
      completes; a [KeyboardInterrupt] of the loop is caught and answered
      with the completion message, every other exception leaves [execute]
      without it; two interrupted runs are followed tick by tick.  A
      refused [open] ends the script with the files of the earlier sensors
      complete, the refused file untouched and no file object open.  A
      run of the file that starts with no open file never holds a file
      object other than that of its own output file, which exists
      ([script_well_formed] of [Module.v], from the frame of [Safety.v]
      and [wf_world] of [Invariant.v]).
    - The file ([Module.v]): the first module that cannot be found stops
      the script at its import, before anything is printed or the
      simulator is contacted; imported, the file runs nothing; run as a
      script with every module found, it is the main block.
    - The program without a bound ([Run.v]): [execute] ends with a result
      exactly when some bound gives this result without being used up
      inside the loop ([execute_ends_iff]); the ends are unique; in a
      healthy environment there is none; "Done!" is printed only by a run
      that CTRL+C stopped inside the loop and whose handler ran to its end.
    - CTRL+C ([Interrupt.v]): pressed at any tick after the [try] was
      entered, in an otherwise healthy run, it ends the loop at that tick
      and [execute] returns after the handler, whatever the number of
      rounds before; pressed during the opening prints or the reading of
      the clock it is not caught.
    - The file read back ([FileReader.v]): line [i] of the file of a
      completed scan is the record of the point that the loop body
      computes for slice [i] of the point cloud, stamped with the clock
      of iteration [i], and the file has one line per slice
      ([scan_file_lookup]); after any number of rounds without
      interrupts and failures the lines of the file of a sensor are the
      lines of a list of records of this sensor ([is_record]), in the
      order of the rounds, and reading the file gives the numbers that
      were printed for them, with the millisecond count of line 110 as
      time stamp ([execute_file_readable]); a record torn by the buffer
      is not read.
    - The records ([FloatModel.v], [Decimal.v], [Reader.v]): what [%f]
      prints for a finite float is the sign, the integer part and six
      digits of its value in millionths rounded to nearest, ties to even,
      and the reader of the fixed format recovers the sign and this
      number from the text ([fmt_f_reads_nearest]); a line of the file
      splits into
      exactly the nine fields that were printed, and reading it fails only
      when a number is a NaN or an infinity.
    - The time stamp ([IntFloat.v]): every integer that [round] returns
      is a float, [float(n)] of such an integer is the integer itself, so
      the sixth field of a record is always the millisecond count in
      decimal followed by [.000000]; beyond 53 bits other integers are
      rounded (2^53 + 1 prints as 9007199254740992.000000).
    - Settings ([Settings.v]): lookups in a document without duplicate
      keys are unambiguous and keep it so; [lidars_of] lists exactly the
      members that read as lidar sensors; the sensors the main block polls
      are enabled lidar sensors of the sample in "SensorLocalFrame".

    ** Bounds and fuel

    [forever n] and [polling_loop n] run [n] rounds of [while True]; a
    result [Ok tt] therefore means "still looping after n rounds", never
    normal termination, and an exception found with [n] rounds is found
    with any larger number ([forever_raise_mono]).  The theorems about the
    loop hold for every [n].  That the bound hides nothing is a theorem:
    [exits] and [execute_ends] have no bound, every exit of theirs is
    found by all large enough [n] ([exits_forever], [execute_ends_stable])
    and every result of a bound that is not "still looping" is one of
    theirs ([forever_exits], [execute_ends_or_looping]).  The liveness
    theorem of [Interrupt.v] needs [t + 1] rounds to be sure to pass tick
    [t], since every round takes at least one tick.  [py_range] carries
    the fuel [stop - start], which is enough for any step of at least 1:
    more fuel gives the same list ([range_from_fuel_irrel]), and the list
    is the whole range ([py_range_elements]).  The search of [Repr.v]
    tries the last places
    from [k_top], which is above every decimal of the interval, down to
    [k_bottom], at which the float is a decimal itself; its fuel is the
    number of places between the two, and it always finds digits
    ([shortest_reads_back]).  No other definition needs fuel.

    ** Not modelled

    The msgpack-rpc transport of the AirSim client and the simulator itself
    are outside the program logic; the client's replies are inputs of the
    model.  The sample settings are modelled as a document; that the
    simulator reads them, the defaults it supplies for missing fields and
    the way it turns the offsets and Euler angles of a sensor into the pose
    of a reply are not.  What an import executes is not modelled, only
    whether the module is found; an [ImportError] for a name that a
    module lacks is not modelled.  The reply types of the [airsim]
    package ([LidarData], [MultirotorState], [Pose], ...) are records
    with the fields the script reads and no others.  [confirmConnection]
    stands for the two calls of lines 63-64 and prints nothing, although
    the real call prints a connection message; [wait_key] prints its
    message and returns, the wait for the key press is not modelled.  An
    interrupt arrives only at a primitive, not between two bytecodes of
    the arithmetic.  [write] and [close] never fail in the
    model.  When the runtime flushes the buffer of the file object is an
    oracle; the flush of a file object that is still open when the
    interpreter exits happens after the script and is left out.  The
    binary64 product of [np.matmul] is summed from left
    to right without fused multiply-add; a BLAS that sums otherwise can
    differ in the last bit.  The C library's [acos] is a parameter of the
    binary64 model ([Platform]); [time.time] and keyboard interrupts are
    given by the oracle, one reading per tick.

    ** Assumptions

    The theorems about concrete floats are evaluated by the kernel.  The
    theorems that hold for all floats ([IntFloat.v], [Binary64.v],
    [DoubleCover.v], [FileReader.v]) use the axioms of the Standard
    Library that state that the primitive floats follow the specification
    of binary64 in [SpecFloat] ([Prim2SF_valid], [mul_spec], [add_spec]
    and the like); the theorems over the reals use the axioms of the
    real numbers of the Standard Library.  The development declares no
    axiom of its own.

    ** This file

    Shared vocabulary: exceptions, [result], [prog], loop combinators, their
    equations as rewrite hints in the database [py], the relation [steps]
    that carries frame properties through programs, and the tactics used
    across the development. *)

From stdpp Require Import base option list strings.
From Stdlib Require Import ZArith Lia.

(** ** Exceptions *)

(** The reasons for which the script can raise [ValueError]. *)
Inductive value_error : Type :=
| MathDomain      (* math.sqrt / math.acos outside their domain *)
| ShapeMismatch   (* np.matmul of a 3x3 matrix with a vector of another length *)
| ZeroNormQuat    (* Rotation.from_quat on a quaternion of zero (or NaN) norm *)
| NanToInt        (* round() of a NaN *)
| ClosedFile.     (* write() on a closed file *)

(** The exceptions of the script. *)
Inductive exn : Type :=
| ValueError (why : value_error)
| OverflowError          (* round() of an infinity *)
| KeyboardInterrupt      (* CTRL+C *)
| RpcError               (* any exception raised by the simulator client *)
| OSError                (* open() refused by the file system *)
| ModuleNotFoundError (name : string).   (* import of a missing module *)

#[export] Instance value_error_eq_dec : EqDecision value_error.
Proof. solve_decision. Defined.

#[export] Instance exn_eq_dec : EqDecision exn.
Proof. solve_decision. Defined.

(** ** Results: a value or a raised exception *)

Inductive result (A : Type) : Type :=
| Ok (a : A)
| Raise (e : exn).
Arguments Ok {A} a.
Arguments Raise {A} e.

#[export] Instance result_ret : MRet result := λ A, Ok.

#[export] Instance result_bind : MBind result := λ A B f m,
  match m with Ok a => f a | Raise e => Raise e end.

#[export] Instance result_fmap : FMap result := λ A B f m,
  match m with Ok a => Ok (f a) | Raise e => Raise e end.

Definition is_ok {A} (r : result A) : bool :=
  match r with Ok _ => true | Raise _ => false end.

Definition raises {A} (r : result A) (e : exn) : Prop := r = Raise e.

(** ** Programs: state passing with exceptions.

    A program takes the state of the world and gives a result and the new
    state.  The state survives a raised exception: what was written before
    the exception stays written. *)

Definition prog (S A : Type) : Type := S → result A * S.

#[export] Instance prog_ret {S} : MRet (prog S) := λ A a s, (Ok a, s).

#[export] Instance prog_bind {S} : MBind (prog S) := λ A B f m s,
  match m s with
  | (Ok a, s') => f a s'
  | (Raise e, s') => (Raise e, s')
  end.

Definition get {S} : prog S S := λ s, (Ok s, s).
Definition put {S} (s : S) : prog S unit := λ _, (Ok tt, s).
Definition modify {S} (f : S → S) : prog S unit := λ s, (Ok tt, f s).
Definition throw {S A} (e : exn) : prog S A := λ s, (Raise e, s).

(** A pure computation that may raise, run inside a program. *)
Definition lift {S A} (r : result A) : prog S A := λ s, (r, s).

(** [for x in l: body x]. *)
Fixpoint for_each {S A} (l : list A) (body : A → prog S unit) : prog S unit :=
  match l with
  | [] => mret tt
  | x :: l' => _ ← body x; for_each l' body
  end.

(** [while True: body], cut after [n] rounds.  [Ok tt] means the loop is
    still running; an exception is the only way out of the real loop. *)
Fixpoint forever {S} (n : nat) (body : prog S unit) : prog S unit :=
  match n with
  | O => mret tt
  | S n' => _ ← body; forever n' body
  end.

(** [try: m  except E: handler], where [catches e] says whether [e] is an
    instance of [E]. *)
Definition try_except {S A} (catches : exn → bool)
    (m : prog S A) (handler : prog S A) : prog S A := λ s,
  match m s with
  | (Ok a, s') => (Ok a, s')
  | (Raise e, s') => if catches e then handler s' else (Raise e, s')
  end.

Definition is_KeyboardInterrupt (e : exn) : bool :=
  match e with KeyboardInterrupt => true | _ => false end.

(** ** Tactics *)

(** Case analysis on the scrutinee of the first [match] of the goal. *)
Ltac case_scrut :=
  match goal with
  | |- context [match ?x with _ => _ end] => destruct x eqn:?
  end.

(** Unfold the monad operations of [result] and [prog]. *)
Ltac unfold_monad :=
  unfold mbind, mret, fmap, result_bind, result_ret, result_fmap,
    prog_bind, prog_ret, get, put, modify, throw, lift in *.

(** ** Equations of the monads *)

Create HintDb py discriminated.
Create Rewrite HintDb py.

Section result_laws.
Context {A B : Type}.
Implicit Types (m : result A) (f : A → result B).

Lemma bind_Ok a f : Ok a ≫= f = f a.
Proof. reflexivity. Qed.

Lemma bind_Raise e f : Raise e ≫= f = Raise e.
Proof. reflexivity. Qed.

Lemma bind_Ok_inv m f b :
  m ≫= f = Ok b ↔ ∃ a, m = Ok a ∧ f a = Ok b.
Proof.
  destruct m as [a|e]; simpl; split.
  - eauto.
  - intros (a' & [= ->] & ?); done.
  - discriminate.
  - intros (? & [=] & _).
Qed.

Lemma bind_Raise_inv m f e :
  m ≫= f = Raise e ↔ m = Raise e ∨ ∃ a, m = Ok a ∧ f a = Raise e.
Proof.
  destruct m as [a|e']; simpl; split.
  - eauto.
  - intros [[=]|(a' & [= ->] & ?)]; done.
  - intros [= ->]; auto.
  - intros [[= ->]|(? & [=] & _)]; done.
Qed.

Lemma fmap_Ok (g : A → B) a : g <$> Ok a = Ok (g a).
Proof. reflexivity. Qed.

Lemma is_ok_Ok m : is_ok m = true ↔ ∃ a, m = Ok a.
Proof. destruct m; simpl; split; eauto; (discriminate || intros [? [=]]). Qed.

End result_laws.

#[export] Hint Rewrite @bind_Ok @bind_Raise @fmap_Ok : py.

Section prog_laws.
Context {S A B : Type}.
Implicit Types (m : prog S A) (f : A → prog S B) (s : S).

Lemma run_ret (a : A) s : (mret a : prog S A) s = (Ok a, s).
Proof. reflexivity. Qed.

Lemma run_bind m f s :
  (m ≫= f) s =
  match m s with (Ok a, s') => f a s' | (Raise e, s') => (Raise e, s') end.
Proof. reflexivity. Qed.

Lemma run_bind_Ok m f s a s' : m s = (Ok a, s') → (m ≫= f) s = f a s'.
Proof. intros H. rewrite run_bind, H. reflexivity. Qed.

Lemma run_bind_Raise m f s e s' :
  m s = (Raise e, s') → (m ≫= f) s = (Raise e, s').
Proof. intros H. rewrite run_bind, H. reflexivity. Qed.

(** A sequence ends where its first part raised, or where the second part
    ended after the first returned. *)
Lemma run_bind_inv m f s r s' :
  (m ≫= f) s = (r, s') →
  (∃ e, m s = (Raise e, s') ∧ r = Raise e)
  ∨ (∃ a s1, m s = (Ok a, s1) ∧ f a s1 = (r, s')).
Proof.
  rewrite run_bind. destruct (m s) as [[a|e] s1]; [by eauto|].
  intros [= <- <-]. eauto.
Qed.

Lemma run_lift (r : result A) s : lift r s = (r, s).
Proof. reflexivity. Qed.

Lemma run_throw e s : (throw e : prog S A) s = (Raise e, s).
Proof. reflexivity. Qed.

End prog_laws.

#[export] Hint Rewrite @run_ret @run_lift @run_throw : py.

(** ** Loops *)

Section loops.
Context {S A : Type}.
Implicit Types (l : list A) (body : A → prog S unit) (s : S).

Lemma for_each_nil body s : for_each [] body s = (Ok tt, s).
Proof. reflexivity. Qed.

Lemma for_each_cons x l body s :
  for_each (x :: l) body s =
  match body x s with
  | (Ok _, s') => for_each l body s'
  | (Raise e, s') => (Raise e, s')
  end.
Proof. reflexivity. Qed.

(** A [for] over a concatenation runs the first loop, then the second. *)
Lemma for_each_app l1 l2 body s :
  for_each (l1 ++ l2) body s =
  match for_each l1 body s with
  | (Ok _, s') => for_each l2 body s'
  | (Raise e, s') => (Raise e, s')
  end.
Proof.
  revert s; induction l1 as [|x l1 IH]; intros s; [reflexivity|].
  rewrite <- app_comm_cons, !for_each_cons.
  destruct (body x s) as [[[]|e] s']; [apply IH|reflexivity].
Qed.

(** A loop whose bodies all succeed is the fold of their state changes. *)
Lemma for_each_ok l body (step : A → S → S) s :
  (∀ x s0, x ∈ l → body x s0 = (Ok tt, step x s0)) →
  for_each l body s = (Ok tt, foldl (λ s0 x, step x s0) s l).
Proof.
  revert s; induction l as [|x l IH]; intros s Hb; [reflexivity|].
  rewrite for_each_cons, Hb by left. simpl.
  apply IH. intros y s0 Hy. apply Hb. by right.
Qed.

(** The first failing body stops the loop, with the state it left. *)
Lemma for_each_raise l1 x l2 body (step : A → S → S) s e s' :
  (∀ y s0, y ∈ l1 → body y s0 = (Ok tt, step y s0)) →
  body x (foldl (λ s0 y, step y s0) s l1) = (Raise e, s') →
  for_each (l1 ++ x :: l2) body s = (Raise e, s').
Proof.
  intros Hb Hx. rewrite for_each_app, (for_each_ok l1 body step) by done.
  rewrite for_each_cons, Hx. reflexivity.
Qed.

End loops.

Section forever_laws.
Context {S : Type}.
Implicit Types (body : prog S unit) (s : S).

Lemma forever_0 body s : forever 0 body s = (Ok tt, s).
Proof. reflexivity. Qed.

Lemma forever_S n body s :
  forever (Datatypes.S n) body s =
  match body s with
  | (Ok _, s') => forever n body s'
  | (Raise e, s') => (Raise e, s')
  end.
Proof. reflexivity. Qed.

(** [n + m] rounds are [n] rounds followed by [m] rounds. *)
Lemma forever_add n m body s :
  forever (n + m) body s =
  match forever n body s with
  | (Ok _, s') => forever m body s'
  | (Raise e, s') => (Raise e, s')
  end.
Proof.
  revert s; induction n as [|n IH]; intros s; [reflexivity|].
  simpl plus. rewrite !forever_S.
  destruct (body s) as [[[]|e] s']; [apply IH|reflexivity].
Qed.

(** Once the loop has left by an exception, more fuel changes nothing. *)
Lemma forever_raise_mono n m body s e s' :
  n ≤ m → forever n body s = (Raise e, s') → forever m body s = (Raise e, s').
Proof.
  intros Hle H. replace m with (n + (m - n)) by lia.
  rewrite forever_add, H. reflexivity.
Qed.

(** A body that always succeeds keeps the loop running for ever. *)
Lemma forever_ok n body (step : S → S) s :
  (∀ s0, body s0 = (Ok tt, step s0)) →
  forever n body s = (Ok tt, Nat.iter n step s).
Proof.
  intros Hb. revert s; induction n as [|n IH]; intros s; [reflexivity|].
  rewrite forever_S, Hb, IH. f_equal. symmetry. apply Nat.iter_succ_r.
Qed.

End forever_laws.

Section try_laws.
Context {S A : Type}.
Implicit Types (m handler : prog S A) (s : S).

Lemma try_except_Ok catches m handler s a s' :
  m s = (Ok a, s') → try_except catches m handler s = (Ok a, s').
Proof. unfold try_except. by intros ->. Qed.

Lemma try_except_caught catches m handler s e s' :
  m s = (Raise e, s') → catches e = true →
  try_except catches m handler s = handler s'.
Proof. unfold try_except. by intros -> ->. Qed.

Lemma try_except_uncaught catches m handler s e s' :
  m s = (Raise e, s') → catches e = false →
  try_except catches m handler s = (Raise e, s').
Proof. unfold try_except. by intros -> ->. Qed.

End try_laws.

(** ** State relations kept by every run

    [steps R m]: whatever [m] returns or raises, the state it leaves is
    related by [R] to the state it started from.  For a preorder [R] the
    property is closed under the constructs of the language, so a frame
    property of the primitives extends to whole programs, on every path,
    exceptions included. *)

Definition steps {S A} (R : relation S) (m : prog S A) : Prop :=
  ∀ s r s', m s = (r, s') → R s s'.

Section steps_laws.
Context {S : Type} (R : relation S) `{!PreOrder R}.

Lemma steps_ret {A} (a : A) : steps R (mret a).
Proof. intros s r s' [= _ <-]. reflexivity. Qed.

Lemma steps_lift {A} (x : result A) : steps R (lift x).
Proof. intros s r s' [= _ <-]. reflexivity. Qed.

Lemma steps_bind {A B} (m : prog S A) (f : A → prog S B) :
  steps R m → (∀ a, steps R (f a)) → steps R (m ≫= f).
Proof.
  intros Hm Hf s r s'. rewrite run_bind.
  destruct (m s) as [[a|e] s1] eqn:Hms.
  - intros Hfa. transitivity s1; [by eapply Hm|by eapply Hf].
  - intros [= _ <-]. by eapply Hm.
Qed.

Lemma steps_for_each {A} (l : list A) (body : A → prog S unit) :
  (∀ x, x ∈ l → steps R (body x)) → steps R (for_each l body).
Proof.
  induction l as [|x l IH]; intros Hb; [apply steps_ret|].
  apply steps_bind; [apply Hb; left|intros _; apply IH].
  intros y Hy. apply Hb. by right.
Qed.

Lemma steps_forever n (body : prog S unit) :
  steps R body → steps R (forever n body).
Proof.
  intros Hb. induction n as [|n IH]; [apply steps_ret|].
  by apply steps_bind.
Qed.

Lemma steps_try_except {A} catches (m handler : prog S A) :
  steps R m → steps R handler → steps R (try_except catches m handler).
Proof.
  intros Hm Hh s r s'. unfold try_except.
  destruct (m s) as [[a|e] s1] eqn:Hms.
  - intros [= _ <-]. by eapply Hm.
  - destruct (catches e).
    + intros Hhs. transitivity s1; [by eapply Hm|by eapply Hh].
    + intros [= _ <-]. by eapply Hm.
Qed.

End steps_laws.

#[export] Hint Resolve steps_ret steps_lift steps_bind steps_for_each
  steps_forever steps_try_except : py.

(** Apply the closure lemma that fits the head of the program; the
    preorder is found by instance search. *)
Ltac steps_rule :=
  lazymatch goal with
  | |- steps _ (mret _) => apply steps_ret; apply _
  | |- steps _ (lift _) => apply steps_lift; apply _
  | |- steps _ (_ ≫= _) => apply steps_bind; [apply _| |intros ?]
  | |- steps _ (for_each _ _) => apply steps_for_each; [apply _|intros ? ?]
  | |- steps _ (forever _ _) => apply steps_forever; [apply _|]
  | |- steps _ (try_except _ _ _) => apply steps_try_except; [apply _| |]
  end.

(** ** Lists *)

Section list_facts.
Context {A : Type}.
Implicit Types (l : list A).

Lemma take_drop_length_lt l i n :
  i < length l → 0 < n → take n (drop i l) ≠ [].
Proof.
  intros Hi Hn Hnil. apply (f_equal length) in Hnil.
  rewrite length_take, length_drop in Hnil. simpl in Hnil. lia.
Qed.

Lemma length_take_drop l i n :
  length (take n (drop i l)) = n `min` (length l - i).
Proof. by rewrite length_take, length_drop. Qed.

End list_facts.
