(* ===== verification/Loop.v ===== *)
(** * Loop: [while True] without a bound

    [forever n] cuts the loop of line 73 after [n] rounds.  Here the loop
    is given without a bound, as the inductive relation [exits]: the runs
    of the loop that are left by an exception.  The loop has no other way
    out, so a run that does not exit diverges.  The theorems relate the
    two presentations: an exception found with some budget is an exit, an
    exit is found with every large enough budget, and the loop diverges
    exactly when no budget finds an exception. *)

From stdpp Require Import base tactics.
From Stdlib Require Import Lia.
From S2P Require Import Prelude.

Section while_true.
Context {S : Type} (body : prog S unit).

(** [exits s e s']: the loop entered in state [s] is left by the exception
    [e] in state [s']. *)
Inductive exits : S → exn → S → Prop :=
| exits_now s e s' :
    body s = (Raise e, s') → exits s e s'
| exits_later s s1 e s' :
    body s = (Ok tt, s1) → exits s1 e s' → exits s e s'.

(** The loop entered in [s] runs for ever. *)
Definition diverges (s : S) : Prop :=
  ∀ n, ∃ s', forever n body s = (Ok tt, s').

(** The number of rounds after which an exit has happened. *)
Lemma exits_forever s e s' :
  exits s e s' → ∃ n, forever n body s = (Raise e, s').
Proof.
  induction 1 as [s e s' Hb|s s1 e s' Hb _ [n IH]].
  - exists 1%nat. by rewrite forever_S, Hb.
  - exists (Datatypes.S n). by rewrite forever_S, Hb.
Qed.

Lemma forever_exits n s e s' :
  forever n body s = (Raise e, s') → exits s e s'.
Proof.
  revert s. induction n as [|n IH]; intros s; [by rewrite forever_0|].
  rewrite forever_S. destruct (body s) as [[[]|e1] s1] eqn:Hb.
  - intros Hn. eapply exits_later; eauto.
  - intros [= <- <-]. by apply exits_now.
Qed.

(** The loop is deterministic: it has at most one exit. *)
Lemma exits_det s e1 s1 e2 s2 :
  exits s e1 s1 → exits s e2 s2 → e1 = e2 ∧ s1 = s2.
Proof.
  intros [n1 H1]%exits_forever [n2 H2]%exits_forever.
  apply (forever_raise_mono _ (Nat.max n1 n2)) in H1; [|lia].
  apply (forever_raise_mono _ (Nat.max n1 n2)) in H2; [|lia].
  rewrite H1 in H2. by injection H2.
Qed.

(** Every budget ends in one of two ways. *)
Lemma forever_cases n s :
  (∃ s', forever n body s = (Ok tt, s'))
  ∨ (∃ e s', forever n body s = (Raise e, s')).
Proof. destruct (forever n body s) as [[[]|e] s']; eauto. Qed.

Lemma diverges_no_exit s : diverges s ↔ ¬ ∃ e s', exits s e s'.
Proof.
  split.
  - intros Hd (e & s' & [n Hn]%exits_forever).
    destruct (Hd n) as [s'' Hok]. by rewrite Hok in Hn.
  - intros Hno n. destruct (forever_cases n s) as [?|(e & s' & Hn)]; [done|].
    destruct Hno. exists e, s'. by eapply forever_exits.
Qed.

End while_true.
