(* ===== verification/Scalar.v ===== *)
(** * Scalar: the number interface of the script

    Every number the script computes with is a Python [float] (or a NumPy
    [float64]); the integer literals [1], [2] and [1000] are converted to
    floats by the arithmetic operators.  [Scalar T] lists the operations
    the script applies to such numbers, so that the transformer is written
    once and interpreted over the real numbers ([RealModel.v]) and over
    IEEE binary64 ([FloatModel.v]).

    [math_sqrt] and [math_acos] are the functions of Python's [math] module,
    which raise [ValueError] outside their domain; [c_sqrt] and [sdiv] are
    the C operations used inside SciPy's normalisation, which never raise. *)

From stdpp Require Import base strings.
From Stdlib Require Import ZArith.
From S2P Require Import Prelude.

Class Scalar (T : Type) : Type := {
  (** conversion of an integer literal *)
  of_int : Z → T;
  (** [x + y], [x - y], [x * y], [-x] *)
  sadd : T → T → T;
  ssub : T → T → T;
  smul : T → T → T;
  sneg : T → T;
  (** [x ** 2] *)
  spow2 : T → T;
  (** C division and square root (no exception) *)
  sdiv : T → T → T;
  c_sqrt : T → T;
  (** [math.sqrt(x)], [math.acos(x)] *)
  math_sqrt : T → result T;
  math_acos : T → result T;
  (** [x == y] and [isnan(x)] *)
  seqb : T → T → bool;
  sisnan : T → bool;
}.

Declare Scope sc_scope.
Delimit Scope sc_scope with sc.

Notation "x + y" := (sadd x y) : sc_scope.
Notation "x - y" := (ssub x y) : sc_scope.
Notation "x * y" := (smul x y) : sc_scope.
Notation "x / y" := (sdiv x y) : sc_scope.
Notation "- x" := (sneg x) : sc_scope.
Notation "x '**2'" := (spow2 x) (at level 1, format "x '**2'") : sc_scope.
Notation "0" := (of_int 0) : sc_scope.
Notation "1" := (of_int 1) : sc_scope.
Notation "2" := (of_int 2) : sc_scope.
Notation "1000" := (of_int 1000) : sc_scope.

(** Number formatting and conversion to integers, as the record writer and
    the time stamp need them. *)
Class Format (T : Type) : Type := {
  (** ["%f" % x] *)
  fmt_f : T → string;
  (** [str(x)], as an f-string interpolates a float *)
  py_str : T → string;
  (** [round(x)] with one argument: the nearest integer, ties to even *)
  py_round : T → result Z;
}.
