(* ===== verification/PyList.v ===== *)
(** * PyList: [range] with a stride and list slices

    The point loop of [execute] is
    [for i in range(0, len(point_cloud), 3): xyz = point_cloud[i:i+3]].
    [py_range] and [py_slice] model the two Python operations on natural
    numbers, [strides] is the list of slices the loop visits, and [chunks3]
    is the structural definition it is proved equal to.  [py_range] is
    proved to return the arithmetic progression from [start] below
    [stop]. *)

From stdpp Require Import base list.
From Stdlib Require Import ZArith Lia.
From S2P Require Import Prelude.

(** [range(start, stop, step)] for a positive step: [start], [start+step],
    ... while below [stop].  The fuel bounds the number of elements. *)
Fixpoint range_from (fuel start stop step : nat) : list nat :=
  match fuel with
  | O => []
  | S fuel' =>
      if decide (start < stop)
      then start :: range_from fuel' (start + step) stop step
      else []
  end.

Definition py_range (start stop step : nat) : list nat :=
  range_from (stop - start) start stop step.

(** [l[i:j]] for [0 <= i <= j]: indices past the end are clipped. *)
Definition py_slice {A} (l : list A) (i j : nat) : list A :=
  take (j - i) (drop i l).

(** The slices [point_cloud[i:i+3]] in the order the loop visits them. *)
Definition strides {A} (l : list A) : list (list A) :=
  (λ i, py_slice l i (i + 3)) <$> py_range 0 (length l) 3.

(** Reference: cut a list into triples, a shorter rest last. *)
Fixpoint chunks3 {A} (l : list A) : list (list A) :=
  match l with
  | [] => []
  | x :: y :: z :: rest => [x; y; z] :: chunks3 rest
  | short => [short]
  end.

(** The flat point cloud of a list of points. *)
Fixpoint flatten3 {A} (ps : list (A * A * A)) : list A :=
  match ps with
  | [] => []
  | (x, y, z) :: ps' => x :: y :: z :: flatten3 ps'
  end.

(** ** [range] *)

Lemma range_from_ge fuel start stop step :
  stop ≤ start → range_from fuel start stop step = [].
Proof. destruct fuel; simpl; [done|]. case_decide; [lia|done]. Qed.

(** Any two amounts of fuel of at least [stop - start] give the same list
    when the step is positive. *)
Lemma range_from_fuel_irrel f1 f2 start stop step :
  0 < step → stop - start ≤ f1 → stop - start ≤ f2 →
  range_from f1 start stop step = range_from f2 start stop step.
Proof.
  intros Hstep. revert f2 start.
  induction f1 as [|f1 IH]; intros f2 start H1 H2.
  - by rewrite !range_from_ge by lia.
  - destruct f2 as [|f2]; [by rewrite !range_from_ge by lia|].
    simpl. case_decide; [|done]. f_equal. apply IH; lia.
Qed.

Lemma py_range_unfold start stop step :
  0 < step →
  py_range start stop step =
  if decide (start < stop) then start :: py_range (start + step) stop step
  else [].
Proof.
  intros Hstep. unfold py_range at 1.
  destruct (stop - start) as [|d] eqn:Hd; simpl.
  - by rewrite decide_False by lia.
  - case_decide; [|done]. f_equal. apply range_from_fuel_irrel; lia.
Qed.

(** The number of elements of a range that is not empty. *)
Lemma range_count_succ start stop step :
  0 < step → start < stop →
  (stop - start + (step - 1)) / step
  = S ((stop - (start + step) + (step - 1)) / step).
Proof.
  intros Hstep Hlt. destruct (decide (stop - start < step)).
  - replace (stop - (start + step)) with 0 by lia.
    rewrite (Nat.div_small (0 + _)) by lia.
    symmetry. apply (Nat.div_unique _ _ _ (stop - start - 1)); lia.
  - replace (stop - start + (step - 1))
      with (stop - (start + step) + (step - 1) + 1 * step) by lia.
    rewrite Nat.div_add by lia. lia.
Qed.

(** The elements of a range: [start + k * step] for [k] below the count. *)
Lemma py_range_mul n :
  py_range 0 n 3 = (λ k, 3 * k) <$> seq 0 ((n + 2) / 3).
Proof.
  enough (H : ∀ m k, n ≤ 3 * k + m →
    py_range (3 * k) n 3 = (λ j, 3 * j) <$> seq k ((n + 2) / 3 - k)).
  { specialize (H n 0). rewrite Nat.sub_0_r in H. apply H. lia. }
  induction m as [m IH] using lt_wf_ind. intros k Hm.
  rewrite py_range_unfold by lia. case_decide as Hlt.
  - assert (k < (n + 2) / 3) by (apply Nat.div_le_lower_bound; lia).
    replace ((n + 2) / 3 - k) with (S ((n + 2) / 3 - S k)) by lia.
    simpl. f_equal. replace (k + (k + (k + 0)) + 3) with (3 * S k) by lia.
    apply (IH (m - 3)); lia.
  - assert ((n + 2) / 3 < S k) by (apply Nat.Div0.div_lt_upper_bound; lia).
    by replace ((n + 2) / 3 - k) with 0 by lia.
Qed.

Lemma length_py_range n : length (py_range 0 n 3) = (n + 2) / 3.
Proof. by rewrite py_range_mul, length_fmap, length_seq. Qed.

(** ** Slices and strides *)

Section slices.
Context {A : Type}.
Implicit Types (l : list A).

Lemma py_slice_0 l n : py_slice l 0 n = take n l.
Proof. unfold py_slice. by rewrite Nat.sub_0_r. Qed.

Lemma py_slice_stride l i : py_slice l i (i + 3) = take 3 (drop i l).
Proof. unfold py_slice. f_equal. lia. Qed.

Lemma strides_unfold l :
  strides l =
  match l with
  | [] => []
  | _ => take 3 l :: strides (drop 3 l)
  end.
Proof.
  unfold strides. rewrite !py_range_mul, <- !list_fmap_compose.
  destruct l as [|x l]; [done|].
  assert (Hn : (length (x :: l) + 2) / 3 =
               S ((length (drop 3 (x :: l)) + 2) / 3)).
  { rewrite length_drop. simpl length.
    destruct (decide (length l < 2)).
    - replace (S (length l) - 3) with 0 by lia.
      destruct l as [|? [|? ?]]; simpl in *; try lia; done.
    - replace (S (length l) + 2) with ((S (length l) - 3 + 2) + 1 * 3) by lia.
      rewrite Nat.div_add by lia. lia. }
  rewrite Hn. cbn [seq fmap list_fmap]. f_equal.
  rewrite <- seq_shift, <- list_fmap_compose.
  apply list_fmap_ext. intros _ k _. unfold compose.
  rewrite !py_slice_stride, drop_drop. do 2 f_equal. lia.
Qed.

(** The stride loop visits exactly the chunks of the reference definition. *)
Lemma strides_chunks3 l : strides l = chunks3 l.
Proof.
  induction l as [l IH] using (induction_ltof1 _ length); unfold ltof in IH.
  rewrite strides_unfold.
  destruct l as [|x [|y [|z l]]]; [done| | |];
    cbn [take drop chunks3 firstn skipn].
  - by rewrite strides_unfold.
  - by rewrite strides_unfold.
  - f_equal. apply IH. simpl. lia.
Qed.

Lemma concat_chunks3 l : concat (chunks3 l) = l.
Proof.
  induction l as [l IH] using (induction_ltof1 _ length); unfold ltof in IH.
  destruct l as [|x [|y [|z l]]]; try done.
  simpl. do 3 f_equal. apply IH. simpl. lia.
Qed.

Lemma length_strides l : length (strides l) = (length l + 2) / 3.
Proof. unfold strides. by rewrite length_fmap, length_py_range. Qed.

Lemma chunks3_app_triple x y z l :
  chunks3 (x :: y :: z :: l) = [x; y; z] :: chunks3 l.
Proof. reflexivity. Qed.

(** Every chunk is non-empty and has at most three elements. *)
Lemma chunks3_length_bound l :
  Forall (λ c, 1 ≤ length c ≤ 3) (chunks3 l).
Proof.
  induction l as [l IH] using (induction_ltof1 _ length); unfold ltof in IH.
  destruct l as [|x [|y [|z l]]]; simpl; repeat constructor; simpl; try lia.
  apply IH. simpl. lia.
Qed.

(** All chunks are triples exactly when the length is a multiple of 3. *)
Lemma chunks3_all_triples l :
  Forall (λ c, length c = 3) (chunks3 l) ↔ length l `mod` 3 = 0.
Proof.
  induction l as [l IH] using (induction_ltof1 _ length); unfold ltof in IH.
  destruct l as [|x [|y [|z l]]]; simpl chunks3.
  - split; [done|constructor].
  - split; [intros [[=] _]%Forall_cons|discriminate].
  - split; [intros [[=] _]%Forall_cons|discriminate].
  - rewrite Forall_cons, IH by (simpl; lia).
    replace (length (x :: y :: z :: l)) with (length l + 1 * 3) by (simpl; lia).
    rewrite Nat.Div0.mod_add. split; [by intros [_ ?]|done].
Qed.

(** The chunks before the first short one are triples: a point cloud of
    [3 * k + r] numbers with [0 < r < 3] gives [k] triples and a rest. *)
Lemma chunks3_split l :
  ∃ ts rest, chunks3 l = ts ++ rest
    ∧ Forall (λ c, length c = 3) ts
    ∧ length ts = length l / 3
    ∧ (length l `mod` 3 = 0 → rest = [])
    ∧ (length l `mod` 3 ≠ 0 →
         ∃ short, rest = [short] ∧ length short = length l `mod` 3).
Proof.
  induction l as [l IH] using (induction_ltof1 _ length); unfold ltof in IH.
  destruct l as [|x [|y [|z l]]].
  - exists [], []. simpl. repeat split; done.
  - exists [], [[x]]. simpl. repeat split; eauto; discriminate.
  - exists [], [[x; y]]. simpl. repeat split; eauto; discriminate.
  - destruct (IH l) as (ts & rest & Heq & Hts & Hlen & H0 & H1); [simpl; lia|].
    exists ([x; y; z] :: ts), rest.
    replace (length (x :: y :: z :: l)) with (length l + 1 * 3) by (simpl; lia).
    rewrite Nat.Div0.mod_add, Nat.div_add by lia.
    simpl chunks3. rewrite Heq. repeat split; auto.
    rewrite length_cons. lia.
Qed.

End slices.

(** A flat list of points is cut back into the points, in order. *)
Lemma chunks3_flatten3 {A} (ps : list (A * A * A)) :
  chunks3 (flatten3 ps) = (λ '(x, y, z), [x; y; z]) <$> ps.
Proof.
  induction ps as [|[[x y] z] ps IH]; [done|].
  simpl. by rewrite IH.
Qed.

Lemma length_flatten3 {A} (ps : list (A * A * A)) :
  length (flatten3 ps) = 3 * length ps.
Proof.
  induction ps as [|[[x y] z] ps IH]; [done|].
  simpl in *. lia.
Qed.

(** ** The point loop of the script *)

(** C13: the loop [for i in range(0, len(l), 3): l[i:i+3]] visits exactly
    the chunks of the structural definition: the triples of the list in
    order, and a shorter last slice when the length is not a multiple of
    3. *)
Theorem stride_loop_visits_chunks {A} (l : list A) :
  (λ i, py_slice l i (i + 3)) <$> py_range 0 (length l) 3 = chunks3 l.
Proof. apply strides_chunks3. Qed.

(** Every slice the loop visits is a whole point exactly when the
    length of the point cloud is a multiple of 3. *)
Theorem strides_triples_iff {A} (l : list A) :
  Forall (λ c, length c = 3) (strides l) ↔ length l `mod` 3 = 0.
Proof. rewrite strides_chunks3. apply chunks3_all_triples. Qed.

(** The slices partition the point cloud: they are ceil(n/3) many,
    none is empty or longer than 3, and put end to end they are the point
    cloud: the loop skips nothing and reads nothing twice. *)
Theorem strides_partition {A} (l : list A) :
  concat (strides l) = l
  ∧ length (strides l) = (length l + 2) / 3
  ∧ Forall (λ c, 1 ≤ length c ≤ 3) (strides l).
Proof.
  split_and!; [|apply length_strides|].
  - rewrite strides_chunks3. apply concat_chunks3.
  - rewrite strides_chunks3. apply chunks3_length_bound.
Qed.

(** C38: the list [range(start, stop, step)] returns for a positive step:
    the numbers [start + k * step], in increasing order, for every [k]
    below ceil((stop - start) / step), and no others. *)
Theorem py_range_elements start stop step :
  0 < step →
  py_range start stop step
  = (λ k, start + k * step) <$> seq 0 ((stop - start + (step - 1)) / step).
Proof.
  intros Hstep. remember (stop - start) as d eqn:Hd. revert start Hd.
  induction d as [d IH] using lt_wf_ind. intros start ->.
  rewrite py_range_unfold by done. case_decide as Hlt.
  - rewrite (range_count_succ start stop step) by lia. cbn [seq fmap list_fmap].
    f_equal; [lia|]. rewrite <- fmap_S_seq, <- list_fmap_compose.
    rewrite (IH (stop - (start + step))) by lia.
    apply list_fmap_ext. intros _ k _. simpl. lia.
  - replace (stop - start) with 0 by lia.
    by rewrite Nat.div_small by lia.
Qed.

(** A point cloud that is the flat list of whole points is cut back
    into exactly these points, in order. *)
Theorem strides_flatten3 {A} (ps : list (A * A * A)) :
  strides (flatten3 ps) = (λ '(x, y, z), [x; y; z]) <$> ps.
Proof. rewrite strides_chunks3. apply chunks3_flatten3. Qed.

(** ** The theorems at an example *)

Lemma py_range_elements_witness :
  py_range 0 7 3 = (λ k, 0 + k * 3) <$> seq 0 ((7 - 0 + (3 - 1)) / 3).
Proof. apply (py_range_elements 0 7 3); lia. Defined.

(** [range(2, 11, 4)] is [2, 6, 10]; a range whose start is not below its
    stop is empty. *)
Example py_range_2_11_4 : py_range 2 11 4 = [2; 6; 10] ∧ py_range 5 5 3 = [].
Proof. done. Qed.
