(* ===== verification/Transform.v ===== *)
(** * Transform: the point transformer of [execute] (lines 84-108)

    The definitions follow the statements of the loop body one by one and
    keep their names.  They are generic in the number type: [RealModel.v]
    reads them over the reals, [FloatModel.v] over binary64.

    The data types are those of the AirSim client whose fields the script
    reads: [Quaternionr] ([w_val], [x_val], [y_val], [z_val]; the last three
    are [qx_val], [qy_val], [qz_val] here because a field name is global),
    [Vector3r], [Pose], [LidarData] and [MultirotorState].

    [from_quat] and [as_quat] model the two SciPy calls of the script:
    [Rotation.from_quat] divides the four numbers by their Euclidean norm
    and raises [ValueError] when the norm is zero or NaN, [as_quat] returns
    the stored numbers.  The script passes the scalar part first where SciPy
    expects it last; since it only reads the normalised numbers back in the
    same order, the convention does not matter. *)

From stdpp Require Import base list.
From Stdlib Require Import ZArith.
From S2P Require Import Prelude Scalar PyList.

Section transform.
Context {T : Type} `{Scalar T}.
Local Open Scope sc_scope.

(** ** Data of the client *)

Record Vector3r : Type := mkVector3r {
  x_val : T;
  y_val : T;
  z_val : T;
}.

Record Quaternionr : Type := mkQuaternionr {
  w_val : T;
  qx_val : T;
  qy_val : T;
  qz_val : T;
}.

Record Pose : Type := mkPose {
  position : Vector3r;
  orientation : Quaternionr;
}.

(** The reply of [getLidarData]: the flat point cloud and the sensor pose. *)
Record LidarData : Type := mkLidarData {
  point_cloud : list T;
  pose : Pose;
}.

Record KinematicsState : Type := mkKinematicsState {
  kin_orientation : Quaternionr;
}.

(** The reply of [getMultirotorState]. *)
Record MultirotorState : Type := mkMultirotorState {
  kinematics_estimated : KinematicsState;
}.

(** A 3x3 NumPy array, by rows. *)
Definition Mat3 : Type := (T * T * T) * (T * T * T) * (T * T * T).

(** What the loop body computes for one point, before it is formatted. *)
Record Point : Type := mkPoint {
  final_x : T;
  final_y : T;
  final_z : T;
  point_range : T;
  point_angle : T;
}.

(** ** Lines 86-88: the rotation matrix of the sensor quaternion *)

Definition rotation_matrix (q0 q1 q2 q3 : T) : Mat3 :=
  ((1 - 2 * (q2 * q2 + q3 * q3), 2 * (q1 * q2 - q3 * q0), 2 * (q1 * q3 + q2 * q0)),
   (2 * (q1 * q2 + q3 * q0), 1 - 2 * (q1 * q1 + q3 * q3), 2 * (q2 * q3 - q1 * q0)),
   (2 * (q1 * q3 - q2 * q0), 2 * (q2 * q3 + q1 * q0), 1 - 2 * (q1 * q1 + q2 * q2))).

(** ** Line 95: [np.matmul(rotation_matrix, np.asarray(xyz))] *)

Definition dot3 (row : T * T * T) (x y z : T) : T :=
  let '(a, b, c) := row in a * x + b * y + c * z.

(** The product of a 3x3 matrix with a vector exists only for a vector of
    three numbers; NumPy raises [ValueError] for any other length. *)
Definition matmul (M : Mat3) (v : list T) : result (T * T * T) :=
  match v with
  | [x; y; z] =>
      let '(r0, r1, r2) := M in
      Ok (dot3 r0 x y z, dot3 r1 x y z, dot3 r2 x y z)
  | _ => Raise (ValueError ShapeMismatch)
  end.

(** ** Lines 103-106: SciPy's [Rotation] *)

Definition Rotation : Type := T * T * T * T.

Definition norm4 (q : T * T * T * T) : T :=
  let '(a, b, c, d) := q in c_sqrt (a * a + b * b + c * c + d * d).

Definition from_quat (q : T * T * T * T) : result Rotation :=
  let '(a, b, c, d) := q in
  let norm := norm4 q in
  if seqb norm 0 || sisnan norm then Raise (ValueError ZeroNormQuat)
  else Ok (a / norm, b / norm, c / norm, d / norm).

Definition as_quat (r : Rotation) : T * T * T * T := r.

(** ** Line 107 *)

Definition inner_product (m_norm q_norm : T * T * T * T) : T :=
  let '(m0, m1, m2, m3) := m_norm in
  let '(q0, q1, q2, q3) := q_norm in
  m0 * q0 + m1 * q1 + m2 * q2 + m3 * q3.

(** ** Lines 102-108: the angle between vehicle and sensor orientation *)

Definition angle_arg (ip : T) : T := 2 * (ip **2) - 1.

Definition compute_angle (multirotor_orientation : Quaternionr)
    (q0 q1 q2 q3 : T) : result T :=
  let m0 := w_val multirotor_orientation in
  let m1 := qx_val multirotor_orientation in
  let m2 := qy_val multirotor_orientation in
  let m3 := qz_val multirotor_orientation in
  m ← from_quat (m0, - m1, - m2, - m3);
  q ← from_quat (q0, q1, q2, q3);
  let m_norm := as_quat m in
  let q_norm := as_quat q in
  math_acos (angle_arg (inner_product m_norm q_norm)).

(** ** Line 100: the distance between the sensor and the final point *)

Definition compute_range (position : Vector3r) (fx fy fz : T) : result T :=
  math_sqrt ((x_val position - fx) **2 + (y_val position - fy) **2
             + (z_val position - fz) **2).

(** ** Lines 93-108: one point *)

Definition transform_point (rotation_matrix : Mat3) (position : Vector3r)
    (q0 q1 q2 q3 : T) (multirotor_orientation : Quaternionr)
    (xyz : list T) : result Point :=
  '(corrected_x, corrected_y, corrected_z) ← matmul rotation_matrix xyz;
  let fx := corrected_x + x_val position in
  let fy := corrected_y + y_val position in
  let fz := corrected_z + z_val position in
  range ← compute_range position fx fy fz;
  angle ← compute_angle multirotor_orientation q0 q1 q2 q3;
  Ok (mkPoint fx fy fz range angle).

(** ** Lines 84-93: the values fixed for one scan *)

Definition scan_rotation (lidar_data : LidarData) : Mat3 :=
  let o := orientation (pose lidar_data) in
  rotation_matrix (w_val o) (qx_val o) (qy_val o) (qz_val o).

Definition transform_scan_point (lidar_data : LidarData)
    (state : MultirotorState) (xyz : list T) : result Point :=
  let o := orientation (pose lidar_data) in
  transform_point (scan_rotation lidar_data) (position (pose lidar_data))
    (w_val o) (qx_val o) (qy_val o) (qz_val o)
    (kin_orientation (kinematics_estimated state)) xyz.

(** The results of the loop body over the whole point cloud, in order. *)
Definition transform_scan (lidar_data : LidarData)
    (state : MultirotorState) : list (result Point) :=
  transform_scan_point lidar_data state <$> strides (point_cloud lidar_data).

(** ** Facts that hold for every number type *)

Lemma matmul_triple M x y z :
  matmul M [x; y; z] =
  Ok (dot3 M.1.1 x y z, dot3 M.1.2 x y z, dot3 M.2 x y z).
Proof. by destruct M as [[r0 r1] r2]. Qed.

(** [np.matmul] succeeds exactly on vectors of three numbers. *)
Lemma matmul_is_ok M v : is_ok (matmul M v) = true ↔ length v = 3.
Proof.
  destruct M as [[r0 r1] r2].
  destruct v as [|x [|y [|z [|w v]]]]; simpl; split; (done || lia).
Qed.

Lemma matmul_shape_error M v :
  length v ≠ 3 → matmul M v = Raise (ValueError ShapeMismatch).
Proof.
  destruct v as [|x [|y [|z [|w v]]]]; simpl; intros; (done || lia).
Qed.

(** A slice that is not a triple makes the loop body raise before anything
    else is computed. *)
Lemma transform_point_shape_error M pos q0 q1 q2 q3 mo xyz :
  length xyz ≠ 3 →
  transform_point M pos q0 q1 q2 q3 mo xyz = Raise (ValueError ShapeMismatch).
Proof.
  intros Hlen. unfold transform_point. by rewrite matmul_shape_error.
Qed.

(** When the body succeeds, the slice was a triple, the final position is
    the product plus the sensor position, and range and angle are the
    values of their own computations. *)
Lemma transform_point_Ok M pos q0 q1 q2 q3 mo xyz p :
  transform_point M pos q0 q1 q2 q3 mo xyz = Ok p ↔
  ∃ x y z, xyz = [x; y; z]
    ∧ final_x p = dot3 M.1.1 x y z + x_val pos
    ∧ final_y p = dot3 M.1.2 x y z + y_val pos
    ∧ final_z p = dot3 M.2 x y z + z_val pos
    ∧ compute_range pos (final_x p) (final_y p) (final_z p)
        = Ok (point_range p)
    ∧ compute_angle mo q0 q1 q2 q3 = Ok (point_angle p).
Proof.
  unfold transform_point. split.
  - intros Hp. apply bind_Ok_inv in Hp as ([[cx cy] cz] & Hm & Hp).
    apply bind_Ok_inv in Hp as (r & Hr & Hp).
    apply bind_Ok_inv in Hp as (a & Ha & [= <-]).
    destruct xyz as [|x [|y [|z [|w v]]]]; try discriminate.
    rewrite matmul_triple in Hm. injection Hm as <- <- <-.
    exists x, y, z. by simpl.
  - intros (x & y & z & -> & Hx & Hy & Hz & Hr & Ha).
    rewrite matmul_triple. simpl. rewrite <- Hx, <- Hy, <- Hz, Hr. simpl.
    rewrite Ha. simpl. by destruct p.
Qed.

(** One result per slice: the loop body runs ceil(n/3) times. *)
Lemma length_transform_scan ld st :
  length (transform_scan ld st) = ((length (point_cloud ld) + 2) / 3)%nat.
Proof. unfold transform_scan. by rewrite length_fmap, length_strides. Qed.

(** The angle is computed from the two orientations only: it is the same
    for every point of a scan. *)
Lemma transform_scan_angle ld st xyz p :
  transform_scan_point ld st xyz = Ok p →
  compute_angle (kin_orientation (kinematics_estimated st))
    (w_val (orientation (pose ld))) (qx_val (orientation (pose ld)))
    (qy_val (orientation (pose ld))) (qz_val (orientation (pose ld)))
  = Ok (point_angle p).
Proof.
  unfold transform_scan_point. intros Hp.
  apply transform_point_Ok in Hp as (x & y & z & _ & _ & _ & _ & _ & Ha).
  exact Ha.
Qed.

End transform.

Arguments Vector3r T : clear implicits.
Arguments Quaternionr T : clear implicits.
Arguments Pose T : clear implicits.
Arguments LidarData T : clear implicits.
Arguments KinematicsState T : clear implicits.
Arguments MultirotorState T : clear implicits.
Arguments Point T : clear implicits.
Arguments Mat3 T : clear implicits.
Arguments Rotation T : clear implicits.
