(* ===== verification/RealModel.v ===== *)
(** * RealModel: the transformer in exact arithmetic

    [R_scalar] reads the operations of [Scalar] over the real numbers:
    no rounding and no NaN, [math.sqrt] raising below 0 and [math.acos]
    raising outside [-1, 1].  The theorems of this file say what the
    transformer of [Transform.v] computes when rounding is ignored.

    Reference notions, defined here and not taken from the code: the
    Hamilton product [qmul], the conjugate [qconj], the rotation of a
    vector by a quaternion [rotate_by], matrix product, transpose and
    determinant, and the rotation angle [rotation_angle] of a unit
    quaternion. *)

From Stdlib Require Import Reals Lra Psatz RNsatz.
From stdpp Require Import base list.
From S2P Require Import Prelude Scalar PyList Transform.

Local Open Scope R_scope.

(** ** The instance *)

Definition R_math_sqrt (x : R) : result R :=
  if Rlt_dec x 0 then Raise (ValueError MathDomain) else Ok (sqrt x).

Definition R_math_acos (x : R) : result R :=
  if Rle_dec (-1) x then
    if Rle_dec x 1 then Ok (acos x) else Raise (ValueError MathDomain)
  else Raise (ValueError MathDomain).

#[export] Instance R_scalar : Scalar R := {|
  of_int := IZR;
  sadd := Rplus;
  ssub := Rminus;
  smul := Rmult;
  sneg := Ropp;
  spow2 := λ x, x * x;
  sdiv := Rdiv;
  c_sqrt := sqrt;
  math_sqrt := R_math_sqrt;
  math_acos := R_math_acos;
  seqb := λ x y, if Req_dec_T x y then true else false;
  sisnan := λ _, false;
|}.

(** ** Reference notions *)

Definition quat : Type := R * R * R * R.

Definition qnorm2 (q : quat) : R :=
  let '(a, b, c, d) := q in a * a + b * b + c * c + d * d.

Definition qconj (q : quat) : quat :=
  let '(a, b, c, d) := q in (a, - b, - c, - d).

(** The Hamilton product. *)
Definition qmul (p q : quat) : quat :=
  let '(a1, b1, c1, d1) := p in
  let '(a2, b2, c2, d2) := q in
  (a1 * a2 - b1 * b2 - c1 * c2 - d1 * d2,
   a1 * b2 + b1 * a2 + c1 * d2 - d1 * c2,
   a1 * c2 - b1 * d2 + c1 * a2 + d1 * b2,
   a1 * d2 + b1 * c2 - c1 * b2 + d1 * a2).

Definition qscalar (q : quat) : R := q.1.1.1.

(** The rotation of the vector [(x, y, z)] by [q]: the vector part of
    [q * (0, x, y, z) * conj q]. *)
Definition rotate_by (q : quat) (x y z : R) : R * R * R :=
  let '(_, rx, ry, rz) := qmul (qmul q (0, x, y, z)) (qconj q) in (rx, ry, rz).

(** The angle of the rotation a unit quaternion stands for: the scalar part
    is the cosine of half the angle. *)
Definition rotation_angle (q : quat) : R :=
  acos (2 * (qscalar q * qscalar q) - 1).

Definition quat_of (o : Quaternionr R) : quat :=
  (w_val o, qx_val o, qy_val o, qz_val o).

Definition mat_transpose (M : Mat3 R) : Mat3 R :=
  let '((a, b, c), (d, e, f), (g, h, i)) := M in
  ((a, d, g), (b, e, h), (c, f, i)).

Definition mat_mul (M N : Mat3 R) : Mat3 R :=
  let '((a, b, c), (d, e, f), (g, h, i)) := M in
  let '((a', b', c'), (d', e', f'), (g', h', i')) := N in
  ((a * a' + b * d' + c * g', a * b' + b * e' + c * h', a * c' + b * f' + c * i'),
   (d * a' + e * d' + f * g', d * b' + e * e' + f * h', d * c' + e * f' + f * i'),
   (g * a' + h * d' + i * g', g * b' + h * e' + i * h', g * c' + h * f' + i * i')).

Definition mat_id : Mat3 R := ((1, 0, 0), (0, 1, 0), (0, 0, 1)).

Definition mat_det (M : Mat3 R) : R :=
  let '((a, b, c), (d, e, f), (g, h, i)) := M in
  a * (e * i - f * h) - b * (d * i - f * g) + c * (d * h - e * g).

(** The normalised inner product the script feeds to [math.acos], written
    with the vehicle quaternion [m] and the sensor quaternion [q]. *)
Definition inner_spec (m q : quat) : R :=
  let '(m0, m1, m2, m3) := m in
  let '(q0, q1, q2, q3) := q in
  (m0 * q0 - m1 * q1 - m2 * q2 - m3 * q3) / (sqrt (qnorm2 m) * sqrt (qnorm2 q)).

Definition angle_spec (m q : quat) : R :=
  acos (2 * (inner_spec m q * inner_spec m q) - 1).

(** A quaternion divided by its norm. *)
Definition qnormalise (q : quat) : quat :=
  let '(a, b, c, d) := q in
  let n := sqrt (qnorm2 q) in (a / n, b / n, c / n, d / n).

(** The angle of the rotation that takes the vehicle orientation [m] to the
    sensor orientation [q]: what "the angle between the two orientations"
    means. *)
Definition relative_angle (m q : quat) : R :=
  rotation_angle (qmul (qconj m) q).

(** ** Tactics *)

(** Read the operations of [Scalar] as operations on [R]. *)
Ltac real_ops :=
  cbn [of_int sadd ssub smul sneg spow2 sdiv c_sqrt math_sqrt math_acos
       seqb sisnan R_scalar] in *.

Ltac real_unfold :=
  unfold rotation_matrix, dot3, norm4, inner_product, angle_arg, as_quat,
    qnorm2, qconj, qmul, qscalar, quat_of in *; real_ops.

(** ** Square roots, [acos] and sums of squares *)

Lemma sum4_nonneg a b c d : 0 <= a * a + b * b + c * c + d * d.
Proof. nra. Qed.

Lemma sum3_nonneg a b c : 0 <= a * a + b * b + c * c.
Proof. nra. Qed.

Lemma sqrt_sum4_pos a b c d :
  a * a + b * b + c * c + d * d <> 0 → 0 < sqrt (a * a + b * b + c * c + d * d).
Proof. intros Hne. apply sqrt_lt_R0. pose proof (sum4_nonneg a b c d). lra. Qed.

Lemma sqrt_sum4_zero a b c d :
  sqrt (a * a + b * b + c * c + d * d) = 0 ↔ a * a + b * b + c * c + d * d = 0.
Proof.
  split; [apply sqrt_eq_0, sum4_nonneg|intros ->; apply sqrt_0].
Qed.

Lemma R_math_sqrt_nonneg x : 0 <= x → R_math_sqrt x = Ok (sqrt x).
Proof. intros Hx. unfold R_math_sqrt. destruct (Rlt_dec x 0); [lra|done]. Qed.

Lemma R_math_sqrt_neg x : x < 0 → R_math_sqrt x = Raise (ValueError MathDomain).
Proof. intros Hx. unfold R_math_sqrt. destruct (Rlt_dec x 0); [done|lra]. Qed.

Lemma R_math_acos_in x : -1 <= x <= 1 → R_math_acos x = Ok (acos x).
Proof.
  intros [Hl Hu]. unfold R_math_acos.
  destruct (Rle_dec (-1) x); [|lra]. destruct (Rle_dec x 1); [done|lra].
Qed.

Lemma R_math_acos_out x :
  x < -1 ∨ 1 < x → R_math_acos x = Raise (ValueError MathDomain).
Proof.
  intros Hx. unfold R_math_acos.
  destruct (Rle_dec (-1) x); [|done]. destruct (Rle_dec x 1); [lra|done].
Qed.

Lemma acos_eq_0 x : -1 <= x <= 1 → acos x = 0 ↔ x = 1.
Proof.
  intros Hx. split; [|intros ->; apply acos_1].
  intros H0. rewrite <- (cos_acos x Hx), H0. apply cos_0.
Qed.

Lemma acos_neg1 : acos (-1) = PI.
Proof. replace (-1) with (- (1)) by lra. rewrite acos_opp, acos_1. lra. Qed.

Lemma angle_arg_bound ip : ip * ip <= 1 → -1 <= 2 * (ip * ip) - 1 <= 1.
Proof. nra. Qed.

(** Cauchy-Schwarz for two unit vectors of four numbers. *)
Lemma inner_unit_bound a b c d a' b' c' d' :
  a * a + b * b + c * c + d * d = 1 →
  a' * a' + b' * b' + c' * c' + d' * d' = 1 →
  (a * a' + b * b' + c * c' + d * d') * (a * a' + b * b' + c * c' + d * d') <= 1.
Proof.
  intros H1 H2.
  assert (L : (a * a + b * b + c * c + d * d)
              * (a' * a' + b' * b' + c' * c' + d' * d')
              - (a * a' + b * b' + c * c' + d * d')
                * (a * a' + b * b' + c * c' + d * d')
            = (a * b' - b * a')² + (a * c' - c * a')² + (a * d' - d * a')²
              + (b * c' - c * b')² + (b * d' - d * b')² + (c * d' - d * c')²)
    by (unfold Rsqr; ring).
  rewrite H1, H2 in L.
  pose proof (Rle_0_sqr (a * b' - b * a')).
  pose proof (Rle_0_sqr (a * c' - c * a')).
  pose proof (Rle_0_sqr (a * d' - d * a')).
  pose proof (Rle_0_sqr (b * c' - c * b')).
  pose proof (Rle_0_sqr (b * d' - d * b')).
  pose proof (Rle_0_sqr (c * d' - d * c')).
  lra.
Qed.

(** ** Quaternions *)

Lemma qnorm2_nonneg q : 0 <= qnorm2 q.
Proof. destruct q as [[[a b] c] d]. apply sum4_nonneg. Qed.

Lemma qnorm2_conj q : qnorm2 (qconj q) = qnorm2 q.
Proof. destruct q as [[[a b] c] d]. unfold qnorm2, qconj. ring. Qed.

Lemma sqrt_qnorm2_pos q : qnorm2 q <> 0 → 0 < sqrt (qnorm2 q).
Proof. intros Hne. apply sqrt_lt_R0. pose proof (qnorm2_nonneg q). lra. Qed.

Lemma qnormalise_unit q : qnorm2 q <> 0 → qnorm2 (qnormalise q) = 1.
Proof.
  intros Hne. pose proof (sqrt_qnorm2_pos q Hne) as Hn.
  pose proof (sqrt_sqrt _ (qnorm2_nonneg q)) as Hnn.
  destruct q as [[[a b] c] d]. unfold qnormalise.
  set (n := sqrt _) in *. unfold qnorm2 in *.
  field_simplify_eq; [|lra]. lra.
Qed.

(** SciPy's [from_quat] over the reals: normalisation, or [ValueError] for
    the zero quaternion. *)
Lemma from_quat_R q : qnorm2 q <> 0 → from_quat q = Ok (qnormalise q).
Proof.
  destruct q as [[[a b] c] d]. intros Hne. unfold from_quat, norm4. real_ops.
  destruct (Req_dec_T _ 0) as [H0|_]; [|done].
  apply sqrt_sum4_zero in H0. done.
Qed.

Lemma from_quat_R_zero q :
  qnorm2 q = 0 → from_quat q = Raise (ValueError ZeroNormQuat).
Proof.
  destruct q as [[[a b] c] d]. intros H0. unfold from_quat, norm4. real_ops.
  destruct (Req_dec_T _ 0) as [_|Hne]; [done|].
  exfalso. apply Hne. by apply sqrt_sum4_zero.
Qed.

Lemma inner_product_bound p q :
  qnorm2 p = 1 → qnorm2 q = 1 → inner_product p q * inner_product p q <= 1.
Proof.
  destruct p as [[[a b] c] d], q as [[[a' b'] c'] d'].
  unfold qnorm2, inner_product. real_ops. apply inner_unit_bound.
Qed.

(** The inner product of the two normalised quaternions of the script. *)
Lemma inner_normalised m q :
  qnorm2 m <> 0 → qnorm2 q <> 0 →
  inner_product (qnormalise (qconj m)) (qnormalise q) = inner_spec m q.
Proof.
  intros Hm Hq.
  pose proof (sqrt_qnorm2_pos m Hm). pose proof (sqrt_qnorm2_pos q Hq).
  unfold inner_spec, qnormalise. rewrite qnorm2_conj.
  destruct m as [[[m0 m1] m2] m3], q as [[[q0 q1] q2] q3].
  unfold inner_product, qconj. real_ops.
  set (nm := sqrt _) in *. set (nq := sqrt _) in *. field. lra.
Qed.

Lemma inner_spec_bound m q :
  qnorm2 m <> 0 → qnorm2 q <> 0 → inner_spec m q * inner_spec m q <= 1.
Proof.
  intros Hm Hq. rewrite <- inner_normalised by done.
  apply inner_product_bound; apply qnormalise_unit; by rewrite ?qnorm2_conj.
Qed.

(** The square of the inner product without square roots. *)
Lemma inner_spec_sqr m q :
  qnorm2 m <> 0 → qnorm2 q <> 0 →
  inner_spec m q * inner_spec m q
  = (qscalar (qmul m q) * qscalar (qmul m q)) / (qnorm2 m * qnorm2 q).
Proof.
  intros Hm Hq.
  pose proof (sqrt_qnorm2_pos m Hm). pose proof (sqrt_qnorm2_pos q Hq).
  pose proof (sqrt_sqrt _ (qnorm2_nonneg m)) as Em.
  pose proof (sqrt_sqrt _ (qnorm2_nonneg q)) as Eq.
  rewrite <- Em, <- Eq at 1.
  destruct m as [[[m0 m1] m2] m3], q as [[[q0 q1] q2] q3].
  unfold inner_spec, qmul, qscalar. cbn [fst].
  set (nm := sqrt _) in *. set (nq := sqrt _) in *. field. lra.
Qed.

(** For unit quaternions the inner product of the script is the scalar part
    of the product [m * q]. *)
Lemma inner_spec_unit m q :
  qnorm2 m = 1 → qnorm2 q = 1 → inner_spec m q = qscalar (qmul m q).
Proof.
  intros Hm Hq. destruct m as [[[m0 m1] m2] m3], q as [[[q0 q1] q2] q3].
  unfold inner_spec. rewrite Hm, Hq, sqrt_1. unfold qmul, qscalar.
  cbn [fst]. field.
Qed.

Lemma inner_spec_neg_r m a b c d :
  inner_spec m (- a, - b, - c, - d) = - inner_spec m (a, b, c, d).
Proof.
  destruct m as [[[m0 m1] m2] m3]. unfold inner_spec.
  replace (qnorm2 (- a, - b, - c, - d)) with (qnorm2 (a, b, c, d))
    by (unfold qnorm2; ring).
  unfold Rdiv. ring.
Qed.

Lemma inner_spec_neg_l a b c d q :
  inner_spec (- a, - b, - c, - d) q = - inner_spec (a, b, c, d) q.
Proof.
  destruct q as [[[q0 q1] q2] q3]. unfold inner_spec.
  replace (qnorm2 (- a, - b, - c, - d)) with (qnorm2 (a, b, c, d))
    by (unfold qnorm2; ring).
  unfold Rdiv. ring.
Qed.

Lemma relative_angle_same q : qnorm2 q = 1 → relative_angle q q = 0.
Proof.
  destruct q as [[[a b] c] d]. unfold relative_angle, rotation_angle, qnorm2.
  intros Hq. unfold qmul, qconj, qscalar. cbn [fst].
  replace (a * a - - b * b - - c * c - - d * d) with 1 by lra.
  replace (2 * (1 * 1) - 1) with 1 by lra. apply acos_1.
Qed.

Lemma compute_angle_unfold mo q0 q1 q2 q3 :
  compute_angle mo q0 q1 q2 q3 =
  (m ← from_quat (qconj (quat_of mo)); q ← from_quat (q0, q1, q2, q3);
   math_acos (angle_arg (inner_product m q))).
Proof. by destruct mo. Qed.

Lemma rotation_preserves_norm q0 q1 q2 q3 x y z :
  qnorm2 (q0, q1, q2, q3) = 1 →
  dot3 (rotation_matrix q0 q1 q2 q3).1.1 x y z
    * dot3 (rotation_matrix q0 q1 q2 q3).1.1 x y z
  + dot3 (rotation_matrix q0 q1 q2 q3).1.2 x y z
    * dot3 (rotation_matrix q0 q1 q2 q3).1.2 x y z
  + dot3 (rotation_matrix q0 q1 q2 q3).2 x y z
    * dot3 (rotation_matrix q0 q1 q2 q3).2 x y z
  = x * x + y * y + z * z.
Proof. intros Hunit. real_unfold. cbn [fst snd]. nsatz. Qed.

(** The range of the script is the norm of the rotated point: the sensor
    position cancels. *)
Lemma compute_range_R pos cx cy cz :
  compute_range pos (cx + x_val pos) (cy + y_val pos) (cz + z_val pos)
  = Ok (sqrt (cx * cx + cy * cy + cz * cz)).
Proof.
  unfold compute_range. real_ops.
  rewrite R_math_sqrt_nonneg by nra. do 2 f_equal. ring.
Qed.

(** ** The rotation matrix *)

Ltac mat_eq := repeat (apply pair_equal_spec; split).

Section unit_sensor.
Variables q0 q1 q2 q3 : R.
Hypothesis Hunit : qnorm2 (q0, q1, q2, q3) = 1.

(** C4: for a unit sensor quaternion the
    matrix of lines 86-88 is orthogonal: its transpose is its inverse. *)
Theorem rotation_matrix_orthogonal :
  mat_mul (mat_transpose (rotation_matrix q0 q1 q2 q3))
          (rotation_matrix q0 q1 q2 q3) = mat_id.
Proof.
  unfold mat_mul, mat_transpose, mat_id. real_unfold. mat_eq; nsatz.
Qed.

(** For a unit sensor quaternion the matrix has
    determinant 1: it is a rotation, not a reflection. *)
Theorem rotation_matrix_det : mat_det (rotation_matrix q0 q1 q2 q3) = 1.
Proof. unfold mat_det. real_unfold. nsatz. Qed.

(** The three dot products of line 95 are the vector part of
    [q p conj(q)], the Hamilton products written out in [qmul]. *)
Lemma dot3_rotate_by x y z :
  (dot3 (rotation_matrix q0 q1 q2 q3).1.1 x y z,
   dot3 (rotation_matrix q0 q1 q2 q3).1.2 x y z,
   dot3 (rotation_matrix q0 q1 q2 q3).2 x y z)
  = rotate_by (q0, q1, q2, q3) x y z.
Proof. unfold rotate_by. real_unfold. cbn [fst snd]. mat_eq; nsatz. Qed.

(** C5: [np.matmul] of the matrix with a point
    is the rotation of the point by the sensor quaternion, [q p conj(q)]. *)
Theorem rotation_matrix_rotates x y z :
  matmul (rotation_matrix q0 q1 q2 q3) [x; y; z]
  = Ok (rotate_by (q0, q1, q2, q3) x y z).
Proof. rewrite matmul_triple. f_equal. apply dot3_rotate_by. Qed.

(** C6: for a unit sensor quaternion the range
    written for a point is the norm of the point in the sensor frame,
    whatever the sensor position. *)
Theorem range_is_local_norm pos mo x y z p :
  transform_point (H:=R_scalar) (rotation_matrix q0 q1 q2 q3) pos q0 q1 q2 q3
    mo [x; y; z] = Ok p →
  point_range p = sqrt (x * x + y * y + z * z).
Proof.
  intros Hp. apply transform_point_Ok in Hp
    as (x' & y' & z' & [= <- <- <-] & Hx & Hy & Hz & Hr & _).
  rewrite Hx, Hy, Hz, compute_range_R in Hr. injection Hr as <-.
  f_equal. by apply rotation_preserves_norm.
Qed.

End unit_sensor.

(** ** The angle *)

(** The angle the script computes, for any two non-zero quaternions. *)
Lemma compute_angle_real mo q0 q1 q2 q3 :
  qnorm2 (quat_of mo) <> 0 → qnorm2 (q0, q1, q2, q3) <> 0 →
  compute_angle mo q0 q1 q2 q3 = Ok (angle_spec (quat_of mo) (q0, q1, q2, q3)).
Proof.
  intros Hm Hq. rewrite compute_angle_unfold.
  rewrite (from_quat_R (qconj _)), (from_quat_R (q0, _, _, _))
    by (by rewrite ?qnorm2_conj). cbn [mbind result_bind].
  rewrite inner_normalised by done. unfold angle_arg. real_ops.
  apply R_math_acos_in, angle_arg_bound, inner_spec_bound; done.
Qed.

(** C7: in exact arithmetic the argument of
    [math.acos] never leaves [-1, 1]: for non-zero quaternions the angle is
    computed without exception and lies between 0 and PI. *)
Theorem compute_angle_bounds mo q0 q1 q2 q3 :
  qnorm2 (quat_of mo) <> 0 → qnorm2 (q0, q1, q2, q3) <> 0 →
  ∃ a, compute_angle mo q0 q1 q2 q3 = Ok a ∧ 0 <= a <= PI.
Proof.
  intros Hm Hq. eexists. split; [by apply compute_angle_real|apply acos_bound].
Qed.

(** A vehicle or sensor quaternion of norm zero makes SciPy raise. *)
Lemma compute_angle_R_zero mo q0 q1 q2 q3 :
  qnorm2 (quat_of mo) = 0 ∨ qnorm2 (q0, q1, q2, q3) = 0 →
  compute_angle mo q0 q1 q2 q3 = Raise (ValueError ZeroNormQuat).
Proof.
  intros Hz. rewrite compute_angle_unfold.
  destruct (Req_dec_T (qnorm2 (quat_of mo)) 0) as [Hm|Hm].
  - by rewrite (from_quat_R_zero (qconj _)) by (by rewrite qnorm2_conj).
  - destruct Hz as [?|Hq]; [done|].
    rewrite (from_quat_R (qconj _)) by (by rewrite qnorm2_conj).
    cbn [mbind result_bind]. by rewrite from_quat_R_zero.
Qed.

(** The angle computation raises the
    [ValueError] of SciPy exactly when the vehicle or the sensor quaternion
    has norm zero. *)
Theorem compute_angle_zero_norm mo q0 q1 q2 q3 :
  compute_angle mo q0 q1 q2 q3 = Raise (ValueError ZeroNormQuat)
  ↔ qnorm2 (quat_of mo) = 0 ∨ qnorm2 (q0, q1, q2, q3) = 0.
Proof.
  split; [|apply compute_angle_R_zero].
  destruct (Req_dec_T (qnorm2 (quat_of mo)) 0) as [Hm|Hm]; [auto|].
  destruct (Req_dec_T (qnorm2 (q0, q1, q2, q3)) 0) as [Hq|Hq]; [auto|].
  by rewrite compute_angle_real.
Qed.

(** Negating the sensor quaternion or the vehicle quaternion, which
    then stands for the same orientation, does not change the result. *)
Theorem compute_angle_double_cover mo q0 q1 q2 q3 :
  compute_angle (H:=R_scalar) mo (- q0) (- q1) (- q2) (- q3)
  = compute_angle mo q0 q1 q2 q3
  ∧ compute_angle (H:=R_scalar)
      (mkQuaternionr (- w_val mo) (- qx_val mo) (- qy_val mo) (- qz_val mo))
      q0 q1 q2 q3
    = compute_angle mo q0 q1 q2 q3.
Proof.
  assert (Hn : ∀ a b c d, qnorm2 (- a, - b, - c, - d) = qnorm2 (a, b, c, d))
    by (intros; unfold qnorm2; ring).
  set (mo' := mkQuaternionr _ _ _ _).
  assert (Hmo : quat_of mo' = (- w_val mo, - qx_val mo, - qy_val mo, - qz_val mo))
    by done.
  assert (Hnm : qnorm2 (quat_of mo') = qnorm2 (quat_of mo))
    by (rewrite Hmo; apply Hn).
  destruct (Req_dec_T (qnorm2 (quat_of mo)) 0) as [Hm|Hm];
    [by rewrite !compute_angle_R_zero by (rewrite ?Hnm; auto)|].
  destruct (Req_dec_T (qnorm2 (q0, q1, q2, q3)) 0) as [Hq|Hq];
    [by rewrite !compute_angle_R_zero by (rewrite ?Hn; auto)|].
  rewrite !compute_angle_real by (by rewrite ?Hn, ?Hnm).
  unfold angle_spec. rewrite inner_spec_neg_r, Hmo, inner_spec_neg_l.
  unfold quat_of. split; do 2 f_equal; ring.
Qed.

(** The result does not depend on the length of
    the sensor quaternion, because SciPy normalises it. *)
Theorem compute_angle_scale mo k q0 q1 q2 q3 :
  k <> 0 →
  compute_angle (H:=R_scalar) mo (k * q0) (k * q1) (k * q2) (k * q3)
  = compute_angle mo q0 q1 q2 q3.
Proof.
  intros Hk.
  assert (Hn : qnorm2 (k * q0, k * q1, k * q2, k * q3)
               = k * k * qnorm2 (q0, q1, q2, q3)) by (unfold qnorm2; ring).
  assert (Hkk : k * k <> 0) by nra.
  destruct (Req_dec_T (qnorm2 (quat_of mo)) 0) as [Hm|Hm];
    [by rewrite !compute_angle_R_zero by auto|].
  destruct (Req_dec_T (qnorm2 (q0, q1, q2, q3)) 0) as [Hq|Hq].
  - rewrite !compute_angle_R_zero; auto. right. rewrite Hn, Hq. ring.
  - assert (Hq' : qnorm2 (k * q0, k * q1, k * q2, k * q3) <> 0)
      by (rewrite Hn; by apply Rmult_integral_contrapositive_currified).
    rewrite !compute_angle_real by done. unfold angle_spec.
    rewrite !inner_spec_sqr by done. rewrite Hn. do 3 f_equal.
    destruct mo as [m0 m1 m2 m3]. unfold quat_of, qmul, qscalar in *.
    cbn [fst w_val qx_val qy_val qz_val] in *. field. done.
Qed.

(** C37: for unit quaternions the script
    computes the rotation angle of the product [m * q], the composition of
    the two rotations. *)
Theorem compute_angle_is_composition mo q0 q1 q2 q3 :
  qnorm2 (quat_of mo) = 1 → qnorm2 (q0, q1, q2, q3) = 1 →
  compute_angle mo q0 q1 q2 q3
  = Ok (rotation_angle (qmul (quat_of mo) (q0, q1, q2, q3))).
Proof.
  intros Hm Hq. rewrite compute_angle_real by lra.
  unfold angle_spec, rotation_angle. by rewrite inner_spec_unit.
Qed.

Lemma same_orientation_angle q0 q1 q2 q3 :
  qnorm2 (q0, q1, q2, q3) = 1 →
  compute_angle (mkQuaternionr q0 q1 q2 q3) q0 q1 q2 q3
  = Ok (acos (2 * ((2 * (q0 * q0) - 1) * (2 * (q0 * q0) - 1)) - 1)).
Proof.
  intros Hq.
  change (quat_of (mkQuaternionr q0 q1 q2 q3)) with (q0, q1, q2, q3).
  rewrite compute_angle_real
    by (unfold quat_of; cbn [w_val qx_val qy_val qz_val]; lra).
  unfold angle_spec. rewrite inner_spec_unit by done.
  unfold quat_of, qmul, qscalar, qnorm2 in *.
  cbn [fst w_val qx_val qy_val qz_val]. do 3 f_equal; nra.
Qed.

(** C8: when vehicle and sensor have the same
    unit orientation, the script's angle is 0 exactly when the scalar part
    is 0 or +-1, that is for no rotation or a half turn; for every other
    common orientation it is not 0, although the relative rotation is the
    identity. *)
Theorem same_orientation_zero_iff q0 q1 q2 q3 :
  qnorm2 (q0, q1, q2, q3) = 1 →
  compute_angle (mkQuaternionr q0 q1 q2 q3) q0 q1 q2 q3 = Ok 0
  ↔ q0 = 0 ∨ q0 * q0 = 1.
Proof.
  intros Hq. rewrite same_orientation_angle by done.
  assert (Hb : 0 <= q0 * q0 <= 1) by (unfold qnorm2 in Hq; nra).
  set (t := q0 * q0) in *.
  assert (Harg : -1 <= 2 * ((2 * t - 1) * (2 * t - 1)) - 1 <= 1)
    by (apply angle_arg_bound; nra).
  split.
  - intros [= H0]. apply acos_eq_0 in H0; [|done].
    assert (t * (t - 1) = 0) as [?|?]%Rmult_integral by nra; [|lra].
    left. subst t. nra.
  - intros H0. f_equal. apply acos_eq_0; [done|].
    destruct H0 as [->|H1]; [subst t|]; nra.
Qed.

(** A vehicle and a sensor that share the orientation (3/5, 4/5, 0, 0):
    the relative angle is 0, the script's angle is not. *)
Lemma same_orientation_zero_iff_witness :
  compute_angle (mkQuaternionr (3/5) (4/5) 0 0) (3/5) (4/5) 0 0 <> Ok 0
  ∧ relative_angle (3/5, 4/5, 0, 0) (3/5, 4/5, 0, 0) = 0.
Proof.
  assert (Hq : qnorm2 (3/5, 4/5, 0, 0) = 1) by (unfold qnorm2; lra).
  split; [|by apply relative_angle_same].
  rewrite same_orientation_zero_iff by done. lra.
Defined.

(** ** The loop body *)

(** The loop body in exact arithmetic, for a triple and non-zero
    quaternions. *)
Lemma transform_point_R q0 q1 q2 q3 pos mo x y z :
  qnorm2 (quat_of mo) <> 0 → qnorm2 (q0, q1, q2, q3) <> 0 →
  let M := rotation_matrix q0 q1 q2 q3 in
  let cx := dot3 M.1.1 x y z in
  let cy := dot3 M.1.2 x y z in
  let cz := dot3 M.2 x y z in
  transform_point M pos q0 q1 q2 q3 mo [x; y; z]
  = Ok {| final_x := cx + x_val pos; final_y := cy + y_val pos;
          final_z := cz + z_val pos;
          point_range := sqrt (cx * cx + cy * cy + cz * cz);
          point_angle := angle_spec (quat_of mo) (q0, q1, q2, q3) |}.
Proof.
  intros Hm Hq M cx cy cz. unfold transform_point.
  rewrite matmul_triple. cbn [mbind result_bind]. fold cx cy cz.
  rewrite compute_range_R. cbn [mbind result_bind].
  by rewrite compute_angle_real.
Qed.

(** C3: in exact arithmetic, for a reply whose
    sensor quaternion (read as w, x, y, z) has norm 1 and a vehicle
    quaternion that is not zero, the loop body applied to a triple of the
    point cloud yields the point rotated by the sensor quaternion,
    [q p conj(q)], and translated by the sensor position; the range is the
    norm of the point in the sensor frame; the angle is [angle_spec] and
    lies between 0 and PI. *)
Theorem transform_point_real ld st x y z :
  let q := quat_of (orientation (pose ld)) in
  let m := quat_of (kin_orientation (kinematics_estimated st)) in
  let pos := position (pose ld) in
  let r := rotate_by q x y z in
  qnorm2 q = 1 → qnorm2 m <> 0 →
  transform_scan_point ld st [x; y; z]
  = Ok {| final_x := r.1.1 + x_val pos; final_y := r.1.2 + y_val pos;
          final_z := r.2 + z_val pos;
          point_range := sqrt (x * x + y * y + z * z);
          point_angle := angle_spec m q |}
  ∧ 0 <= angle_spec m q <= PI.
Proof.
  intros q m pos r Hq Hm. split; [|apply acos_bound].
  assert (qnorm2 q <> 0) by lra.
  unfold transform_scan_point, scan_rotation.
  rewrite transform_point_R by done. cbv zeta.
  rewrite rotation_preserves_norm by done. subst r q. unfold quat_of.
  by rewrite <- dot3_rotate_by.
Qed.

(** For a sensor at the origin with the
    identity orientation a point is written unchanged, with its norm as
    range. *)
Theorem identity_pose_fixes_points mo x y z p :
  transform_point (H:=R_scalar) (rotation_matrix 1 0 0 0) (mkVector3r 0 0 0)
    1 0 0 0 mo [x; y; z] = Ok p →
  final_x p = x ∧ final_y p = y ∧ final_z p = z
  ∧ point_range p = sqrt (x * x + y * y + z * z).
Proof.
  intros Hp. apply transform_point_Ok in Hp
    as (x' & y' & z' & [= <- <- <-] & Hx & Hy & Hz & Hr & _).
  rewrite Hx, Hy, Hz, compute_range_R in Hr. injection Hr as <-.
  split_and!;
    [..|f_equal; apply rotation_preserves_norm; unfold qnorm2; lra].
  all: rewrite ?Hx, ?Hy, ?Hz; real_unfold; cbn [fst snd x_val y_val z_val];
    ring.
Qed.

(** Sensor at (0, 0, -1) with the identity
    orientation, vehicle with the identity orientation, point (3, 4, 0):
    position (3, 4, -1), range 5, angle 0. *)
Theorem end_to_end_real :
  transform_point (H:=R_scalar) (rotation_matrix 1 0 0 0)
    (mkVector3r 0 0 (-1)) 1 0 0 0 (mkQuaternionr 1 0 0 0) [3; 4; 0]
  = Ok {| final_x := 3; final_y := 4; final_z := -1;
          point_range := 5; point_angle := 0 |}.
Proof.
  rewrite transform_point_R by (unfold quat_of, qnorm2; simpl; lra).
  cbv zeta. f_equal. real_unfold.
  cbn [fst snd x_val y_val z_val w_val qx_val qy_val qz_val].
  f_equal; try lra.
  - replace (_ + _ + _) with (5 * 5) by lra. apply sqrt_square. lra.
  - unfold angle_spec, inner_spec, qnorm2.
    replace (1 * 1 + 0 * 0 + 0 * 0 + 0 * 0) with 1 by lra. rewrite sqrt_1.
    replace (2 * (_ * _) - 1) with 1 by (field_simplify; lra). apply acos_1.
Qed.

(** ** Witnesses: the theorems at concrete quaternions *)

Lemma unit_35_45 : qnorm2 (3/5, 4/5, 0, 0) = 1.
Proof. unfold qnorm2. lra. Defined.

Lemma nonzero_35_45 : qnorm2 (3/5, 4/5, 0, 0) <> 0.
Proof. rewrite unit_35_45. lra. Defined.

Lemma rotation_matrix_orthogonal_witness :
  mat_mul (mat_transpose (rotation_matrix (3/5) (4/5) 0 0))
          (rotation_matrix (3/5) (4/5) 0 0) = mat_id.
Proof. exact (rotation_matrix_orthogonal _ _ _ _ unit_35_45). Defined.

Lemma rotation_matrix_det_witness :
  mat_det (rotation_matrix (3/5) (4/5) 0 0) = 1.
Proof. exact (rotation_matrix_det _ _ _ _ unit_35_45). Defined.

Lemma rotation_matrix_rotates_witness :
  matmul (rotation_matrix (3/5) (4/5) 0 0) [1; 2; 3]
  = Ok (rotate_by (3/5, 4/5, 0, 0) 1 2 3).
Proof. exact (rotation_matrix_rotates _ _ _ _ unit_35_45 1 2 3). Defined.

Definition ld_35_45 : LidarData R :=
  mkLidarData [1; 2; 3]
    (mkPose (mkVector3r 1 2 3) (mkQuaternionr (3/5) (4/5) 0 0)).

Definition st_35_45 : MultirotorState R :=
  mkMultirotorState (mkKinematicsState (mkQuaternionr (3/5) (4/5) 0 0)).

Lemma transform_point_real_witness :
  let r := rotate_by (3/5, 4/5, 0, 0) 1 2 3 in
  transform_scan_point ld_35_45 st_35_45 [1; 2; 3]
  = Ok {| final_x := r.1.1 + 1; final_y := r.1.2 + 2; final_z := r.2 + 3;
          point_range := sqrt (1 * 1 + 2 * 2 + 3 * 3);
          point_angle := angle_spec (3/5, 4/5, 0, 0) (3/5, 4/5, 0, 0) |}
  ∧ 0 <= angle_spec (3/5, 4/5, 0, 0) (3/5, 4/5, 0, 0) <= PI.
Proof.
  exact (transform_point_real ld_35_45 st_35_45 1 2 3
           unit_35_45 nonzero_35_45).
Defined.

(** The same point with the numbers written out: the quaternion
    (3/5, 4/5, 0, 0), read as w, x, y, z, turns the point about the x axis,
    so x is kept and (y, z) = (2, 3) becomes (-86/25, 27/25). *)
Example sensor_rotation_about_x :
  ∃ a, transform_scan_point ld_35_45 st_35_45 [1; 2; 3]
       = Ok {| final_x := 1 + 1; final_y := -86/25 + 2; final_z := 27/25 + 3;
               point_range := sqrt 14; point_angle := a |}.
Proof.
  eexists. unfold transform_scan_point, scan_rotation.
  rewrite transform_point_R by apply nonzero_35_45. cbv zeta.
  rewrite rotation_preserves_norm by apply unit_35_45.
  real_unfold. unfold ld_35_45.
  cbn [fst snd x_val y_val z_val position pose orientation
       w_val qx_val qy_val qz_val].
  f_equal. f_equal; first [lra | f_equal; lra].
Qed.

Lemma range_is_local_norm_witness :
  ∃ p, transform_point (rotation_matrix (3/5) (4/5) 0 0) (mkVector3r 1 2 3)
         (3/5) (4/5) 0 0 (mkQuaternionr (3/5) (4/5) 0 0) [1; 2; 3] = Ok p
       ∧ point_range p = sqrt (1 * 1 + 2 * 2 + 3 * 3).
Proof.
  eexists. split.
  - apply transform_point_R; exact nonzero_35_45.
  - apply (range_is_local_norm _ _ _ _ unit_35_45 (mkVector3r 1 2 3)
             (mkQuaternionr (3/5) (4/5) 0 0) 1 2 3).
    apply transform_point_R; exact nonzero_35_45.
Defined.

Lemma compute_angle_bounds_witness :
  ∃ a, compute_angle (mkQuaternionr (3/5) (4/5) 0 0) (3/5) (4/5) 0 0 = Ok a
       ∧ 0 <= a <= PI.
Proof.
  exact (compute_angle_bounds (mkQuaternionr (3/5) (4/5) 0 0) _ _ _ _
           nonzero_35_45 nonzero_35_45).
Defined.

Lemma compute_angle_zero_norm_witness :
  compute_angle (mkQuaternionr 0 0 0 0) 1 0 0 0
  = Raise (ValueError ZeroNormQuat).
Proof.
  apply compute_angle_zero_norm. left. unfold quat_of, qnorm2. simpl. lra.
Defined.

Lemma compute_angle_scale_witness :
  compute_angle (mkQuaternionr 1 0 0 0) (2 * 1) (2 * 0) (2 * 0) (2 * 0)
  = compute_angle (mkQuaternionr 1 0 0 0) 1 0 0 0.
Proof. apply compute_angle_scale. lra. Defined.

Lemma compute_angle_is_composition_witness :
  compute_angle (mkQuaternionr (3/5) (4/5) 0 0) (3/5) (4/5) 0 0
  = Ok (rotation_angle (qmul (3/5, 4/5, 0, 0) (3/5, 4/5, 0, 0))).
Proof.
  exact (compute_angle_is_composition (mkQuaternionr (3/5) (4/5) 0 0)
           _ _ _ _ unit_35_45 unit_35_45).
Defined.

Lemma identity_pose_fixes_points_witness :
  ∃ p, final_x p = 3 ∧ final_y p = 4 ∧ final_z p = 0
       ∧ point_range p = sqrt (3 * 3 + 4 * 4 + 0 * 0).
Proof.
  eexists. apply (identity_pose_fixes_points (mkQuaternionr 1 0 0 0)).
  apply transform_point_R; unfold quat_of, qnorm2; simpl; lra.
Defined.
