(* ===== verification/Record.v ===== *)
(** * Record: the file name and the text record of a point

    Line 76 builds the name of a sensor's file from the start time of the
    run and the sensor name; line 110 takes the time stamp of a point;
    line 112 formats the record that is written for it. *)

From stdpp Require Import base strings pretty list.
From Stdlib Require Import ZArith Ascii.
From S2P Require Import Prelude Scalar Transform.

(** The newline character of ["\n"]. *)
Definition nl : string := String "010"%char EmptyString.

(** ["%d" % n] *)
Definition fmt_d (n : Z) : string := pretty n.

Section record.
Context {T : Type} `{Scalar T} `{Format T}.

(** Line 76: [f"{time_stamp}_{lidar_name}_pointcloud.asc"]. *)
Definition file_name (time_stamp : T) (lidar_name : string) : string :=
  py_str time_stamp +:+ "_" +:+ lidar_name +:+ "_pointcloud.asc".

(** Line 110: [round(time.time() * 1000)], given the reading of the clock. *)
Definition milli_time_of (now : T) : result Z :=
  py_round (now * 1000)%sc.

(** Line 112: the six ["%f"] fields, the three ["%d"] fields, a space after
    each field and a newline.  The time stamp is an [int] formatted with
    ["%f"]: Python converts it to a float first. *)
Definition format_point (p : Point T) (milli_time : Z) : string :=
  fmt_f (final_x p) +:+ " " +:+ fmt_f (final_y p) +:+ " "
  +:+ fmt_f (final_z p) +:+ " " +:+ fmt_f (point_range p) +:+ " "
  +:+ fmt_f (point_angle p) +:+ " " +:+ fmt_f (of_int milli_time) +:+ " "
  +:+ fmt_d 255 +:+ " " +:+ fmt_d 255 +:+ " " +:+ fmt_d 0 +:+ " " +:+ nl.

End record.

(** ** Strings *)

Lemma string_app_cons (c : ascii) (s1 s2 : string) :
  String c s1 +:+ s2 = String c (s1 +:+ s2).
Proof. reflexivity. Qed.

Lemma string_app_length (s1 s2 : string) :
  String.length (s1 +:+ s2) = String.length s1 + String.length s2.
Proof.
  induction s1 as [|c s1 IH]; [done|].
  rewrite string_app_cons. simpl. by rewrite IH.
Qed.

Lemma string_app_assoc (s1 s2 s3 : string) :
  (s1 +:+ s2) +:+ s3 = s1 +:+ (s2 +:+ s3).
Proof.
  induction s1 as [|c s1 IH]; [done|]. rewrite !string_app_cons. by f_equal.
Qed.

Lemma string_app_nil_r (s : string) : s +:+ "" = s.
Proof.
  induction s as [|c s IH]; [done|]. rewrite string_app_cons. by f_equal.
Qed.

(** Cancellation of a common suffix. *)
Lemma string_app_inv_r (s s1 s2 : string) : s1 +:+ s = s2 +:+ s → s1 = s2.
Proof.
  revert s2. induction s1 as [|c s1 IH]; intros [|c' s2] Heq;
    rewrite ?string_app_cons in Heq.
  - done.
  - apply (f_equal String.length) in Heq.
    simpl in Heq. rewrite !string_app_length in Heq. simpl in Heq. lia.
  - apply (f_equal String.length) in Heq.
    simpl in Heq. rewrite !string_app_length in Heq. simpl in Heq. lia.
  - injection Heq as -> Heq. f_equal. by apply IH.
Qed.

Section record_facts.
Context {T : Type} `{Scalar T} `{Format T}.

(** For one run, distinct sensor names give distinct file names. *)
Lemma file_name_inj (time_stamp : T) (a b : string) :
  file_name time_stamp a = file_name time_stamp b → a = b.
Proof.
  unfold file_name. intros Heq.
  apply String.app_inj, String.app_inj in Heq.
  by apply string_app_inv_r in Heq.
Qed.

(** In one run no two sensors of a duplicate-free list share a file:
    the names built on line 76 are pairwise distinct, whatever the start
    time and however [str] prints it. *)
Theorem file_names_distinct (time_stamp : T) (lidar_names : list string) :
  NoDup lidar_names → NoDup (file_name time_stamp <$> lidar_names).
Proof.
  intros Hnd. apply NoDup_fmap_2; [|done].
  intros a b. apply file_name_inj.
Qed.

(** Every record ends with the fixed colour fields, a space and a newline. *)
Lemma format_point_suffix (p : Point T) (ms : Z) :
  ∃ pre, format_point p ms = pre +:+ " 255 255 0 " +:+ nl.
Proof.
  unfold format_point.
  exists (fmt_f (final_x p) +:+ " " +:+ fmt_f (final_y p) +:+ " "
          +:+ fmt_f (final_z p) +:+ " " +:+ fmt_f (point_range p) +:+ " "
          +:+ fmt_f (point_angle p) +:+ " " +:+ fmt_f (of_int ms)).
  rewrite !string_app_assoc. reflexivity.
Qed.

End record_facts.
