(* ===== verification/Repr.v ===== *)
(** * Repr: how Python prints a float

    Line 76 interpolates the start time into the file name; an f-string
    prints a float as [repr] does.  [repr] of a finite float is the
    shortest decimal that reads back as the same float, the reader rounding
    to nearest, ties to even; of the shortest ones it is the nearest to
    the float.  It is printed in fixed notation when the decimal point
    falls within the digits or up to four places before and sixteen after
    their start, and with an exponent otherwise.

    The float [m * 2 ^ e] owns the decimals between the two midpoints to
    its neighbours, the midpoints included when [m] is even.  Everything is
    computed in integers: [in_interval c k] compares [c * 10 ^ k] with the
    midpoints after both sides were multiplied by the powers of 2 and 10
    that make them integers.  [shortest] tries the decimal exponents from
    above; the first at which the interval holds a multiple of [10 ^ k]
    gives the digits. *)

From Stdlib Require Import ZArith Floats Lia.
From stdpp Require Import base strings pretty list.
From S2P Require Import Prelude.

Local Open Scope Z_scope.

(** ** The digits *)

Section digits.
Variables (m : positive) (e : Z).

(** The float is a power of two above the subnormal range: the float below
    is at half the distance of the float above. *)
Definition at_binade_start : bool := (Z.pos m =? 2 ^ 52) && (-1074 <? e).

(** The float and the two midpoints, in units of [2 ^ (e - 2)]. *)
Definition iv_mid : Z := 4 * Z.pos m.
Definition iv_lo : Z := 4 * Z.pos m - (if at_binade_start then 1 else 2).
Definition iv_hi : Z := 4 * Z.pos m + 2.

(** The midpoints read as the float itself when its mantissa is even. *)
Definition iv_closed : bool := Z.even (Z.pos m).

(** [c * 10 ^ k] against [v * 2 ^ (e - 2)]: the two factors that make both
    integers. *)
Definition dec_scale (k : Z) : Z := 10 ^ Z.max k 0 * 2 ^ Z.max (2 - e) 0.
Definition bin_scale (k : Z) : Z := 10 ^ Z.max (- k) 0 * 2 ^ Z.max (e - 2) 0.

(** [c * 10 ^ k] reads back as the float. *)
Definition in_interval (c k : Z) : bool :=
  let a := c * dec_scale k in
  if iv_closed
  then (iv_lo * bin_scale k <=? a) && (a <=? iv_hi * bin_scale k)
  else (iv_lo * bin_scale k <? a) && (a <? iv_hi * bin_scale k).

(** The multiples of [10 ^ k] next to the float, below and above. *)
Definition floor_at (k : Z) : Z := iv_mid * bin_scale k / dec_scale k.

Definition ceil_at (k : Z) : Z :=
  if iv_mid * bin_scale k mod dec_scale k =? 0 then floor_at k
  else floor_at k + 1.

(** The one below is nearer to the float, or as near and even. *)
Definition floor_nearer (k : Z) : bool :=
  let x2 := 2 * iv_mid * bin_scale k in
  let s := (floor_at k + ceil_at k) * dec_scale k in
  (x2 <? s) || ((x2 =? s) && Z.even (floor_at k)).

(** The digits with last place [10 ^ k], if such a decimal reads back. *)
Definition digits_at (k : Z) : option Z :=
  match in_interval (floor_at k) k, in_interval (ceil_at k) k with
  | true, true => Some (if floor_nearer k then floor_at k else ceil_at k)
  | true, false => Some (floor_at k)
  | false, true => Some (ceil_at k)
  | false, false => None
  end.

(** The search, from the last place [10 ^ k] down. *)
Fixpoint shortest_from (fuel : nat) (k : Z) : option (Z * Z) :=
  match fuel with
  | O => None
  | S fuel' =>
      match digits_at k with
      | Some c => Some (c, k)
      | None => shortest_from fuel' (k - 1)
      end
  end.

(** A place above every decimal of the interval, and the place at which
    the float itself is a decimal. *)
Definition k_top : Z := Z.log2 (iv_hi * 2 ^ Z.max (e - 2) 0) / 3 + 1.
Definition k_bottom : Z := Z.min 0 (e - 2).

Definition shortest : option (Z * Z) :=
  shortest_from (Z.to_nat (k_top - k_bottom + 1)) k_top.

(** ** The interval and the two neighbours *)

(** [in_interval] as a proposition. *)
Definition owns (c k : Z) : Prop :=
  if iv_closed
  then iv_lo * bin_scale k <= c * dec_scale k <= iv_hi * bin_scale k
  else iv_lo * bin_scale k < c * dec_scale k < iv_hi * bin_scale k.

Lemma in_interval_owns c k : in_interval c k = true ↔ owns c k.
Proof.
  unfold in_interval, owns. destruct iv_closed; cbv zeta;
    rewrite andb_true_iff, ?Z.leb_le, ?Z.ltb_lt; done.
Qed.

Lemma dec_scale_pos k : 0 < dec_scale k.
Proof. unfold dec_scale. apply Z.mul_pos_pos; apply Z.pow_pos_nonneg; lia. Qed.

Lemma bin_scale_pos k : 0 < bin_scale k.
Proof. unfold bin_scale. apply Z.mul_pos_pos; apply Z.pow_pos_nonneg; lia. Qed.

Lemma iv_order : 0 < iv_lo ∧ iv_lo < iv_mid ∧ iv_mid < iv_hi.
Proof. unfold iv_lo, iv_mid, iv_hi. destruct at_binade_start; lia. Qed.

(** The float itself is in its interval: strictly between the midpoints. *)
Lemma owns_between c k :
  iv_lo * bin_scale k < c * dec_scale k < iv_hi * bin_scale k → owns c k.
Proof. unfold owns. destruct iv_closed; lia. Qed.

Lemma floor_at_spec k :
  floor_at k * dec_scale k <= iv_mid * bin_scale k
  < (floor_at k + 1) * dec_scale k.
Proof.
  unfold floor_at. pose proof (dec_scale_pos k) as HA.
  pose proof (Z.mul_div_le (iv_mid * bin_scale k) _ HA).
  pose proof (Z.mul_succ_div_gt (iv_mid * bin_scale k) _ HA). lia.
Qed.

Lemma ceil_at_spec k :
  iv_mid * bin_scale k <= ceil_at k * dec_scale k
  ∧ floor_at k <= ceil_at k <= floor_at k + 1.
Proof.
  unfold ceil_at. pose proof (floor_at_spec k) as Hfl.
  pose proof (dec_scale_pos k) as HA. case_match eqn:Hmod; [|lia].
  apply Z.eqb_eq in Hmod. split; [|lia]. unfold floor_at.
  pose proof (Z.div_mod (iv_mid * bin_scale k) (dec_scale k)). lia.
Qed.

(** A decimal of the interval is below the lower neighbour or above the
    upper one, which is then in the interval too. *)
Lemma owns_floor c k :
  owns c k → c * dec_scale k <= iv_mid * bin_scale k → owns (floor_at k) k.
Proof.
  pose proof (floor_at_spec k) as Hfl. pose proof (dec_scale_pos k) as HA.
  pose proof (bin_scale_pos k) as HB. pose proof iv_order as Hiv.
  intros Hc Hle. assert (c <= floor_at k) by nia.
  unfold owns in *. destruct iv_closed; nia.
Qed.

Lemma owns_ceil c k :
  owns c k → iv_mid * bin_scale k < c * dec_scale k → owns (ceil_at k) k.
Proof.
  pose proof (floor_at_spec k) as Hfl. pose proof (ceil_at_spec k) as Hce.
  pose proof (dec_scale_pos k) as HA. pose proof (bin_scale_pos k) as HB.
  pose proof iv_order as Hiv.
  intros Hc Hlt. assert (ceil_at k <= c) by nia.
  unfold owns in *. destruct iv_closed; nia.
Qed.

Lemma digits_at_sound k c : digits_at k = Some c → owns c k.
Proof.
  unfold digits_at.
  destruct (in_interval (floor_at k) k) eqn:Hfl,
    (in_interval (ceil_at k) k) eqn:Hce; intros [= <-];
    try case_match; by apply in_interval_owns.
Qed.

Lemma digits_at_complete k c : owns c k → is_Some (digits_at k).
Proof.
  intros Hc. unfold digits_at.
  destruct (Z.le_gt_cases (c * dec_scale k) (iv_mid * bin_scale k)) as [Hle|Hgt].
  - apply (owns_floor _ _ Hc), in_interval_owns in Hle as ->. by case_match.
  - apply (owns_ceil _ _ Hc), in_interval_owns in Hgt as ->. by repeat case_match.
Qed.

(** Of the decimals of the interval with last place [10 ^ k], the digits
    are the nearest to the float. *)
Lemma digits_at_nearest k c c' :
  digits_at k = Some c → owns c' k →
  Z.abs (c * dec_scale k - iv_mid * bin_scale k)
  <= Z.abs (c' * dec_scale k - iv_mid * bin_scale k).
Proof.
  pose proof (floor_at_spec k) as Hfl. pose proof (ceil_at_spec k) as Hce.
  pose proof (dec_scale_pos k) as HA. intros Hd Hc'.
  destruct (Z.le_gt_cases (c' * dec_scale k) (iv_mid * bin_scale k))
    as [Hle|Hgt].
  - assert (c' <= floor_at k) by nia.
    pose proof (owns_floor _ _ Hc' Hle) as Hin%in_interval_owns.
    unfold digits_at, floor_nearer in Hd. rewrite Hin in Hd.
    destruct (in_interval (ceil_at k) k); [|injection Hd as <-; nia].
    case_match eqn:Hn; injection Hd as <-; [nia|].
    apply orb_false_iff in Hn as [Hn%Z.ltb_ge _]. nia.
  - assert (ceil_at k <= c') by nia.
    pose proof (owns_ceil _ _ Hc' Hgt) as Hin%in_interval_owns.
    unfold digits_at, floor_nearer in Hd. rewrite Hin in Hd.
    destruct (in_interval (floor_at k) k); [|injection Hd as <-; nia].
    case_match eqn:Hn; injection Hd as <-; [|nia].
    apply orb_true_iff in Hn as [Hn%Z.ltb_lt|[Hn%Z.eqb_eq _]%andb_true_iff];
      nia.
Qed.

(** ** The search *)

Lemma shortest_from_sound fuel k c k' :
  shortest_from fuel k = Some (c, k') →
  digits_at k' = Some c ∧ k' <= k
  ∧ ∀ k'', k' < k'' <= k → digits_at k'' = None.
Proof.
  revert k. induction fuel as [|fuel IH]; intros k; [done|]. simpl.
  destruct (digits_at k) as [c0|] eqn:Hk.
  - intros [= -> ->]. split_and!; [done|lia|lia].
  - intros (Hd & Hle & Hnone)%IH. split_and!; [done|lia|].
    intros k'' Hk''. destruct (decide (k'' = k)) as [->|]; [done|].
    apply Hnone. lia.
Qed.

Lemma shortest_from_complete fuel k kb :
  is_Some (digits_at kb) → kb <= k → k - kb < Z.of_nat fuel →
  is_Some (shortest_from fuel k).
Proof.
  intros Hkb. revert k. induction fuel as [|fuel IH]; intros k Hle Hfuel;
    [lia|]. simpl.
  destruct (digits_at k) as [c0|] eqn:Hk; [by eexists|].
  apply IH; [|lia]. destruct (decide (kb = k)) as [->|]; [|lia].
  rewrite Hk in Hkb. by destruct Hkb.
Qed.

(** At the bottom place the float is a decimal. *)
Lemma dec_scale_bottom_divides :
  (dec_scale k_bottom | bin_scale k_bottom).
Proof.
  unfold dec_scale, bin_scale, k_bottom.
  destruct (Z.le_gt_cases 0 (e - 2)) as [He|He].
  - replace (Z.min 0 (e - 2)) with 0 by lia.
    replace (Z.max 0 0) with 0 by lia. replace (Z.max (2 - e) 0) with 0 by lia.
    rewrite !Z.pow_0_r. apply Z.divide_1_l.
  - replace (Z.min 0 (e - 2)) with (e - 2) by lia.
    replace (Z.max (e - 2) 0) with 0 by lia.
    replace (Z.max (2 - e) 0) with (2 - e) by lia.
    replace (Z.max (- (e - 2)) 0) with (2 - e) by lia.
    rewrite !Z.pow_0_r. change 10 with (2 * 5). rewrite Z.pow_mul_l.
    exists (5 ^ (2 - e)). ring.
Qed.

Lemma digits_at_bottom : is_Some (digits_at k_bottom).
Proof.
  apply (digits_at_complete _ (floor_at k_bottom)), owns_between.
  pose proof (bin_scale_pos k_bottom) as HB. pose proof iv_order as Hiv.
  pose proof (dec_scale_pos k_bottom) as HA.
  destruct dec_scale_bottom_divides as [q Hq].
  assert (floor_at k_bottom * dec_scale k_bottom = iv_mid * bin_scale k_bottom)
    as ->; [|nia].
  unfold floor_at. rewrite Hq, Z.mul_assoc, Z.div_mul by lia. done.
Qed.

(** No decimal of the interval has its last place above the top place. *)
Lemma k_top_bound : iv_hi * 2 ^ Z.max (e - 2) 0 < 10 ^ k_top.
Proof.
  unfold k_top. set (v := iv_hi * 2 ^ Z.max (e - 2) 0).
  assert (Hv : 0 < v).
  { apply Z.mul_pos_pos; [pose proof iv_order; lia|].
    apply Z.pow_pos_nonneg; lia. }
  pose proof (Z.log2_nonneg v) as Hl.
  pose proof (Z.log2_spec v Hv) as [_ Hlt].
  apply (Z.lt_le_trans _ _ _ Hlt).
  transitivity (2 ^ (3 * (Z.log2 v / 3 + 1))).
  - apply Z.pow_le_mono_r; [lia|].
    pose proof (Z.mul_succ_div_gt (Z.log2 v) 3). lia.
  - rewrite Z.pow_mul_r by (try apply Z.div_pos; lia || (pose proof (Z.div_pos (Z.log2 v) 3); lia)).
    apply Z.pow_le_mono_l. change (2 ^ 3) with 8. lia.
Qed.

Lemma above_top c k : k_top < k → ¬ owns c k.
Proof.
  intros Hk Hc. pose proof k_top_bound as Htop.
  pose proof iv_order as Hiv. pose proof (dec_scale_pos k) as HA.
  assert (Hk0 : 0 < k_top).
  { unfold k_top. pose proof (Z.div_pos (Z.log2 (iv_hi * 2 ^ Z.max (e - 2) 0)) 3).
    pose proof (Z.log2_nonneg (iv_hi * 2 ^ Z.max (e - 2) 0)). lia. }
  assert (HB : bin_scale k = 2 ^ Z.max (e - 2) 0).
  { unfold bin_scale. rewrite (Z.max_r (- k)) by lia. change (10 ^ 0) with 1. lia. }
  assert (H10 : 10 ^ k_top <= dec_scale k).
  { unfold dec_scale. rewrite (Z.max_l k) by lia.
    pose proof (Z.pow_le_mono_r 10 k_top k). 
    assert (0 < 2 ^ Z.max (2 - e) 0) by (apply Z.pow_pos_nonneg; lia).
    assert (0 < 10 ^ k) by (apply Z.pow_pos_nonneg; lia). nia. }
  assert (Hp : 0 < 2 ^ Z.max (e - 2) 0) by (apply Z.pow_pos_nonneg; lia).
  assert (1 <= c).
  { unfold owns in Hc. rewrite HB in Hc. destruct iv_closed; nia. }
  unfold owns in Hc. rewrite HB in Hc. destruct iv_closed; nia.
Qed.

(** ** The two theorems *)

(** The search always ends, and its digits read back as the float. *)
Theorem shortest_reads_back :
  ∃ c k, shortest = Some (c, k) ∧ in_interval c k = true.
Proof.
  destruct (shortest_from_complete (Z.to_nat (k_top - k_bottom + 1)) k_top
              k_bottom) as [[c k] Hs].
  - apply digits_at_bottom.
  - unfold k_bottom, k_top.
    pose proof (Z.div_pos (Z.log2 (iv_hi * 2 ^ Z.max (e - 2) 0)) 3).
    pose proof (Z.log2_nonneg (iv_hi * 2 ^ Z.max (e - 2) 0)). lia.
  - lia.
  - exists c, k. split; [done|].
    apply shortest_from_sound in Hs as (Hd & _). 
    by apply in_interval_owns, digits_at_sound.
Qed.

(** No decimal with fewer digits reads back as the float: every decimal
    of the interval has its last place at or below that of the digits. *)
Theorem shortest_is_shortest c k c' k' :
  shortest = Some (c, k) → in_interval c' k' = true → k' <= k.
Proof.
  intros (Hd & Hle & Hnone)%shortest_from_sound Hc'%in_interval_owns.
  destruct (Z.le_gt_cases k' k) as [|Hgt]; [done|].
  destruct (Z.le_gt_cases k' k_top) as [Htop|Htop].
  - apply digits_at_complete in Hc'. rewrite Hnone in Hc' by lia.
    by destruct Hc'.
  - by apply above_top in Hc'.
Qed.

(** Of the shortest decimals that read back as the float, the digits are
    the nearest to it. *)
Theorem shortest_is_nearest c k c' :
  shortest = Some (c, k) → in_interval c' k = true →
  Z.abs (c * dec_scale k - iv_mid * bin_scale k)
  <= Z.abs (c' * dec_scale k - iv_mid * bin_scale k).
Proof.
  intros (Hd & _)%shortest_from_sound Hc'%in_interval_owns.
  by apply digits_at_nearest.
Qed.

(** A decimal that ends in 0 is the decimal of one digit less. *)
Lemma owns_shift q k : owns (10 * q) k → owns q (k + 1).
Proof.
  unfold owns, dec_scale, bin_scale.
  assert (Hp : 0 < 2 ^ Z.max (2 - e) 0) by (apply Z.pow_pos_nonneg; lia).
  assert (Hq : 0 < 2 ^ Z.max (e - 2) 0) by (apply Z.pow_pos_nonneg; lia).
  destruct (Z.le_gt_cases 0 k) as [Hk|Hk].
  - replace (Z.max (k + 1) 0) with (Z.succ k) by lia.
    replace (Z.max k 0) with k by lia.
    replace (Z.max (- (k + 1)) 0) with 0 by lia.
    replace (Z.max (- k) 0) with 0 by lia.
    rewrite Z.pow_succ_r by done. destruct iv_closed; nia.
  - replace (Z.max (k + 1) 0) with 0 by lia.
    replace (Z.max k 0) with 0 by lia.
    replace (Z.max (- (k + 1)) 0) with (- k - 1) by lia.
    replace (Z.max (- k) 0) with (Z.succ (- k - 1)) by lia.
    rewrite Z.pow_succ_r by lia.
    assert (0 < 10 ^ (- k - 1)) by (apply Z.pow_pos_nonneg; lia).
    destruct iv_closed; nia.
Qed.

(** The digits do not end in 0. *)
Theorem shortest_no_trailing_zero c k :
  shortest = Some (c, k) → c mod 10 ≠ 0.
Proof.
  intros Hs Hmod. pose proof Hs as (Hd & _)%shortest_from_sound.
  apply digits_at_sound in Hd.
  rewrite (Z.div_mod c 10), Hmod, Z.add_0_r in Hd by done.
  apply owns_shift, in_interval_owns in Hd.
  apply (shortest_is_shortest _ _ _ _ Hs) in Hd. lia.
Qed.

End digits.

(** ** The text *)

Fixpoint zeros (n : nat) : string :=
  match n with
  | O => ""
  | S n' => "0" +:+ zeros n'
  end.

(** The digits [ds] with the decimal point [decpt] places behind their
    start, in fixed notation. *)
Definition repr_fixed (ds : string) (decpt : Z) : string :=
  let n := Z.of_nat (String.length ds) in
  if decpt <=? 0 then "0." +:+ zeros (Z.to_nat (- decpt)) +:+ ds
  else if n <=? decpt then ds +:+ zeros (Z.to_nat (decpt - n)) +:+ ".0"
  else String.substring 0 (Z.to_nat decpt) ds +:+ "."
       +:+ String.substring (Z.to_nat decpt) (Z.to_nat (n - decpt)) ds.

(** The same with an exponent of at least two digits. *)
Definition repr_exp (ds : string) (decpt : Z) : string :=
  let n := String.length ds in
  let x := decpt - 1 in
  String.substring 0 1 ds
  +:+ (if decide (1 < n)%nat then "." +:+ String.substring 1 (n - 1) ds else "")
  +:+ "e" +:+ (if x <? 0 then "-" else "+")
  +:+ (if Z.abs x <? 10 then "0" else "") +:+ pretty (Z.abs x).

(** The text of the digits [c] with last place [10 ^ k]: fixed notation
    when the decimal point falls between four places before the digits and
    sixteen behind their start. *)
Definition repr_digits (c k : Z) : string :=
  let ds := pretty c in
  let decpt := k + Z.of_nat (String.length ds) in
  if (-4 <? decpt) && (decpt <=? 16) then repr_fixed ds decpt
  else repr_exp ds decpt.

(** [repr(x)], which is also [str(x)] and what an f-string prints. *)
Definition float_repr (x : float) : string :=
  match Prim2SF x with
  | S754_nan => "nan"
  | S754_infinity s => (if s then "-" else "") +:+ "inf"
  | S754_zero s => (if s then "-" else "") +:+ "0.0"
  | S754_finite s m e =>
      match shortest m e with
      | Some (c, k) => (if s then "-" else "") +:+ repr_digits c k
      | None => ""
      end
  end.

(** C34: what [repr] prints for a finite float [x], of mantissa [m] and
    exponent [e], are the digits of the shortest decimal that reads back
    as [x]: the decimal is in the rounding interval of [x], no decimal
    with fewer digits is, none with as many is nearer to [x], and it does
    not end in 0. *)
Theorem float_repr_shortest x s m e :
  Prim2SF x = S754_finite s m e →
  ∃ c k,
    float_repr x = (if s then "-" else "") +:+ repr_digits c k
    ∧ in_interval m e c k = true
    ∧ (∀ c' k', in_interval m e c' k' = true →
         k' <= k
         ∧ (k' = k →
            Z.abs (c * dec_scale e k - iv_mid m * bin_scale e k)
            <= Z.abs (c' * dec_scale e k - iv_mid m * bin_scale e k)))
    ∧ c mod 10 ≠ 0.
Proof.
  intros Hx. destruct (shortest_reads_back m e) as (c & k & Hs & Hin).
  exists c, k. unfold float_repr. rewrite Hx, Hs.
  split_and!; [done|done| |by eapply shortest_no_trailing_zero].
  intros c' k' Hin'. split; [by eapply shortest_is_shortest|].
  intros ->. by eapply shortest_is_nearest.
Qed.

(** The start time of the worked example, 1700000000.123. *)
Lemma float_repr_shortest_witness :
  ∃ c k,
    float_repr 0x1.954fc4007df3bp+30
    = (if false then "-" else "") +:+ repr_digits c k
    ∧ in_interval 7130316800515899 (-22) c k = true
    ∧ (∀ c' k', in_interval 7130316800515899 (-22) c' k' = true →
         k' <= k
         ∧ (k' = k →
            Z.abs (c * dec_scale (-22) k
                   - iv_mid 7130316800515899 * bin_scale (-22) k)
            <= Z.abs (c' * dec_scale (-22) k
                      - iv_mid 7130316800515899 * bin_scale (-22) k)))
    ∧ c mod 10 ≠ 0.
Proof.
  apply (float_repr_shortest 0x1.954fc4007df3bp+30 false 7130316800515899
           (-22)).
  vm_compute. reflexivity.
Defined.

Example float_repr_time : float_repr 0x1.954fc4007df3bp+30 = "1700000000.123".
Proof. vm_compute. reflexivity. Qed.

(** Values of [repr(x)] computed by CPython 3.11. *)
Definition cpython_repr : list (float * string) := [
  (0x0.0p+0, "0.0");
  (-0x0.0p+0, "-0.0");
  (0x1.0000000000000p+0, "1.0");
  (-0x1.0000000000000p+0, "-1.0");
  (0x1.0000000000000p-1, "0.5");
  (0x1.999999999999ap-4, "0.1");
  (0x1.999999999999ap-3, "0.2");
  (0x1.3333333333333p-2, "0.3");
  (0x1.5555555555555p-2, "0.3333333333333333");
  (0x1.5555555555555p-1, "0.6666666666666666");
  (0x1.954fc4007df3bp+30, "1700000000.123");
  (0x1.954fc40000000p+30, "1700000000.0");
  (0x1.1c37937e08000p+53, "1e+16");
  (0x1.c6bf526340000p+49, "1000000000000000.0");
  (0x1.1c37937e07fffp+53, "9999999999999998.0");
  (0x1.6345785d8a000p+56, "1e+17");
  (0x1.aa535d3d0c000p+53, "1.5e+16");
  (0x1.b69b4ba630f35p+56, "1.2345678901234568e+17");
  (0x1.0f0cf064dd592p+73, "1e+22");
  (0x1.52d02c7e14af6p+76, "1e+23");
  (0x1.a36e2eb1c432dp-14, "0.0001");
  (0x1.4f8b588e368f1p-17, "1e-05");
  (0x1.02c9dedbc309dp-13, "0.0001234");
  (0x1.9e0fcaf9380fcp-17, "1.234e-05");
  (0x1.921fb54442d18p+1, "3.141592653589793");
  (0x1.5bf0a8b145769p+1, "2.718281828459045");
  (0x1.9000000000000p+6, "100.0");
  (0x1.249ad2594c37dp+332, "1e+100");
  (0x1.8000000000000p+0, "1.5");
  (0x1.0000000000000p+53, "9007199254740992.0");
  (0x1.0000000000000p+52, "4503599627370496.0");
  (0x1.3333333333334p-2, "0.30000000000000004");
  (0x1.b1ae4d6e2ef50p+69, "1e+21");
  (0x1.091b5aeffdb8ep-23, "1.2345e-07");
  (-0x1.954fc4007df3bp+30, "-1700000000.123");
  (0x1.fe00000000000p+7, "255.0");
  (0x1.1666666666666p+2, "4.35");
  (0x1.0c6f7a0b5ed8dp-20, "1e-06");
  (0x1.0000000000000p+70, "1.1805916207174113e+21");
  (0x1.0000000000000p-20, "9.5367431640625e-07");
  (0x1.78c29dccccccdp+23, "12345678.9");
  (0x1.0000000000000p+56, "7.205759403792794e+16");
  (0x1.bda5119ce075fp-11, "0.00085");
  (nan, "nan");
  (infinity, "inf");
  (neg_infinity, "-inf")
]%float.

Example float_repr_cpython :
  forallb (λ t, String.eqb (float_repr t.1) t.2) cpython_repr = true.
Proof. vm_compute. reflexivity. Qed.
