(* ===== verification/FloatModel.v ===== *)
(** * FloatModel: the transformer in IEEE binary64

    The numbers of the running script are binary64 floats.  [float_scalar]
    reads the operations of [Scalar] as the kernel's primitive floats, which
    follow IEEE 754 with rounding to nearest, ties to even, as CPython does
    on the usual platforms.  [x ** 2] is read as [x * x] and the rows of
    [np.matmul] are summed left to right without fused multiply-add.

    One function of the platform is a parameter ([Platform]): the C
    library's [acos], which is not correctly rounded and differs between
    libraries.  [math.acos] raises outside [-1, 1] whatever the library
    returns there.  Python's [repr] of a float, used in the file name, is
    [float_repr] of [Repr.v].

    [float_round] is [round(x)], [float_of_int] is [float(n)] and
    [float_fmt_f] is ["%f" % x]; all three are computed exactly from the
    mantissa and the exponent of the float. *)

From Stdlib Require Import ZArith Floats Lia.
From stdpp Require Import base strings pretty list.
From S2P Require Import Prelude Scalar PyList Transform Record Repr.

Local Open Scope Z_scope.

(** ** The platform *)

Class Platform : Type := {
  libm_acos : float → float;
}.

(** ** Conversions *)

(** [float(n)]: the nearest float, ties to even. *)
Definition float_of_int (n : Z) : float :=
  SF2Prim (binary_normalize prec emax n 0 false).

(** [n / d] rounded to the nearest integer, ties to even, for [d > 0]. *)
Definition round_half_even (n d : Z) : Z :=
  let q := n / d in
  match (2 * (n mod d)) ?= d with
  | Lt => q
  | Gt => q + 1
  | Eq => if Z.even q then q else q + 1
  end.

(** [m * 2^e * k] rounded to the nearest integer, ties to even. *)
Definition scaled_magnitude (m : positive) (e : Z) (k : Z) : Z :=
  if 0 <=? e then Z.pos m * 2 ^ e * k
  else round_half_even (Z.pos m * k) (2 ^ (- e)).

(** [round(x)]: [ValueError] for a NaN, [OverflowError] for an infinity. *)
Definition float_round (x : float) : result Z :=
  match Prim2SF x with
  | S754_nan => Raise (ValueError NanToInt)
  | S754_infinity _ => Raise OverflowError
  | S754_zero _ => Ok 0
  | S754_finite s m e =>
      let n := scaled_magnitude m e 1 in Ok (if s then - n else n)
  end.

(** The six digits after the point. *)
Definition pad6 (f : Z) : string :=
  String.substring 1 6 (pretty (1000000 + f)).

Definition sign_str (s : bool) : string := if s then "-" else "".

(** ["%f" % x]: six digits after the point, correctly rounded. *)
Definition float_fmt_f (x : float) : string :=
  match Prim2SF x with
  | S754_nan => "nan"
  | S754_infinity s => sign_str s +:+ "inf"
  | S754_zero s => sign_str s +:+ "0.000000"
  | S754_finite s m e =>
      let n := scaled_magnitude m e 1000000 in
      sign_str s +:+ pretty (n / 1000000) +:+ "." +:+ pad6 (n mod 1000000)
  end.

(** ** The [math] module *)

Definition float_math_sqrt (x : float) : result float :=
  let r := PrimFloat.sqrt x in
  if is_nan r && negb (is_nan x) then Raise (ValueError MathDomain) else Ok r.

Definition float_math_acos `{Platform} (x : float) : result float :=
  if is_nan x then Ok x
  else if PrimFloat.leb (-1)%float x && PrimFloat.leb x 1%float
       then Ok (libm_acos x)
       else Raise (ValueError MathDomain).

(** ** The instances *)

#[export] Instance float_scalar `{Platform} : Scalar float := {|
  of_int := float_of_int;
  sadd := PrimFloat.add;
  ssub := PrimFloat.sub;
  smul := PrimFloat.mul;
  sneg := PrimFloat.opp;
  spow2 := λ x, PrimFloat.mul x x;
  sdiv := PrimFloat.div;
  c_sqrt := PrimFloat.sqrt;
  math_sqrt := float_math_sqrt;
  math_acos := float_math_acos;
  seqb := PrimFloat.eqb;
  sisnan := is_nan;
|}.

#[export] Instance float_format `{Platform} : Format float := {|
  fmt_f := float_fmt_f;
  py_str := float_repr;
  py_round := float_round;
|}.

(** A platform to run the model on: an [acos] that is exact at 1 and
    -1. *)
Definition test_platform : Platform := {|
  libm_acos := λ x,
    if PrimFloat.eqb x 1 then 0%float
    else if PrimFloat.eqb x (-1) then 0x1.921fb54442d18p+1%float
    else nan;
|}.

(** Values of ["%f" % x] and [round(x)] computed by CPython 3, against
    which the two definitions are checked below. *)
Definition cpython_values : list (float * string * Z) := [
  (0x0.0p+0, "0.000000", (0)%Z);
  (-0x0.0p+0, "-0.000000", (0)%Z);
  (0x1.0000000000000p+0, "1.000000", (1)%Z);
  (-0x1.0000000000000p+0, "-1.000000", (-1)%Z);
  (0x1.0000000000000p-1, "0.500000", (0)%Z);
  (0x1.8000000000000p+0, "1.500000", (2)%Z);
  (0x1.4000000000000p+1, "2.500000", (2)%Z);
  (0x1.0c6f7a0b5ed8dp-21, "0.000000", (0)%Z);
  (0x1.92a737110e454p-20, "0.000002", (0)%Z);
  (0x1.4f8b588e368f1p-19, "0.000003", (0)%Z);
  (-0x1.0c6f7a0b5ed8dp-21, "-0.000000", (0)%Z);
  (0x1.12e0be826d695p-30, "0.000000", (0)%Z);
  (-0x1.12e0be826d695p-30, "-0.000000", (0)%Z);
  (0x1.8bcfe5687b000p+40, "1700000000123.000000", (1700000000123)%Z);
  (0x1.0f0cf064dd592p+73, "10000000000000000000000.000000", (10000000000000000000000)%Z);
  (0x1.d6f34547e6b75p+26, "123456789.123457", (123456789)%Z);
  (0x1.999999999999ap-4, "0.100000", (0)%Z);
  (0x1.0000000000000p+53, "9007199254740992.000000", (9007199254740992)%Z);
  (0x0.0000000000001p-1022, "0.000000", (0)%Z);
  (0x1.ffffef39085f5p-1, "1.000000", (1)%Z);
  (0x1.0000000000001p+0, "1.000000", (1)%Z);
  (0x1.5666666666666p+1, "2.675000", (3)%Z);
  (0x1.34a45851654d6p+10, "1234.567890", (1235)%Z);
  (0x1.f9ad85dfa871ap-4, "0.123456", (0)%Z);
  (0x1.f9ae924f227d0p-4, "0.123457", (0)%Z);
  (0x1.1000000000000p+3, "8.500000", (8)%Z);
  (0x1.3000000000000p+3, "9.500000", (10)%Z);
  (-0x1.4000000000000p+1, "-2.500000", (-2)%Z);
  (0x1.c6bf526340004p+49, "1000000000000000.500000", (1000000000000000)%Z);
  (0x1.921fb54442d18p+1, "3.141593", (3)%Z)
]%float.

(** ** Rounding *)

(** [round_half_even] returns a nearest integer, and the even one of the
    two when the quotient is half-way. *)
Lemma round_half_even_nearest n d :
  0 < d →
  let q := round_half_even n d in
  2 * Z.abs (n - q * d) <= d
  ∧ (2 * Z.abs (n - q * d) = d → Z.even q = true).
Proof.
  intros Hd. unfold round_half_even. cbv zeta.
  pose proof (Z.div_mod n d ltac:(lia)) as Hdm.
  pose proof (Z.mod_pos_bound n d Hd) as Hb.
  destruct (Z.compare_spec (2 * (n mod d)) d) as [Heq|Hlt|Hgt].
  - destruct (Z.even (n / d)) eqn:Hev.
    + split; [lia|done].
    + split; [lia|]. intros _. rewrite Z.even_add, Hev. reflexivity.
  - split; lia.
  - split; lia.
Qed.

(** An integer is its own rounding. *)
Lemma round_half_even_1 n : round_half_even n 1 = n.
Proof.
  unfold round_half_even. rewrite Z.mod_1_r, Z.div_1_r. reflexivity.
Qed.

(** Scaling by [k] and rounding: the result is the value [m * 2 ^ e * k]
    rounded to nearest, ties to even.  [d] is the denominator of the
    value. *)
Lemma scaled_magnitude_nearest m e k :
  0 < k →
  let n := scaled_magnitude m e k in
  let d := 2 ^ Z.max 0 (- e) in
  let v := Z.pos m * 2 ^ Z.max 0 e * k in
  2 * Z.abs (v - n * d) <= d
  ∧ (2 * Z.abs (v - n * d) = d → Z.even n = true).
Proof.
  intros Hk. unfold scaled_magnitude. destruct (0 <=? e) eqn:He; cbv zeta.
  - apply Z.leb_le in He. rewrite Z.max_r, (Z.max_l 0 (- e)) by lia.
    change (2 ^ 0) with 1. split; lia.
  - apply Z.leb_gt in He. rewrite Z.max_l, (Z.max_r 0 (- e)) by lia.
    change (2 ^ 0) with 1. rewrite Z.mul_1_r.
    apply round_half_even_nearest, Z.pow_pos_nonneg; lia.
Qed.

(** The integer that [round] returns for the float [m * 2 ^ e] is the
    nearest one, the even one of two that are equally near: [milli_time]
    is within half a millisecond of the product of line 110. *)
Theorem float_round_nearest m e :
  let n := scaled_magnitude m e 1 in
  let d := 2 ^ Z.max 0 (- e) in
  let v := Z.pos m * 2 ^ Z.max 0 e * 1 in
  2 * Z.abs (v - n * d) <= d
  ∧ (2 * Z.abs (v - n * d) = d → Z.even n = true).
Proof. by apply scaled_magnitude_nearest. Qed.

(** The model of ["%f" % x] prints what CPython prints on each of the
    thirty recorded values: zeros of both signs, numbers next to half a
    unit of the sixth decimal, a subnormal, numbers from 2^53 on and a
    time stamp of the script. *)
Example float_fmt_f_cpython :
  forallb (λ t, String.eqb (float_fmt_f t.1.1) t.1.2) cpython_values = true.
Proof. vm_compute. reflexivity. Qed.

Example float_round_cpython :
  forallb (λ t, match float_round t.1.1 with
                | Ok z => z =? t.2
                | Raise _ => false
                end) cpython_values = true.
Proof. vm_compute. reflexivity. Qed.

Example float_round_errors :
  float_round nan = Raise (ValueError NanToInt)
  ∧ float_round infinity = Raise OverflowError
  ∧ float_round neg_infinity = Raise OverflowError.
Proof. vm_compute. done. Qed.

Local Open Scope float_scope.

(** ** The transformer on binary64 *)

Section binary64.
Context `{Platform}.

(** On every platform whose [acos] is exact at
    1, the scenario "sensor at (0, 0, -1), identity orientations, point
    (3, 4, 0)" yields exactly position (3, 4, -1), range 5.0 and angle 0.0
    in binary64. *)
Theorem end_to_end_binary64 :
  libm_acos 1 = 0 →
  transform_point (H:=float_scalar) (rotation_matrix 1 0 0 0)
    (mkVector3r 0 0 (-1)) 1 0 0 0 (mkQuaternionr 1 0 0 0) [3; 4; 0]
  = Ok {| final_x := 3; final_y := 4; final_z := -1;
          point_range := 5; point_angle := 0 |}.
Proof.
  intros Hacos. cbv -[libm_acos]. rewrite Hacos. reflexivity.
Qed.

(** C9: in binary64 the argument of
    [math.acos] can exceed 1.  For a vehicle and a sensor that both have
    the unit orientation (0, 0.99998027, 0.00628314, 0), as single
    precision numbers, the script raises [ValueError] whatever the C
    library; it does not clamp the argument. *)
Theorem acos_domain_error_binary64 :
  compute_angle (H:=float_scalar)
    (mkQuaternionr 0 0x1.fffd6ap-1 0x1.9bc5aap-8 0)
    0 0x1.fffd6ap-1 0x1.9bc5aap-8 0
  = Raise (ValueError MathDomain).
Proof. vm_compute. reflexivity. Qed.

(** The same happens on small integers: the quaternion (0, 0, 3, 3). *)
Lemma acos_domain_error_small :
  compute_angle (mkQuaternionr 0 0 3 3) 0 0 3 3 = Raise (ValueError MathDomain).
Proof. vm_compute. reflexivity. Qed.

(** The argument of [math.acos] in that run: the float after 1. *)
Lemma angle_arg_above_one :
  let n := norm4 (0, 3, 3, 0) in
  angle_arg (inner_product (0, 3 / n, 3 / n, 0) (0, 3 / n, 3 / n, 0))
  = 0x1.0000000000004p+0.
Proof. vm_compute. reflexivity. Qed.

(** [math.acos] raises exactly on the
    numbers outside [-1, 1]; it returns a NaN unchanged. *)
Theorem float_math_acos_domain x :
  float_math_acos x = Raise (ValueError MathDomain)
  ↔ is_nan x = false ∧ PrimFloat.leb (-1) x && PrimFloat.leb x 1 = false.
Proof.
  unfold float_math_acos.
  destruct (is_nan x), (PrimFloat.leb (-1) x && PrimFloat.leb x 1);
    split; (done || intros [? ?]; done).
Qed.

(** The record of the scenario, taken at time
    1700000000.123: the time stamp 1700000000123 is written with six
    decimals, as every ["%f"] field, and not as an integer. *)
Theorem record_binary64 :
  milli_time_of (H0:=float_format) 0x1.954fc4007df3bp+30
  = Ok 1700000000123%Z
  ∧ format_point {| final_x := 3; final_y := 4; final_z := -1;
                    point_range := 5; point_angle := 0 |} 1700000000123
    = "3.000000 4.000000 -1.000000 5.000000 0.000000 1700000000123.000000 255 255 0 "
      +:+ nl.
Proof. vm_compute. done. Qed.

End binary64.

(** ** Witness *)

#[local] Existing Instance test_platform.

Lemma end_to_end_binary64_witness :
  transform_point (rotation_matrix 1 0 0 0) (mkVector3r 0 0 (-1)) 1 0 0 0
    (mkQuaternionr 1 0 0 0) [3; 4; 0]
  = Ok {| final_x := 3; final_y := 4; final_z := -1;
          point_range := 5; point_angle := 0 |}.
Proof. apply (@end_to_end_binary64 test_platform). reflexivity. Defined.
