(* ===== verification/IntFloat.v ===== *)
(** * IntFloat: integers in binary64

    Line 110 rounds the clock to an [int] and line 112 prints it with
    ["%f"], which converts it back to a float.  This file proves what the
    conversion [float_of_int] does on the integers that [round] can return:
    the float is the integer itself, so nothing is lost on the way and the
    field is the decimal of the integer followed by [".000000"].  The facts
    are proved from the specification of binary64 in the Standard Library
    ([SpecFloat]): [exact_int x n] says that the float [x] is the integer
    [n], [representable n] that [n] is a float of 53 bits times a power of
    two. *)

From Stdlib Require Import ZArith Floats Lia.
From stdpp Require Import base strings pretty list.
From S2P Require Import Prelude Scalar Transform Record Repr FloatModel.

Local Open Scope Z_scope.

(** ** Binary digits and shifts *)

Lemma digits2_pos_bounds (p : positive) :
  2 ^ (Z.pos (digits2_pos p) - 1) ≤ Z.pos p < 2 ^ Z.pos (digits2_pos p).
Proof.
  induction p as [p IH|p IH|]; simpl digits2_pos; [| |done];
    rewrite Pos2Z.inj_succ;
    replace (Z.succ (Z.pos (digits2_pos p)) - 1)
      with (Z.succ (Z.pos (digits2_pos p) - 1)) by lia;
    rewrite !Z.pow_succ_r by lia; lia.
Qed.

Lemma digits2_pos_unique (p : positive) (d : Z) :
  2 ^ (d - 1) ≤ Z.pos p < 2 ^ d → Z.pos (digits2_pos p) = d.
Proof.
  intros [Hlo Hhi]. pose proof (digits2_pos_bounds p) as [Hlo' Hhi'].
  destruct (Z.lt_trichotomy (Z.pos (digits2_pos p)) d) as [Hlt|[->|Hgt]]; [|done|].
  - assert (2 ^ Z.pos (digits2_pos p) ≤ 2 ^ (d - 1))
      by (apply Z.pow_le_mono_r; lia). lia.
  - assert (0 ≤ d ∨ d < 0) as [?|?] by lia.
    + assert (2 ^ d ≤ 2 ^ (Z.pos (digits2_pos p) - 1))
        by (apply Z.pow_le_mono_r; lia). lia.
    + rewrite (Z.pow_neg_r 2 d) in Hhi by lia. lia.
Qed.

Lemma shl_value (p k : positive) :
  Z.pos (Pos.iter xO p k) = Z.pos p * 2 ^ Z.pos k.
Proof.
  induction k as [|k IH] using Pos.peano_ind; [simpl; lia|].
  rewrite Pos.iter_succ, Pos2Z.inj_xO, IH, Pos2Z.inj_succ, Z.pow_succ_r by lia.
  lia.
Qed.

Lemma shl_unique (p m k : positive) :
  Z.pos p = Z.pos m * 2 ^ Z.pos k → p = Pos.iter xO m k.
Proof. rewrite <-shl_value. by intros [= ->]. Qed.

Lemma digits2_pos_shl (p : positive) (k : Z) (q : positive) :
  0 ≤ k → Z.pos q = Z.pos p * 2 ^ k →
  Z.pos (digits2_pos q) = Z.pos (digits2_pos p) + k.
Proof.
  intros Hk Hq. apply digits2_pos_unique. rewrite Hq.
  pose proof (digits2_pos_bounds p) as [Hlo Hhi].
  replace (Z.pos (digits2_pos p) + k - 1)
    with (Z.pos (digits2_pos p) - 1 + k) by lia.
  rewrite !Z.pow_add_r by lia.
  assert (0 < 2 ^ k) by (apply Z.pow_pos_nonneg; lia). nia.
Qed.

(** ** Shifting right what was shifted left *)

Lemma iter_pos_iter {A} (f : A → A) (p : positive) (x : A) :
  SpecFloat.iter_pos f p x = Pos.iter f x p.
Proof.
  revert x. induction p as [p IH|p IH|]; intros x; simpl; [|by rewrite !IH|done].
  by rewrite !IH, <-!Pos.iter_swap.
Qed.

Lemma shr_shl (m k : positive) :
  SpecFloat.iter_pos shr_1 k (Build_shr_record (Z.pos (Pos.iter xO m k)) false false)
  = Build_shr_record (Z.pos m) false false.
Proof.
  rewrite iter_pos_iter.
  induction k as [|k IH] using Pos.peano_ind; [done|].
  by rewrite Pos.iter_succ_r, Pos.iter_succ.
Qed.

(** ** Rounding a mantissa of 53 bits *)

(** The integers that are floats: at most 53 significant bits, below the
    largest exponent. *)
Definition representable (n : Z) : bool :=
  let e := Z.max 0 (Zdigits2 n - 53) in
  (Z.abs n mod 2 ^ e =? 0) && (e <=? 971).

Lemma bounded_canonical (m : positive) (e : Z) :
  Z.pos (digits2_pos m) = 53 → -1074 ≤ e ≤ 971 → bounded prec emax m e = true.
Proof.
  intros Hd He. unfold bounded, canonical_mantissa, fexp, emin, prec, emax.
  rewrite Hd. apply andb_true_intro. split; [apply Z.eqb_eq|apply Z.leb_le]; lia.
Qed.

Lemma shr_fexp_canonical (m : positive) (e : Z) :
  canonical_mantissa prec emax m e = true →
  shr_fexp prec emax (Z.pos m) e loc_Exact
  = (Build_shr_record (Z.pos m) false false, e).
Proof.
  unfold canonical_mantissa, shr_fexp. cbn [Zdigits2]. intros ->%Z.eqb_eq.
  by rewrite Z.sub_diag.
Qed.

(** A float in canonical form is not rounded. *)
Lemma binary_round_aux_canonical (s : bool) (m : positive) (e : Z) :
  bounded prec emax m e = true →
  binary_round_aux prec emax s (Z.pos m) e loc_Exact = S754_finite s m e.
Proof.
  unfold bounded. intros [Hc He]%andb_prop. unfold binary_round_aux.
  rewrite shr_fexp_canonical by done.
  cbn [shr_m loc_of_shr_record round_nearest_even].
  rewrite shr_fexp_canonical by done. cbn [shr_m]. by rewrite He.
Qed.

Lemma fexp_canonical (d : Z) : -1021 ≤ d → fexp prec emax d = d - 53.
Proof. unfold fexp, emin, prec, emax. lia. Qed.

(** At most 53 bits: the mantissa is shifted to the left. *)
Lemma binary_round_small (s : bool) (p : positive) :
  Z.pos (digits2_pos p) ≤ 53 →
  ∃ m e, binary_round prec emax s p 0 = S754_finite s m e
    ∧ Z.pos (digits2_pos m) = 53 ∧ -52 ≤ e ≤ 0
    ∧ Z.pos m = Z.pos p * 2 ^ (- e).
Proof.
  intros Hd. unfold binary_round, shl_align. rewrite fexp_canonical by lia.
  replace (Z.pos (digits2_pos p) + 0 - 53 - 0)
    with (Z.pos (digits2_pos p) + 0 - 53) by lia.
  destruct (Z.pos (digits2_pos p) + 0 - 53) as [|k|k] eqn:Hk; [|lia|].
  - exists p, 0. rewrite binary_round_aux_canonical by (apply bounded_canonical; lia).
    split_and!; (done || lia).
  - exists (Pos.iter xO p k), (Z.neg k).
    assert (Z.pos (digits2_pos (Pos.iter xO p k)) = 53) as Hd'.
    { rewrite (digits2_pos_shl p (Z.pos k)); [lia|lia|apply shl_value]. }
    rewrite binary_round_aux_canonical by (apply bounded_canonical; lia).
    split_and!; [done|done|lia|lia|apply shl_value].
Qed.

(** More than 53 bits of which the low ones are zero: the mantissa is
    shifted to the right and nothing is lost. *)
Lemma binary_round_big (s : bool) (p m : positive) (e : Z) :
  Z.pos p = Z.pos m * 2 ^ e → Z.pos (digits2_pos m) = 53 → 0 < e ≤ 971 →
  binary_round prec emax s p 0 = S754_finite s m e.
Proof.
  intros Hp Hd He. destruct e as [|k|k]; [lia| |lia].
  assert (Z.pos (digits2_pos p) = 53 + Z.pos k) as Hdp.
  { rewrite (digits2_pos_shl m (Z.pos k)); [lia|lia|done]. }
  apply shl_unique in Hp as ->.
  unfold binary_round, shl_align. rewrite fexp_canonical by lia. rewrite Hdp.
  replace (53 + Z.pos k + 0 - 53 - 0) with (Z.pos k) by lia.
  unfold binary_round_aux, shr_fexp. cbn [Zdigits2 shr_record_of_loc].
  rewrite fexp_canonical, Hdp by lia.
  replace (53 + Z.pos k + 0 - 53 - 0) with (Z.pos k) by lia.
  cbn [shr]. rewrite shr_shl. cbn [shr_m loc_of_shr_record round_nearest_even Zdigits2].
  rewrite fexp_canonical, Hd by lia.
  replace (53 + (0 + Z.pos k) - 53 - (0 + Z.pos k)) with 0 by lia.
  cbn [shr shr_m].
  by replace (0 + Z.pos k <=? emax - prec) with true
    by (symmetry; apply Z.leb_le; unfold prec, emax; lia).
Qed.

(** ** The integers that are floats *)

Lemma representable_small (n : Z) : Z.abs n < 2 ^ 53 → representable n = true.
Proof.
  intros Hn. unfold representable.
  assert (Zdigits2 n ≤ 53) as Hd.
  { destruct n as [|p|p]; [done|..]; cbn [Zdigits2] in *;
      pose proof (digits2_pos_bounds p) as [Hlo _];
      apply Z.nlt_ge; intros Hlt;
      assert (2 ^ 53 ≤ 2 ^ (Z.pos (digits2_pos p) - 1))
        by (apply Z.pow_le_mono_r; lia); lia. }
  rewrite Z.max_l by lia. by rewrite Z.pow_0_r, Z.mod_1_r.
Qed.

Lemma representable_shl (m : positive) (e : Z) :
  Z.pos (digits2_pos m) = 53 → 0 ≤ e ≤ 971 →
  representable (Z.pos m * 2 ^ e) = true.
Proof.
  intros Hd He. assert (0 < 2 ^ e) by (apply Z.pow_pos_nonneg; lia).
  destruct (Z.pos m * 2 ^ e) as [|q|q] eqn:Hq; [lia| |lia].
  unfold representable. cbn [Zdigits2].
  rewrite (digits2_pos_shl m e q), Hd by lia.
  replace (Z.max 0 (53 + e - 53)) with e by lia.
  rewrite Z.abs_eq, <-Hq, Z.mod_mul by lia. apply andb_true_intro.
  split; [done|apply Z.leb_le; lia].
Qed.

Lemma representable_opp (n : Z) : representable (- n) = representable n.
Proof. by destruct n. Qed.

Lemma bounded_inv (m : positive) (e : Z) :
  bounded prec emax m e = true →
  Z.pos m < 2 ^ 53 ∧ e ≤ 971 ∧ (0 ≤ e → Z.pos (digits2_pos m) = 53).
Proof.
  unfold bounded, canonical_mantissa, fexp, emin, prec, emax.
  intros [Hc He]%andb_prop. apply Z.eqb_eq in Hc. apply Z.leb_le in He.
  pose proof (digits2_pos_bounds m) as [_ Hhi].
  assert (2 ^ Z.pos (digits2_pos m) ≤ 2 ^ 53) by (apply Z.pow_le_mono_r; lia).
  lia.
Qed.

(** ** Exact quotients *)

Lemma round_half_even_exact (a d : Z) : 0 < d → round_half_even (a * d) d = a.
Proof.
  intros Hd. unfold round_half_even. rewrite Z.div_mul, Z.mod_mul by lia.
  by destruct (Z.compare_spec (2 * 0) d); [lia| |lia].
Qed.

Lemma round_half_even_bounds (n d : Z) :
  n / d ≤ round_half_even n d ≤ n / d + 1.
Proof.
  unfold round_half_even. repeat case_match; lia.
Qed.

Lemma round_half_even_small (m : positive) (e : Z) :
  Z.pos m < 2 ^ 53 → e < 0 → 0 ≤ round_half_even (Z.pos m) (2 ^ (- e)) < 2 ^ 53.
Proof.
  intros Hm He. pose proof (round_half_even_bounds (Z.pos m) (2 ^ (- e))).
  assert (2 ^ 1 ≤ 2 ^ (- e)) by (apply Z.pow_le_mono_r; lia).
  assert (0 ≤ Z.pos m / 2 ^ (- e)) by (apply Z.div_pos; lia).
  assert (Z.pos m / 2 ^ (- e) ≤ Z.pos m / 2 ^ 1)
    by (apply Z.div_le_compat_l; lia).
  assert (Z.pos m / 2 ^ 1 < 2 ^ 52) by (apply Z.div_lt_upper_bound; lia).
  lia.
Qed.

(** ** [float(n)] is [n] *)

Lemma binary_round_exact (s : bool) (p : positive) :
  representable (Z.pos p) = true →
  ∃ m e, binary_round prec emax s p 0 = S754_finite s m e
    ∧ bounded prec emax m e = true
    ∧ ∀ k, scaled_magnitude m e k = Z.pos p * k.
Proof.
  unfold representable. cbn [Zdigits2]. rewrite Z.abs_eq by lia.
  intros [Hmod He]%andb_prop. apply Z.eqb_eq in Hmod. apply Z.leb_le in He.
  destruct (decide (Z.pos (digits2_pos p) ≤ 53)) as [Hd|Hd].
  - destruct (binary_round_small s p Hd) as (m & e & -> & Hm & He' & Hv).
    exists m, e. split_and!; [done|apply bounded_canonical; lia|].
    intros k. unfold scaled_magnitude. destruct (Z.leb_spec 0 e).
    + replace e with 0 in * by lia. rewrite Hv. simpl (2 ^ _). lia.
    + rewrite Hv. replace (Z.pos p * 2 ^ (- e) * k) with (Z.pos p * k * 2 ^ (- e)) by ring.
      apply round_half_even_exact, Z.pow_pos_nonneg; lia.
  - rewrite Z.max_r in Hmod, He by lia.
    set (e := Z.pos (digits2_pos p) - 53) in *.
    assert (0 < 2 ^ e) by (apply Z.pow_pos_nonneg; lia).
    apply Z.div_exact in Hmod; [|lia].
    destruct (Z.pos p / 2 ^ e) as [|m|m] eqn:Hm; [lia| |lia].
    assert (Z.pos p = Z.pos m * 2 ^ e) as Hp by lia.
    assert (Z.pos (digits2_pos m) = 53) as Hdm.
    { pose proof (digits2_pos_shl m e p). lia. }
    exists m, e. rewrite (binary_round_big s p m e) by (done || lia).
    split_and!; [done|apply bounded_canonical; lia|].
    intros k. unfold scaled_magnitude.
    destruct (Z.leb_spec 0 e); [rewrite Hp; ring|lia].
Qed.

Lemma binary_normalize_exact (n : Z) :
  representable n = true → n ≠ 0 →
  ∃ m e, binary_normalize prec emax n 0 false = S754_finite (n <? 0) m e
    ∧ bounded prec emax m e = true
    ∧ ∀ k, scaled_magnitude m e k = Z.abs n * k.
Proof.
  destruct n as [|p|p]; [done|..]; intros Hn _.
  - exact (binary_round_exact false p Hn).
  - exact (binary_round_exact true p Hn).
Qed.

Lemma float_of_int_exact (n : Z) :
  representable n = true → n ≠ 0 →
  ∃ m e, Prim2SF (float_of_int n) = S754_finite (n <? 0) m e
    ∧ ∀ k, scaled_magnitude m e k = Z.abs n * k.
Proof.
  intros Hn Hn0.
  destruct (binary_normalize_exact n Hn Hn0) as (m & e & Hx & Hb & Hk).
  exists m, e. split; [|done]. unfold float_of_int. rewrite Hx.
  by apply Prim2SF_SF2Prim.
Qed.

(** What [round] returns is a float. *)
Lemma float_round_representable (x : float) (n : Z) :
  float_round x = Ok n → representable n = true.
Proof.
  unfold float_round. pose proof (Prim2SF_valid x) as Hv.
  destruct (Prim2SF x) as [s|s| |s m e]; [by intros [= <-]|done|done|].
  apply bounded_inv in Hv as (Hm & He & Hd). intros [= <-].
  assert (representable (scaled_magnitude m e 1) = true) as Hr.
  { unfold scaled_magnitude. destruct (Z.leb_spec 0 e).
    - rewrite Z.mul_1_r. apply representable_shl; [by apply Hd|lia].
    - rewrite Z.mul_1_r. apply representable_small.
      pose proof (round_half_even_small m e Hm). lia. }
  destruct s; [by rewrite representable_opp|done].
Qed.

(** [round(float(n))] is [n]. *)
Theorem float_of_int_round (n : Z) :
  representable n = true → float_round (float_of_int n) = Ok n.
Proof.
  intros Hn. destruct (decide (n = 0)) as [->|Hn0]; [done|].
  destruct (float_of_int_exact n Hn Hn0) as (m & e & Hx & Hk).
  unfold float_round. rewrite Hx, Hk. f_equal. destruct (Z.ltb_spec n 0); lia.
Qed.

(** ["%f" % n] is the decimal of [n] with six zeros. *)
Lemma fmt_f_of_int (n : Z) :
  representable n = true → float_fmt_f (float_of_int n) = pretty n +:+ ".000000".
Proof.
  intros Hn. destruct (decide (n = 0)) as [->|Hn0]; [done|].
  destruct (float_of_int_exact n Hn Hn0) as (m & e & Hx & Hk).
  unfold float_fmt_f. rewrite Hx, Hk, Z.div_mul, Z.mod_mul by lia.
  by destruct n.
Qed.

(** Beyond 53 bits the conversion rounds: 2^53 + 1 is not a float. *)
Example float_of_int_rounds :
  representable (2 ^ 53 + 1) = false
  ∧ float_round (float_of_int (2 ^ 53 + 1)) = Ok (2 ^ 53)
  ∧ float_fmt_f (float_of_int (2 ^ 53 + 1)) = "9007199254740992.000000".
Proof. vm_compute. done. Qed.

(** ** The time stamp of a record *)

Section time_stamp.
Context `{Platform}.

(** The field of the time stamp, for every reading of the clock for which
    line 110 returns. *)
Lemma time_stamp_field (now : float) (ms : Z) :
  milli_time_of now = Ok ms → fmt_f (of_int ms) = pretty ms +:+ ".000000".
Proof. intros Hms. apply fmt_f_of_int. exact (float_round_representable _ ms Hms). Qed.

(** C35: whatever the clock reads, the record of a point ends with the
    millisecond count of line 110 in decimal, six zeros after the point
    and the three colour fields: the [int] is converted to a float for
    ["%f"] and nothing of it is lost, however large it is, because the
    count is a float itself ([representable]). *)
Theorem record_time_stamp (p : Point float) (now : float) (ms : Z) :
  milli_time_of now = Ok ms →
  representable ms = true
  ∧ format_point p ms
    = fmt_f (final_x p) +:+ " " +:+ fmt_f (final_y p) +:+ " "
      +:+ fmt_f (final_z p) +:+ " " +:+ fmt_f (point_range p) +:+ " "
      +:+ fmt_f (point_angle p) +:+ " " +:+ pretty ms
      +:+ ".000000 255 255 0 " +:+ nl.
Proof.
  intros Hms. split; [exact (float_round_representable _ ms Hms)|].
  unfold format_point. rewrite (time_stamp_field now ms Hms).
  by rewrite (string_app_assoc (pretty ms)).
Qed.

End time_stamp.

(** ** Witnesses *)

#[local] Existing Instance test_platform.

Local Open Scope float_scope.

Lemma float_of_int_round_witness :
  float_round (float_of_int (2 ^ 60)) = Ok (2 ^ 60)%Z.
Proof. apply (float_of_int_round (2 ^ 60)). reflexivity. Defined.

Lemma record_time_stamp_witness :
  representable 1700000000123 = true
  ∧ format_point {| final_x := 3; final_y := 4; final_z := -1;
                    point_range := 5; point_angle := 0 |} 1700000000123
    = "3.000000 4.000000 -1.000000 5.000000 0.000000 1700000000123.000000 255 255 0 "
      +:+ nl.
Proof.
  apply (record_time_stamp
           {| final_x := 3; final_y := 4; final_z := -1;
              point_range := 5; point_angle := 0 |}
           0x1.954fc4007df3bp+30 1700000000123).
  vm_compute. reflexivity.
Defined.
