(* ===== verification/Binary64.v ===== *)
(** * Binary64: what the transformer computes exactly

    Two facts about lines 95-108 that hold of the floats the script
    computes with, for all inputs and not only on examples.

    For a sensor at the origin of the world frame with the identity
    orientation the transformer is to return the point it was given and
    its norm.  Over the reals this is [identity_pose_fixes_points] of
    [RealModel.v]; here it is proved for every finite point and without a
    tolerance: the products with the entries 1 and 0 of the matrix and the
    sums with the zeros are exact.  The only difference a reader of the
    file can see is the sign of a zero, which [==] of Python does not see
    either.

    [math.sqrt] of line 100 never raises, because a sum of squares is a
    NaN or not below zero; so a point fails only in [np.matmul] or in the
    angle.

    The facts about the operations are proved from the specification of
    binary64 in the Standard Library ([SpecFloat]): [signed] and
    [not_negative] follow the sign through the rounding, [same_number] is
    equality up to the sign of a zero. *)

From Stdlib Require Import ZArith Floats Lia.
From stdpp Require Import base strings list.
From S2P Require Import Prelude Scalar PyList Transform FloatModel IntFloat.

Local Open Scope Z_scope.

(** ** Numbers and zeros *)

(** The float is a zero. *)
Definition fzero (x : float) : Prop := ∃ s, Prim2SF x = S754_zero s.

(** Two floats that [==] of Python cannot tell apart, one of them being
    a number: the same float or two zeros. *)
Definition same_number (a b : float) : Prop := a = b ∨ (fzero a ∧ fzero b).

Lemma is_finite_spec (x : float) :
  is_finite x = true →
  fzero x ∨ ∃ s m e, Prim2SF x = S754_finite s m e ∧ bounded prec emax m e = true.
Proof.
  unfold is_finite, is_nan, is_infinity. rewrite !FloatAxioms.eqb_spec, abs_spec.
  pose proof (Prim2SF_valid x) as Hv.
  destruct (Prim2SF x) as [s|s| |s m e] eqn:Hx; [left; by exists s|by destruct s|done|].
  intros _. right. by exists s, m, e.
Qed.

Lemma same_number_eqb (a b : float) :
  is_finite b = true → same_number a b → (a =? b)%float = true.
Proof.
  intros Hb Hab. rewrite FloatAxioms.eqb_spec.
  destruct Hab as [->|[[s Ha] [s' Hb']]]; [|by rewrite Ha, Hb'].
  destruct (is_finite_spec b Hb) as [[s ->]|(s & m & e & -> & _)]; [done|].
  unfold SFeqb, SFcompare. rewrite Z.compare_refl, Pos.compare_cont_refl.
  by destruct s.
Qed.

(** ** Products with one and zero *)

Lemma binary_round_aux_shl (s : bool) (m : positive) (e : Z) (k : positive) :
  bounded prec emax m e = true →
  binary_round_aux prec emax s (Z.pos (Pos.iter xO m k)) (e - Z.pos k) loc_Exact
  = S754_finite s m e.
Proof.
  intros Hb. pose proof Hb as [Hc He]%andb_prop. unfold binary_round_aux.
  assert (shr_fexp prec emax (Z.pos (Pos.iter xO m k)) (e - Z.pos k) loc_Exact
          = (Build_shr_record (Z.pos m) false false, e)) as ->.
  { unfold shr_fexp. cbn [Zdigits2 shr_record_of_loc].
    rewrite (digits2_pos_shl m (Z.pos k)) by (lia || apply shl_value).
    replace (Z.pos (digits2_pos m) + Z.pos k + (e - Z.pos k))
      with (Z.pos (digits2_pos m) + e) by lia.
    apply Z.eqb_eq in Hc. rewrite Hc.
    replace (e - (e - Z.pos k)) with (Z.pos k) by lia.
    cbn [shr]. rewrite shr_shl. f_equal. lia. }
  cbn [shr_m loc_of_shr_record round_nearest_even].
  rewrite shr_fexp_canonical by done. cbn [shr_m]. by rewrite He.
Qed.

Lemma float_mul_1_l (x : float) : (1 * x)%float = x.
Proof.
  apply Prim2SF_inj. rewrite mul_spec. pose proof (Prim2SF_valid x) as Hv.
  change (Prim2SF 1) with (S754_finite false 4503599627370496 (-52)).
  destruct (Prim2SF x) as [s|s| |s m e]; [done..|].
  cbn [SF64mul SFmul xorb].
  replace (4503599627370496 * m)%positive with (Pos.iter xO m 52)
    by (symmetry; apply shl_unique; lia).
  replace (-52 + e) with (e - 52) by lia.
  by apply binary_round_aux_shl.
Qed.

Lemma float_mul_0_l (x : float) : is_finite x = true → fzero (0 * x)%float.
Proof.
  intros Hx. unfold fzero. rewrite mul_spec.
  change (Prim2SF 0) with (S754_zero false).
  destruct (is_finite_spec x Hx) as [[s ->]|(s & m & e & -> & _)]; by eexists.
Qed.

(** ** Sums with zeros *)

Lemma float_add_zero_r (a x z : float) :
  is_finite x = true → same_number a x → fzero z → same_number (a + z)%float x.
Proof.
  intros Hx Hax [sz Hz].
  destruct (is_finite_spec x Hx) as [[s Hx0]|(s & m & e & Hxf & _)].
  - right. split; [|by exists s].
    assert (fzero a) as [sa Ha] by (destruct Hax as [->|[? _]]; [by exists s|done]).
    unfold fzero. rewrite add_spec, Ha, Hz. destruct sa, sz; by eexists.
  - left. destruct Hax as [->|[_ [s' Hx0]]]; [|congruence].
    apply Prim2SF_inj. by rewrite add_spec, Hxf, Hz.
Qed.

Lemma float_add_zero_l (x z : float) :
  is_finite x = true → fzero z → same_number (z + x)%float x.
Proof.
  intros Hx [sz Hz].
  destruct (is_finite_spec x Hx) as [[s Hx0]|(s & m & e & Hxf & _)].
  - right. split; [|by exists s].
    unfold fzero. rewrite add_spec, Hx0, Hz. destruct sz, s; by eexists.
  - left. apply Prim2SF_inj. by rewrite add_spec, Hxf, Hz.
Qed.

(** ** The square of the distance to the origin *)

Lemma float_square_sub_0 (a x : float) :
  is_finite x = true → same_number a x →
  ((0 - a) * (0 - a))%float = (x * x)%float.
Proof.
  intros Hx Hax. apply Prim2SF_inj. rewrite !mul_spec, sub_spec.
  change (Prim2SF 0) with (S754_zero false).
  destruct (is_finite_spec x Hx) as [[s Hx0]|(s & m & e & Hxf & _)].
  - assert (fzero a) as [sa ->] by (destruct Hax as [->|[? _]]; [by exists s|done]).
    rewrite Hx0. by destruct sa, s.
  - destruct Hax as [->|[_ [s' Hx0]]]; [|congruence].
    rewrite Hxf. cbn [SF64sub SFsub SF64mul SFmul]. by destruct s.
Qed.

Lemma float_add_zeros (a b : float) : fzero a → fzero b → fzero (a + b)%float.
Proof.
  intros [sa Ha] [sb Hb]. unfold fzero. rewrite add_spec, Ha, Hb.
  destruct sa, sb; by eexists.
Qed.

(** ** Signs: what is rounded keeps its sign *)

(** The result of an operation that carries the sign [s]: a zero, a
    finite float or an infinity of this sign, never a NaN. *)
Definition signed (s : bool) (x : spec_float) : Prop :=
  match x with
  | S754_zero _ => True
  | S754_finite s' _ _ | S754_infinity s' => s' = s
  | S754_nan => False
  end.

(** Not below zero, or a NaN. *)
Definition not_negative (x : spec_float) : Prop :=
  x = S754_nan ∨ signed false x.

Lemma shr_1_nonneg (mrs : shr_record) : 0 ≤ shr_m mrs → 0 ≤ shr_m (shr_1 mrs).
Proof. destruct mrs as [[|[p|p|]|p] r s]; cbn; lia. Qed.

Lemma shr_nonneg (mrs : shr_record) (e n : Z) :
  0 ≤ shr_m mrs → 0 ≤ shr_m (shr mrs e n).1.
Proof.
  intros Hm. destruct n as [|k|k]; [done| |done]. cbn [shr fst].
  rewrite iter_pos_iter. by apply Pos.iter_invariant; [intros; apply shr_1_nonneg|].
Qed.

Lemma shr_fexp_nonneg (m e : Z) (l : location) :
  0 ≤ m → 0 ≤ shr_m (shr_fexp prec emax m e l).1.
Proof. intros Hm. apply shr_nonneg. by destruct l as [|[]]. Qed.

Lemma round_nearest_even_nonneg (m : Z) (l : location) :
  0 ≤ m → 0 ≤ round_nearest_even m l.
Proof. intros Hm. destruct l as [|[]]; cbn; [done| |done|lia]. case_match; lia. Qed.

Lemma binary_round_aux_signed (s : bool) (m e : Z) (l : location) :
  0 ≤ m → signed s (binary_round_aux prec emax s m e l).
Proof.
  intros Hm. unfold binary_round_aux.
  pose proof (shr_fexp_nonneg m e l Hm) as H1.
  destruct (shr_fexp prec emax m e l) as [mrs' e'].
  pose proof (shr_fexp_nonneg _ e' loc_Exact
    (round_nearest_even_nonneg _ (loc_of_shr_record mrs') H1)) as H2.
  destruct (shr_fexp prec emax _ e' loc_Exact) as [mrs'' e''].
  cbn [fst] in H2. destruct (shr_m mrs'') as [|p|p]; [done| |lia].
  by case_match.
Qed.

Lemma binary_normalize_signed (m e : Z) :
  0 ≤ m → signed false (binary_normalize prec emax m e false).
Proof.
  intros Hm. destruct m as [|p|p]; [done| |lia]. cbn [binary_normalize].
  unfold binary_round. destruct (shl_align _ _ _) as [mz ez].
  by apply binary_round_aux_signed.
Qed.

Lemma SFmul_square (x : spec_float) : not_negative (SFmul prec emax x x).
Proof.
  destruct x as [s|s| |s m e]; [right|right|by left|right]; cbn [SFmul].
  - done.
  - by destruct s.
  - replace (xorb s s) with false by (by destruct s).
    by apply binary_round_aux_signed.
Qed.

Lemma SFadd_not_negative (x y : spec_float) :
  not_negative x → not_negative y → not_negative (SFadd prec emax x y).
Proof.
  intros [->|Hx] [->|Hy]; [by left|by left|by destruct x; left|].
  destruct x as [sx|sx| |sx mx ex], y as [sy|sy| |sy my ey]; try done;
    cbn in Hx, Hy; subst; cbn [SFadd]; try (by right);
    try (by destruct sx, sy; right).
  right. apply binary_normalize_signed. cbn [cond_Zopp]. lia.
Qed.

Lemma SFsqrt_not_negative (x : spec_float) :
  signed false x → signed false (SFsqrt prec emax x).
Proof.
  destruct x as [s|s| |s m e]; cbn; [done|by intros ->|done|intros ->].
  unfold SFsqrt_core_binary. cbn [Zdigits2].
  set (m' := match _ - _ with Z.pos _ => _ | _ => _ end).
  pose proof (Z.sqrtrem_sqrt m') as Hq. pose proof (Z.sqrt_nonneg m').
  destruct (Z.sqrtrem m') as [q r]. cbn [fst] in Hq. subst q.
  by apply binary_round_aux_signed.
Qed.

Lemma is_nan_spec (x : float) :
  is_nan x = match Prim2SF x with S754_nan => true | _ => false end.
Proof.
  unfold is_nan. rewrite FloatAxioms.eqb_spec.
  destruct (Prim2SF x) as [s|s| |s m e]; [done|by destruct s|done|].
  unfold SFeqb, SFcompare. rewrite Z.compare_refl, Pos.compare_cont_refl.
  by destruct s.
Qed.

(** [math.sqrt] of a sum of three squares never raises. *)
Lemma float_math_sqrt_squares (a b c : float) :
  float_math_sqrt (a * a + b * b + c * c)%float
  = Ok (sqrt (a * a + b * b + c * c))%float.
Proof.
  unfold float_math_sqrt. set (s := (a * a + b * b + c * c)%float).
  assert (not_negative (Prim2SF s)) as [Hs|Hs].
  { unfold s. rewrite !add_spec, !mul_spec.
    repeat apply SFadd_not_negative; apply SFmul_square. }
  - by rewrite (is_nan_spec s), Hs, andb_false_r.
  - apply SFsqrt_not_negative in Hs. rewrite <-sqrt_spec in Hs.
    rewrite (is_nan_spec (sqrt s)). by destruct (Prim2SF (sqrt s)).
Qed.

(** ** The transformer *)

Section identity_pose.
Context `{Platform}.

Local Open Scope float_scope.

(** The range of line 100 as a float: the C square root of the sum of the
    squares. *)
Definition float_range (position : Vector3r float) (fx fy fz : float) : float :=
  sqrt ((x_val position - fx) * (x_val position - fx)
        + (y_val position - fy) * (y_val position - fy)
        + (z_val position - fz) * (z_val position - fz)).

(** The range of line 100 is always computed: [math.sqrt] is applied to a
    sum of three squares, which is a NaN or not below zero whatever the
    position and the point are, infinities and NaNs included. *)
Lemma compute_range_total (position : Vector3r float) (fx fy fz : float) :
  compute_range position fx fy fz = Ok (float_range position fx fy fz).
Proof. apply float_math_sqrt_squares. Qed.

(** C11: in binary64 the range never raises, whatever the numbers are,
    infinities and NaNs included, and a point fails in two ways only:
    [np.matmul] raises for a slice that is not a triple, and otherwise the
    exception is that of the angle (a quaternion that SciPy rejects, an
    argument of [math.acos] outside [-1, 1]). *)
Theorem transform_point_raises_iff (M : Mat3 float) (position : Vector3r float)
    (q0 q1 q2 q3 : float) (mo : Quaternionr float) (xyz : list float) (e : exn) :
  (∀ fx fy fz,
     compute_range position fx fy fz = Ok (float_range position fx fy fz))
  ∧ (transform_point M position q0 q1 q2 q3 mo xyz = Raise e
     ↔ (length xyz ≠ 3%nat ∧ e = ValueError ShapeMismatch)
       ∨ (length xyz = 3%nat ∧ compute_angle mo q0 q1 q2 q3 = Raise e)).
Proof.
  split; [apply compute_range_total|].
  unfold transform_point, matmul. destruct M as [[r0 r1] r2].
  destruct xyz as [|x [|y [|z [|]]]]; cbn [length];
    rewrite ?bind_Raise, ?bind_Ok, ?compute_range_total, ?bind_Ok;
    [split; [intros [= <-]; by left|by intros [[_ ->]|[? _]]]..| |
     split; [intros [= <-]; by left|by intros [[_ ->]|[? _]]]].
  destruct (compute_angle mo q0 q1 q2 q3) as [a|e'];
    rewrite ?bind_Ok, ?bind_Raise; split; try done.
  - by intros [[? _]|[_ ?]].
  - intros [= ->]. by right.
  - by intros [[? _]|[_ [= ->]]].
Qed.

Lemma rotation_matrix_identity :
  rotation_matrix 1 0 0 0 = ((1, 0, 0), (0, 1, 0), (0, 0, 1)).
Proof. reflexivity. Qed.

Section rows.
Context (x y z : float).
Context (Hx : is_finite x = true) (Hy : is_finite y = true)
  (Hz : is_finite z = true).

Lemma dot3_row0 : same_number (dot3 (1, 0, 0) x y z) x.
Proof.
  unfold dot3. cbn [smul sadd float_scalar]. rewrite float_mul_1_l.
  apply float_add_zero_r; [done| |by apply float_mul_0_l].
  apply float_add_zero_r; [done|by left|by apply float_mul_0_l].
Qed.

Lemma dot3_row1 : same_number (dot3 (0, 1, 0) x y z) y.
Proof.
  unfold dot3. cbn [smul sadd float_scalar]. rewrite float_mul_1_l.
  apply float_add_zero_r; [done| |by apply float_mul_0_l].
  apply float_add_zero_l; [done|by apply float_mul_0_l].
Qed.

Lemma dot3_row2 : same_number (dot3 (0, 0, 1) x y z) z.
Proof.
  unfold dot3. cbn [smul sadd float_scalar]. rewrite float_mul_1_l.
  apply float_add_zero_l; [done|].
  apply float_add_zeros; by apply float_mul_0_l.
Qed.

End rows.

(** The final position of a point for the sensor at the origin. *)
Definition at_origin (row : float * float * float) (x y z : float) : float :=
  dot3 row x y z + 0.

(** C10: for a sensor at the origin of the world frame with the identity
    orientation, on a vehicle of any orientation, the script computes for
    every finite point [(x, y, z)] a position that is the point,
    coordinate by coordinate, up to the sign of a zero ([same_number], so
    that [==] of Python holds), and the range
    [math.sqrt(x*x + y*y + z*z)]; it fails only when the angle does.  In
    binary64 the first testable property of the specification holds
    without any tolerance. *)
Theorem identity_pose_binary64 (mo : Quaternionr float) (x y z : float) :
  is_finite x = true → is_finite y = true → is_finite z = true →
  ∃ fx fy fz,
    transform_point (rotation_matrix 1 0 0 0) (mkVector3r 0 0 0) 1 0 0 0
      mo [x; y; z]
    = (angle ← compute_angle mo 1 0 0 0;
       Ok (mkPoint fx fy fz (sqrt (x * x + y * y + z * z)) angle))
    ∧ (same_number fx x ∧ (fx =? x) = true)
    ∧ (same_number fy y ∧ (fy =? y) = true)
    ∧ (same_number fz z ∧ (fz =? z) = true).
Proof.
  intros Hx Hy Hz.
  pose proof (float_add_zero_r _ x 0 Hx (dot3_row0 x y z Hx Hy Hz)) as Hfx.
  pose proof (float_add_zero_r _ y 0 Hy (dot3_row1 x y z Hx Hy Hz)) as Hfy.
  pose proof (float_add_zero_r _ z 0 Hz (dot3_row2 x y z Hx Hy Hz)) as Hfz.
  exists (at_origin (1, 0, 0) x y z), (at_origin (0, 1, 0) x y z),
    (at_origin (0, 0, 1) x y z).
  assert (fzero 0) as H0 by (by exists false).
  specialize (Hfx H0). specialize (Hfy H0). specialize (Hfz H0).
  split; [|by split_and!; try apply same_number_eqb].
  unfold transform_point. rewrite rotation_matrix_identity.
  unfold matmul, compute_range. rewrite bind_Ok.
  cbn [x_val y_val z_val ssub spow2 sadd math_sqrt float_scalar].
  fold (at_origin (1, 0, 0) x y z) (at_origin (0, 1, 0) x y z)
    (at_origin (0, 0, 1) x y z).
  rewrite (float_square_sub_0 _ x), (float_square_sub_0 _ y),
    (float_square_sub_0 _ z) by done.
  by rewrite float_math_sqrt_squares.
Qed.

End identity_pose.

(** ** The theorems at concrete points *)

#[local] Existing Instance test_platform.

Local Open Scope float_scope.

(** The vehicle turned by a right angle about the vertical axis: the
    point comes out as it is, with the range 5. *)
Lemma identity_pose_binary64_witness :
  ∃ fx fy fz,
    transform_point (rotation_matrix 1 0 0 0) (mkVector3r 0 0 0) 1 0 0 0
      (mkQuaternionr 1 0 0 1) [3; 4; 0]
    = (angle ← compute_angle (mkQuaternionr 1 0 0 1) 1 0 0 0;
       Ok (mkPoint fx fy fz (sqrt (3 * 3 + 4 * 4 + 0 * 0)) angle))
    ∧ (same_number fx 3 ∧ (fx =? 3) = true)
    ∧ (same_number fy 4 ∧ (fy =? 4) = true)
    ∧ (same_number fz 0 ∧ (fz =? 0) = true).
Proof.
  apply (identity_pose_binary64 (mkQuaternionr 1 0 0 1) 3 4 0); reflexivity.
Defined.

(** The sign of a zero is what may differ: the point (-0.0, 1, 0) comes
    out as (0.0, 1, 0), and ["%f"] prints the two zeros differently. *)
Example identity_pose_zero_sign :
  final_x <$> transform_point (rotation_matrix 1 0 0 0) (mkVector3r 0 0 0)
                1 0 0 0 (mkQuaternionr 1 0 0 0) [-0; 1; 0]
  = Ok 0
  ∧ float_fmt_f (-0) = "-0.000000" ∧ float_fmt_f 0 = "0.000000".
Proof. vm_compute. done. Qed.

(** The point has to be finite: an infinity in the point cloud does not
    stop the scan, but the products with the zeros of the matrix turn it
    into NaNs, and these are written to the file. *)
Example transform_point_infinity :
  (λ p, (final_y p, point_range p))
    <$> transform_point (rotation_matrix 1 0 0 0) (mkVector3r 0 0 0)
          1 0 0 0 (mkQuaternionr 1 0 0 0) [infinity; 1; 0]
  = Ok (nan, nan)
  ∧ float_fmt_f nan = "nan".
Proof. vm_compute. done. Qed.
