(* ===== verification/DoubleCover.v ===== *)
(** * DoubleCover: the angle does not see the sign of a quaternion

    A quaternion and its negation are the same orientation, and the
    specification asks that the angle of lines 102-108 be the same for
    both.  Over the reals this is [compute_angle_double_cover] of
    [RealModel.v].  This file proves it of the floats the script computes
    with, for all of them: negating the sensor quaternion or the vehicle
    quaternion changes neither the angle nor the exception, bit for bit.

    Rounding to nearest is symmetric, so every operation commutes with
    negation; the one exception is an exact sum 0, which is +0 whatever
    the signs of the terms.  The proof therefore follows the inner product
    up to the sign of a zero ([sf_same], an equivalence that addition
    respects) and uses that the square forgets it. *)

From Stdlib Require Import ZArith Floats Lia.
From stdpp Require Import base strings list.
From S2P Require Import Prelude Scalar PyList Transform FloatModel IntFloat Binary64.

Local Open Scope Z_scope.

(** ** Equality up to the sign of a zero *)

Definition sf_zero (x : spec_float) : Prop := ∃ s, x = S754_zero s.

Definition sf_same (x y : spec_float) : Prop := x = y ∨ (sf_zero x ∧ sf_zero y).

#[export] Instance sf_same_equivalence : Equivalence sf_same.
Proof.
  split.
  - by left.
  - intros x y [->|[? ?]]; [by left|by right].
  - intros x y z [->|[Hx Hy]] [->|[Hy' Hz]]; [by left|by right|by right|by right].
Qed.

Lemma same_number_sf (a b : float) :
  same_number a b ↔ sf_same (Prim2SF a) (Prim2SF b).
Proof.
  unfold same_number, sf_same, fzero, sf_zero.
  split; (intros [Hab|?]; [left|by right]); [by rewrite Hab|by apply Prim2SF_inj].
Qed.

(** ** Negation commutes with rounding *)

Lemma SFopp_involutive (x : spec_float) : SFopp (SFopp x) = x.
Proof. destruct x as [s|s| |s m e]; cbn; by rewrite ?negb_involutive. Qed.

Lemma binary_round_aux_opp (s : bool) (m e : Z) (l : location) :
  binary_round_aux prec emax (negb s) m e l
  = SFopp (binary_round_aux prec emax s m e l).
Proof.
  unfold binary_round_aux. destruct (shr_fexp prec emax m e l) as [mrs e'].
  destruct (shr_fexp prec emax _ e' loc_Exact) as [mrs' e''].
  destruct (shr_m mrs'); [done| |done]. by case_match.
Qed.

Lemma binary_normalize_opp (n e : Z) :
  n ≠ 0 →
  binary_normalize prec emax (- n) e false
  = SFopp (binary_normalize prec emax n e false).
Proof.
  destruct n as [|p|p]; [done|..]; intros _.
  - change (- Z.pos p) with (Z.neg p). cbn [binary_normalize].
    unfold binary_round. destruct (shl_align _ _ _) as [mz ez].
    apply (binary_round_aux_opp false).
  - change (- Z.neg p) with (Z.pos p). cbn [binary_normalize].
    unfold binary_round. destruct (shl_align _ _ _) as [mz ez].
    by rewrite (binary_round_aux_opp false), SFopp_involutive.
Qed.

Lemma binary_normalize_zero (n e : Z) :
  n = 0 → sf_zero (binary_normalize prec emax n e false).
Proof. intros ->. by exists false. Qed.

(** ** Products and quotients *)

Lemma SFmul_opp_r (x y : spec_float) :
  SFmul prec emax x (SFopp y) = SFopp (SFmul prec emax x y).
Proof.
  destruct x as [sx|sx| |sx mx ex], y as [sy|sy| |sy my ey]; cbn [SFmul SFopp];
    rewrite <-?negb_xorb_r; try done.
  apply binary_round_aux_opp.
Qed.

Lemma SFmul_opp_l (x y : spec_float) :
  SFmul prec emax (SFopp x) y = SFopp (SFmul prec emax x y).
Proof.
  destruct x as [sx|sx| |sx mx ex], y as [sy|sy| |sy my ey]; cbn [SFmul SFopp];
    rewrite <-?negb_xorb_l; try done.
  apply binary_round_aux_opp.
Qed.

Lemma SFdiv_opp_l (x y : spec_float) :
  SFdiv prec emax (SFopp x) y = SFopp (SFdiv prec emax x y).
Proof.
  destruct x as [sx|sx| |sx mx ex], y as [sy|sy| |sy my ey]; cbn [SFdiv SFopp];
    rewrite <-?negb_xorb_l; try done.
  destruct (SFdiv_core_binary _ _ _ _ _ _) as [[mz ez] lz].
  apply binary_round_aux_opp.
Qed.

(** The square forgets the sign, also that of a zero. *)
Lemma SFmul_square_same (x y : spec_float) :
  sf_same x (SFopp y) → SFmul prec emax x x = SFmul prec emax y y.
Proof.
  intros [->|[[sx ->] [sy Hy]]].
  - by rewrite SFmul_opp_l, SFmul_opp_r, SFopp_involutive.
  - destruct y as [s| | |]; try done. by destruct sx, s.
Qed.

(** ** Sums *)

#[export] Instance SFadd_proper :
  Proper (sf_same ==> sf_same ==> sf_same) (SFadd prec emax).
Proof.
  intros x x' [->|[[sx ->] [sx' ->]]] y y' [->|[[sy ->] [sy' ->]]].
  - done.
  - destruct x' as [s| | |]; try (by left). right. cbn.
    split; [destruct s, sy|destruct s, sy']; by eexists.
  - destruct y' as [s| | |]; try (by left). right. cbn.
    split; [destruct sx, s|destruct sx', s]; by eexists.
  - right. cbn. split; [destruct sx, sy|destruct sx', sy']; by eexists.
Qed.

Lemma SFadd_opp (x y : spec_float) :
  sf_same (SFadd prec emax (SFopp x) (SFopp y)) (SFopp (SFadd prec emax x y)).
Proof.
  destruct x as [sx|sx| |sx mx ex], y as [sy|sy| |sy my ey]; cbn [SFadd SFopp];
    try (by left); try (by destruct sx, sy; left).
  - right. destruct sx, sy; split; by eexists.
  - set (a := Z.pos (shl_align mx ex (Z.min ex ey)).1).
    set (b := Z.pos (shl_align my ey (Z.min ex ey)).1).
    replace (cond_Zopp (negb sx) a + cond_Zopp (negb sy) b)
      with (- (cond_Zopp sx a + cond_Zopp sy b)) by (destruct sx, sy; cbn; lia).
    destruct (decide (cond_Zopp sx a + cond_Zopp sy b = 0)) as [->|Hn].
    + right. split; by eexists.
    + left. by apply binary_normalize_opp.
Qed.

(** ** The operations of the script *)

Local Open Scope float_scope.

Lemma float_mul_opp_r (a b : float) : a * - b = - (a * b).
Proof. apply Prim2SF_inj. by rewrite opp_spec, !mul_spec, opp_spec, SFmul_opp_r. Qed.

Lemma float_mul_opp_l (a b : float) : - a * b = - (a * b).
Proof. apply Prim2SF_inj. by rewrite opp_spec, !mul_spec, opp_spec, SFmul_opp_l. Qed.

Lemma float_div_opp_l (a n : float) : - a / n = - (a / n).
Proof. apply Prim2SF_inj. by rewrite opp_spec, !div_spec, opp_spec, SFdiv_opp_l. Qed.

Lemma float_square_same (a b : float) : same_number a (- b) → a * a = b * b.
Proof.
  rewrite same_number_sf, opp_spec. intros Hab.
  apply Prim2SF_inj. rewrite !mul_spec. by apply SFmul_square_same.
Qed.

Lemma float_square_opp (a : float) : - a * - a = a * a.
Proof. apply float_square_same. by left. Qed.

Lemma float_add_same (a a' b b' : float) :
  same_number a' (- a) → same_number b' (- b) →
  same_number (a' + b') (- (a + b)).
Proof.
  rewrite !same_number_sf, !opp_spec, !add_spec. intros -> ->.
  apply SFadd_opp.
Qed.

(** The negated quaternion: the same orientation. *)
Definition qneg (q : Quaternionr float) : Quaternionr float :=
  mkQuaternionr (- w_val q) (- qx_val q) (- qy_val q) (- qz_val q).

Section double_cover.
Context `{Platform}.

Lemma norm4_opp (a b c d : float) :
  norm4 (- a, - b, - c, - d) = norm4 (a, b, c, d).
Proof.
  unfold norm4. cbn [smul sadd c_sqrt float_scalar].
  by rewrite !float_square_opp.
Qed.

(** SciPy normalises the negated quaternion to the negated rotation, and
    rejects it when it rejects the quaternion. *)
Lemma from_quat_opp (a b c d : float) :
  from_quat (- a, - b, - c, - d)
  = (λ '(x, y, z, w), (- x, - y, - z, - w)) <$> from_quat (a, b, c, d).
Proof.
  unfold from_quat. rewrite norm4_opp. case_match; [done|].
  cbn [sdiv float_scalar fmap result_fmap]. by rewrite !float_div_opp_l.
Qed.

Lemma inner_product_opp_r (m : float * float * float * float)
    (x y z w : float) :
  same_number (inner_product m (- x, - y, - z, - w))
    (- inner_product m (x, y, z, w)).
Proof.
  destruct m as [[[a b] c] d]. unfold inner_product.
  cbn [smul sadd float_scalar]. rewrite !float_mul_opp_r.
  repeat apply float_add_same; by left.
Qed.

Lemma inner_product_opp_l (q : float * float * float * float)
    (a b c d : float) :
  same_number (inner_product (- a, - b, - c, - d) q)
    (- inner_product (a, b, c, d) q).
Proof.
  destruct q as [[[x y] z] w]. unfold inner_product.
  cbn [smul sadd float_scalar]. rewrite !float_mul_opp_l.
  repeat apply float_add_same; by left.
Qed.

Lemma angle_arg_same (ip ip' : float) :
  same_number ip' (- ip) → angle_arg ip' = angle_arg ip.
Proof.
  intros Hip. unfold angle_arg. cbn [spow2 float_scalar].
  by rewrite (float_square_same ip' ip).
Qed.

(** The angle of two rotations of which one is negated. *)
Lemma angle_of_opp (m q : result (Rotation float)) :
  (m' ← (λ '(x, y, z, w), (- x, - y, - z, - w)) <$> m; q' ← q;
   math_acos (angle_arg (inner_product (as_quat m') (as_quat q'))))
  = (m' ← m; q' ← q;
     math_acos (angle_arg (inner_product (as_quat m') (as_quat q'))))
  ∧ (m' ← m; q' ← (λ '(x, y, z, w), (- x, - y, - z, - w)) <$> q;
     math_acos (angle_arg (inner_product (as_quat m') (as_quat q'))))
    = (m' ← m; q' ← q;
       math_acos (angle_arg (inner_product (as_quat m') (as_quat q')))).
Proof.
  destruct m as [[[[a b] c] d]|e]; [|done].
  destruct q as [[[[x y] z] w]|e]; [|done].
  unfold as_quat. cbn [fmap result_fmap mbind result_bind].
  split; f_equal; apply angle_arg_same;
    [apply inner_product_opp_l|apply inner_product_opp_r].
Qed.

(** C12: the double cover in binary64.  Negating the four components of
    the sensor quaternion, or those of the vehicle quaternion, changes
    nothing of what lines 102-108 compute: the same angle, bit for bit, or
    the same exception, for all floats, infinities and NaNs included. *)
Theorem double_cover_binary64 (mo : Quaternionr float) (q0 q1 q2 q3 : float) :
  compute_angle mo (- q0) (- q1) (- q2) (- q3)
  = compute_angle mo q0 q1 q2 q3
  ∧ compute_angle (qneg mo) q0 q1 q2 q3 = compute_angle mo q0 q1 q2 q3.
Proof.
  destruct mo as [m0 m1 m2 m3]. unfold compute_angle, qneg.
  cbn [w_val qx_val qy_val qz_val sneg float_scalar].
  rewrite !from_quat_opp. split; apply angle_of_opp.
Qed.

End double_cover.

(** ** At concrete quaternions *)

#[local] Existing Instance test_platform.

(** The unit quaternion on which [math.acos] raises, and its negation:
    both raise. *)
Example double_cover_raises :
  let q1 := 0x1.fffd6ap-1 in
  let q2 := 0x1.9bc5aap-8 in
  compute_angle (mkQuaternionr 0 q1 q2 0) 0 q1 q2 0
  = Raise (ValueError MathDomain)
  ∧ compute_angle (mkQuaternionr 0 q1 q2 0) (- 0) (- q1) (- q2) (- 0)
    = Raise (ValueError MathDomain).
Proof. vm_compute. done. Qed.

(** The inner products of a quaternion and of its negation can differ in
    the sign of a zero: the sum of [1 * 1] and [1 * -1] is [+0], and so is
    the sum of their negations. *)
Example inner_product_zero_sign :
  Prim2SF (inner_product (1, 1, 0, 0) (1, -1, 0, 0)) = S754_zero false
  ∧ Prim2SF (inner_product (1, 1, 0, 0) (-1, 1, -0, -0)) = S754_zero false
  ∧ Prim2SF (- inner_product (1, 1, 0, 0) (1, -1, 0, 0)) = S754_zero true.
Proof. vm_compute. done. Qed.
