(* ===== verification/Decimal.v ===== *)
(** * Decimal: what the [%f] fields of a record say

    A record of the output file holds six numbers printed with [%f].  This
    file reads such a field back: [parse_f] is the reader of the fixed
    format (an optional sign, the digits of the integer part, a point, six
    digits), and the theorems show that the reader recovers from
    [float_fmt_f x] the sign of [x] and the number of millionths that was
    printed, and that this number is the value of [x] in millionths
    rounded to nearest, ties to even: the text of a field is within half a
    millionth of the float it prints. *)

From Stdlib Require Import ZArith NArith Floats Lia Ascii String.
From stdpp Require Import base tactics option strings pretty list.
From S2P Require Import Prelude Scalar Record FloatModel.

Local Open Scope N_scope.

(** ** The reader *)

(** The value of a decimal digit. *)
Definition digit_of (c : ascii) : option N := N.of_nat <$> Ascii.is_nat c.

(** The number written by a string of digits, after the digits [acc]. *)
Fixpoint parse_digits (s : string) (acc : N) : option N :=
  match s with
  | EmptyString => Some acc
  | String c rest => d ← digit_of c; parse_digits rest (10 * acc + d)
  end.

(** The digits up to the point, and the text after it. *)
Fixpoint parse_integer (s : string) (acc : N) : option (N * string) :=
  match s with
  | EmptyString => None
  | String c rest =>
      if decide (c = "."%char) then Some (acc, rest)
      else d ← digit_of c; parse_integer rest (10 * acc + d)
  end.

(** The sign of a field and the text behind it. *)
Definition unsigned (s : string) : bool * string :=
  match s with
  | String c rest => if decide (c = "-"%char) then (true, rest) else (false, s)
  | EmptyString => (false, s)
  end.

(** The sign and the number of millionths of a field. *)
Definition parse_f (s : string) : option (bool * Z) :=
  let '(negative, body) := unsigned s in
  '(i, fraction) ← parse_integer body 0;
  guard (String.length fraction = 6%nat);;
  f ← parse_digits fraction 0;
  Some (negative, Z.of_N (i * 1000000 + f)).

(** What the field printed for [x] says: the sign of [x] and its value in
    millionths as the printer rounds it; nothing for a NaN or an
    infinity. *)
Definition fixed_of (x : float) : option (bool * Z) :=
  match Prim2SF x with
  | S754_finite s m e => Some (s, scaled_magnitude m e 1000000)
  | S754_zero s => Some (s, 0%Z)
  | _ => None
  end.

(** ** Digits *)

Lemma digit_of_pretty d : d < 10 → digit_of (pretty_N_char d) = Some d.
Proof.
  intros Hd.
  assert (d = 0 ∨ d = 1 ∨ d = 2 ∨ d = 3 ∨ d = 4 ∨ d = 5 ∨ d = 6 ∨ d = 7
          ∨ d = 8 ∨ d = 9) as Hcases by lia.
  by repeat destruct Hcases as [->|Hcases]; [..|subst].
Qed.

Lemma pretty_N_char_not_point d : pretty_N_char d ≠ "."%char.
Proof. unfold pretty_N_char. by repeat case_match. Qed.

(** The digits of [x] in front of [s] read as [x] behind [acc]. *)
Lemma parse_integer_pretty x s acc :
  ∃ k, parse_integer (pretty_N_go x s) acc = parse_integer s (acc * 10 ^ k + x).
Proof.
  revert s acc. induction (N.lt_wf_0 x) as [x _ IH]; intros s acc.
  destruct (decide (x = 0)) as [->|Hx].
  { exists 0. rewrite pretty_N_go_0. f_equal. lia. }
  rewrite pretty_N_go_step by lia.
  destruct (IH (x `div` 10)) with (s := String (pretty_N_char (x `mod` 10)) s)
    (acc := acc) as [k ->]; [apply N.div_lt; lia|].
  exists (N.succ k). cbn [parse_integer].
  rewrite decide_False by apply pretty_N_char_not_point.
  rewrite digit_of_pretty by (apply N.mod_lt; lia). simpl. f_equal.
  rewrite N.pow_succ_r'. pose proof (N.div_mod x 10 ltac:(lia)). lia.
Qed.

(** Text behind the digits of a number stays behind them. *)
Lemma pretty_N_go_app x s t : pretty_N_go x s +:+ t = pretty_N_go x (s +:+ t).
Proof.
  revert s. induction (N.lt_wf_0 x) as [x _ IH]; intros s.
  destruct (decide (x = 0)) as [->|Hx]; [by rewrite !pretty_N_go_0|].
  rewrite (pretty_N_go_step x s), (pretty_N_go_step x (s +:+ t)) by lia.
  by rewrite IH by (apply N.div_lt; lia).
Qed.

(** The integer part of a field. *)
Lemma parse_integer_pretty_N x t :
  parse_integer (pretty x +:+ String "." t) 0 = Some (x, t).
Proof.
  unfold pretty, pretty_N. case_decide as Hx; [by subst|].
  rewrite pretty_N_go_app. change ("" +:+ String "." t) with (String "." t).
  destruct (parse_integer_pretty x (String "." t) 0) as [k ->].
  simpl. do 2 f_equal; lia.
Qed.

(** ** The six digits after the point *)

Local Open Scope Z_scope.

Lemma pretty_Z_nonneg z : 0 <= z → pretty z = pretty (Z.to_N z).
Proof. by destruct z. Qed.

(** The digits of a number between 1000000 and 1999999. *)
Lemma pretty_seven f :
  0 <= f < 1000000 →
  let x := (1000000 + Z.to_N f)%N in
  let d i := pretty_N_char ((x `div` 10 ^ i) `mod` 10)%N in
  pretty (1000000 + f) =
  String (d 6%N) (String (d 5%N) (String (d 4%N) (String (d 3%N)
    (String (d 2%N) (String (d 1%N) (String (d 0%N) "")))))).
Proof.
  intros Hf x d. rewrite pretty_Z_nonneg by lia.
  replace (Z.to_N (1000000 + f)) with x by lia.
  unfold pretty, pretty_N. rewrite decide_False by lia.
  assert (Hstep : ∀ i s, (i < 7)%N →
            pretty_N_go (x `div` 10 ^ i) s
            = pretty_N_go (x `div` 10 ^ N.succ i) (String (d i) s)).
  { intros i s Hi. rewrite pretty_N_go_step.
    - rewrite N.pow_succ_r', N.Div0.div_div. by rewrite (N.mul_comm 10).
    - apply N.div_str_pos. split; [by apply N.neq_0_lt_0, N.pow_nonzero|].
      transitivity (10 ^ 6)%N; [apply N.pow_le_mono_r; lia|]. subst x. lia. }
  rewrite <- (N.div_1_r x) at 1. change 1%N with (10 ^ 0)%N.
  rewrite !Hstep by lia. simpl N.succ.
  rewrite (N.div_small x) by (subst x; simpl; lia). done.
Qed.

Lemma pad6_length f : 0 <= f < 1000000 → String.length (pad6 f) = 6%nat.
Proof. intros Hf. unfold pad6. by rewrite (pretty_seven f Hf). Qed.

Lemma pad6_parse f :
  0 <= f < 1000000 → parse_digits (pad6 f) 0 = Some (Z.to_N f).
Proof.
  intros Hf. unfold pad6. rewrite (pretty_seven f Hf). cbv zeta.
  cbn [String.substring parse_digits].
  rewrite !digit_of_pretty by (apply N.mod_lt; lia). simpl. f_equal.
  generalize (Z.to_N f) (proj2 (N2Z.inj_lt (Z.to_N f) 1000000) ltac:(lia)).
  clear. intros y Hy. zify. Z.to_euclidean_division_equations. lia.
Qed.

(** ** The fields of a record *)

Lemma pretty_not_dash (x : N) t s' : pretty x +:+ String "." t ≠ String "-" s'.
Proof.
  unfold pretty, pretty_N. case_decide; [done|].
  rewrite pretty_N_go_app. change ("" +:+ String "." t) with (String "." t).
  by apply (pretty_N_go_ne_dash x (String "." t) s').
Qed.

Lemma unsigned_sign (s : bool) (x : N) t :
  unsigned (sign_str s +:+ pretty x +:+ String "." t)
  = (s, pretty x +:+ String "." t).
Proof.
  destruct s; [done|].
  change (sign_str false +:+ ?b) with b.
  pose proof (pretty_not_dash x t) as Hne.
  destruct (pretty x +:+ String "." t) as [|c rest]; [done|]. simpl.
  case_decide as Hc; [|done]. subst. by destruct (Hne rest).
Qed.

Lemma scaled_magnitude_nonneg m e k : 0 <= k → 0 <= scaled_magnitude m e k.
Proof.
  intros Hk. unfold scaled_magnitude, round_half_even.
  destruct (0 <=? e) eqn:He.
  - apply Z.leb_le in He. pose proof (Z.pow_nonneg 2 e ltac:(lia)). nia.
  - pose proof (Z.div_pos (Z.pos m * k) (2 ^ (- e)) ltac:(nia)
                  ltac:(apply Z.pow_pos_nonneg; lia)).
    repeat case_match; lia.
Qed.

(** A sign, an integer part and six digits read as the number of
    millionths they were printed from. *)
Lemma parse_f_fixed (s : bool) n :
  0 <= n →
  parse_f (sign_str s +:+ pretty (n / 1000000) +:+ "."
           +:+ pad6 (n mod 1000000)) = Some (s, n).
Proof.
  intros Hn.
  pose proof (Z.div_pos n 1000000 Hn ltac:(lia)) as Hq.
  pose proof (Z.mod_pos_bound n 1000000 ltac:(lia)) as Hf.
  pose proof (Z.div_mod n 1000000 ltac:(lia)) as Hdm.
  rewrite (pretty_Z_nonneg _ Hq).
  change ("." +:+ ?t) with (String "." t).
  unfold parse_f. rewrite unsigned_sign, parse_integer_pretty_N. simpl.
  rewrite pad6_length, pad6_parse by done. simpl. do 2 f_equal. lia.
Qed.

(** A field printed by ["%f" % x] reads as the sign of [x] and the value
    of [x] in millionths, as rounded by the printer; "nan" and "inf" are
    not numbers of the format. *)
Lemma fmt_f_parse x : parse_f (float_fmt_f x) = fixed_of x.
Proof.
  unfold float_fmt_f, fixed_of. destruct (Prim2SF x) as [s|s| |s m e].
  - by destruct s.
  - by destruct s.
  - done.
  - by apply parse_f_fixed, scaled_magnitude_nonneg.
Qed.

(** C36: for a finite float [x] with sign [s] and magnitude [m * 2 ^ e],
    ["%f" % x] prints the sign, the integer part and six digits of a number
    [n] of millionths, the reader gets [s] and [n] back from the text, and
    [n] is the value of [x] in millionths rounded to nearest, ties to even:
    with the denominator [d] of the value, the error is at most half a
    millionth, and [n] is even when the error is exactly half. *)
Theorem fmt_f_reads_nearest x s m e :
  Prim2SF x = S754_finite s m e →
  ∃ n,
    float_fmt_f x
    = sign_str s +:+ pretty (n / 1000000) +:+ "." +:+ pad6 (n mod 1000000)
    ∧ parse_f (float_fmt_f x) = Some (s, n)
    ∧ 0 <= n
    ∧ let d := 2 ^ Z.max 0 (- e) in
      let v := Z.pos m * 2 ^ Z.max 0 e * 1000000 in
      2 * Z.abs (v - n * d) <= d
      ∧ (2 * Z.abs (v - n * d) = d → Z.even n = true).
Proof.
  intros Hx. exists (scaled_magnitude m e 1000000).
  assert (Hn : 0 <= scaled_magnitude m e 1000000)
    by (by apply scaled_magnitude_nonneg).
  split_and!; [| |done|by apply scaled_magnitude_nearest].
  - unfold float_fmt_f. by rewrite Hx.
  - rewrite fmt_f_parse. unfold fixed_of. by rewrite Hx.
Qed.

(** The theorem at 0.1, the binary64 number 7205759403792794 * 2^-56. *)
Lemma fmt_f_reads_nearest_witness :
  ∃ n,
    float_fmt_f 0x1.999999999999ap-4
    = sign_str false +:+ pretty (n / 1000000) +:+ "."
      +:+ pad6 (n mod 1000000)
    ∧ parse_f (float_fmt_f 0x1.999999999999ap-4) = Some (false, n)
    ∧ 0 <= n
    ∧ let d := 2 ^ Z.max 0 (- -56) in
      let v := 7205759403792794 * 2 ^ Z.max 0 (-56) * 1000000 in
      2 * Z.abs (v - n * d) <= d
      ∧ (2 * Z.abs (v - n * d) = d → Z.even n = true).
Proof.
  apply (fmt_f_reads_nearest 0x1.999999999999ap-4 false 7205759403792794
           (-56)).
  reflexivity.
Defined.

(** 0.1 prints as 0.100000, which reads as 100000 millionths; an empty
    field is not a number. *)
Example fmt_f_tenth :
  float_fmt_f 0x1.999999999999ap-4 = "0.100000"
  ∧ parse_f "0.100000" = Some (false, 100000)
  ∧ parse_f "" = None.
Proof. vm_compute. done. Qed.
