(* ===== verification/Reader.v ===== *)
(** * Reader: the records of the output file can be read back

    Line 112 writes a record as nine fields, each followed by a space, and
    a newline.  A reader of the file splits a line at white space, as
    [str.split()] does ([String.words]), and reads the first six fields as
    numbers of the fixed format ([parse_f] of [Decimal.v]).

    The theorems show that this works on every record the script writes
    in binary64: no field is empty or contains white space, so the line
    splits into exactly the nine fields that were printed, and the six
    numbers read are the values of the floats in millionths, nearest.  A
    record with a NaN or an infinity (a range or an angle that failed
    silently) is the only kind that cannot be read. *)

From Stdlib Require Import ZArith NArith Floats Lia Ascii String.
From stdpp Require Import base tactics option strings pretty list.
From S2P Require Import Prelude Scalar Transform Record FloatModel Decimal.

(** ** The reader *)

(** No white space. *)
Fixpoint spaceless (s : string) : bool :=
  match s with
  | EmptyString => true
  | String c rest => negb (Ascii.is_space c) && spaceless rest
  end.

(** A field: text that [split] returns as one word. *)
Definition is_field (s : string) : Prop := spaceless s = true ∧ s ≠ "".

(** The six numbers of a record, when the line has nine fields of which
    the last three are the colour. *)
Definition parse_record (line : string) : option (list (bool * Z)) :=
  match String.words line with
  | [x; y; z; r; a; t; cr; cg; cb] =>
      guard ([cr; cg; cb] = ["255"; "255"; "0"]);;
      mapM parse_f [x; y; z; r; a; t]
  | _ => None
  end.

(** ** Splitting at white space *)

Lemma spaceless_app s t : spaceless (s +:+ t) = spaceless s && spaceless t.
Proof.
  induction s as [|c s IH]; [done|]. cbn [spaceless].
  change (String c s +:+ t) with (String c (s +:+ t)). cbn [spaceless].
  by rewrite IH, andb_assoc.
Qed.

Lemma rev_app_rev_app s t u :
  String.rev_app (String.rev_app s t) u = String.rev_app t (s +:+ u).
Proof.
  revert t. induction s as [|c s IH]; intros t; [done|].
  cbn [String.rev_app]. by rewrite IH.
Qed.

(** A word under construction is closed by the next space. *)
Lemma words_go_word acc w rest :
  spaceless w = true →
  String.words_go (Some acc) (w +:+ " " +:+ rest)
  = String.rev (String.rev_app w acc) :: String.words rest.
Proof.
  revert acc. induction w as [|c w IH]; intros acc; [done|].
  cbn [spaceless]. intros [Hc Hw]%andb_true_iff.
  change (String c w +:+ ?t) with (String c (w +:+ t)).
  cbn [String.words_go String.rev_app].
  apply negb_true_iff in Hc. rewrite Hc. by apply IH.
Qed.

Lemma words_cons w rest :
  is_field w → String.words (w +:+ " " +:+ rest) = w :: String.words rest.
Proof.
  intros [Hw Hne]. destruct w as [|c w]; [done|]. cbn [spaceless] in Hw.
  apply andb_true_iff in Hw as [Hc Hw]. apply negb_true_iff in Hc.
  change (String c w +:+ ?t) with (String c (w +:+ t)).
  unfold String.words. cbn [String.words_go]. rewrite Hc.
  cbn [from_option]. rewrite words_go_word by done. f_equal.
  unfold String.rev. rewrite rev_app_rev_app. cbn [String.rev_app].
  by rewrite string_app_nil_r.
Qed.

(** ** The fields of a record are fields *)

Lemma pretty_N_char_not_space d : Ascii.is_space (pretty_N_char d) = false.
Proof. unfold pretty_N_char. by repeat case_match. Qed.

Lemma spaceless_pretty_N_go x s :
  spaceless s = true → spaceless (pretty_N_go x s) = true.
Proof.
  revert s. induction (N.lt_wf_0 x) as [x _ IH]; intros s Hs.
  destruct (decide (x = 0%N)) as [->|Hx]; [by rewrite pretty_N_go_0|].
  rewrite pretty_N_go_step by lia. apply IH; [apply N.div_lt; lia|].
  cbn [spaceless]. by rewrite pretty_N_char_not_space.
Qed.

Lemma spaceless_pretty_N (x : N) : spaceless (pretty x) = true.
Proof.
  unfold pretty, pretty_N. case_decide; [done|].
  by apply spaceless_pretty_N_go.
Qed.

Lemma spaceless_pad6 f : (0 <= f < 1000000)%Z → spaceless (pad6 f) = true.
Proof.
  intros Hf. unfold pad6. rewrite (pretty_seven f Hf). cbv zeta.
  cbn [String.substring spaceless]. by rewrite !pretty_N_char_not_space.
Qed.

Lemma app_not_empty s t : t ≠ "" → s +:+ t ≠ "".
Proof.
  intros Ht Heq. apply (f_equal String.length) in Heq.
  rewrite string_app_length in Heq. destruct t; [done|]. simpl in Heq. lia.
Qed.

(** What ["%f"] prints is a field, for every float. *)
Lemma fmt_f_is_field x : is_field (float_fmt_f x).
Proof.
  unfold float_fmt_f. destruct (Prim2SF x) as [s|s| |s m e];
    try (by destruct s); [done|].
  set (n := scaled_magnitude m e 1000000).
  assert (0 <= n)%Z as Hn by (by apply scaled_magnitude_nonneg).
  split; [|by do 2 apply app_not_empty].
  rewrite !spaceless_app, (pretty_Z_nonneg (n / 1000000))
    by (apply Z.div_pos; lia).
  rewrite spaceless_pretty_N, spaceless_pad6
    by (apply Z.mod_pos_bound; lia).
  by destruct s.
Qed.

(** ** Reading a record *)

Section binary64.
Context `{Platform}.

(** The fields of a record, as it is written. *)
Definition record_fields (p : Point float) (milli_time : Z) : list string :=
  [float_fmt_f (final_x p); float_fmt_f (final_y p); float_fmt_f (final_z p);
   float_fmt_f (point_range p); float_fmt_f (point_angle p);
   float_fmt_f (float_of_int milli_time); "255"; "255"; "0"].

(** A line splits into the nine fields that were printed. *)
Lemma record_words (p : Point float) milli_time :
  String.words (format_point p milli_time) = record_fields p milli_time.
Proof.
  unfold format_point, record_fields. cbn [fmt_f float_format of_int float_scalar].
  rewrite !words_cons by (apply fmt_f_is_field || done). done.
Qed.

(** Every record the script writes can be read back: the reader finds
    nine fields, the colour in the last three, and in the first six the
    position, the range, the angle and the time stamp in millionths, each
    rounded to nearest; it fails exactly when one of the six numbers is a
    NaN or an infinity. *)
Theorem record_parse (p : Point float) milli_time :
  parse_record (format_point p milli_time)
  = mapM fixed_of [final_x p; final_y p; final_z p; point_range p;
                   point_angle p; float_of_int milli_time].
Proof.
  unfold parse_record. rewrite record_words. unfold record_fields.
  rewrite option_guard_True by done. cbn [mapM].
  by rewrite !fmt_f_parse.
Qed.

End binary64.
