(* ===== verification/World.v ===== *)
(** * World: files, standard output, the clock, the simulator and CTRL+C

    The script acts on the world through a handful of primitives: [print],
    [time.time], [open], [write], [close], the two calls of the AirSim
    client and [airsim.wait_key].  [World] is the part of the world the
    script changes; [Env] is the part it only observes, given as an oracle
    indexed by a tick counter that advances by one at every primitive.

    A keyboard interrupt can arrive at every primitive and at every
    iteration of the [while] loop: [prim] consults [env_interrupt] before
    it acts.

    A file opened by the script is buffered: [write] appends to the buffer
    of the handle and [close] moves the buffer to the file.  When the
    runtime empties a part of the buffer before that is its own business:
    at every [write] it moves as many characters to the file as the oracle
    [env_flush] says, none, all or any number between.  [open] with
    mode 'w' creates or truncates the file at once, with mode 'a' it
    creates the file when it is missing.  The file system can refuse
    ([env_open]): [open] then raises, no file is touched and no file
    object is made. *)

From stdpp Require Import base strings list gmap.
From S2P Require Import Prelude Scalar Transform Record.

(** ** State *)

Inductive open_mode : Type := ModeW | ModeA.

(** An open file object: its name and the text written but not flushed. *)
Record Handle : Type := mkHandle {
  h_name : string;
  h_buffer : string;
}.

Record World : Type := mkWorld {
  files : gmap string string;
  handle : option Handle;
  stdout : list string;
  ticks : nat;
}.

Definition set_files (f : gmap string string → gmap string string)
    (w : World) : World :=
  mkWorld (f (files w)) (handle w) (stdout w) (ticks w).

Definition set_handle (h : option Handle) (w : World) : World :=
  mkWorld (files w) h (stdout w) (ticks w).

Definition add_stdout (s : string) (w : World) : World :=
  mkWorld (files w) (handle w) (stdout w ++ [s]) (ticks w).

Definition tick (w : World) : World :=
  mkWorld (files w) (handle w) (stdout w) (S (ticks w)).

(** The text of a file, empty when the file does not exist. *)
Definition content (fs : gmap string string) (name : string) : string :=
  default "" (fs !! name).

(** What [open(name, mode)] does to the files. *)
Definition open_files (name : string) (mode : open_mode)
    (fs : gmap string string) : gmap string string :=
  match mode with
  | ModeW => <[name := ""]> fs
  | ModeA => <[name := content fs name]> fs
  end.

(** What [close] does to the files: the buffer goes to the end of the file. *)
Definition flush_files (h : Handle) (fs : gmap string string)
    : gmap string string :=
  <[h_name h := content fs (h_name h) +:+ h_buffer h]> fs.

(** The first [n] characters of a text and the rest: what a flush of [n]
    characters moves to the file and what it leaves in the buffer. *)
Fixpoint str_take (n : nat) (s : string) : string :=
  match n, s with
  | S n', String c s' => String c (str_take n' s')
  | _, _ => ""
  end.

Fixpoint str_drop (n : nat) (s : string) : string :=
  match n, s with
  | S n', String _ s' => str_drop n' s'
  | _, _ => s
  end.

(** What a [write] of [s] with a flush of [n] characters makes of the file
    object and of the files. *)
Definition write_handle (n : nat) (s : string) (h : Handle) : Handle :=
  mkHandle (h_name h) (str_drop n (h_buffer h +:+ s)).

Definition write_files (n : nat) (s : string) (h : Handle)
    (fs : gmap string string) : gmap string string :=
  flush_files (mkHandle (h_name h) (str_take n (h_buffer h +:+ s))) fs.

(** ** The environment *)

Section env.
Context {T : Type}.

Record Env : Type := mkEnv {
  (** whether CTRL+C is pending at a tick *)
  env_interrupt : nat → bool;
  (** the reading of [time.time()] at a tick *)
  env_time : nat → T;
  (** the reply to [getLidarData(lidar_name, vehicle_name)] at a tick *)
  env_lidar : nat → string → string → result (LidarData T);
  (** the reply to [getMultirotorState(vehicle_name)] at a tick *)
  env_state : nat → string → result (MultirotorState T);
  (** the outcome of [confirmConnection()] at a tick *)
  env_connect : nat → result unit;
  (** whether the file system lets the script open its file at a tick *)
  env_open : nat → result unit;
  (** how many characters of the buffer a [write] at a tick moves to the
      file *)
  env_flush : nat → nat;
}.

Context (env : Env).

(** ** Primitives *)

(** A primitive: the tick advances; a pending interrupt is raised in place
    of the action. *)
Definition prim {A} (act : nat → World → result A * World) : prog World A :=
  λ w, if env_interrupt env (ticks w) then (Raise KeyboardInterrupt, tick w)
       else act (ticks w) (tick w).

(** An interrupt point without action: the head of the [while] loop. *)
Definition checkpoint : prog World unit :=
  prim (λ _ w, (Ok tt, w)).

(** [print(s)]: the argument is recorded; the newline that [print] adds of
    its own is left implicit. *)
Definition py_print (s : string) : prog World unit :=
  prim (λ _ w, (Ok tt, add_stdout s w)).

(** [airsim.wait_key(msg)]: shows the message and waits for a key. *)
Definition wait_key (msg : string) : prog World unit :=
  prim (λ _ w, (Ok tt, add_stdout msg w)).

Definition time_time : prog World T :=
  prim (λ k w, (Ok (env_time env k), w)).

Definition getLidarData (lidar_name vehicle_name : string)
    : prog World (LidarData T) :=
  prim (λ k w, (env_lidar env k lidar_name vehicle_name, w)).

Definition getMultirotorState (vehicle_name : string)
    : prog World (MultirotorState T) :=
  prim (λ k w, (env_state env k vehicle_name, w)).

Definition confirmConnection : prog World unit :=
  prim (λ k w, (env_connect env k, w)).

Definition py_open (name : string) (mode : open_mode) : prog World unit :=
  prim (λ k w,
    match env_open env k with
    | Ok _ =>
        (Ok tt, set_handle (Some (mkHandle name ""))
                  (set_files (open_files name mode) w))
    | Raise e => (Raise e, w)
    end).

(** [f.write(s)]: the text goes behind the buffer, of which the runtime
    then flushes what it pleases; writing to a closed file is a
    [ValueError]. *)
Definition f_write (s : string) : prog World unit :=
  prim (λ k w,
    match handle w with
    | Some h =>
        (Ok tt, set_handle (Some (write_handle (env_flush env k) s h))
                  (set_files (write_files (env_flush env k) s h) w))
    | None => (Raise (ValueError ClosedFile), w)
    end).

(** [f.close()]; closing a closed file does nothing. *)
Definition f_close : prog World unit :=
  prim (λ _ w,
    match handle w with
    | Some h => (Ok tt, set_handle None (set_files (flush_files h) w))
    | None => (Ok tt, w)
    end).

(** ** Environments *)

(** No interrupt ever arrives. *)
Definition quiet : Prop := ∀ k, env_interrupt env k = false.

(** ** Facts *)

Lemma prim_quiet {A} (act : nat → World → result A * World) w :
  env_interrupt env (ticks w) = false → prim act w = act (ticks w) (tick w).
Proof. unfold prim. by intros ->. Qed.

Lemma prim_interrupt {A} (act : nat → World → result A * World) w :
  env_interrupt env (ticks w) = true →
  prim act w = (Raise KeyboardInterrupt, tick w).
Proof. unfold prim. by intros ->. Qed.

(** Every primitive advances the clock of the model by exactly one tick,
    whatever its outcome, provided its action keeps the counter. *)
Lemma prim_ticks {A} (act : nat → World → result A * World) w r w' :
  (∀ k w0, ticks (act k w0).2 = ticks w0) →
  prim act w = (r, w') → ticks w' = S (ticks w).
Proof.
  intros Hact. unfold prim. destruct (env_interrupt env (ticks w)).
  - by intros [= _ <-].
  - intros Heq. specialize (Hact (ticks w) (tick w)).
    rewrite Heq in Hact. exact Hact.
Qed.

(** A relation on worlds that the tick and the action of a primitive keep
    is kept by the primitive, interrupted or not. *)
Lemma steps_prim {A} (R : relation World) `{!PreOrder R}
    (act : nat → World → result A * World) :
  (∀ w, R w (tick w)) → (∀ k w, R w (act k w).2) → steps R (prim act).
Proof.
  intros Htick Hact w r w'. unfold prim.
  destruct (env_interrupt env (ticks w)).
  - intros [= _ <-]. apply Htick.
  - intros Heq. transitivity (tick w); [apply Htick|].
    specialize (Hact (ticks w) (tick w)). by rewrite Heq in Hact.
Qed.

(** A primitive that raises has not acted on the files or the handle,
    unless its own action raised. *)
Lemma prim_raise_inv {A} (act : nat → World → result A * World) w e w' :
  prim act w = (Raise e, w') →
  (e = KeyboardInterrupt ∧ w' = tick w) ∨ act (ticks w) (tick w) = (Raise e, w').
Proof.
  unfold prim. destruct (env_interrupt env (ticks w)); [|by right].
  intros [= <- <-]. by left.
Qed.

End env.

Arguments Env T : clear implicits.

(** ** Flushing *)

Lemma str_take_drop n s : str_take n s +:+ str_drop n s = s.
Proof.
  revert s. induction n as [|n IH]; intros [|c s]; try done.
  cbn [str_take str_drop]. change (String c (str_take n s +:+ str_drop n s) = String c s).
  by rewrite IH.
Qed.

Lemma str_take_0 s : str_take 0 s = "".
Proof. by destruct s. Qed.

Lemma str_drop_0 s : str_drop 0 s = s.
Proof. by destruct s. Qed.

(** ** The files *)

Lemma content_insert fs name s : content (<[name := s]> fs) name = s.
Proof. unfold content. by rewrite lookup_insert_eq. Qed.

Lemma content_insert_ne fs name name' s :
  name ≠ name' → content (<[name := s]> fs) name' = content fs name'.
Proof. intros Hne. unfold content. by rewrite lookup_insert_ne. Qed.

(** Mode 'w' empties the file, mode 'a' keeps its text; both leave every
    other file alone. *)
Lemma content_open_w fs name : content (open_files name ModeW fs) name = "".
Proof. apply content_insert. Qed.

Lemma content_open_a fs name :
  content (open_files name ModeA fs) name = content fs name.
Proof. apply content_insert. Qed.

Lemma content_open_ne fs name mode name' :
  name ≠ name' → content (open_files name mode fs) name' = content fs name'.
Proof. intros Hne. destruct mode; by apply content_insert_ne. Qed.

Lemma content_flush fs h :
  content (flush_files h fs) (h_name h) = content fs (h_name h) +:+ h_buffer h.
Proof. apply content_insert. Qed.

Lemma content_flush_ne fs h name' :
  h_name h ≠ name' → content (flush_files h fs) name' = content fs name'.
Proof. apply content_insert_ne. Qed.

(** Opening and closing create the file and no other. *)
Lemma dom_open_files fs name mode :
  dom (open_files name mode fs) = {[name]} ∪ dom fs.
Proof. destruct mode; apply dom_insert_L. Qed.

Lemma dom_flush_files fs h :
  dom (flush_files h fs) = {[h_name h]} ∪ dom fs.
Proof. apply dom_insert_L. Qed.

(** A [write] changes the file of the file object and no other; what it
    adds to the file and what it leaves in the buffer are together the old
    buffer and the text written. *)
Lemma write_files_lookup n s h fs base :
  fs !! h_name h = Some base →
  write_files n s h fs = <[h_name h := base +:+ str_take n (h_buffer h +:+ s)]> fs.
Proof.
  intros Hb. unfold write_files, flush_files, content. cbn [h_name h_buffer].
  by rewrite Hb.
Qed.

Lemma write_files_ne n s h fs name :
  h_name h ≠ name → write_files n s h fs !! name = fs !! name.
Proof. intros Hne. by apply lookup_insert_ne. Qed.

Lemma dom_write_files n s h fs :
  dom (write_files n s h fs) = {[h_name h]} ∪ dom fs.
Proof. apply dom_insert_L. Qed.

Lemma write_pending n s h fs :
  content (write_files n s h fs) (h_name h) +:+ h_buffer (write_handle n s h)
  = content fs (h_name h) +:+ h_buffer h +:+ s.
Proof.
  unfold write_files, write_handle, flush_files. cbn [h_name h_buffer].
  by rewrite content_insert, string_app_assoc, str_take_drop.
Qed.
