(* ===== verification/Scenario.v ===== *)
(** * Scenario: a concrete simulator to run the model on

    The environment of the worked example: a clock that always reads
    1700000000.123, a sensor one metre above the origin of the world frame
    (z points down) with the identity orientation, a vehicle with the
    identity orientation, and a point cloud that is the same in every scan.
    The lemmas that instantiate the theorems of [Execute.v] and [Safety.v]
    evaluate the program in it, over binary64 and on [test_platform]. *)

From stdpp Require Import base strings list gmap.
From Stdlib Require Import ZArith Floats.
From S2P Require Import Prelude Scalar PyList Transform Record FloatModel World.

#[export] Existing Instance test_platform.

Local Open Scope float_scope.

(** [time.time()] = 1700000000.123 *)
Definition sim_time : float := 0x1.954fc4007df3bp+30.

Definition sim_lidar (pc : list float) : LidarData float :=
  mkLidarData pc (mkPose (mkVector3r 0 0 (-1)) (mkQuaternionr 1 0 0 0)).

Definition sim_state : MultirotorState float :=
  mkMultirotorState (mkKinematicsState (mkQuaternionr 1 0 0 0)).

(** The simulator with the interrupts of [interrupt] and the point cloud
    [pc]. *)
Definition sim_env (interrupt : nat → bool) (pc : list float) : Env float :=
  mkEnv interrupt (λ _, sim_time) (λ _ _ _, Ok (sim_lidar pc))
    (λ _ _, Ok sim_state) (λ _, Ok tt) (λ _, Ok tt) (λ _, 0%nat).

(** A simulator that cannot be reached. *)
Definition offline_env : Env float :=
  mkEnv (λ _, false) (λ _, sim_time) (λ _ _ _, Raise RpcError)
    (λ _ _, Raise RpcError) (λ _, Raise RpcError) (λ _, Ok tt) (λ _, 0%nat).

(** The simulator of the example on a file system that refuses every
    [open] from tick [t] on. *)
Definition readonly_env (t : nat) (pc : list float) : Env float :=
  mkEnv (λ _, false) (λ _, sim_time) (λ _ _ _, Ok (sim_lidar pc))
    (λ _ _, Ok sim_state) (λ _, Ok tt)
    (λ k, if bool_decide (k < t) then Ok tt else Raise OSError) (λ _, 0%nat).

(** The simulator of the example on a runtime that moves [n] characters
    of the buffer to the file at every [write]. *)
Definition flushing_env (interrupt : nat → bool) (n : nat) (pc : list float)
    : Env float :=
  mkEnv interrupt (λ _, sim_time) (λ _ _ _, Ok (sim_lidar pc))
    (λ _ _, Ok sim_state) (λ _, Ok tt) (λ _, Ok tt) (λ _, n).

Definition never : nat → bool := λ _, false.
Definition at_tick (t : nat) : nat → bool := λ k, bool_decide (k = t).

(** The world before the script starts: no file, nothing printed. *)
Definition w0 : World := mkWorld ∅ None [] 0.

(** The file and the record of the example. *)
Definition sim_file : string := "1700000000.123_LidarSensor1_pointcloud.asc".

Definition sim_record : string :=
  "3.000000 4.000000 -1.000000 5.000000 0.000000 1700000000123.000000 255 255 0 "
  +:+ nl.

Lemma sim_quiet pc : quiet (sim_env never pc).
Proof. intros k. reflexivity. Qed.

Lemma sim_file_name : file_name sim_time "LidarSensor1" = sim_file.
Proof. vm_compute. reflexivity. Qed.

(** Two sensors of one run write to two files. *)
Lemma file_names_distinct_witness :
  NoDup (file_name sim_time <$> ["LidarSensor1"; "LidarSensor2"]).
Proof.
  apply (file_names_distinct sim_time ["LidarSensor1"; "LidarSensor2"]).
  by apply (bool_decide_unpack _).
Defined.
