(* ===== verification/Rounds.v ===== *)
(** * Rounds: what the scans of a run are to write

    The specification of a run without interrupts is purely functional:
    [scan_lines] lists the records of one scan, [round_lines] and
    [loop_lines] those of a round and of several rounds with the ticks at
    which they end, [write_scan], [write_round] and [write_rounds] say
    what they do to the files.  The lemmas say what the file of a sensor
    holds after a round and after several, and when a scan can go through.
    These functions are the specification, not code of the script;
    [Execute.v] proves that the program refines them, and [FileReader.v]
    that the files it leaves read back as the points of the loop body. *)

From stdpp Require Import base strings list gmap.
From Stdlib Require Import Floats.
From S2P Require Import Prelude Scalar PyList Transform Record FloatModel World Scenario.

(** The text of a list of lines. *)
Definition concat_str (ls : list string) : string := foldr String.append "" ls.

Section rounds.
Context {T : Type} `{Scalar T} `{Format T}.
Context (env : Env T).

(** ** Specification of one scan *)

(** The record of one slice whose time stamp is read at tick [t]. *)
Definition point_line (ld : LidarData T) (st : MultirotorState T) (t : nat)
    (xyz : list T) : result string :=
  p ← transform_scan_point ld st xyz;
  ms ← milli_time_of (env_time env t);
  Ok (format_point p ms).

(** The records written for the slices, the first time stamp being read at
    tick [t], and the exception that ends the loop early, if any. *)
Fixpoint scan_lines (ld : LidarData T) (st : MultirotorState T) (t : nat)
    (chunks : list (list T)) : list string * option exn :=
  match chunks with
  | [] => ([], None)
  | xyz :: rest =>
      match point_line ld st t xyz with
      | Ok l =>
          let '(ls, e) := scan_lines ld st (t + 2) rest in (l :: ls, e)
      | Raise e => ([], Some e)
      end
  end.

(** ** Specification of the rounds *)

(** What the scans of one round write, per sensor in the order of the list,
    and the tick at which the round ends, when every file can be opened,
    every request is answered and no point raises.  The first scan starts
    at tick [t]. *)
Fixpoint round_lines (vehicle_name : string) (t : nat)
    (lidar_names : list string) : option (list (string * list string) * nat) :=
  match lidar_names with
  | [] => Some ([], t)
  | name :: rest =>
      match env_open env t, env_lidar env (t + 1) name vehicle_name,
            env_state env (t + 2) vehicle_name with
      | Ok _, Ok ld, Ok st =>
          match scan_lines ld st (t + 3) (strides (point_cloud ld)) with
          | (ls, None) =>
              '(tr, t') ← round_lines vehicle_name (t + 4 + 2 * length ls) rest;
              Some ((name, ls) :: tr, t')
          | (_, Some _) => None
          end
      | _, _, _ => None
      end
  end.

(** The same for [n] rounds of the [while] loop, which starts at tick [t]. *)
Fixpoint loop_lines (vehicle_name : string) (lidar_names : list string)
    (n t : nat) : option (list (list (string * list string)) * nat) :=
  match n with
  | O => Some ([], t)
  | S n' =>
      '(tr, t') ← round_lines vehicle_name (t + 1) lidar_names;
      '(trs, t'') ← loop_lines vehicle_name lidar_names n' t';
      Some (tr :: trs, t'')
  end.

(** The effect of one scan on the files. *)
Definition write_scan (time_stamp : T) (cleared : bool)
    (fs : gmap string string) (entry : string * list string)
    : gmap string string :=
  let fn := file_name time_stamp entry.1 in
  <[fn := (if cleared then content fs fn else "") +:+ concat_str entry.2]> fs.

(** The effect of the scans of one round, and of several rounds. *)
Definition write_round (time_stamp : T) (cleared : bool)
    (fs : gmap string string) (tr : list (string * list string))
    : gmap string string :=
  foldl (write_scan time_stamp cleared) fs tr.

Definition write_rounds (time_stamp : T) (fs : gmap string string)
    (trs : list (list (string * list string))) : gmap string string :=
  match trs with
  | [] => fs
  | tr :: trs' =>
      foldl (write_round time_stamp true) (write_round time_stamp false fs tr)
        trs'
  end.

(** The records of one sensor in a round. *)
Definition lines_of (name : string) (tr : list (string * list string))
    : list string :=
  tr ≫= λ entry, if decide (entry.1 = name) then entry.2 else [].

(** ** The files after a round *)

Lemma concat_str_app ls1 ls2 :
  concat_str (ls1 ++ ls2) = concat_str ls1 +:+ concat_str ls2.
Proof.
  induction ls1 as [|l ls1 IH]; [done|].
  simpl. by rewrite IH, string_app_assoc.
Qed.

Lemma write_round_cons time_stamp cleared fs entry tr :
  write_round time_stamp cleared fs (entry :: tr) =
  write_round time_stamp cleared (write_scan time_stamp cleared fs entry) tr.
Proof. reflexivity. Qed.

Lemma content_write_scan time_stamp cleared fs entry :
  content (write_scan time_stamp cleared fs entry)
    (file_name time_stamp entry.1) =
  (if cleared then content fs (file_name time_stamp entry.1) else "")
  +:+ concat_str entry.2.
Proof. apply content_insert. Qed.

Lemma content_write_scan_ne time_stamp cleared fs entry f :
  f ≠ file_name time_stamp entry.1 →
  content (write_scan time_stamp cleared fs entry) f = content fs f.
Proof. intros Hne. by apply content_insert_ne. Qed.

(** A round leaves alone every file that is not the file of one of its
    sensors. *)
Lemma content_write_round_ne time_stamp cleared fs tr f :
  (∀ name, name ∈ tr.*1 → f ≠ file_name time_stamp name) →
  content (write_round time_stamp cleared fs tr) f = content fs f.
Proof.
  revert fs. induction tr as [|entry tr IH]; intros fs Hf; [done|].
  rewrite write_round_cons, IH, content_write_scan_ne; [done| |].
  - apply Hf. rewrite fmap_cons. left.
  - intros name Hname. apply Hf. rewrite fmap_cons. by right.
Qed.

Lemma lines_of_cons name entry tr :
  lines_of name (entry :: tr) =
  (if decide (entry.1 = name) then entry.2 else []) ++ lines_of name tr.
Proof. reflexivity. Qed.

Lemma lines_of_absent name tr : name ∉ tr.*1 → lines_of name tr = [].
Proof.
  induction tr as [|entry tr IH]; [done|].
  rewrite fmap_cons, not_elem_of_cons, lines_of_cons. intros [Hne Hnin].
  rewrite decide_False by done. by rewrite IH.
Qed.

(** In append mode the file of a sensor grows by the records of the
    sensor, in the order of the scans. *)
Lemma content_write_round_append time_stamp fs tr name :
  content (write_round time_stamp true fs tr) (file_name time_stamp name) =
  content fs (file_name time_stamp name) +:+ concat_str (lines_of name tr).
Proof.
  revert fs. induction tr as [|entry tr IH]; intros fs.
  - by rewrite string_app_nil_r.
  - rewrite write_round_cons, IH, lines_of_cons. case_decide as Hname.
    + rewrite <- Hname, content_write_scan, concat_str_app.
      by rewrite string_app_assoc.
    + rewrite content_write_scan_ne; [done|].
      intros Heq. apply file_name_inj in Heq. done.
Qed.

(** In write mode only the last scan of a sensor survives; with pairwise
    distinct sensors that is the only one. *)
Lemma content_write_round_first time_stamp fs tr name :
  NoDup tr.*1 → name ∈ tr.*1 →
  content (write_round time_stamp false fs tr) (file_name time_stamp name) =
  concat_str (lines_of name tr).
Proof.
  revert fs. induction tr as [|entry tr IH]; intros fs.
  - intros _ Hin. by apply elem_of_nil in Hin.
  - rewrite fmap_cons, NoDup_cons, write_round_cons, lines_of_cons.
    intros [Hnin Hnd] Hin. case_decide as Hname.
    + subst name. rewrite content_write_round_ne, content_write_scan.
      * by rewrite lines_of_absent, app_nil_r.
      * intros name Hname Heq. apply file_name_inj in Heq. by subst.
    + apply elem_of_cons in Hin as [->|Hin]; [done|]. by apply IH.
Qed.

Lemma content_later_rounds time_stamp fs trs name :
  content (foldl (write_round time_stamp true) fs trs)
    (file_name time_stamp name) =
  content fs (file_name time_stamp name)
  +:+ concat_str (trs ≫= lines_of name).
Proof.
  revert fs. induction trs as [|tr trs IH]; intros fs.
  - by rewrite string_app_nil_r.
  - cbn [foldl]. rewrite IH, content_write_round_append, bind_cons.
    by rewrite concat_str_app, string_app_assoc.
Qed.

(** After the rounds of [trs], the first in write mode and the others in
    append mode, the file of a sensor holds the records of all rounds. *)
Lemma content_write_rounds time_stamp fs trs names name :
  trs ≠ [] → Forall (λ tr, tr.*1 = names) trs →
  NoDup names → name ∈ names →
  content (write_rounds time_stamp fs trs) (file_name time_stamp name) =
  concat_str (trs ≫= lines_of name).
Proof.
  destruct trs as [|tr trs]; [done|]. intros _ [<- _]%Forall_cons Hnd Hin.
  cbn [write_rounds]. rewrite content_later_rounds, bind_cons.
  by rewrite content_write_round_first, concat_str_app.
Qed.

Lemma content_write_rounds_ne time_stamp fs trs names f :
  Forall (λ tr, tr.*1 = names) trs →
  (∀ name, name ∈ names → f ≠ file_name time_stamp name) →
  content (write_rounds time_stamp fs trs) f = content fs f.
Proof.
  intros Htrs Hf. destruct trs as [|tr trs]; [done|].
  apply Forall_cons in Htrs as [Htr Htrs]. cbn [write_rounds].
  transitivity (content (write_round time_stamp false fs tr) f).
  - generalize (write_round time_stamp false fs tr). clear Htr.
    induction Htrs as [|tr' trs Htr' _ IH]; intros fs'; [done|].
    cbn [foldl]. rewrite IH. apply content_write_round_ne. by rewrite Htr'.
  - apply content_write_round_ne. by rewrite Htr.
Qed.

Lemma round_lines_names vehicle_name t lidar_names tr k :
  round_lines vehicle_name t lidar_names = Some (tr, k) → tr.*1 = lidar_names.
Proof.
  revert t tr k.
  induction lidar_names as [|name rest IH]; intros t tr k; simpl.
  - by intros [= <- _].
  - repeat case_match; try done.
    destruct (round_lines _ _ rest) as [[tr' t']|] eqn:Hrest; [|done].
    intros [= <- _]. rewrite fmap_cons. f_equal. by eapply IH.
Qed.

Lemma loop_lines_names vehicle_name lidar_names n t trs k :
  loop_lines vehicle_name lidar_names n t = Some (trs, k) →
  Forall (λ tr, tr.*1 = lidar_names) trs ∧ length trs = n.
Proof.
  revert t trs k. induction n as [|n IH]; intros t trs k; simpl.
  - by intros [= <- _].
  - destruct (round_lines _ _ _) as [[tr t']|] eqn:Hr; [|done]. simpl.
    destruct (loop_lines _ _ n t') as [[trs' t'']|] eqn:Hn; [|done].
    intros [= <- _]. apply IH in Hn as [Hn <-].
    split; [|done]. constructor; [by eapply round_lines_names|done].
Qed.

(** A point cloud cut into triples and a short rest: the loop reaches the
    rest unless an earlier point raises, and the rest raises the shape
    error of [np.matmul]. *)
Lemma scan_lines_short ld st t ts short :
  Forall (λ c, length c = 3) ts → length short ≠ 3 →
  ∃ ls ex, scan_lines ld st t (ts ++ [short]) = (ls, Some ex)
    ∧ length ls ≤ length ts
    ∧ (length ls = length ts → ex = ValueError ShapeMismatch).
Proof.
  intros Hts Hshort. revert t.
  induction Hts as [|xyz ts _ _ IH]; intros t; simpl.
  - unfold point_line, transform_scan_point.
    rewrite transform_point_shape_error by done. simpl. by eexists _, _.
  - destruct (point_line ld st t xyz) as [l|e].
    + destruct (IH (t + 2)) as (ls & ex & -> & Hlen & Hex).
      exists (l :: ls), ex. simpl. split_and!; [done|lia|].
      intros [= Heq]. by apply Hex.
    + exists [], e. simpl. split_and!; [done|lia|done].
Qed.

Lemma scan_lines_not_multiple ld st t (pc : list T) :
  length pc `mod` 3 ≠ 0 →
  ∃ ls ex, scan_lines ld st t (strides pc) = (ls, Some ex)
    ∧ length ls ≤ length pc / 3
    ∧ (length ls = length pc / 3 → ex = ValueError ShapeMismatch).
Proof.
  intros Hmod. rewrite strides_chunks3.
  destruct (chunks3_split pc) as (ts & rest & -> & Hts & <- & _ & Hrest).
  destruct (Hrest Hmod) as (short & -> & Hshort).
  apply scan_lines_short; [done|]. rewrite Hshort.
  pose proof (Nat.mod_upper_bound (length pc) 3). lia.
Qed.

(** ** The records of a scan *)

Lemma scan_lines_length ld st t chunks ls :
  scan_lines ld st t chunks = (ls, None) → length ls = length chunks.
Proof.
  revert t ls. induction chunks as [|xyz rest IH]; intros t ls; simpl.
  - by intros [= <-].
  - destruct (point_line ld st t xyz) as [l|e]; [|discriminate].
    destruct (scan_lines ld st (t + 2) rest) as [ls' e'] eqn:Hrest.
    intros [= <- ->]. simpl. f_equal. by eapply IH.
Qed.

(** The records of a completed point loop are one per slice and in
    order: the record at index [i] is that of slice [i], stamped with the
    clock as read in its own iteration, two ticks after the one before. *)
Lemma scan_lines_lookup ld st t chunks ls i l :
  scan_lines ld st t chunks = (ls, None) → ls !! i = Some l →
  ∃ xyz, chunks !! i = Some xyz ∧ point_line ld st (t + 2 * i) xyz = Ok l.
Proof.
  revert t ls i. induction chunks as [|xyz rest IH]; intros t ls i; simpl.
  - by intros [= <-].
  - destruct (point_line ld st t xyz) as [l0|e] eqn:Hl0; [|done].
    destruct (scan_lines ld st (t + 2) rest) as [ls' e'] eqn:Hrest.
    intros [= <- ->]. destruct i as [|i]; simpl.
    + intros [= <-]. exists xyz. by rewrite Nat.add_0_r.
    + intros Hi. destruct (IH _ _ _ Hrest Hi) as (xyz' & ? & Hp).
      exists xyz'. split; [done|]. rewrite <- Hp. f_equal. lia.
Qed.

(** ** Environments in which the loop never stops *)

(** No interrupt arrives, every file can be opened, every request is
    answered and every point can be transformed and written. *)
Definition healthy (vehicle_name : string) (lidar_names : list string)
    : Prop :=
  quiet env ∧
  ∀ t name, name ∈ lidar_names →
    ∃ ld st ls,
      env_open env t = Ok tt
      ∧ env_lidar env (t + 1) name vehicle_name = Ok ld
      ∧ env_state env (t + 2) vehicle_name = Ok st
      ∧ scan_lines ld st (t + 3) (strides (point_cloud ld)) = (ls, None).

Lemma round_lines_total vehicle_name lidar_names names t :
  healthy vehicle_name lidar_names → names ⊆ lidar_names →
  is_Some (round_lines vehicle_name t names).
Proof.
  intros [_ Hh]. revert t. induction names as [|name rest IH]; intros t Hsub.
  - by eexists.
  - destruct (Hh t name) as (ld & st & ls & Hopen & Hld & Hst & Hls).
    { apply Hsub. left. }
    simpl. rewrite Hopen, Hld, Hst, Hls.
    destruct (IH (t + 4 + (length ls + (length ls + 0)))) as [[tr t'] ->].
    { intros x Hx. apply Hsub. by right. }
    by eexists.
Qed.

Lemma loop_lines_total vehicle_name lidar_names n t :
  healthy vehicle_name lidar_names →
  is_Some (loop_lines vehicle_name lidar_names n t).
Proof.
  intros Hh. revert t. induction n as [|n IH]; intros t; [by eexists|].
  simpl.
  destruct (round_lines_total vehicle_name lidar_names lidar_names (t + 1))
    as [[tr t'] ->]; [done|done|].
  simpl. destruct (IH t') as [[trs t''] ->]. by eexists.
Qed.

End rounds.

(** ** The theorems at the worked example *)

Section example.
Local Open Scope float_scope.

Ltac by_eval := vm_compute; reflexivity.

Lemma sim_healthy : healthy (sim_env never [3; 4; 0]) "Drone1" ["LidarSensor1"].
Proof.
  split; [apply sim_quiet|]. intros t name _.
  exists (sim_lidar [3; 4; 0]), sim_state, [sim_record].
  split_and!; [done|done|done|by_eval].
Qed.

End example.
