(* ===== verification/Execute.v ===== *)
(** * Execute: [LidarTest.__init__], [LidarTest.execute] and the main block

    The program is written in the monad [prog World] over the primitives
    of [World.v], statement by statement: [scan] is the body of the sensor
    loop (lines 76-113), [round_] one iteration of [while True] (lines
    73-114), [polling_loop] the loop with its flag, [execute] the method
    with its handler, [init] the constructor and [main] the main block.

    The specification of a run without interrupts is that of [Rounds.v].
    The theorems show that the program refines it, what the files hold
    after a run, and how a scan ends when a point raises or its file
    cannot be opened.  The last section
    evaluates the theorems in the simulator of [Scenario.v]. *)

From stdpp Require Import base strings list gmap.
From Stdlib Require Import Floats.
From S2P Require Import Prelude Scalar PyList Transform Record FloatModel World Scenario.
From S2P Require Import Rounds.

Section execute.
Context {T : Type} `{Scalar T} `{Format T}.
Context (env : Env T).

(** The specification of [Rounds.v] for the environment of this section. *)
Local Abbreviation point_line := (Rounds.point_line env) (only parsing).
Local Abbreviation scan_lines := (Rounds.scan_lines env) (only parsing).
Local Abbreviation round_lines := (Rounds.round_lines env) (only parsing).
Local Abbreviation loop_lines := (Rounds.loop_lines env) (only parsing).
Local Abbreviation healthy := (Rounds.healthy env) (only parsing).
Local Abbreviation scan_lines_not_multiple :=
  (Rounds.scan_lines_not_multiple env) (only parsing).
Local Abbreviation loop_lines_total := (Rounds.loop_lines_total env) (only parsing).

(** ** The program *)

(** Lines 110-112: take the time stamp and write the record. *)
Definition write_point (p : Point T) : prog World unit :=
  now ← time_time env;
  milli_time ← lift (milli_time_of now);
  f_write env (format_point p milli_time).

(** Lines 93-112: the body of the point loop. *)
Definition point_body (lidar_data : LidarData T) (state : MultirotorState T)
    (xyz : list T) : prog World unit :=
  p ← lift (transform_scan_point lidar_data state xyz);
  write_point p.

(** Lines 76-113: the body of the sensor loop. *)
Definition scan (vehicle_name : string) (time_stamp : T)
    (existing_data_cleared : bool) (lidar_name : string) : prog World unit :=
  let filename := file_name time_stamp lidar_name in
  _ ← py_open env filename (if existing_data_cleared then ModeA else ModeW);
  lidar_data ← getLidarData env lidar_name vehicle_name;
  state ← getMultirotorState env vehicle_name;
  _ ← for_each (strides (point_cloud lidar_data)) (point_body lidar_data state);
  f_close env.

(** Lines 73-114: one iteration of [while True]. *)
Definition round_ (vehicle_name : string) (lidar_names : list string)
    (time_stamp : T) (existing_data_cleared : bool) : prog World unit :=
  _ ← checkpoint env;
  for_each lidar_names (scan vehicle_name time_stamp existing_data_cleared).

(** Lines 70-114: [n] iterations of the loop.  The flag is [False] in the
    first iteration and [True] in all later ones. *)
Definition polling_loop (n : nat) (vehicle_name : string)
    (lidar_names : list string) (time_stamp : T) : prog World unit :=
  match n with
  | O => mret tt
  | S n' =>
      _ ← round_ vehicle_name lidar_names time_stamp false;
      forever n' (round_ vehicle_name lidar_names time_stamp true)
  end.

(** Lines 115-117: the handler of [KeyboardInterrupt]. *)
Definition on_interrupt : prog World unit :=
  _ ← wait_key env "Press any key to stop running this script";
  py_print env ("Done!" +:+ nl).

(** Lines 67-117: [LidarTest.execute], cut after [n] iterations. *)
Definition execute (n : nat) (vehicle_name : string)
    (lidar_names : list string) : prog World unit :=
  _ ← py_print env ("Scanning Has Started" +:+ nl);
  _ ← py_print env ("Use Keyboard Interrupt 'CTRL + C' to Stop Scanning" +:+ nl);
  time_stamp ← time_time env;
  try_except is_KeyboardInterrupt
    (polling_loop n vehicle_name lidar_names time_stamp) on_interrupt.

(** Lines 60-65: [LidarTest.__init__]. *)
Definition init : prog World unit :=
  _ ← confirmConnection env;
  py_print env ("Connected!" +:+ nl).

(** Line 122: the arguments of the call of [execute]. *)
Definition main_vehicle_name : string := "Drone1".
Definition main_lidar_names : list string := ["LidarSensor1"].

(** Lines 120-122: the main block. *)
Definition main (n : nat) : prog World unit :=
  _ ← init;
  execute n main_vehicle_name main_lidar_names.

(** ** One scan without interrupts *)

Section quiet.
Hypothesis Hquiet : quiet env.

Lemma world_eta w h :
  handle w = Some h →
  mkWorld (files w) (Some (mkHandle (h_name h) (h_buffer h))) (stdout w)
    (ticks w) = w.
Proof. destruct w, h; simpl. by intros ->. Qed.

Lemma write_point_quiet p w :
  write_point p w =
  match milli_time_of (env_time env (ticks w)) with
  | Ok ms =>
      match handle w with
      | Some h =>
          let n := env_flush env (ticks w + 1) in
          let s := format_point p ms in
          (Ok tt, mkWorld (write_files n s h (files w))
                    (Some (write_handle n s h)) (stdout w) (ticks w + 2))
      | None =>
          (Raise (ValueError ClosedFile),
           mkWorld (files w) None (stdout w) (ticks w + 2))
      end
  | Raise e =>
      (Raise e, mkWorld (files w) (handle w) (stdout w) (ticks w + 1))
  end.
Proof.
  unfold write_point, time_time, f_write.
  rewrite run_bind, prim_quiet by apply Hquiet. rewrite run_bind, run_lift.
  replace (ticks w + 1) with (S (ticks w)) by lia.
  replace (ticks w + 2) with (S (S (ticks w))) by lia.
  destruct (milli_time_of _) as [ms|e]; [|done].
  rewrite prim_quiet by apply Hquiet. simpl.
  destruct (handle w) as [h|] eqn:Hh; simpl. all: unfold set_handle, tick; simpl; by rewrite ?Hh.
Qed.

(** The state of a point loop that has stopped at tick [k]: of the text
    [flushed +:+ buf] the first part is behind [base] in the file of the
    file object and the second in its buffer. *)
Definition pending_world (w : World) (name base flushed buf : string)
    (k : nat) : World :=
  mkWorld (<[name := base +:+ flushed]> (files w)) (Some (mkHandle name buf))
    (stdout w) k.

Lemma pending_world_start w h base k :
  handle w = Some h → files w !! h_name h = Some base →
  pending_world w (h_name h) base "" (h_buffer h) k
  = mkWorld (files w) (handle w) (stdout w) k.
Proof.
  intros Hh Hb. unfold pending_world.
  rewrite string_app_nil_r, insert_id, Hh by done. by destruct h.
Qed.

(** The point loop: it writes the records of [scan_lines] behind the
    buffer of the open file and stops at the first exception.  Where the
    text is then, in the file or in the buffer, is the choice of the
    runtime. *)
Lemma point_loop_quiet ld st chunks w h base :
  handle w = Some h → files w !! h_name h = Some base →
  let '(ls, e) := scan_lines ld st (ticks w) chunks in
  ∃ k flushed buf,
    for_each chunks (point_body ld st) w =
    (match e with None => Ok tt | Some ex => Raise ex end,
     pending_world w (h_name h) base flushed buf k)
    ∧ flushed +:+ buf = h_buffer h +:+ concat_str ls
    ∧ (e = None → k = ticks w + 2 * length chunks).
Proof.
  revert w h base. induction chunks as [|xyz rest IH]; intros w h base Hh Hb;
    cbn [scan_lines].
  - exists (ticks w), "", (h_buffer h).
    rewrite pending_world_start, string_app_nil_r by done.
    split_and!; [by destruct w|done|intros _; simpl; lia].
  - unfold point_line. rewrite for_each_cons. unfold point_body at 1.
    rewrite run_bind, run_lift.
    destruct (transform_scan_point ld st xyz) as [p|ex]; simpl.
    2:{ exists (ticks w), "", (h_buffer h).
        rewrite pending_world_start, string_app_nil_r by done.
        by destruct w. }
    rewrite write_point_quiet.
    destruct (milli_time_of _) as [ms|ex]; simpl.
    2:{ exists (ticks w + 1), "", (h_buffer h).
        by rewrite pending_world_start, string_app_nil_r. }
    rewrite Hh. cbv zeta. set (n := env_flush env (ticks w + 1)).
    set (l := format_point p ms). rewrite (write_files_lookup _ _ _ _ base Hb).
    set (w' := mkWorld _ _ _ _).
    specialize (IH w' (write_handle n l h) _ eq_refl (lookup_insert_eq _ _ _)).
    simpl in IH. destruct (scan_lines ld st (ticks w + 2) rest) as [ls e].
    destruct IH as (k & flushed & buf & -> & Hsplit & Hk).
    exists k, (str_take n (h_buffer h +:+ l) +:+ flushed), buf.
    unfold pending_world. simpl. rewrite insert_insert_eq, !string_app_assoc.
    split_and!; [done| |intros He; rewrite Hk by done; lia].
    by rewrite Hsplit, <- string_app_assoc, str_take_drop, string_app_assoc.
Qed.

Lemma open_files_flag name (cleared : bool) fs :
  open_files name (if cleared then ModeA else ModeW) fs =
  <[name := if cleared then content fs name else ""]> fs.
Proof. by destruct cleared. Qed.

(** One scan whose file can be opened and whose two requests are answered:
    the file is opened in the mode the flag selects, the records go behind
    what [open] left, and the file is closed unless the point loop raised;
    then a part of the records is in the file and the rest in the
    buffer. *)
Lemma scan_run vehicle_name time_stamp (cleared : bool) lidar_name w ld st :
  env_open env (ticks w) = Ok tt →
  env_lidar env (ticks w + 1) lidar_name vehicle_name = Ok ld →
  env_state env (ticks w + 2) vehicle_name = Ok st →
  let fn := file_name time_stamp lidar_name in
  let base := if cleared then content (files w) fn else "" in
  let '(ls, e) := scan_lines ld st (ticks w + 3) (strides (point_cloud ld)) in
  ∃ k flushed buf,
    scan vehicle_name time_stamp cleared lidar_name w =
    match e with
    | None =>
        (Ok tt, mkWorld (<[fn := base +:+ concat_str ls]> (files w)) None
                  (stdout w) k)
    | Some ex => (Raise ex, pending_world w fn base flushed buf k)
    end
    ∧ flushed +:+ buf = concat_str ls
    ∧ (e = None → k = ticks w + 4 + 2 * length ls).
Proof.
  intros Hopen Hld Hst. cbv zeta.
  unfold scan, py_open, getLidarData, getMultirotorState.
  replace (ticks w + 1) with (S (ticks w)) in Hld by lia.
  replace (ticks w + 2) with (S (S (ticks w))) in Hst by lia.
  rewrite run_bind, prim_quiet by apply Hquiet. rewrite Hopen. cbv beta iota.
  rewrite run_bind, prim_quiet by apply Hquiet. cbn [ticks tick set_handle set_files].
  rewrite Hld.
  rewrite run_bind, prim_quiet by apply Hquiet. cbn [ticks tick set_handle set_files].
  rewrite Hst, run_bind.
  set (w3 := tick (tick _)). set (fn := file_name time_stamp lidar_name).
  set (base := if cleared then content (files w) fn else "").
  assert (Hbase : files w3 !! fn = Some base).
  { simpl. rewrite (open_files_flag _ cleared). apply lookup_insert_eq. }
  pose proof (point_loop_quiet ld st (strides (point_cloud ld)) w3 _ base
                eq_refl Hbase) as Hloop.
  replace (ticks w3) with (ticks w + 3) in Hloop by (simpl; lia).
  destruct (scan_lines ld st (ticks w + 3) _) as [ls e] eqn:Hls.
  destruct Hloop as (k & flushed & buf & -> & Hsplit & Hk).
  unfold pending_world. simpl in *.
  rewrite (open_files_flag _ cleared), insert_insert_eq. destruct e as [ex|].
  - by exists k, flushed, buf.
  - unfold f_close. rewrite prim_quiet by apply Hquiet. simpl.
    exists (S k), flushed, buf.
    unfold flush_files, set_handle, set_files, tick. simpl.
    rewrite content_insert, insert_insert_eq, string_app_assoc, Hsplit.
    split_and!; [done..|].
    intros _. rewrite Hk by done. apply scan_lines_length in Hls. lia.
Qed.

(** The sensor loop of one round. *)
Lemma sensor_loop_quiet vehicle_name time_stamp cleared lidar_names w tr k :
  handle w = None →
  round_lines vehicle_name (ticks w) lidar_names = Some (tr, k) →
  for_each lidar_names (scan vehicle_name time_stamp cleared) w =
  (Ok tt, mkWorld (write_round time_stamp cleared (files w) tr) None
            (stdout w) k).
Proof.
  revert w tr k. induction lidar_names as [|name rest IH]; intros w tr k Hh.
  - intros [= <- <-]. rewrite for_each_nil. destruct w; simpl in *; by subst.
  - cbn [round_lines]. intros Hr. rewrite for_each_cons.
    destruct (env_open _ _) as [[]|] eqn:Hopen; [|done].
    destruct (env_lidar _ _ _ _) as [ld|] eqn:Hld; [|done].
    destruct (env_state _ _ _) as [st|] eqn:Hst; [|done].
    pose proof (scan_run vehicle_name time_stamp cleared name w ld st
                  Hopen Hld Hst) as Hscan. cbv zeta in Hscan.
    destruct (scan_lines ld st _ _) as [ls [ex|]]; [done|].
    destruct Hscan as (k1 & _ & _ & -> & _ & Hk1). rewrite Hk1 in * by done.
    destruct (round_lines _ _ rest) as [[tr' t']|] eqn:Hrest; [|done].
    injection Hr as <- <-. by erewrite IH.
Qed.

Lemma round_quiet vehicle_name time_stamp cleared lidar_names w tr k :
  handle w = None →
  round_lines vehicle_name (ticks w + 1) lidar_names = Some (tr, k) →
  round_ vehicle_name lidar_names time_stamp cleared w =
  (Ok tt, mkWorld (write_round time_stamp cleared (files w) tr) None
            (stdout w) k).
Proof.
  intros Hh Hr. unfold round_, checkpoint.
  rewrite run_bind, prim_quiet by apply Hquiet. cbv beta iota.
  erewrite sensor_loop_quiet; [done|done|].
  by replace (ticks (tick w)) with (ticks w + 1) by (simpl; lia).
Qed.

Lemma later_rounds_quiet vehicle_name time_stamp lidar_names n w trs k :
  handle w = None →
  loop_lines vehicle_name lidar_names n (ticks w) = Some (trs, k) →
  forever n (round_ vehicle_name lidar_names time_stamp true) w =
  (Ok tt, mkWorld (foldl (write_round time_stamp true) (files w) trs) None
            (stdout w) k).
Proof.
  revert w trs k. induction n as [|n IH]; intros w trs k Hh; cbn [loop_lines].
  - intros [= <- <-]. rewrite forever_0. destruct w; simpl in *; by subst.
  - intros Hl. rewrite forever_S.
    destruct (round_lines _ _ _) as [[tr t']|] eqn:Hr; [|done].
    erewrite round_quiet by done. simpl in Hl.
    destruct (loop_lines _ _ n t') as [[trs' t'']|] eqn:Hn; [|done].
    injection Hl as <- <-. by erewrite IH.
Qed.

(** The loop of [execute] for [n] rounds. *)
Lemma polling_loop_quiet vehicle_name time_stamp lidar_names n w trs k :
  handle w = None →
  loop_lines vehicle_name lidar_names n (ticks w) = Some (trs, k) →
  polling_loop n vehicle_name lidar_names time_stamp w =
  (Ok tt, mkWorld (write_rounds time_stamp (files w) trs) None (stdout w) k).
Proof.
  destruct n as [|n]; intros Hh; cbn [loop_lines polling_loop].
  - intros [= <- <-]. destruct w; simpl in *; by subst.
  - intros Hl. rewrite run_bind.
    destruct (round_lines _ _ _) as [[tr t']|] eqn:Hr; [|done].
    erewrite round_quiet by done. simpl in Hl.
    destruct (loop_lines _ _ n t') as [[trs' t'']|] eqn:Hn; [|done].
    injection Hl as <- <-. by erewrite later_rounds_quiet.
Qed.

(** [execute] for [n] rounds: the two messages, the start time, the loop. *)
Lemma execute_quiet n vehicle_name lidar_names w trs k :
  handle w = None →
  loop_lines vehicle_name lidar_names n (ticks w + 3) = Some (trs, k) →
  execute n vehicle_name lidar_names w =
  (Ok tt,
   mkWorld (write_rounds (env_time env (ticks w + 2)) (files w) trs) None
     (stdout w ++ ["Scanning Has Started" +:+ nl;
                   "Use Keyboard Interrupt 'CTRL + C' to Stop Scanning" +:+ nl])
     k).
Proof.
  intros Hh Hl. unfold execute, py_print, time_time.
  do 3 (rewrite run_bind, prim_quiet by apply Hquiet; cbv beta iota).
  erewrite try_except_Ok; [done|].
  replace (ticks w + 2) with (S (S (ticks w))) by lia.
  erewrite polling_loop_quiet; [|done|].
  - simpl. by rewrite <- app_assoc.
  - simpl. by replace (S (S (S (ticks w)))) with (ticks w + 3) by lia.
Qed.

(** ** The claims about runs without interrupts *)

(** C1: when no interrupt arrives and every scan of the first [n] rounds
    succeeds, [execute] is still looping after [n] rounds, no file is open,
    and the file of every sensor of a duplicate-free list holds exactly the
    records of all its scans, in order: whatever the file held before the
    run is gone, and nothing of the run is lost. *)
Theorem execute_files n vehicle_name lidar_names w trs k name :
  handle w = None → NoDup lidar_names → name ∈ lidar_names → n ≠ 0 →
  loop_lines vehicle_name lidar_names n (ticks w + 3) = Some (trs, k) →
  ∃ w', execute n vehicle_name lidar_names w = (Ok tt, w')
    ∧ handle w' = None
    ∧ content (files w') (file_name (env_time env (ticks w + 2)) name)
      = concat_str (trs ≫= lines_of name).
Proof.
  intros Hh Hnd Hin Hn Hl. eexists. split; [by apply execute_quiet|].
  apply loop_lines_names in Hl as [Hnames Hlen]. cbn [handle files].
  split; [done|]. eapply content_write_rounds; [|done..].
  intros ->. simpl in Hlen. lia.
Qed.

(** C2: a scan whose file can be opened, whose requests are answered and
    whose points all succeed opens the sensor's file ('w' when the flag is unset: the old text is
    dropped; 'a' otherwise: it is kept), writes the records of the
    specification [scan_lines] behind it, closes the file, and takes two
    ticks per point and four for the rest. *)
Theorem scan_completes vehicle_name time_stamp (cleared : bool) lidar_name w
    ld st ls :
  env_open env (ticks w) = Ok tt →
  env_lidar env (ticks w + 1) lidar_name vehicle_name = Ok ld →
  env_state env (ticks w + 2) vehicle_name = Ok st →
  scan_lines ld st (ticks w + 3) (strides (point_cloud ld)) = (ls, None) →
  scan vehicle_name time_stamp cleared lidar_name w =
  (Ok tt,
   mkWorld
     (<[file_name time_stamp lidar_name :=
          (if cleared
           then content (files w) (file_name time_stamp lidar_name) else "")
          +:+ concat_str ls]> (files w))
     None (stdout w) (ticks w + 4 + 2 * length ls)).
Proof.
  intros Hopen Hld Hst Hls.
  pose proof (scan_run vehicle_name time_stamp cleared lidar_name w ld st
                Hopen Hld Hst) as Hscan.
  cbv zeta in Hscan. rewrite Hls in Hscan.
  destruct Hscan as (k & _ & _ & -> & _ & Hk). by rewrite Hk.
Qed.

(** C14: when a point raises, the exception leaves the scan and the file
    stays open: the records of the earlier points are behind what [open]
    left, a first part of them in the file and the rest in the buffer of
    the file object, which nothing flushes. *)
Theorem scan_point_error vehicle_name time_stamp (cleared : bool) lidar_name
    w ld st ls ex :
  env_open env (ticks w) = Ok tt →
  env_lidar env (ticks w + 1) lidar_name vehicle_name = Ok ld →
  env_state env (ticks w + 2) vehicle_name = Ok st →
  scan_lines ld st (ticks w + 3) (strides (point_cloud ld)) = (ls, Some ex) →
  ∃ k flushed buf,
    scan vehicle_name time_stamp cleared lidar_name w =
    (Raise ex,
     mkWorld
       (<[file_name time_stamp lidar_name :=
            (if cleared
             then content (files w) (file_name time_stamp lidar_name)
             else "") +:+ flushed]> (files w))
       (Some (mkHandle (file_name time_stamp lidar_name) buf))
       (stdout w) k)
    ∧ flushed +:+ buf = concat_str ls.
Proof.
  intros Hopen Hld Hst Hls.
  pose proof (scan_run vehicle_name time_stamp cleared lidar_name w ld st
                Hopen Hld Hst) as Hscan.
  cbv zeta in Hscan. rewrite Hls in Hscan.
  destruct Hscan as (k & flushed & buf & -> & Hsplit & _).
  by exists k, flushed, buf.
Qed.

(** C15: a point cloud whose length is not a multiple of 3 can never be
    scanned to the end: the scan raises with the file open, after at most
    one record per whole triple, which are in the file or in the buffer
    (they are the records of [scan_lines], those of the points before the
    one that raised, once each and in order),
    and when every triple went through the exception is the shape error of
    [np.matmul] on the short slice. *)
Theorem scan_short_tail vehicle_name time_stamp (cleared : bool) lidar_name
    w ld st :
  env_open env (ticks w) = Ok tt →
  env_lidar env (ticks w + 1) lidar_name vehicle_name = Ok ld →
  env_state env (ticks w + 2) vehicle_name = Ok st →
  length (point_cloud ld) `mod` 3 ≠ 0 →
  ∃ ls ex w' buf,
    scan vehicle_name time_stamp cleared lidar_name w = (Raise ex, w')
    ∧ scan_lines ld st (ticks w + 3) (strides (point_cloud ld)) = (ls, Some ex)
    ∧ handle w' = Some (mkHandle (file_name time_stamp lidar_name) buf)
    ∧ content (files w') (file_name time_stamp lidar_name) +:+ buf
      = (if cleared
         then content (files w) (file_name time_stamp lidar_name) else "")
        +:+ concat_str ls
    ∧ length ls ≤ length (point_cloud ld) / 3
    ∧ (length ls = length (point_cloud ld) / 3 →
       ex = ValueError ShapeMismatch).
Proof.
  intros Hopen Hld Hst Hmod.
  destruct (scan_lines_not_multiple ld st (ticks w + 3) _ Hmod)
    as (ls & ex & Hls & Hlen & Hex).
  pose proof (scan_run vehicle_name time_stamp cleared lidar_name w ld st
                Hopen Hld Hst) as Hscan.
  cbv zeta in Hscan. rewrite Hls in Hscan.
  destruct Hscan as (k & flushed & buf & -> & Hsplit & _).
  eexists ls, ex, _, buf. split_and!; [done..| |done|done].
  unfold pending_world. cbn [files].
  by rewrite content_insert, string_app_assoc, Hsplit.
Qed.

(** C31: with pairwise distinct sensors, the first round leaves in the
    file of each sensor the records of its scan and nothing else: the text
    the file held before is dropped. *)
Theorem first_round_truncates vehicle_name time_stamp lidar_names w tr k name :
  handle w = None → NoDup lidar_names → name ∈ lidar_names →
  round_lines vehicle_name (ticks w + 1) lidar_names = Some (tr, k) →
  ∃ w', round_ vehicle_name lidar_names time_stamp false w = (Ok tt, w')
    ∧ content (files w') (file_name time_stamp name)
      = concat_str (lines_of name tr).
Proof.
  intros Hh Hnd Hin Hr. eexists. split; [by apply round_quiet|]. cbn [files].
  apply round_lines_names in Hr as <-. by apply content_write_round_first.
Qed.

(** Every later round appends: the file of a sensor is the text it
    held before the round followed by the records of the sensor's scans
    of the round. *)
Theorem later_round_appends vehicle_name time_stamp lidar_names w tr k name :
  handle w = None →
  round_lines vehicle_name (ticks w + 1) lidar_names = Some (tr, k) →
  ∃ w', round_ vehicle_name lidar_names time_stamp true w = (Ok tt, w')
    ∧ content (files w') (file_name time_stamp name)
      = content (files w) (file_name time_stamp name)
        +:+ concat_str (lines_of name tr).
Proof.
  intros Hh Hr. eexists. split; [by apply round_quiet|]. cbn [files].
  apply content_write_round_append.
Qed.

(** C32: a sensor that is listed twice loses data in the first round: each
    of its scans opens the file with 'w', so only the records of the last
    scan of the round are in the file. *)
Theorem duplicate_sensor_overwrites vehicle_name time_stamp lidar_names w tr
    k name ls :
  handle w = None →
  round_lines vehicle_name (ticks w + 1) lidar_names
    = Some (tr ++ [(name, ls)], k) →
  ∃ w', round_ vehicle_name lidar_names time_stamp false w = (Ok tt, w')
    ∧ content (files w') (file_name time_stamp name) = concat_str ls.
Proof.
  intros Hh Hr. eexists. split; [by apply round_quiet|]. cbn [files].
  unfold write_round. rewrite foldl_app. cbn [foldl].
  by rewrite content_write_scan.
Qed.

End quiet.

(** In a healthy environment [execute] never returns: for every
    number of rounds it is still in the loop, with no file open, having
    printed the two opening messages and nothing else. *)
Theorem execute_never_returns n vehicle_name lidar_names w :
  healthy vehicle_name lidar_names → handle w = None →
  ∃ fs k,
    execute n vehicle_name lidar_names w =
    (Ok tt,
     mkWorld fs None
       (stdout w ++ ["Scanning Has Started" +:+ nl;
                     "Use Keyboard Interrupt 'CTRL + C' to Stop Scanning" +:+ nl])
       k).
Proof.
  intros Hhealthy Hh.
  destruct (loop_lines_total vehicle_name lidar_names n (ticks w + 3))
    as [[trs k] Hl]; [done|].
  eexists _, k. apply execute_quiet; [apply Hhealthy|done|done].
Qed.

(** ** The main block *)

Lemma run_prim_bind {A B} (act : nat → World → result A * World)
    (f : A → prog World B) w :
  (prim env act ≫= f) w =
  if env_interrupt env (ticks w) then (Raise KeyboardInterrupt, tick w)
  else match act (ticks w) (tick w) with
       | (Ok a, w') => f a w'
       | (Raise e, w') => (Raise e, w')
       end.
Proof.
  rewrite run_bind. unfold prim. by destruct (env_interrupt env (ticks w)).
Qed.

(** When the simulator cannot be reached the script stops in
    [__init__] with the client's exception: nothing is printed, no file is
    created. *)
Theorem main_connection_error n w e :
  env_interrupt env (ticks w) = false →
  env_connect env (ticks w) = Raise e →
  main n w = (Raise e, tick w).
Proof.
  intros Hq Hc. unfold main, init, confirmConnection.
  by rewrite run_bind, run_prim_bind, Hq, Hc.
Qed.

(** Once connected, the main block runs [execute] for vehicle "Drone1" and
    the one sensor "LidarSensor1". *)
Lemma main_connected n w :
  env_interrupt env (ticks w) = false →
  env_interrupt env (ticks w + 1) = false →
  env_connect env (ticks w) = Ok tt →
  main n w =
  execute n "Drone1" ["LidarSensor1"]
    (mkWorld (files w) (handle w) (stdout w ++ ["Connected!" +:+ nl])
       (ticks w + 2)).
Proof.
  intros Hq0 Hq1 Hc. unfold main, init, confirmConnection, py_print.
  rewrite run_bind, run_prim_bind, Hq0, Hc.
  replace (ticks w + 1) with (ticks (tick w)) in Hq1 by (simpl; lia).
  rewrite prim_quiet by done. cbv beta iota. do 2 f_equal.
  unfold add_stdout, tick. simpl. f_equal. lia.
Qed.

(** ** A file that cannot be opened *)

(** When [open] is refused the scan ends there: no file is created or
    emptied, no file object is made and the simulator is not asked. *)
Lemma scan_open_error vehicle_name time_stamp cleared lidar_name w e :
  env_interrupt env (ticks w) = false → env_open env (ticks w) = Raise e →
  scan vehicle_name time_stamp cleared lidar_name w = (Raise e, tick w).
Proof.
  intros Hq Hopen. unfold scan, py_open. by rewrite run_prim_bind, Hq, Hopen.
Qed.

(** The sensor loop when the file of the sensor [name] is refused: the
    scans of the sensors before it are complete and on disk, and the loop
    stops without an open file. *)
Lemma sensor_loop_open_error vehicle_name time_stamp cleared opened name rest
    w tr k e :
  quiet env → handle w = None →
  round_lines vehicle_name (ticks w) opened = Some (tr, k) →
  env_open env k = Raise e →
  for_each (opened ++ name :: rest) (scan vehicle_name time_stamp cleared) w =
  (Raise e,
   mkWorld (write_round time_stamp cleared (files w) tr) None (stdout w) (S k)).
Proof.
  intros Hquiet Hh Hr Hopen.
  rewrite for_each_app, (sensor_loop_quiet Hquiet _ _ _ _ _ _ _ Hh Hr).
  rewrite for_each_cons, (scan_open_error _ _ _ _ _ e);
    [done|apply Hquiet|done].
Qed.

End execute.

(** ** The theorems at the worked example *)

Section example.
Local Open Scope float_scope.

Ltac by_eval := vm_compute; reflexivity.

(** Two rounds over the one-point cloud: the file holds the record twice. *)
Lemma execute_files_witness :
  ∃ w', execute (sim_env never [3; 4; 0]) 2 "Drone1" ["LidarSensor1"] w0
        = (Ok tt, w')
    ∧ handle w' = None
    ∧ content (files w') sim_file = sim_record +:+ sim_record.
Proof.
  destruct (execute_files (sim_env never [3; 4; 0]) (sim_quiet _) 2 "Drone1"
              ["LidarSensor1"] w0
              [[("LidarSensor1", [sim_record])];
               [("LidarSensor1", [sim_record])]]
              17 "LidarSensor1") as (w' & Hrun & Hh & Hc);
    [reflexivity|apply NoDup_singleton|by left
    |discriminate|vm_compute; reflexivity|].
  exists w'. split_and!; [done|done|].
  replace sim_file with (file_name sim_time "LidarSensor1")
    by (vm_compute; reflexivity).
  etransitivity; [exact Hc|vm_compute; reflexivity].
Defined.

(** One scan of the one-point cloud into a fresh world. *)
Lemma scan_completes_witness :
  scan (sim_env never [3; 4; 0]) "Drone1" sim_time false "LidarSensor1" w0
  = (Ok tt, mkWorld {[sim_file := sim_record]} None [] 6).
Proof.
  etransitivity;
    [apply (scan_completes (sim_env never [3; 4; 0]) (sim_quiet _) "Drone1"
              sim_time false "LidarSensor1" w0 (sim_lidar [3; 4; 0]) sim_state
              [sim_record]); by_eval
    |by_eval].
Defined.

(** A cloud of five numbers on a runtime that flushes ten characters at
    every [write]: one record is written, then the slice of two numbers
    raises; the file is open, with ten characters of the record in the
    file and the others in the buffer. *)
Lemma scan_point_error_witness :
  ∃ k flushed buf,
    scan (flushing_env never 10 [3; 4; 0; 1; 2]) "Drone1" sim_time false
      "LidarSensor1" w0
    = (Raise (ValueError ShapeMismatch),
       mkWorld (<[file_name sim_time "LidarSensor1" := "" +:+ flushed]> ∅)
         (Some (mkHandle (file_name sim_time "LidarSensor1") buf)) [] k)
    ∧ flushed +:+ buf = concat_str [sim_record].
Proof.
  apply (scan_point_error (flushing_env never 10 [3; 4; 0; 1; 2])
           (λ _, eq_refl) "Drone1" sim_time false "LidarSensor1" w0
           (sim_lidar [3; 4; 0; 1; 2]) sim_state [sim_record]
           (ValueError ShapeMismatch)); by_eval.
Defined.

(** The reply of a sensor that saw nothing, a single 0.0. *)
Lemma scan_short_tail_witness :
  ∃ ls ex w' buf,
    scan (sim_env never [0]) "Drone1" sim_time false "LidarSensor1" w0
    = (Raise ex, w')
    ∧ Rounds.scan_lines (sim_env never [0]) (sim_lidar [0]) sim_state
        (ticks w0 + 3) (strides (point_cloud (sim_lidar [0]))) = (ls, Some ex)
    ∧ handle w' = Some (mkHandle (file_name sim_time "LidarSensor1") buf)
    ∧ content (files w') (file_name sim_time "LidarSensor1") +:+ buf
      = "" +:+ concat_str ls
    ∧ (length ls ≤ 1 / 3)%nat
    ∧ ((length ls = 1 / 3)%nat → ex = ValueError ShapeMismatch).
Proof.
  apply (scan_short_tail (sim_env never [0]) (sim_quiet _) "Drone1" sim_time
           false "LidarSensor1" w0 (sim_lidar [0]) sim_state);
    [reflexivity|reflexivity|reflexivity|by vm_compute].
Defined.

(** A world in which the file of the sensor exists already. *)
Definition w_old : World := mkWorld {[sim_file := "old"]} None [] 0.

Lemma first_round_truncates_witness :
  ∃ w', round_ (sim_env never [3; 4; 0]) "Drone1" ["LidarSensor1"] sim_time
          false w_old = (Ok tt, w')
    ∧ content (files w') sim_file = sim_record.
Proof.
  destruct (first_round_truncates (sim_env never [3; 4; 0]) (sim_quiet _)
              "Drone1" sim_time ["LidarSensor1"] w_old
              [("LidarSensor1", [sim_record])] 7 "LidarSensor1")
    as (w' & Hrun & Hc);
    [reflexivity|apply NoDup_singleton|by left|by_eval|].
  exists w'. split; [done|].
  replace sim_file with (file_name sim_time "LidarSensor1") by by_eval.
  etransitivity; [exact Hc|by_eval].
Defined.

Lemma later_round_appends_witness :
  ∃ w', round_ (sim_env never [3; 4; 0]) "Drone1" ["LidarSensor1"] sim_time
          true w_old = (Ok tt, w')
    ∧ content (files w') sim_file = "old" +:+ sim_record.
Proof.
  destruct (later_round_appends (sim_env never [3; 4; 0]) (sim_quiet _)
              "Drone1" sim_time ["LidarSensor1"] w_old
              [("LidarSensor1", [sim_record])] 7 "LidarSensor1")
    as (w' & Hrun & Hc); [reflexivity|by_eval|].
  exists w'. split; [done|].
  replace sim_file with (file_name sim_time "LidarSensor1") by by_eval.
  etransitivity; [exact Hc|by_eval].
Defined.

(** The sensor listed twice: two scans, one record in the file. *)
Lemma duplicate_sensor_overwrites_witness :
  ∃ w', round_ (sim_env never [3; 4; 0]) "Drone1"
          ["LidarSensor1"; "LidarSensor1"] sim_time false w0 = (Ok tt, w')
    ∧ content (files w') sim_file = sim_record.
Proof.
  destruct (duplicate_sensor_overwrites (sim_env never [3; 4; 0])
              (sim_quiet _) "Drone1" sim_time ["LidarSensor1"; "LidarSensor1"]
              w0 [("LidarSensor1", [sim_record])] 13 "LidarSensor1"
              [sim_record]) as (w' & Hrun & Hc); [reflexivity|by_eval|].
  exists w'. split; [done|].
  replace sim_file with (file_name sim_time "LidarSensor1") by by_eval.
  etransitivity; [exact Hc|by_eval].
Defined.

Lemma execute_never_returns_witness :
  ∃ fs k,
    execute (sim_env never [3; 4; 0]) 5 "Drone1" ["LidarSensor1"] w0 =
    (Ok tt,
     mkWorld fs None
       (stdout w0 ++ ["Scanning Has Started" +:+ nl;
                      "Use Keyboard Interrupt 'CTRL + C' to Stop Scanning" +:+ nl])
       k).
Proof.
  apply (execute_never_returns (sim_env never [3; 4; 0]) 5 "Drone1"
           ["LidarSensor1"] w0 sim_healthy eq_refl).
Defined.

Lemma main_connection_error_witness :
  main offline_env 3 w0 = (Raise RpcError, tick w0).
Proof. apply (main_connection_error offline_env 3 w0 RpcError); reflexivity. Defined.

End example.
