(* ===== verification/FileReader.v ===== *)
(** * FileReader: the file of a scan can be read back

    The writer of line 112 and a reader of the file meet here.  The reader
    takes the file line by line, as the iteration over a Python file
    object does ([read_lines] keeps the newline at the end of a line), and
    reads every line with [parse_record] of [Reader.v].

    The theorems show that the file of a sensor is read back as the
    records that were written, in order: no field contains a newline, so
    the lines of the file are the records; line [i] of the file of a scan
    is the record of slice [i] of the point cloud, stamped with the clock
    of its own iteration; every line of the file of a run is the record
    of a point that the loop body computed from a reply of that sensor
    ([is_record]); and every record gives back the numbers that were
    printed: the five floats in millionths and the millisecond count of
    line 110 exactly ([IntFloat.v]). *)

From Stdlib Require Import ZArith Floats Lia Ascii String.
From stdpp Require Import base tactics option strings pretty list.
From S2P Require Import Prelude Scalar PyList Transform Record FloatModel IntFloat.
From S2P Require Import Decimal Reader World Scenario Rounds Execute.

(** ** The reader *)

Definition is_newline (c : ascii) : bool := bool_decide (c = "010"%char).

(** The lines of a text, each with its newline; the last line may lack
    it. *)
Fixpoint read_lines (s : string) : list string :=
  match s with
  | EmptyString => []
  | String c rest =>
      if is_newline c then String c "" :: read_lines rest
      else match read_lines rest with
           | [] => [String c ""]
           | l :: ls => String c l :: ls
           end
  end.

(** The numbers of every line of a file. *)
Definition parse_file (content : string) : option (list (list (bool * Z))) :=
  mapM parse_record (read_lines content).

(** What a record says: for each of the five floats its sign and its
    value in millionths, and the time stamp in millionths of a
    millisecond. *)
Definition record_numbers (r : Point float * Z) : option (list (bool * Z)) :=
  mapM id [fixed_of (final_x r.1); fixed_of (final_y r.1);
           fixed_of (final_z r.1); fixed_of (point_range r.1);
           fixed_of (point_angle r.1);
           Some (r.2 <? 0, Z.abs r.2 * 1000000)%Z].

(** ** Lines *)

Fixpoint no_newline (s : string) : bool :=
  match s with
  | EmptyString => true
  | String c rest => negb (is_newline c) && no_newline rest
  end.

(** A line: text without a newline, followed by one. *)
Definition is_line (l : string) : Prop :=
  ∃ body, l = body +:+ nl ∧ no_newline body = true.

Lemma no_newline_app s t : no_newline (s +:+ t) = no_newline s && no_newline t.
Proof.
  induction s as [|c s IH]; [done|].
  change (String c s +:+ t) with (String c (s +:+ t)). cbn [no_newline].
  by rewrite IH, andb_assoc.
Qed.

Lemma spaceless_no_newline s : spaceless s = true → no_newline s = true.
Proof.
  induction s as [|c s IH]; [done|]. cbn [spaceless no_newline].
  intros [Hc Hs]%andb_prop. rewrite IH, andb_true_r by done.
  unfold is_newline. case_bool_decide as Heq; [|done]. by rewrite Heq in Hc.
Qed.

Lemma read_lines_line body rest :
  no_newline body = true →
  read_lines (body +:+ nl +:+ rest) = (body +:+ nl) :: read_lines rest.
Proof.
  induction body as [|c body IH]; [done|]. cbn [no_newline].
  intros [Hc Hb]%andb_prop. apply negb_true_iff in Hc.
  change (String c body +:+ nl +:+ rest) with (String c (body +:+ nl +:+ rest)).
  cbn [read_lines]. by rewrite Hc, IH.
Qed.

Lemma read_lines_concat (ls : list string) :
  Forall is_line ls → read_lines (concat_str ls) = ls.
Proof.
  induction 1 as [|l ls (body & -> & Hb) _ IH]; [done|].
  cbn [concat_str foldr]. fold (concat_str ls).
  by rewrite string_app_assoc, read_lines_line, IH.
Qed.

(** ** Records *)

(** What the field of an integer of [round] says. *)
Lemma fixed_of_int (n : Z) :
  representable n = true →
  fixed_of (float_of_int n) = Some (n <? 0, Z.abs n * 1000000)%Z.
Proof.
  intros Hn. destruct (decide (n = 0%Z)) as [->|Hn0]; [done|].
  destruct (float_of_int_exact n Hn Hn0) as (m & e & Hx & Hk).
  unfold fixed_of. by rewrite Hx, Hk.
Qed.

Section binary64.
Context `{Platform}.

Lemma format_point_is_line (p : Point float) (ms : Z) :
  is_line (format_point p ms).
Proof.
  exists (fmt_f (final_x p) +:+ " " +:+ fmt_f (final_y p) +:+ " "
          +:+ fmt_f (final_z p) +:+ " " +:+ fmt_f (point_range p) +:+ " "
          +:+ fmt_f (point_angle p) +:+ " " +:+ fmt_f (of_int ms) +:+ " "
          +:+ fmt_d 255 +:+ " " +:+ fmt_d 255 +:+ " " +:+ fmt_d 0 +:+ " ").
  split; [unfold format_point; by rewrite !string_app_assoc|].
  rewrite !no_newline_app.
  by rewrite !(spaceless_no_newline (fmt_f _)) by apply fmt_f_is_field.
Qed.

(** A record that line 112 writes for a time stamp of line 110 is read
    back as its numbers. *)
Lemma record_numbers_parse (p : Point float) (now : float) (ms : Z) :
  milli_time_of now = Ok ms →
  parse_record (format_point p ms) = record_numbers (p, ms).
Proof.
  intros Hms. rewrite record_parse. unfold record_numbers. cbn [fst snd].
  by rewrite <-(fixed_of_int ms) by exact (float_round_representable _ ms Hms).
Qed.

Section scan.
Context (env : Env float) (vehicle_name : string).

(** The line of a record. *)
Definition record_line (r : Point float * Z) : string :=
  format_point r.1 r.2.

(** The point and the millisecond count that the loop body writes for the
    slice [xyz] when it reads the clock at tick [k]. *)
Definition slice_record (ld : LidarData float) (st : MultirotorState float)
    (k : nat) (xyz : list float) (r : Point float * Z) : Prop :=
  transform_scan_point ld st xyz = Ok r.1
  ∧ milli_time_of (env_time env k) = Ok r.2.

(** A record of a sensor: what the loop body writes for a slice of a reply
    of the sensor, with the vehicle state requested next. *)
Definition is_record (lidar_name : string) (r : Point float * Z) : Prop :=
  ∃ t ld st xyz k,
    env_lidar env t lidar_name vehicle_name = Ok ld
    ∧ env_state env (t + 1) vehicle_name = Ok st
    ∧ xyz ∈ strides (point_cloud ld)
    ∧ slice_record ld st k xyz r.

(** Lines that are the lines of records with the property [P], in order. *)
Definition printed (P : Point float * Z → Prop) (ls : list string) : Prop :=
  ∃ rs, ls = record_line <$> rs ∧ Forall P rs.

Lemma printed_nil P : printed P [].
Proof. by exists []. Qed.

Lemma printed_app P ls1 ls2 :
  printed P ls1 → printed P ls2 → printed P (ls1 ++ ls2).
Proof.
  intros (rs1 & -> & H1) (rs2 & -> & H2). exists (rs1 ++ rs2).
  split; [by rewrite fmap_app|by apply Forall_app].
Qed.

Lemma printed_impl (P Q : Point float * Z → Prop) ls :
  (∀ r, P r → Q r) → printed P ls → printed Q ls.
Proof.
  intros HPQ (rs & -> & Hrs). exists rs. split; [done|].
  by eapply Forall_impl.
Qed.

Lemma printed_bind {A} P (f : A → list string) (l : list A) :
  Forall (λ x, printed P (f x)) l → printed P (l ≫= f).
Proof.
  induction 1 as [|x l Hx _ IH]; [apply printed_nil|].
  rewrite bind_cons. by apply printed_app.
Qed.

Lemma point_line_inv ld st t xyz l :
  point_line env ld st t xyz = Ok l
  ↔ ∃ r, slice_record ld st t xyz r ∧ l = record_line r.
Proof.
  unfold point_line, slice_record, record_line. split.
  - intros (p & ? & (ms & ? & [= <-])%bind_Ok_inv)%bind_Ok_inv.
    by exists (p, ms).
  - intros ([p ms] & [-> Hms] & ->). simpl in *. by rewrite Hms.
Qed.

(** The lines of a scan, complete or not, are records of slices of the
    point cloud. *)
Lemma scan_lines_printed ld st t chunks ls e :
  scan_lines env ld st t chunks = (ls, e) →
  printed (λ r, ∃ xyz k, xyz ∈ chunks ∧ slice_record ld st k xyz r) ls.
Proof.
  revert t ls e. induction chunks as [|xyz rest IH]; intros t ls e; simpl.
  - intros [= <- _]. apply printed_nil.
  - destruct (point_line env ld st t xyz) as [l|e'] eqn:Hl;
      [|intros [= <- _]; apply printed_nil].
    destruct (scan_lines env ld st (t + 2) rest) as [ls' e''] eqn:Hrest.
    intros [= <- _]. apply point_line_inv in Hl as (r & Hr & ->).
    apply (printed_app _ [_]).
    + exists [r]. split; [done|]. repeat constructor.
      exists xyz, t. split; [left|done].
    + eapply printed_impl; [|by eapply IH].
      intros r' (xyz' & k & ? & ?). exists xyz', k. split; [by right|done].
Qed.

(** The point loop goes through when every slice can be transformed and
    every time stamp rounded. *)
Lemma scan_lines_total ld st t chunks :
  (∀ i xyz, chunks !! i = Some xyz →
     ∃ p ms, transform_scan_point ld st xyz = Ok p
       ∧ milli_time_of (env_time env (t + 2 * i)) = Ok ms) →
  ∃ ls, scan_lines env ld st t chunks = (ls, None).
Proof.
  revert t. induction chunks as [|xyz rest IH]; intros t Hall; [by eexists|].
  destruct (Hall 0%nat xyz eq_refl) as (p & ms & Hp & Hms).
  rewrite Nat.add_0_r in Hms. destruct (IH (t + 2)%nat) as [ls Hls].
  { intros i x Hi. destruct (Hall (S i) x Hi) as (p' & ms' & ? & Hms').
    exists p', ms'. split; [done|]. rewrite <- Hms'. do 2 f_equal. lia. }
  exists (format_point p ms :: ls). cbn [scan_lines]. unfold point_line.
  rewrite Hp. cbn [mbind result_bind]. rewrite Hms. cbn [mbind result_bind].
  by rewrite Hls.
Qed.

End scan.

(** The lines of records are lines of a file, and are read as the numbers
    of the records. *)
Lemma record_line_is_line r : is_line (record_line r).
Proof. apply format_point_is_line. Qed.

Lemma read_lines_records (rs : list (Point float * Z)) :
  read_lines (concat_str (record_line <$> rs)) = record_line <$> rs.
Proof.
  apply read_lines_concat, Forall_fmap, Forall_true.
  intros r. apply record_line_is_line.
Qed.

Lemma parse_records (rs : list (Point float * Z)) :
  Forall (λ r, ∃ now, milli_time_of now = Ok r.2) rs →
  mapM parse_record (record_line <$> rs) = mapM record_numbers rs.
Proof.
  induction 1 as [|[p ms] rs [now Hms] _ IH]; [done|].
  rewrite fmap_cons. cbn [mapM]. rewrite IH.
  change (record_line (p, ms)) with (format_point p ms).
  by rewrite (record_numbers_parse p now ms Hms).
Qed.

(** ** The file of a scan *)

Section scan_file.
Context (env : Env float) (Hquiet : quiet env) (vehicle_name : string).

(** C33: a scan of the first round whose file can be opened, whose
    requests are answered, whose slices can all be transformed and whose
    time stamps can all be rounded completes, and its file, read line by
    line, holds one record per slice of the point cloud, in order: line
    [i] is the record of the point that the loop body computes for slice
    [i], stamped with the clock as read in iteration [i], two ticks after
    the one before, and it reads back as the numbers of that point. *)
Theorem scan_file_lookup time_stamp lidar_name w ld st :
  env_open env (ticks w) = Ok tt →
  env_lidar env (ticks w + 1) lidar_name vehicle_name = Ok ld →
  env_state env (ticks w + 2) vehicle_name = Ok st →
  (∀ i xyz, strides (point_cloud ld) !! i = Some xyz →
     ∃ p ms, transform_scan_point ld st xyz = Ok p
       ∧ milli_time_of (env_time env (ticks w + 3 + 2 * i)) = Ok ms) →
  ∃ w',
    scan env vehicle_name time_stamp false lidar_name w = (Ok tt, w')
    ∧ length (read_lines (content (files w') (file_name time_stamp lidar_name)))
      = length (strides (point_cloud ld))
    ∧ ∀ i l,
        read_lines (content (files w') (file_name time_stamp lidar_name)) !! i
        = Some l →
        ∃ xyz p ms,
          strides (point_cloud ld) !! i = Some xyz
          ∧ transform_scan_point ld st xyz = Ok p
          ∧ milli_time_of (env_time env (ticks w + 3 + 2 * i)) = Ok ms
          ∧ l = format_point p ms
          ∧ parse_record l = record_numbers (p, ms).
Proof.
  intros Hopen Hld Hst Hall.
  destruct (scan_lines_total env ld st _ _ Hall) as [ls Hls].
  pose proof (scan_run env Hquiet vehicle_name time_stamp false lidar_name w
                ld st Hopen Hld Hst) as Hscan.
  cbv zeta in Hscan. rewrite Hls in Hscan.
  destruct Hscan as (k & _ & _ & -> & _ & _). eexists. split; [done|].
  cbn [files]. rewrite content_insert. change ("" +:+ ?s) with s.
  destruct (scan_lines_printed env ld st _ _ _ _ Hls) as (rs & -> & _).
  rewrite read_lines_records. split; [by eapply scan_lines_length|].
  intros i l Hi.
  destruct (scan_lines_lookup env ld st _ _ _ i l Hls Hi) as (xyz & ? & Hl).
  apply point_line_inv in Hl as ([p ms] & [Hp Hms] & ->).
  exists xyz, p, ms. split_and!; [done..|].
  exact (record_numbers_parse p _ ms Hms).
Qed.

(** ** The files of a run *)

(** The scans of a round, and of several, write records of their
    sensors. *)
Definition records_of (tr : list (string * list string)) : Prop :=
  Forall (λ entry, printed (is_record env vehicle_name entry.1) entry.2) tr.

Lemma round_lines_records t lidar_names tr t' :
  round_lines env vehicle_name t lidar_names = Some (tr, t') → records_of tr.
Proof.
  revert t tr t'. induction lidar_names as [|name rest IH]; intros t tr t'.
  - intros [= <- _]. constructor.
  - cbn [round_lines].
    destruct (env_open env t) as [?|?]; [|done].
    destruct (env_lidar env (t + 1) name vehicle_name) as [ld|?] eqn:Hld;
      [|done].
    destruct (env_state env (t + 2) vehicle_name) as [st|?] eqn:Hst; [|done].
    destruct (scan_lines env ld st _ _) as [ls [?|]] eqn:Hls; [done|].
    destruct (round_lines env vehicle_name _ rest) as [[tr' t'']|] eqn:Hrest;
      [|done].
    intros [= <- _]. constructor; [|by eapply IH]. cbn [fst snd].
    eapply printed_impl; [|by eapply scan_lines_printed].
    intros r (xyz & k & ? & ?). exists (t + 1)%nat, ld, st, xyz, k.
    split_and!; [done| |done..]. rewrite <- Hst. f_equal. lia.
Qed.

Lemma loop_lines_records lidar_names n t trs k :
  loop_lines env vehicle_name lidar_names n t = Some (trs, k) →
  Forall records_of trs.
Proof.
  revert t trs k. induction n as [|n IH]; intros t trs k; simpl.
  - intros [= <- _]. constructor.
  - destruct (round_lines _ _ _ _) as [[tr t']|] eqn:Hr; [|done]. simpl.
    destruct (loop_lines _ _ _ n t') as [[trs' t'']|] eqn:Hn; [|done].
    intros [= <- _].
    constructor; [by eapply round_lines_records|by eapply IH].
Qed.

Lemma lines_of_records name trs :
  Forall records_of trs →
  printed (is_record env vehicle_name name) (trs ≫= lines_of name).
Proof.
  intros Htrs. apply printed_bind. eapply Forall_impl; [exact Htrs|].
  intros tr Htr. cbn. unfold lines_of. apply printed_bind.
  eapply Forall_impl; [exact Htr|]. intros entry Hentry. cbn.
  case_decide as Hname; [by rewrite <- Hname|apply printed_nil].
Qed.

(** C17: after any number of rounds of a run without interrupts in which
    every scan succeeds, the file of a sensor, read line by line, is the
    list of the records written for that sensor, in the order of the
    rounds: every line is the line of a point that the loop body computed
    from a slice of a reply of this sensor, with the millisecond count of
    a reading of the clock, and reading the file gives the numbers that
    were printed for these points; a record is unreadable only when one
    of its numbers is a NaN or an infinity. *)
Theorem execute_file_readable n lidar_names w trs k name :
  handle w = None → NoDup lidar_names → name ∈ lidar_names → n ≠ 0%nat →
  loop_lines env vehicle_name lidar_names n (ticks w + 3) = Some (trs, k) →
  ∃ w' rs,
    execute env n vehicle_name lidar_names w = (Ok tt, w')
    ∧ trs ≫= lines_of name = record_line <$> rs
    ∧ Forall (is_record env vehicle_name name) rs
    ∧ read_lines
        (content (files w') (file_name (env_time env (ticks w + 2)) name))
      = record_line <$> rs
    ∧ parse_file
        (content (files w') (file_name (env_time env (ticks w + 2)) name))
      = mapM record_numbers rs.
Proof.
  intros Hh Hnd Hin Hn Hl.
  destruct (lines_of_records name trs) as (rs & Hrs & Hrec);
    [by eapply loop_lines_records|].
  eexists _, rs. split; [by apply execute_quiet|].
  apply loop_lines_names in Hl as [Hnames Hlen]. cbn [files].
  erewrite content_write_rounds; [| |done..]; [|intros ->; simpl in Hlen; lia].
  unfold parse_file. rewrite Hrs, read_lines_records. split_and!; [done..|].
  apply parse_records. eapply Forall_impl; [exact Hrec|].
  intros r (_ & _ & _ & _ & k' & _ & _ & _ & _ & ?). by eexists.
Qed.

End scan_file.

End binary64.

(** ** The theorems at the worked example *)

Local Open Scope float_scope.

(** The scan of the example: the file holds the record of its one
    slice. *)
Lemma scan_file_lookup_witness :
  ∃ w',
    scan (sim_env never [3; 4; 0]) "Drone1" sim_time false "LidarSensor1" w0
    = (Ok tt, w')
    ∧ length (read_lines (content (files w') (file_name sim_time "LidarSensor1")))
      = length (strides (point_cloud (sim_lidar [3; 4; 0])))
    ∧ ∀ i l,
        read_lines (content (files w') (file_name sim_time "LidarSensor1")) !! i
        = Some l →
        ∃ xyz p ms,
          strides (point_cloud (sim_lidar [3; 4; 0])) !! i = Some xyz
          ∧ transform_scan_point (sim_lidar [3; 4; 0]) sim_state xyz = Ok p
          ∧ milli_time_of (env_time (sim_env never [3; 4; 0])
                             (ticks w0 + 3 + 2 * i)) = Ok ms
          ∧ l = format_point p ms
          ∧ parse_record l = record_numbers (p, ms).
Proof.
  apply (scan_file_lookup (sim_env never [3; 4; 0]) (sim_quiet _) "Drone1"
           sim_time "LidarSensor1" w0 (sim_lidar [3; 4; 0]) sim_state);
    [done..|].
  intros [|i] xyz Hi; vm_compute in Hi; [|done]. injection Hi as <-.
  eexists _, _. split; vm_compute; reflexivity.
Defined.

(** Two rounds of the example: the file holds two records. *)
Lemma execute_file_readable_witness :
  ∃ w' rs,
    execute (sim_env never [3; 4; 0]) 2 "Drone1" ["LidarSensor1"] w0
    = (Ok tt, w')
    ∧ [sim_record; sim_record] = record_line <$> rs
    ∧ Forall (is_record (sim_env never [3; 4; 0]) "Drone1" "LidarSensor1") rs
    ∧ read_lines (content (files w') (file_name sim_time "LidarSensor1"))
      = record_line <$> rs
    ∧ parse_file (content (files w') (file_name sim_time "LidarSensor1"))
      = mapM record_numbers rs.
Proof.
  apply (execute_file_readable (sim_env never [3; 4; 0]) (sim_quiet _)
           "Drone1" 2 ["LidarSensor1"] w0
           [[("LidarSensor1", [sim_record])]; [("LidarSensor1", [sim_record])]]
           17 "LidarSensor1");
    [done|by apply (bool_decide_unpack _)|by apply (bool_decide_unpack _)
    |done|vm_compute; reflexivity].
Defined.

(** The file of the example, read back: the point (3, 4, -1), the range 5,
    the angle 0 and the time stamp 1700000000123, in millionths. *)
Example parse_file_sim :
  parse_file sim_record
  = Some [[(false, 3000000); (false, 4000000); (true, 1000000);
           (false, 5000000); (false, 0); (false, 1700000000123000000)]]%Z.
Proof. vm_compute. reflexivity. Qed.

(** A record torn by the buffer, as a scan that a point has ended can
    leave it on the disk, is not read. *)
Example parse_file_torn : parse_file "3.000000 4" = None.
Proof. vm_compute. reflexivity. Qed.
