(* ===== verification/Buffer.v ===== *)
(** * Buffer: the text of a file, on disk and pending

    Between [open] and [close] the text of a file is in two places: what
    the runtime has flushed is in the file, the rest in the buffer of the
    file object.  The script never flushes; where the runtime draws the
    line is its own policy, [env_flush].  [written] is the text in both
    places together.

    Two theorems make the policy harmless.  On every path through a scan,
    interrupted or failing at any primitive, the written text is what
    [open] left followed by the first records of the scan, whole and in
    order.  And a run that ends no scan early gives the same result under
    every policy: the buffered file object is equivalent to an unbuffered
    one. *)

From stdpp Require Import base strings list gmap.
From Stdlib Require Import Floats.
From S2P Require Import Prelude Scalar PyList Transform Record FloatModel.
From S2P Require Import World Scenario Rounds Execute.

(** The text of the file [name] as the script has written it: what is on
    disk, followed by the buffer when the open file object is for it. *)
Definition written (w : World) (name : string) : string :=
  content (files w) name +:+
  match handle w with
  | Some h => if decide (h_name h = name) then h_buffer h else ""
  | None => ""
  end.

(** [w'], the state in which a point loop that started in [w] with the file
    object [h] ended with [r]: the first [j] of the records [ls] are behind
    the text of [w], and all of them when the loop went through. *)
Definition holds_prefix (w : World) (h : Handle) (ls : list string)
    (r : result unit) (w' : World) : Prop :=
  ∃ j buf,
    handle w' = Some (mkHandle (h_name h) buf)
    ∧ content (files w') (h_name h) +:+ buf
      = (content (files w) (h_name h) +:+ h_buffer h)
        +:+ concat_str (take j ls)
    ∧ (is_ok r = true → length ls ≤ j).

Lemma written_open w name buf :
  handle w = Some (mkHandle name buf) →
  written w name = content (files w) name +:+ buf.
Proof. intros Hh. unfold written. rewrite Hh. simpl. by rewrite decide_True. Qed.

Lemma written_closed w name :
  handle w = None → written w name = content (files w) name.
Proof. intros Hh. unfold written. by rewrite Hh, string_app_nil_r. Qed.

(** A loop that stops where it is has written nothing. *)
Lemma holds_prefix_stop w h ls e w' :
  handle w = Some h → handle w' = handle w → files w' = files w →
  holds_prefix w h ls (Raise e) w'.
Proof.
  intros Hh Hh' Hf'. exists 0, (h_buffer h).
  rewrite Hh', Hf', Hh, take_0. destruct h. split_and!; [done| |done].
  by rewrite string_app_nil_r.
Qed.

(** One more record in front. *)
Lemma holds_prefix_step w h n l ls r w2 w' :
  handle w2 = Some (write_handle n l h) →
  files w2 = write_files n l h (files w) →
  holds_prefix w2 (write_handle n l h) ls r w' →
  holds_prefix w h (l :: ls) r w'.
Proof.
  intros Hh2 Hf2 (j & buf & Hh' & Hc & Hok). exists (S j), buf.
  change (h_name (write_handle n l h)) with (h_name h) in *.
  split_and!; [done| |intros Hr; simpl; specialize (Hok Hr); lia].
  rewrite Hc, Hf2, write_pending. cbn [take concat_str foldr].
  by rewrite !string_app_assoc.
Qed.

Section buffer.
Context {T : Type} `{Scalar T} `{Format T}.
Context (env : Env T).

(** [env] with another buffering policy. *)
Definition with_flush (flush : nat → nat) : Env T :=
  mkEnv (env_interrupt env) (env_time env) (env_lidar env) (env_state env)
    (env_connect env) (env_open env) flush.

(** The records of the scan of a sensor that starts at tick [t]; none when
    a request is not answered. *)
Definition scan_records (vehicle_name lidar_name : string) (t : nat)
    : list string :=
  match env_lidar env (t + 1) lidar_name vehicle_name,
        env_state env (t + 2) vehicle_name with
  | Ok ld, Ok st => (scan_lines env ld st (t + 3) (strides (point_cloud ld))).1
  | _, _ => []
  end.

(** ** Every path through a scan *)

(** One point: either it stops the loop and nothing is written, or its
    record is written, two ticks pass, and the loop goes on. *)
Lemma point_body_written ld st xyz w h :
  handle w = Some h →
  match point_body env ld st xyz w with
  | (Ok _, w2) =>
      ∃ l, point_line env ld st (ticks w) xyz = Ok l
        ∧ ticks w2 = ticks w + 2
        ∧ handle w2 = Some (write_handle (env_flush env (S (ticks w))) l h)
        ∧ files w2 = write_files (env_flush env (S (ticks w))) l h (files w)
  | (Raise _, w2) => handle w2 = handle w ∧ files w2 = files w
  end.
Proof.
  intros Hh. unfold point_body, write_point, point_line, time_time, f_write.
  rewrite run_bind, run_lift.
  destruct (transform_scan_point ld st xyz) as [p|e]; [|done]. simpl.
  rewrite run_prim_bind. destruct (env_interrupt env (ticks w)); [done|].
  rewrite run_bind, run_lift.
  destruct (milli_time_of _) as [ms|e]; [|done]. unfold prim. simpl.
  destruct (env_interrupt env (S (ticks w))); [done|]. rewrite Hh.
  eexists. split_and!; [done|simpl; lia|done..].
Qed.

(** The point loop, on every path: a prefix of its records is written. *)
Lemma point_loop_written ld st chunks w h r w' :
  handle w = Some h →
  for_each chunks (point_body env ld st) w = (r, w') →
  holds_prefix w h (scan_lines env ld st (ticks w) chunks).1 r w'.
Proof.
  revert w h. induction chunks as [|xyz rest IH]; intros w h Hh.
  - intros [= <- <-]. exists 0, (h_buffer h). rewrite Hh. destruct h.
    split_and!; [done|by rewrite string_app_nil_r|done].
  - rewrite for_each_cons. pose proof (point_body_written ld st xyz w h Hh) as Hp.
    destruct (point_body env ld st xyz w) as [[[]|e] w2].
    + destruct Hp as (l & Hl & Ht & Hh2 & Hf2). intros Hrest.
      apply (IH _ _ Hh2) in Hrest. cbn [scan_lines]. rewrite Hl, Ht in *.
      destruct (scan_lines env ld st (ticks w + 2) rest) as [ls e'].
      by eapply holds_prefix_step.
    + destruct Hp as [Hh2 Hf2]. intros [= <- <-]. by apply holds_prefix_stop.
Qed.

(** What [close] makes of the written text. *)
Lemma f_close_written w name buf r w' :
  handle w = Some (mkHandle name buf) → f_close env w = (r, w') →
  written w' name = content (files w) name +:+ buf
  ∧ (is_ok r = true → handle w' = None).
Proof.
  intros Hh. unfold f_close, prim.
  destruct (env_interrupt env (ticks w)).
  - intros [= <- <-]. by rewrite (written_open _ _ buf).
  - simpl. rewrite Hh. intros [= <- <-].
    rewrite written_closed by done. split; [|done].
    apply (content_flush _ (mkHandle name buf)).
Qed.

(** The part of a scan behind [open] and the two requests. *)
Lemma scan_body_written ld st w name base r w' :
  handle w = Some (mkHandle name "") → content (files w) name = base →
  (_ ← for_each (strides (point_cloud ld)) (point_body env ld st);
   f_close env) w = (r, w') →
  ∃ j,
    written w' name
    = base +:+ concat_str
                 (take j (scan_lines env ld st (ticks w)
                            (strides (point_cloud ld))).1)
    ∧ (is_ok r = true →
       handle w' = None
       ∧ length (scan_lines env ld st (ticks w) (strides (point_cloud ld))).1
         ≤ j).
Proof.
  intros Hh Hb. rewrite run_bind.
  destruct (for_each _ _ w) as [r1 w1] eqn:Hloop.
  apply (point_loop_written _ _ _ _ _ _ _ Hh) in Hloop
    as (j & buf & Hh1 & Hc & Hok).
  cbn [h_name h_buffer] in *. rewrite Hb, string_app_nil_r in Hc.
  destruct r1 as [[]|e].
  - intros Hclose. apply (f_close_written _ _ _ _ _ Hh1) in Hclose as [Hw Hr].
    exists j. rewrite <- Hc. split; [done|].
    intros Hr'. split; [by apply Hr|by apply Hok].
  - intros [= <- <-]. exists j. by rewrite <- Hc, (written_open _ _ buf).
Qed.

(** A scan that stops at a request has written nothing. *)
Lemma scan_stopped_written w name base ls e :
  handle w = Some (mkHandle name "") → content (files w) name = base →
  ∃ j, written w name = base +:+ concat_str (take j ls)
    ∧ (is_ok (Raise e : result unit) = true → handle w = None ∧ length ls ≤ j).
Proof.
  intros Hh Hb. exists 0. rewrite (written_open _ _ "") by done.
  by rewrite Hb, take_0.
Qed.

(** The part of a scan behind [open]. *)
Lemma scan_requests_written vehicle_name lidar_name t w name base r w' :
  ticks w = S t →
  handle w = Some (mkHandle name "") → content (files w) name = base →
  (lidar_data ← getLidarData env lidar_name vehicle_name;
   state ← getMultirotorState env vehicle_name;
   _ ← for_each (strides (point_cloud lidar_data))
         (point_body env lidar_data state);
   f_close env) w = (r, w') →
  ∃ j,
    written w' name
    = base +:+ concat_str (take j (scan_records vehicle_name lidar_name t))
    ∧ (is_ok r = true →
       handle w' = None
       ∧ length (scan_records vehicle_name lidar_name t) ≤ j).
Proof.
  intros Ht Hh Hb. unfold getLidarData, getMultirotorState, scan_records.
  replace (t + 1) with (S t) by lia. replace (t + 2) with (S (S t)) by lia.
  replace (t + 3) with (S (S (S t))) by lia.
  rewrite run_prim_bind, Ht.
  destruct (env_interrupt env (S t));
    [intros [= <- <-]; by apply scan_stopped_written|].
  destruct (env_lidar env (S t) lidar_name vehicle_name) as [ld|e];
    [|intros [= <- <-]; by apply scan_stopped_written].
  rewrite run_prim_bind. cbn [ticks tick]. rewrite Ht.
  destruct (env_interrupt env (S (S t)));
    [intros [= <- <-]; by apply scan_stopped_written|].
  destruct (env_state env (S (S t)) vehicle_name) as [st|e];
    [|intros [= <- <-]; by apply scan_stopped_written].
  intros Hrun. apply (scan_body_written _ _ _ name base) in Hrun; [|done..].
  cbn [ticks tick] in Hrun. by rewrite Ht in Hrun.
Qed.

(** C16: whatever ends a scan whose file was opened, the completion of its
    loop, an exception of a request or of a point, or CTRL+C at any
    primitive, and whatever the runtime has flushed: the text of the
    sensor's file, on disk and pending, is what [open] left followed by
    the first records of the scan, whole and in order.  A scan that
    returns has closed the file with all its records. *)
Theorem scan_written vehicle_name time_stamp cleared lidar_name w r w' :
  env_interrupt env (ticks w) = false → env_open env (ticks w) = Ok tt →
  scan env vehicle_name time_stamp cleared lidar_name w = (r, w') →
  ∃ j,
    written w' (file_name time_stamp lidar_name)
    = (if cleared
       then content (files w) (file_name time_stamp lidar_name) else "")
      +:+ concat_str
            (take j (scan_records vehicle_name lidar_name (ticks w)))
    ∧ (is_ok r = true →
       handle w' = None
       ∧ length (scan_records vehicle_name lidar_name (ticks w)) ≤ j).
Proof.
  intros Hq Hopen. unfold scan, py_open.
  rewrite run_prim_bind, Hq, Hopen. cbv beta iota.
  apply scan_requests_written; [done..|].
  destruct cleared; [apply content_open_a|apply content_open_w].
Qed.

(** ** The buffering policy does not show in a run that goes through *)

Lemma scan_lines_flush flush ld st t chunks :
  scan_lines (with_flush flush) ld st t chunks = scan_lines env ld st t chunks.
Proof.
  revert t. induction chunks as [|xyz rest IH]; intros t; [done|].
  cbn [scan_lines]. by rewrite IH.
Qed.

Lemma round_lines_flush flush vehicle_name t lidar_names :
  round_lines (with_flush flush) vehicle_name t lidar_names
  = round_lines env vehicle_name t lidar_names.
Proof.
  revert t. induction lidar_names as [|name rest IH]; intros t; [done|].
  cbn [round_lines]. cbn [with_flush env_open env_lidar env_state].
  destruct (env_open env t) as [[]|]; [|done].
  destruct (env_lidar env _ _ _) as [ld|]; [|done].
  destruct (env_state env _ _) as [st|]; [|done].
  rewrite scan_lines_flush.
  destruct (scan_lines env _ _ _ _) as [ls [e|]]; [done|]. by rewrite IH.
Qed.

Lemma loop_lines_flush flush vehicle_name lidar_names n t :
  loop_lines (with_flush flush) vehicle_name lidar_names n t
  = loop_lines env vehicle_name lidar_names n t.
Proof.
  revert t. induction n as [|n IH]; intros t; [done|].
  cbn [loop_lines]. rewrite round_lines_flush.
  destruct (round_lines env _ _ _) as [[tr t']|]; [|done]. simpl.
  by rewrite IH.
Qed.

(** C25: a run without interrupts in which every scan of the first [n]
    rounds succeeds gives the same result under every buffering policy:
    for the files it leaves, the buffered file object of the script is
    equivalent to one that writes through. *)
Theorem execute_flush_irrelevant flush n vehicle_name lidar_names w trs k :
  quiet env → handle w = None →
  loop_lines env vehicle_name lidar_names n (ticks w + 3) = Some (trs, k) →
  execute (with_flush flush) n vehicle_name lidar_names w
  = execute env n vehicle_name lidar_names w.
Proof.
  intros Hquiet Hh Hl.
  rewrite (execute_quiet env Hquiet _ _ _ _ trs k) by done.
  by rewrite (execute_quiet (with_flush flush) Hquiet _ _ _ _ trs k)
    by (done || by rewrite loop_lines_flush).
Qed.

End buffer.

(** ** The theorems at the worked example *)

Section example.
Local Open Scope float_scope.

Ltac by_eval := vm_compute; reflexivity.

(** CTRL+C at [close], on a runtime that flushes ten characters at every
    [write]: the file is open, the first ten characters of the record are
    on disk, the others in the buffer. *)
Lemma scan_torn_record :
  scan (flushing_env (at_tick 5) 10 [3; 4; 0]) "Drone1" sim_time false
    "LidarSensor1" w0
  = (Raise KeyboardInterrupt,
     mkWorld {[sim_file := "3.000000 4"]}
       (Some (mkHandle sim_file
                (".000000 -1.000000 5.000000 0.000000 "
                 +:+ "1700000000123.000000 255 255 0 " +:+ nl)))
       [] 6).
Proof. by_eval. Qed.

Lemma scan_written_witness :
  ∃ j,
    written
      (scan (flushing_env (at_tick 5) 10 [3; 4; 0]) "Drone1" sim_time false
         "LidarSensor1" w0).2 (file_name sim_time "LidarSensor1")
    = "" +:+ concat_str
               (take j (scan_records (flushing_env (at_tick 5) 10 [3; 4; 0])
                          "Drone1" "LidarSensor1" 0))
    ∧ (is_ok (Raise KeyboardInterrupt : result unit) = true →
       handle
         (scan (flushing_env (at_tick 5) 10 [3; 4; 0]) "Drone1" sim_time
            false "LidarSensor1" w0).2 = None
       ∧ length (scan_records (flushing_env (at_tick 5) 10 [3; 4; 0])
                   "Drone1" "LidarSensor1" 0) ≤ j).
Proof.
  apply (scan_written (flushing_env (at_tick 5) 10 [3; 4; 0]) "Drone1"
           sim_time false "LidarSensor1" w0 (Raise KeyboardInterrupt));
    by_eval.
Defined.

(** Two rounds of the example, writing through and buffering everything. *)
Lemma execute_flush_irrelevant_witness :
  execute (with_flush (sim_env never [3; 4; 0]) (λ _, 100%nat)) 2 "Drone1"
    ["LidarSensor1"] w0
  = execute (sim_env never [3; 4; 0]) 2 "Drone1" ["LidarSensor1"] w0.
Proof.
  apply (execute_flush_irrelevant (sim_env never [3; 4; 0]) (λ _, 100%nat) 2
           "Drone1" ["LidarSensor1"] w0
           [[("LidarSensor1", [sim_record])];
            [("LidarSensor1", [sim_record])]] 17);
    [apply sim_quiet|reflexivity|by_eval].
Defined.

End example.
