(* ===== verification/Safety.v ===== *)
(** * Safety: what holds of every run, interrupted or failing

    The theorems of [Execute.v] follow the runs in which nothing goes
    wrong.  Here the environment is arbitrary: a keyboard interrupt may
    arrive at any primitive, the simulator may fail at any request, any
    point may raise.  Frame properties are stated as preorders on worlds
    and carried through the program by the closure lemmas of [steps]:
    [touches_only] (no file outside a given set changes), [keeps_open] (an
    open file stays open) and [same_stdout] (nothing is printed).  On top
    of them: which files a run can touch, when the file of a scan is
    closed, and what [execute] does with an exception of the loop. *)

From stdpp Require Import base strings list gmap.
From Stdlib Require Import Floats.
From S2P Require Import Prelude Scalar PyList Transform Record FloatModel.
From S2P Require Import World Scenario Rounds Execute.

(** The two messages [execute] prints first, and those of its handler. *)
Definition banner : list string :=
  ["Scanning Has Started" +:+ nl;
   "Use Keyboard Interrupt 'CTRL + C' to Stop Scanning" +:+ nl].

Definition farewell : list string :=
  ["Press any key to stop running this script"; "Done!" +:+ nl].

(** The file [fn] is open. *)
Definition open_on (fn : string) (w : World) : Prop :=
  ∃ buf, handle w = Some (mkHandle fn buf).

Section safety.
Context {T : Type} `{Scalar T} `{Format T}.
Context (env : Env T).

(** The files of the sensors of a run that started at [time_stamp]. *)
Definition sensor_files (time_stamp : T) (lidar_names : list string)
    : string → Prop :=
  λ f, ∃ name, name ∈ lidar_names ∧ f = file_name time_stamp name.

(** ** The frame relations *)

(** [touches_only fns]: a run that starts with no open file, or with an
    open file among [fns], ends in such a state and has changed no file
    outside [fns]. *)
Definition touches_only (fns : string → Prop) : relation World := λ w w',
  (∀ h, handle w = Some h → fns (h_name h)) →
  (∀ h, handle w' = Some h → fns (h_name h))
  ∧ ∀ f, ¬ fns f → files w' !! f = files w !! f.

(** [keeps_open fn]: a file [fn] that is open stays open. *)
Definition keeps_open (fn : string) : relation World := λ w w',
  ∀ buf, handle w = Some (mkHandle fn buf) →
  ∃ buf', handle w' = Some (mkHandle fn buf').

(** Nothing is printed. *)
Definition same_stdout : relation World := λ w w', stdout w' = stdout w.

#[local] Instance same_stdout_preorder : PreOrder same_stdout.
Proof.
  split; [by intros w|]. intros w1 w2 w3 H12 H23. unfold same_stdout in *.
  by rewrite H23.
Qed.

#[local] Instance touches_only_preorder fns : PreOrder (touches_only fns).
Proof.
  split.
  - intros w Hw. done.
  - intros w1 w2 w3 H12 H23 Hw1.
    destruct (H12 Hw1) as [Hw2 Hf12]. destruct (H23 Hw2) as [Hw3 Hf23].
    split; [done|]. intros f Hf. by rewrite Hf23, Hf12.
Qed.

#[local] Instance keeps_open_preorder fn : PreOrder (keeps_open fn).
Proof.
  split.
  - intros w buf Hw. eauto.
  - intros w1 w2 w3 H12 H23 buf Hw1.
    destruct (H12 _ Hw1) as [buf' Hw2]. eauto.
Qed.

Lemma touches_only_same fns w w' :
  handle w' = handle w → files w' = files w → touches_only fns w w'.
Proof. intros Hh Hf Hw. rewrite Hh, Hf. done. Qed.

Lemma keeps_open_same fn w w' :
  handle w' = handle w → files w' = files w → keeps_open fn w w'.
Proof. intros Hh _ buf Hw. rewrite Hh. eauto. Qed.

(** The primitives that act on neither the files nor the handle. *)
Lemma steps_observer {A} (R : relation World) `{!PreOrder R}
    (act : nat → World → result A * World) :
  (∀ w w', handle w' = handle w → files w' = files w → R w w') →
  (∀ k w, handle (act k w).2 = handle w ∧ files (act k w).2 = files w) →
  steps R (prim env act).
Proof.
  intros HR Hact. apply steps_prim; [done|by intros; apply HR|].
  intros k w. by apply HR; apply Hact.
Qed.

Lemma steps_observers (R : relation World) `{!PreOrder R} :
  (∀ w w', handle w' = handle w → files w' = files w → R w w') →
  steps R (checkpoint env) ∧ steps R (time_time env)
  ∧ (∀ s, steps R (py_print env s)) ∧ (∀ s, steps R (wait_key env s))
  ∧ (∀ a b, steps R (getLidarData env a b))
  ∧ (∀ a, steps R (getMultirotorState env a))
  ∧ steps R (confirmConnection env).
Proof. intros HR. split_and!; intros; by apply steps_observer. Qed.

Lemma steps_point_body (R : relation World) `{!PreOrder R} ld st xyz :
  (∀ w w', handle w' = handle w → files w' = files w → R w w') →
  (∀ s, steps R (f_write env s)) →
  steps R (point_body env ld st xyz).
Proof.
  intros HR Hwrite.
  destruct (steps_observers R HR) as (_ & Htime & _).
  unfold point_body, write_point.
  steps_rule; [steps_rule|]. steps_rule; [done|].
  steps_rule; [steps_rule|]. done.
Qed.

Lemma f_write_touches_only fns s : steps (touches_only fns) (f_write env s).
Proof.
  apply steps_prim; [apply _|by intros; apply touches_only_same|].
  intros k w. destruct (handle w) as [h|] eqn:Hh;
    [|by apply touches_only_same].
  intros Hw. simpl. split; [intros h' [= <-]; exact (Hw h Hh)|].
  intros f Hf. apply write_files_ne. intros <-. exact (Hf (Hw h Hh)).
Qed.

Lemma f_write_keeps_open fn s : steps (keeps_open fn) (f_write env s).
Proof.
  apply steps_prim; [apply _|by intros; apply keeps_open_same|].
  intros k w buf Hw. rewrite Hw. simpl. eauto.
Qed.

Lemma f_close_touches_only fns : steps (touches_only fns) (f_close env).
Proof.
  apply steps_prim; [apply _|by intros; apply touches_only_same|].
  intros _ w. destruct (handle w) as [h|] eqn:Hh;
    [|by apply touches_only_same].
  intros Hw. simpl. split; [done|]. intros f Hf. unfold flush_files.
  apply lookup_insert_ne. intros <-. by apply Hf, Hw.
Qed.

Lemma py_open_touches_only (fns : string → Prop) name mode :
  fns name → steps (touches_only fns) (py_open env name mode).
Proof.
  intros Hname.
  apply steps_prim; [apply _|by intros; apply touches_only_same|].
  intros k w. destruct (env_open env k); [|by apply touches_only_same].
  intros Hw. simpl. split; [by intros h [= <-]|].
  intros f Hf. destruct mode; apply lookup_insert_ne; by intros <-.
Qed.

(** A scan changes no file but the file of its sensor. *)
Lemma scan_touches_only (fns : string → Prop) vehicle_name time_stamp cleared
    lidar_name :
  fns (file_name time_stamp lidar_name) →
  steps (touches_only fns) (scan env vehicle_name time_stamp cleared lidar_name).
Proof.
  intros Hfn.
  destruct (steps_observers (touches_only fns) (touches_only_same fns))
    as (_ & _ & _ & _ & Hlidar & Hstate & _).
  unfold scan. steps_rule; [by apply py_open_touches_only|].
  do 2 (steps_rule; [done|]). steps_rule; [|apply f_close_touches_only].
  steps_rule. apply steps_point_body;
    [apply _|apply touches_only_same|apply f_write_touches_only].
Qed.


(** ** Which files a run can touch *)

Lemma polling_loop_touches_only (fns : string → Prop) n vehicle_name
    lidar_names time_stamp :
  (∀ name, name ∈ lidar_names → fns (file_name time_stamp name)) →
  steps (touches_only fns)
    (polling_loop env n vehicle_name lidar_names time_stamp).
Proof.
  intros Hfns.
  destruct (steps_observers (touches_only fns) (touches_only_same fns))
    as (Hcheck & _).
  assert (Hround : ∀ c, steps (touches_only fns)
            (round_ env vehicle_name lidar_names time_stamp c)).
  { intros c. unfold round_. steps_rule; [done|]. steps_rule.
    by apply scan_touches_only, Hfns. }
  destruct n as [|n]; simpl; steps_rule; [done|]. by steps_rule.
Qed.

Lemma on_interrupt_observer (R : relation World) `{!PreOrder R} :
  (∀ w w', handle w' = handle w → files w' = files w → R w w') →
  steps R (on_interrupt env).
Proof.
  intros HR. destruct (steps_observers R HR) as (_ & _ & Hprint & Hkey & _).
  unfold on_interrupt. by steps_rule.
Qed.

(** The frame of [execute]: the files of the listed sensors for the start
    time, which it reads two ticks after it is called. *)
Lemma execute_frame n vehicle_name lidar_names w r w' :
  execute env n vehicle_name lidar_names w = (r, w') →
  touches_only (sensor_files (env_time env (ticks w + 2)) lidar_names) w w'.
Proof.
  intros Hrun. unfold execute, py_print, time_time in Hrun.
  rewrite !run_prim_bind in Hrun. cbv beta iota in Hrun.
  repeat (case_match; [injection Hrun as _ <-; by apply touches_only_same|]).
  set (ts := env_time env _) in Hrun.
  replace (env_time env (ticks w + 2)) with ts
    by (subst ts; simpl; f_equal; lia).
  eapply (steps_try_except (touches_only (sensor_files ts lidar_names)))
    in Hrun.
  - intros Hw. by apply Hrun.
  - apply polling_loop_touches_only. intros name Hin. by exists name.
  - apply on_interrupt_observer; [apply _|apply touches_only_same].
Qed.

(** C20: whatever happens in a run of [execute] that starts with no open
    file (interrupts, failed requests, points that raise), the script
    changes no file other than the files of the listed sensors for the
    start time it read. *)
Theorem execute_touches_only n vehicle_name lidar_names w r w' f :
  handle w = None →
  execute env n vehicle_name lidar_names w = (r, w') →
  ¬ sensor_files (env_time env (ticks w + 2)) lidar_names f →
  files w' !! f = files w !! f.
Proof.
  intros Hh Hrun Hf. apply execute_frame in Hrun.
  destruct Hrun as [_ Hfiles]; [|by apply Hfiles]. intros h. by rewrite Hh.
Qed.

(** ** When the file of a scan is closed *)

Lemma f_close_handle fn buf w r w' :
  handle w = Some (mkHandle fn buf) → f_close env w = (r, w') →
  match r with
  | Ok _ => handle w' = None
  | Raise _ => handle w' = Some (mkHandle fn buf)
  end.
Proof.
  intros Hh. unfold f_close, prim.
  destruct (env_interrupt env (ticks w)); [by intros [= <- <-]|].
  simpl. rewrite Hh. by intros [= <- <-].
Qed.

(** C22: the file of a scan is closed exactly when the scan completes.  A
    scan that is left by an exception after [open] (an interrupt, a failed
    request, a point that raises) leaves the file open, with the records
    written so far in its buffer. *)
Theorem scan_handle vehicle_name time_stamp cleared lidar_name w r w' :
  env_interrupt env (ticks w) = false → env_open env (ticks w) = Ok tt →
  scan env vehicle_name time_stamp cleared lidar_name w = (r, w') →
  match r with
  | Ok _ => handle w' = None
  | Raise _ => open_on (file_name time_stamp lidar_name) w'
  end.
Proof.
  intros Hq Hopen. unfold open_on. set (fn := file_name time_stamp lidar_name).
  destruct (steps_observers (keeps_open fn) (keeps_open_same fn))
    as (_ & _ & _ & _ & Hlidar & Hstate & _).
  assert (Hloop : ∀ ld st, steps (keeps_open fn)
            (for_each (strides (point_cloud ld)) (point_body env ld st))).
  { intros ld st. steps_rule. apply steps_point_body;
      [apply _|apply keeps_open_same|apply f_write_keeps_open]. }
  unfold scan, py_open. rewrite run_prim_bind, Hq, Hopen. cbv beta iota.
  set (w1 := set_handle _ _). assert (Hh1 : handle w1 = Some (mkHandle fn ""))
    by done. clearbody w1. intros Hrun.
  apply run_bind_inv in Hrun as [(e & Hm & ->)|(ld & w2 & Hm & Hrun)];
    [by eapply Hlidar|].
  apply Hlidar in Hm. destruct (Hm _ Hh1) as [buf2 Hh2].
  apply run_bind_inv in Hrun as [(e & Hm' & ->)|(st & w3 & Hm' & Hrun)];
    [by eapply Hstate|].
  apply Hstate in Hm'. destruct (Hm' _ Hh2) as [buf3 Hh3].
  apply run_bind_inv in Hrun as [(e & Hl & ->)|([] & w4 & Hl & Hrun)];
    [by eapply Hloop|].
  apply Hloop in Hl. destruct (Hl _ Hh3) as [buf4 Hh4].
  apply (f_close_handle _ _ _ _ _ Hh4) in Hrun. destruct r; eauto.
Qed.

(** ** What [execute] does with an exception of the loop *)

(** Nothing is printed inside the loop. *)
Lemma polling_loop_same_stdout n vehicle_name lidar_names time_stamp :
  steps same_stdout (polling_loop env n vehicle_name lidar_names time_stamp).
Proof.
  assert (Hprim : ∀ A (act : nat → World → result A * World),
            (∀ k w, stdout (act k w).2 = stdout w) →
            steps same_stdout (prim env act)).
  { intros A act Hact. apply steps_prim; [apply _|done|].
    intros k w. apply Hact. }
  assert (Hround : ∀ c, steps same_stdout
            (round_ env vehicle_name lidar_names time_stamp c)).
  { intros c. unfold round_, scan, point_body, write_point, checkpoint,
      py_open, getLidarData, getMultirotorState, time_time, f_write, f_close.
    repeat first
      [steps_rule | apply Hprim; intros k w; simpl; by repeat case_match]. }
  destruct n as [|n]; simpl; steps_rule; [done|]. by steps_rule.
Qed.

(** The start of [execute] when no interrupt arrives during the three
    statements before the loop. *)
Lemma execute_unfold n vehicle_name lidar_names w :
  env_interrupt env (ticks w) = false →
  env_interrupt env (ticks w + 1) = false →
  env_interrupt env (ticks w + 2) = false →
  execute env n vehicle_name lidar_names w =
  try_except is_KeyboardInterrupt
    (polling_loop env n vehicle_name lidar_names (env_time env (ticks w + 2)))
    (on_interrupt env)
    (mkWorld (files w) (handle w) (stdout w ++ banner) (ticks w + 3)).
Proof.
  replace (ticks w + 1) with (S (ticks w)) by lia.
  replace (ticks w + 2) with (S (S (ticks w))) by lia.
  replace (ticks w + 3) with (S (S (S (ticks w)))) by lia.
  intros H0' H1' H2'. unfold execute, py_print, time_time.
  rewrite !run_prim_bind. cbn [ticks tick add_stdout fst snd].
  rewrite H0', H1', H2'. unfold add_stdout, tick. simpl.
  by rewrite <- app_assoc.
Qed.

Lemma on_interrupt_run w :
  env_interrupt env (ticks w) = false →
  env_interrupt env (ticks w + 1) = false →
  on_interrupt env w =
  (Ok tt, mkWorld (files w) (handle w) (stdout w ++ farewell) (ticks w + 2)).
Proof.
  replace (ticks w + 1) with (S (ticks w)) by lia.
  replace (ticks w + 2) with (S (S (ticks w))) by lia.
  intros H0' H1'. unfold on_interrupt, wait_key, py_print.
  rewrite run_prim_bind, H0'. cbv beta iota.
  rewrite prim_quiet by done. unfold add_stdout, tick. simpl.
  by rewrite <- app_assoc.
Qed.

(** What [execute] makes of the outcome of the loop. *)
Lemma execute_after_loop n vehicle_name lidar_names w r w1 :
  env_interrupt env (ticks w) = false →
  env_interrupt env (ticks w + 1) = false →
  env_interrupt env (ticks w + 2) = false →
  polling_loop env n vehicle_name lidar_names (env_time env (ticks w + 2))
    (mkWorld (files w) (handle w) (stdout w ++ banner) (ticks w + 3))
  = (r, w1) →
  execute env n vehicle_name lidar_names w =
  match r with
  | Raise KeyboardInterrupt => on_interrupt env w1
  | _ => (r, w1)
  end
  ∧ stdout w1 = stdout w ++ banner.
Proof.
  intros H0' H1' H2' Hloop. rewrite execute_unfold by done.
  split; [|by apply polling_loop_same_stdout in Hloop].
  unfold try_except. rewrite Hloop. by destruct r as [[]|[]].
Qed.

(** C23: a keyboard interrupt that leaves the loop is caught: [execute]
    waits for a key, prints the completion message and returns normally.
    Files and file object are as the interrupt left them. *)
Theorem execute_interrupted n vehicle_name lidar_names w w1 :
  env_interrupt env (ticks w) = false →
  env_interrupt env (ticks w + 1) = false →
  env_interrupt env (ticks w + 2) = false →
  polling_loop env n vehicle_name lidar_names (env_time env (ticks w + 2))
    (mkWorld (files w) (handle w) (stdout w ++ banner) (ticks w + 3))
  = (Raise KeyboardInterrupt, w1) →
  env_interrupt env (ticks w1) = false →
  env_interrupt env (ticks w1 + 1) = false →
  execute env n vehicle_name lidar_names w =
  (Ok tt, mkWorld (files w1) (handle w1) (stdout w ++ banner ++ farewell)
            (ticks w1 + 2)).
Proof.
  intros H0' H1' H2' Hloop H3' H4'.
  destruct (execute_after_loop _ _ _ _ _ _ H0' H1' H2' Hloop) as [-> Hout].
  rewrite on_interrupt_run by done. by rewrite Hout, <- app_assoc.
Qed.

(** C24: any other exception of the loop leaves [execute] uncaught: the
    handler does not run and the completion message is not printed. *)
Theorem execute_error_propagates n vehicle_name lidar_names w e w1 :
  env_interrupt env (ticks w) = false →
  env_interrupt env (ticks w + 1) = false →
  env_interrupt env (ticks w + 2) = false →
  polling_loop env n vehicle_name lidar_names (env_time env (ticks w + 2))
    (mkWorld (files w) (handle w) (stdout w ++ banner) (ticks w + 3))
  = (Raise e, w1) →
  e ≠ KeyboardInterrupt →
  execute env n vehicle_name lidar_names w = (Raise e, w1)
  ∧ stdout w1 = stdout w ++ banner.
Proof.
  intros H0' H1' H2' Hloop He.
  destruct (execute_after_loop _ _ _ _ _ _ H0' H1' H2' Hloop) as [-> Hout].
  split; [by destruct e|done].
Qed.

(** ** CTRL+C at two places of the first round *)

Section one_interrupt.
Context (w : World) (t : nat).
Hypothesis Honly : ∀ k, env_interrupt env k = true ↔ k = ticks w + t.

Lemma interrupt_off k : k ≠ ticks w + t → env_interrupt env k = false.
Proof.
  intros Hk. destruct (env_interrupt env k) eqn:Hi; [|done].
  by apply Honly in Hi.
Qed.

Lemma interrupt_on k : k = ticks w + t → env_interrupt env k = true.
Proof. apply Honly. Qed.

(** An interrupt inside the loop, at the third tick or later, that is the
    only one: the handler runs undisturbed. *)
Lemma execute_one_interrupt n vehicle_name lidar_names w1 :
  3 ≤ t → ticks w1 = ticks w + t + 1 →
  polling_loop env n vehicle_name lidar_names (env_time env (ticks w + 2))
    (mkWorld (files w) (handle w) (stdout w ++ banner) (ticks w + 3))
  = (Raise KeyboardInterrupt, w1) →
  execute env n vehicle_name lidar_names w =
  (Ok tt, mkWorld (files w1) (handle w1) (stdout w ++ banner ++ farewell)
            (ticks w + t + 3)).
Proof.
  intros Ht Hw1 Hloop.
  destruct (execute_after_loop n vehicle_name lidar_names w
              (Raise KeyboardInterrupt) w1)
    as [-> Hout]; [apply interrupt_off; lia..|done|].
  rewrite on_interrupt_run by (apply interrupt_off; lia).
  rewrite Hout, <- app_assoc, Hw1. do 2 f_equal. lia.
Qed.

End one_interrupt.

(** CTRL+C at the head of the first iteration, before any scan: the
    script prints its four messages and returns; no file is created or
    changed. *)
Theorem execute_interrupt_at_loop_head n vehicle_name lidar_names w :
  (∀ k, env_interrupt env k = true ↔ k = ticks w + 3) →
  execute env (S n) vehicle_name lidar_names w =
  (Ok tt, mkWorld (files w) (handle w) (stdout w ++ banner ++ farewell)
            (ticks w + 6)).
Proof.
  intros Honly.
  rewrite (execute_one_interrupt w 3 Honly _ _ _
             (tick (mkWorld (files w) (handle w) (stdout w ++ banner)
                      (ticks w + 3))));
    [simpl; do 2 f_equal; lia|lia|simpl; lia|].
  cbn [polling_loop]. unfold round_, checkpoint.
  by rewrite run_bind, run_prim_bind, (interrupt_on w 3 Honly).
Qed.

(** CTRL+C while the first scan waits for the lidar data: the file of
    the sensor has been created or emptied by [open], the file object is
    still open when [execute] returns, and nothing was written. *)
Theorem execute_interrupt_in_scan n vehicle_name lidar_name lidar_names w :
  (∀ k, env_interrupt env k = true ↔ k = ticks w + 5) →
  env_open env (ticks w + 4) = Ok tt →
  let fn := file_name (env_time env (ticks w + 2)) lidar_name in
  execute env (S n) vehicle_name (lidar_name :: lidar_names) w =
  (Ok tt, mkWorld (<[fn := ""]> (files w)) (Some (mkHandle fn ""))
            (stdout w ++ banner ++ farewell) (ticks w + 8)).
Proof.
  intros Honly Hopen fn. pose proof (interrupt_off w 5 Honly) as Hoff.
  rewrite (execute_one_interrupt w 5 Honly _ _ _
             (mkWorld (<[fn := ""]> (files w)) (Some (mkHandle fn ""))
                (stdout w ++ banner) (ticks w + 6)));
    [simpl; do 2 f_equal; lia|lia|simpl; lia|].
  cbn [polling_loop]. unfold round_, checkpoint.
  rewrite run_bind, run_prim_bind, Hoff by (simpl; lia).
  cbv beta iota. cbn [for_each]. rewrite run_bind. unfold scan, py_open.
  rewrite run_prim_bind, Hoff by (simpl; lia).
  cbv beta iota. replace (ticks _) with (ticks w + 4) by (simpl; lia).
  rewrite Hopen. cbv beta iota. unfold getLidarData.
  rewrite run_prim_bind, (interrupt_on w 5 Honly) by (simpl; lia).
  unfold tick, set_handle, set_files. simpl. do 2 f_equal. lia.
Qed.

(** ** A file that cannot be opened *)

(** C27: when the file system refuses the file of a sensor in the first
    round, [execute] ends with the exception of [open], which the handler
    does not catch: the files of the sensors before it hold their complete
    scans, the refused file is neither created nor emptied, no file object
    is left open, and the completion message is not printed. *)
Theorem execute_open_error n vehicle_name opened name rest w tr k e :
  quiet env → handle w = None →
  round_lines env vehicle_name (ticks w + 4) opened = Some (tr, k) →
  env_open env k = Raise e → e ≠ KeyboardInterrupt →
  execute env (S n) vehicle_name (opened ++ name :: rest) w =
  (Raise e,
   mkWorld (write_round (env_time env (ticks w + 2)) false (files w) tr) None
     (stdout w ++ banner) (S k)).
Proof.
  intros Hquiet Hh Hr Hopen He.
  destruct (execute_after_loop (S n) vehicle_name (opened ++ name :: rest) w
              (Raise e)
              (mkWorld (write_round (env_time env (ticks w + 2)) false
                          (files w) tr) None (stdout w ++ banner) (S k)))
    as [-> _]; [apply Hquiet..| |by destruct e].
  cbn [polling_loop]. unfold round_, checkpoint.
  rewrite run_bind, run_bind, prim_quiet by apply Hquiet. cbv beta iota.
  by erewrite sensor_loop_open_error;
    [|done|done|replace (ticks _) with (ticks w + 4) by (simpl; lia)|].
Qed.

End safety.

(** ** The theorems at the worked example *)

Section example.
Local Open Scope float_scope.

Ltac by_eval := vm_compute; reflexivity.

(** A world with a file that does not belong to the script. *)
Definition w_notes : World := mkWorld {["notes.txt" := "keep"]} None [] 0.

Lemma execute_touches_only_witness :
  files (execute (sim_env never [3; 4; 0]) 2 "Drone1" ["LidarSensor1"]
           w_notes).2 !! "notes.txt"
  = files w_notes !! "notes.txt".
Proof.
  apply (execute_touches_only (sim_env never [3; 4; 0]) 2 "Drone1"
           ["LidarSensor1"] w_notes
           (execute (sim_env never [3; 4; 0]) 2 "Drone1" ["LidarSensor1"]
              w_notes).1 _ "notes.txt");
    [reflexivity|apply surjective_pairing|].
  intros (name & ->%list_elem_of_singleton & Hf). by vm_compute in Hf.
Defined.

(** CTRL+C while the scan waits for the lidar data. *)
Lemma scan_handle_witness :
  open_on (file_name sim_time "LidarSensor1")
    (mkWorld {[sim_file := ""]} (Some (mkHandle sim_file "")) [] 2).
Proof.
  apply (scan_handle (sim_env (at_tick 1) [3; 4; 0]) "Drone1" sim_time false
           "LidarSensor1" w0 (Raise KeyboardInterrupt)); by_eval.
Defined.

(** CTRL+C at [close]: the record is in the buffer and not in the file. *)
Lemma execute_interrupted_witness :
  execute (sim_env (at_tick 9) [3; 4; 0]) 1 "Drone1" ["LidarSensor1"] w0
  = (Ok tt, mkWorld {[sim_file := ""]} (Some (mkHandle sim_file sim_record))
              (banner ++ farewell) 12).
Proof.
  etransitivity;
    [apply (execute_interrupted (sim_env (at_tick 9) [3; 4; 0]) 1 "Drone1"
              ["LidarSensor1"] w0
              (mkWorld {[sim_file := ""]}
                 (Some (mkHandle sim_file sim_record)) banner 10)); by_eval
    |by_eval].
Defined.

(** The simulator does not answer. *)
Lemma execute_error_propagates_witness :
  execute offline_env 1 "Drone1" ["LidarSensor1"] w0
  = (Raise RpcError,
     mkWorld {[sim_file := ""]} (Some (mkHandle sim_file "")) banner 6)
  ∧ banner = stdout w0 ++ banner.
Proof.
  apply (execute_error_propagates offline_env 1 "Drone1" ["LidarSensor1"] w0
           RpcError
           (mkWorld {[sim_file := ""]} (Some (mkHandle sim_file "")) banner 6));
    [by_eval..|discriminate].
Defined.

Lemma execute_interrupt_at_loop_head_witness :
  execute (sim_env (at_tick 3) [3; 4; 0]) 1 "Drone1" ["LidarSensor1"] w0
  = (Ok tt, mkWorld ∅ None (banner ++ farewell) 6).
Proof.
  apply (execute_interrupt_at_loop_head (sim_env (at_tick 3) [3; 4; 0]) 0
           "Drone1" ["LidarSensor1"] w0).
  intros k. apply bool_decide_eq_true.
Defined.

Lemma execute_interrupt_in_scan_witness :
  execute (sim_env (at_tick 5) [3; 4; 0]) 1 "Drone1" ["LidarSensor1"] w0
  = (Ok tt, mkWorld {[sim_file := ""]} (Some (mkHandle sim_file ""))
              (banner ++ farewell) 8).
Proof.
  etransitivity;
    [apply (execute_interrupt_in_scan (sim_env (at_tick 5) [3; 4; 0]) 0
              "Drone1" "LidarSensor1" [] w0);
     [intros k; apply bool_decide_eq_true|reflexivity]
    |by_eval].
Defined.

(** Two sensors on a file system that refuses the second file: the first
    file holds its record, the second does not exist. *)
Lemma execute_open_error_witness :
  execute (readonly_env 5 [3; 4; 0]) 1 "Drone1" ["LidarSensor1"; "LidarSensor2"]
    w0
  = (Raise OSError, mkWorld {[sim_file := sim_record]} None banner 11).
Proof.
  etransitivity;
    [apply (execute_open_error (readonly_env 5 [3; 4; 0]) 0 "Drone1"
              ["LidarSensor1"] "LidarSensor2" [] w0
              [("LidarSensor1", [sim_record])] 10 OSError);
     [done|reflexivity|by_eval|reflexivity|discriminate]
    |by_eval].
Defined.

End example.
