(* ===== verification/Run.v ===== *)
(** * Run: [execute] without a bound on the loop

    [Execute.v] cuts the [while True] loop of [execute] after [n] rounds.
    This file gives the method its meaning without the bound: the
    relation [execute_ends] lists the ways in which [execute] ends (an
    exception before the [try], an exception of the loop that the handler
    does not catch, a [KeyboardInterrupt] of the loop and the handler's
    run), with the exits of the loop given by [polling_exits] and [exits]
    of [Loop.v].  The bounded program is adequate for it: an end of
    [execute] is the result of every large enough bound, and a result of
    a bound is an end unless the bound was used up inside the loop
    ([looping]).  A run in a healthy environment has no end. *)

From stdpp Require Import base strings list gmap.
From Stdlib Require Import Lia Floats.
From S2P Require Import Prelude Loop Scalar PyList Transform Record World.
From S2P Require Import FloatModel Scenario Rounds Execute Safety.

(** Whatever a run prints satisfies [P]. *)
Definition prints_only (P : string → Prop) : relation World := λ w w',
  ∀ s, s ∈ stdout w' → s ∈ stdout w ∨ P s.

#[export] Instance prints_only_preorder P : PreOrder (prints_only P).
Proof.
  split; [by left|]. intros w1 w2 w3 H12 H23 s Hs.
  destruct (H23 s Hs) as [Hs2|?]; auto.
Qed.

Section run.
Context {T : Type} `{Scalar T} `{Format T}.
Context (env : Env T).

(** ** The program without a bound *)

(** Lines 68-71: what [execute] does before it enters the [try]. *)
Definition execute_start : prog World T :=
  _ ← py_print env ("Scanning Has Started" +:+ nl);
  _ ← py_print env ("Use Keyboard Interrupt 'CTRL + C' to Stop Scanning" +:+ nl);
  time_time env.

(** Lines 70-114: the exits of the loop.  The first round runs with the
    flag unset, every later round with the flag set. *)
Inductive polling_exits (vehicle_name : string) (lidar_names : list string)
    (time_stamp : T) : World → exn → World → Prop :=
| polling_exits_first w e w' :
    round_ env vehicle_name lidar_names time_stamp false w = (Raise e, w') →
    polling_exits vehicle_name lidar_names time_stamp w e w'
| polling_exits_later w w1 e w' :
    round_ env vehicle_name lidar_names time_stamp false w = (Ok tt, w1) →
    exits (round_ env vehicle_name lidar_names time_stamp true) w1 e w' →
    polling_exits vehicle_name lidar_names time_stamp w e w'.

(** Lines 67-117: the ways in which [execute] ends. *)
Inductive execute_ends (vehicle_name : string) (lidar_names : list string)
    (w : World) : result unit → World → Prop :=
| ends_before_loop e w1 :
    execute_start w = (Raise e, w1) →
    execute_ends vehicle_name lidar_names w (Raise e) w1
| ends_uncaught time_stamp w1 e w2 :
    execute_start w = (Ok time_stamp, w1) →
    polling_exits vehicle_name lidar_names time_stamp w1 e w2 →
    is_KeyboardInterrupt e = false →
    execute_ends vehicle_name lidar_names w (Raise e) w2
| ends_handled time_stamp w1 w2 r w' :
    execute_start w = (Ok time_stamp, w1) →
    polling_exits vehicle_name lidar_names time_stamp w1 KeyboardInterrupt w2 →
    on_interrupt env w2 = (r, w') →
    execute_ends vehicle_name lidar_names w r w'.

(** [execute n] is still inside the loop when its budget is used up. *)
Definition looping (n : nat) (vehicle_name : string)
    (lidar_names : list string) (w : World) : Prop :=
  ∃ time_stamp w1 w2,
    execute_start w = (Ok time_stamp, w1)
    ∧ polling_loop env n vehicle_name lidar_names time_stamp w1 = (Ok tt, w2).

(** ** The bounded program finds the ends of the unbounded one *)

Lemma execute_split n vehicle_name lidar_names w :
  execute env n vehicle_name lidar_names w =
  match execute_start w with
  | (Ok time_stamp, w1) =>
      try_except is_KeyboardInterrupt
        (polling_loop env n vehicle_name lidar_names time_stamp)
        (on_interrupt env) w1
  | (Raise e, w1) => (Raise e, w1)
  end.
Proof.
  unfold execute, execute_start. unfold_monad.
  destruct (py_print env _ w) as [[[]|e] w1]; [|done].
  destruct (py_print env _ w1) as [[[]|e] w2]; [|done].
  by destruct (time_time env w2) as [[ts|e] w3].
Qed.

Lemma polling_loop_exits n vehicle_name lidar_names time_stamp w e w' :
  polling_loop env n vehicle_name lidar_names time_stamp w = (Raise e, w') →
  polling_exits vehicle_name lidar_names time_stamp w e w'.
Proof.
  destruct n as [|n]; [done|]. cbn [polling_loop]. rewrite run_bind.
  destruct (round_ env _ _ _ false w) as [[[]|e1] w1] eqn:Hr.
  - intros Hn%forever_exits. by eapply polling_exits_later.
  - intros [= <- <-]. by apply polling_exits_first.
Qed.

Lemma polling_exits_loop vehicle_name lidar_names time_stamp w e w' :
  polling_exits vehicle_name lidar_names time_stamp w e w' →
  ∃ n0, ∀ n, n0 ≤ n →
    polling_loop env n vehicle_name lidar_names time_stamp w = (Raise e, w').
Proof.
  intros [w0 e0 w0' Hr|w0 w1 e0 w0' Hr [m Hm]%exits_forever].
  - exists 1. intros [|n] Hn; [lia|]. cbn [polling_loop].
    by rewrite run_bind, Hr.
  - exists (S m). intros [|n] Hn; [lia|]. cbn [polling_loop].
    rewrite run_bind, Hr. apply (forever_raise_mono m); [lia|done].
Qed.

Lemma polling_exits_det vehicle_name lidar_names time_stamp w e1 w1 e2 w2 :
  polling_exits vehicle_name lidar_names time_stamp w e1 w1 →
  polling_exits vehicle_name lidar_names time_stamp w e2 w2 →
  e1 = e2 ∧ w1 = w2.
Proof.
  intros [n1 H1]%polling_exits_loop [n2 H2]%polling_exits_loop.
  specialize (H1 (Nat.max n1 n2) ltac:(lia)).
  specialize (H2 (Nat.max n1 n2) ltac:(lia)).
  rewrite H1 in H2. by injection H2.
Qed.

(** An end of the unbounded program is the result of the bounded one for
    every large enough budget. *)
Lemma execute_ends_stable vehicle_name lidar_names w r w' :
  execute_ends vehicle_name lidar_names w r w' →
  ∃ n0, ∀ n, n0 ≤ n → execute env n vehicle_name lidar_names w = (r, w').
Proof.
  intros [e w1 Hs|ts w1 e w2 Hs [n0 Hn0]%polling_exits_loop He
         |ts w1 w2 r0 w0 Hs [n0 Hn0]%polling_exits_loop Hh].
  - exists 0. intros n _. by rewrite execute_split, Hs.
  - exists n0. intros n Hn. rewrite execute_split, Hs.
    by erewrite try_except_uncaught by eauto.
  - exists n0. intros n Hn. rewrite execute_split, Hs.
    by erewrite try_except_caught by eauto.
Qed.

(** A result of the bounded program is an end of the unbounded one, unless
    the budget was used up inside the loop. *)
Lemma execute_ends_or_looping n vehicle_name lidar_names w r w' :
  execute env n vehicle_name lidar_names w = (r, w') →
  execute_ends vehicle_name lidar_names w r w'
  ∨ looping n vehicle_name lidar_names w.
Proof.
  rewrite execute_split.
  destruct (execute_start w) as [[ts|e] w1] eqn:Hs.
  2:{ intros [= <- <-]. left. by apply ends_before_loop. }
  unfold try_except.
  destruct (polling_loop env n _ _ ts w1) as [[[]|e] w2] eqn:Hl.
  { intros _. right. by exists ts, w1, w2. }
  apply polling_loop_exits in Hl.
  destruct e; simpl;
    first [intros [= <- <-]; left; by eapply ends_uncaught
          |intros Hh; left; by eapply ends_handled].
Qed.

(** A run that has left the loop is not looping. *)
Lemma exited_not_looping n vehicle_name lidar_names w time_stamp w1 e w2 :
  execute_start w = (Ok time_stamp, w1) →
  polling_loop env n vehicle_name lidar_names time_stamp w1 = (Raise e, w2) →
  ¬ looping n vehicle_name lidar_names w.
Proof. intros Hs Hl (ts & w1' & w2' & Hs' & Hl'). congruence. Qed.

Lemma execute_ends_bounded vehicle_name lidar_names w r w' :
  execute_ends vehicle_name lidar_names w r w' →
  ∃ n, execute env n vehicle_name lidar_names w = (r, w')
       ∧ ¬ looping n vehicle_name lidar_names w.
Proof.
  intros Hends. destruct (execute_ends_stable _ _ _ _ _ Hends) as [n0 Hn0].
  destruct Hends as [e w1 Hs|ts w1 e w2 Hs [n1 Hn1]%polling_exits_loop He
                    |ts w1 w2 r0 w0 Hs [n1 Hn1]%polling_exits_loop Hh].
  - exists n0. split; [by apply Hn0|]. intros (ts & w1' & w2' & Hs' & _).
    congruence.
  - exists (Nat.max n0 n1). split; [apply Hn0; lia|].
    eapply exited_not_looping; [done|]. apply Hn1. lia.
  - exists (Nat.max n0 n1). split; [apply Hn0; lia|].
    eapply exited_not_looping; [done|]. apply Hn1. lia.
Qed.

(** C19: the unbounded program and the family of bounded ones describe the same
    ends: [execute] ends with [r] in [w'] exactly when some budget gives
    [r] and [w'] and is not used up inside the loop. *)
Theorem execute_ends_iff vehicle_name lidar_names w r w' :
  execute_ends vehicle_name lidar_names w r w' ↔
  ∃ n, execute env n vehicle_name lidar_names w = (r, w')
       ∧ ¬ looping n vehicle_name lidar_names w.
Proof.
  split; [apply execute_ends_bounded|]. intros (n & Hrun & Hnl).
  by destruct (execute_ends_or_looping _ _ _ _ _ _ Hrun).
Qed.

(** The ends of [execute] are unique. *)
Lemma execute_ends_det vehicle_name lidar_names w r1 w1 r2 w2 :
  execute_ends vehicle_name lidar_names w r1 w1 →
  execute_ends vehicle_name lidar_names w r2 w2 → r1 = r2 ∧ w1 = w2.
Proof.
  intros [n1 H1]%execute_ends_stable [n2 H2]%execute_ends_stable.
  specialize (H1 (Nat.max n1 n2) ltac:(lia)).
  specialize (H2 (Nat.max n1 n2) ltac:(lia)).
  rewrite H1 in H2. by injection H2.
Qed.

(** ** Runs without interrupts *)

(** The two messages and the start time, when no interrupt arrives in the
    first three ticks. *)
Lemma execute_start_run w :
  env_interrupt env (ticks w) = false →
  env_interrupt env (ticks w + 1) = false →
  env_interrupt env (ticks w + 2) = false →
  execute_start w =
  (Ok (env_time env (ticks w + 2)),
   mkWorld (files w) (handle w) (stdout w ++ banner) (ticks w + 3)).
Proof.
  replace (ticks w + 1) with (S (ticks w)) by lia.
  replace (ticks w + 2) with (S (S (ticks w))) by lia.
  replace (ticks w + 3) with (S (S (S (ticks w)))) by lia.
  intros H0' H1' H2'. unfold execute_start, py_print, time_time.
  do 2 (rewrite run_bind, prim_quiet by done; cbv beta iota).
  rewrite prim_quiet by done. unfold add_stdout, tick, banner. simpl.
  by rewrite <- app_assoc.
Qed.

(** In a healthy environment every budget is used up inside the loop. *)
Lemma healthy_looping n vehicle_name lidar_names w :
  healthy env vehicle_name lidar_names → handle w = None →
  looping n vehicle_name lidar_names w.
Proof.
  intros Hhealthy Hh.
  destruct (loop_lines_total env vehicle_name lidar_names n (ticks w + 3))
    as [[trs k] Hl]; [done|].
  eexists _, _, _. split; [apply execute_start_run; apply Hhealthy|].
  by apply polling_loop_quiet; [apply Hhealthy|..].
Qed.

(** C26: in a healthy environment [execute] has no end: the loop goes on for
    ever. *)
Theorem execute_diverges vehicle_name lidar_names w :
  healthy env vehicle_name lidar_names → handle w = None →
  ¬ ∃ r w', execute_ends vehicle_name lidar_names w r w'.
Proof.
  intros Hhealthy Hh (r & w' & (n & _ & []) %execute_ends_bounded).
  by apply healthy_looping.
Qed.

(** ** The completion message *)

Lemma prim_prints_only {A} (P : string → Prop)
    (act : nat → World → result A * World) :
  (∀ k w, prints_only P w (act k w).2) → steps (prints_only P) (prim env act).
Proof. intros Hact. apply steps_prim; [apply _| |done]. intros w s. by left. Qed.

Lemma py_print_prints_only (P : string → Prop) s :
  P s → steps (prints_only P) (py_print env s).
Proof.
  intros Hs. apply prim_prints_only. intros k w s'. simpl.
  intros [?|Heq%list_elem_of_singleton]%elem_of_app; subst; auto.
Qed.

Lemma execute_start_prints : steps (prints_only (.∈ banner)) execute_start.
Proof.
  unfold execute_start, time_time.
  repeat first
    [ apply py_print_prints_only; unfold banner; set_solver
    | apply prim_prints_only; by left
    | steps_rule ].
Qed.

Lemma polling_exits_silent vehicle_name lidar_names time_stamp w e w' :
  polling_exits vehicle_name lidar_names time_stamp w e w' →
  stdout w' = stdout w.
Proof.
  intros [n Hn]%polling_exits_loop. specialize (Hn n (le_n n)).
  by apply (polling_loop_same_stdout env) in Hn.
Qed.

(** The handler prints "Done!" exactly when it returns. *)
Lemma on_interrupt_done w r w' :
  on_interrupt env w = (r, w') →
  "Done!" +:+ nl ∈ stdout w' → "Done!" +:+ nl ∉ stdout w → r = Ok tt.
Proof.
  unfold on_interrupt, wait_key, py_print. rewrite run_prim_bind.
  destruct (env_interrupt env (ticks w)); [by intros [= <- <-]|].
  unfold prim. cbn [ticks tick add_stdout].
  destruct (env_interrupt env (S (ticks w))); intros [= <- <-]; [|done].
  simpl. by intros [?|Heq%list_elem_of_singleton]%elem_of_app.
Qed.

(** C29: "Done!" is printed only at the end of a run that CTRL+C has stopped
    inside the loop: a run that prints it did enter the [try], left the
    loop by [KeyboardInterrupt], ran the handler to its end and returned
    normally. *)
Theorem done_only_after_interrupt vehicle_name lidar_names w r w' :
  execute_ends vehicle_name lidar_names w r w' →
  "Done!" +:+ nl ∈ stdout w' → "Done!" +:+ nl ∉ stdout w →
  r = Ok tt
  ∧ ∃ time_stamp w1 w2,
      execute_start w = (Ok time_stamp, w1)
      ∧ polling_exits vehicle_name lidar_names time_stamp w1
          KeyboardInterrupt w2
      ∧ on_interrupt env w2 = (Ok tt, w').
Proof.
  assert (Hbanner : "Done!" +:+ nl ∉ banner).
  { unfold banner. rewrite !elem_of_cons, elem_of_nil. by intros [?|[?|?]]. }
  intros Hends Hin Hout.
  destruct Hends as [e w1 Hs|ts w1 e w2 Hs Hl He|ts w1 w2 r0 w0 Hs Hl Hh].
  - apply execute_start_prints in Hs. by destruct (Hs _ Hin).
  - apply execute_start_prints in Hs. apply polling_exits_silent in Hl.
    rewrite Hl in Hin. by destruct (Hs _ Hin).
  - assert (r0 = Ok tt) as ->; [|by eauto 10].
    eapply on_interrupt_done; [done..|].
    apply execute_start_prints in Hs. apply polling_exits_silent in Hl.
    rewrite Hl. intros Hin2. by destruct (Hs _ Hin2).
Qed.

End run.

(** ** The theorems at the worked example *)

Section example.
Local Open Scope float_scope.

(** The run of the worked example has no end. *)
Lemma execute_diverges_witness :
  healthy (sim_env never [3; 4; 0]) "Drone1" ["LidarSensor1"]
  ∧ ¬ ∃ r w', execute_ends (sim_env never [3; 4; 0]) "Drone1"
                ["LidarSensor1"] w0 r w'.
Proof.
  split; [apply sim_healthy|].
  apply (execute_diverges (sim_env never [3; 4; 0]) "Drone1"
           ["LidarSensor1"] w0 sim_healthy eq_refl).
Defined.

(** CTRL+C at the head of the first round of the worked example. *)
Lemma done_only_after_interrupt_witness :
  (Ok tt : result unit) = Ok tt
  ∧ ∃ time_stamp w1 w2,
      execute_start (sim_env (at_tick 3) [3; 4; 0]) w0 = (Ok time_stamp, w1)
      ∧ polling_exits (sim_env (at_tick 3) [3; 4; 0]) "Drone1"
          ["LidarSensor1"] time_stamp w1 KeyboardInterrupt w2
      ∧ on_interrupt (sim_env (at_tick 3) [3; 4; 0]) w2
        = (Ok tt, mkWorld ∅ None (banner ++ farewell) 6).
Proof.
  apply (done_only_after_interrupt (sim_env (at_tick 3) [3; 4; 0]) "Drone1"
           ["LidarSensor1"] w0).
  - eapply ends_handled;
      [by vm_compute|apply polling_exits_first; by vm_compute|by vm_compute].
  - unfold banner, farewell. simpl. rewrite !elem_of_cons. tauto.
  - apply not_elem_of_nil.
Defined.

End example.
