(* ===== verification/Interrupt.v ===== *)
(** * Interrupt: CTRL+C stops the script

    [execute] leaves its loop only through an exception.  This file shows
    that the one exception the script handles does stop it: a CTRL+C that
    arrives at tick [t] of an otherwise healthy run is raised by the
    primitive that runs at that tick, ends the loop, and is answered by the
    handler of [execute].

    The proof compares two runs of the same program: one in an environment
    [env] without interrupts, one in [with_interrupt env t], which differs
    from it by the interrupt at tick [t] only.  [agree_until] relates the
    two: they are equal while the clock of the model has not passed [t],
    and the second raises [KeyboardInterrupt] at tick [t] when the first
    runs past it.  The relation is closed under the constructs of the
    script, as [steps] is. *)

From stdpp Require Import base tactics strings list gmap.
From Stdlib Require Import Lia Floats.
From S2P Require Import Prelude Loop Scalar PyList Transform Record World.
From S2P Require Import FloatModel Scenario Rounds Execute Safety Run.

(** The clock of the model never goes back. *)
Definition later : relation World := λ w w', ticks w ≤ ticks w'.

#[export] Instance later_preorder : PreOrder later.
Proof. split; unfold later; [intros w|intros w1 w2 w3]; lia. Qed.

Section interrupt.
Context {T : Type} `{Scalar T} `{Format T}.
Context (env : Env T) (t : nat).

(** The environment [env] with CTRL+C pressed at tick [t]. *)
Definition with_interrupt : Env T :=
  mkEnv (λ k, bool_decide (k = t) || env_interrupt env k)
    (env_time env) (env_lidar env) (env_state env) (env_connect env)
    (env_open env) (env_flush env).

(** [m'], run with the interrupt, against [m], run without it. *)
Definition agree_until {A} (m' m : prog World A) : Prop :=
  steps later m
  ∧ ∀ w, ticks w ≤ t →
      if decide (ticks (m w).2 ≤ t) then m' w = m w
      else ∃ w1, m' w = (Raise KeyboardInterrupt, w1) ∧ ticks w1 = S t.

(** ** The rules of agreement *)

Lemma agree_refl {A} (m : prog World A) :
  (∀ w, ticks (m w).2 = ticks w) → agree_until m m.
Proof.
  intros Hm. split.
  - intros w r w' Hrun. unfold later. specialize (Hm w). rewrite Hrun in Hm.
    simpl in Hm. lia.
  - intros w Hw. rewrite Hm. by rewrite decide_True.
Qed.

Lemma agree_ret {A} (a : A) : agree_until (mret a) (mret a).
Proof. by apply agree_refl. Qed.

Lemma agree_lift {A} (r : result A) : agree_until (lift r) (lift r).
Proof. by apply agree_refl. Qed.

(** A primitive at a tick before [t] acts as it does without the interrupt;
    the primitive at tick [t] raises. *)
Lemma agree_prim {A} (act : nat → World → result A * World) :
  quiet env → (∀ k w, ticks (act k w).2 = ticks w) →
  agree_until (prim with_interrupt act) (prim env act).
Proof.
  intros Hquiet Hact. split.
  - apply steps_prim; [apply _|unfold later, tick; simpl; lia|].
    intros k w. unfold later. rewrite Hact. lia.
  - intros w Hw. rewrite (prim_quiet env) by apply Hquiet. rewrite Hact.
    unfold prim, with_interrupt. cbn [env_interrupt ticks tick].
    rewrite Hquiet, orb_false_r. case_decide; case_bool_decide; try lia.
    + done.
    + eexists. split; [done|]. simpl. lia.
Qed.

Lemma agree_bind {A B} (m' m : prog World A) (f' f : A → prog World B) :
  agree_until m' m → (∀ a, agree_until (f' a) (f a)) →
  agree_until (m' ≫= f') (m ≫= f).
Proof.
  intros [Hm Hmm] Hf. split.
  { apply steps_bind; [apply _|done|]. intros a. apply Hf. }
  intros w Hw0. specialize (Hmm w Hw0). rewrite !run_bind.
  destruct (m w) as [[a|e] w2] eqn:Hrun; simpl in Hmm.
  - destruct (decide (ticks w2 ≤ t)) as [Hw2|Hw2].
    + rewrite Hmm. by apply Hf.
    + destruct Hmm as (w1 & -> & Hw1). rewrite decide_False; [by eexists|].
      destruct (f a w2) as [r w3] eqn:Hrun2.
      apply (proj1 (Hf a)) in Hrun2. unfold later in Hrun2. simpl. lia.
  - simpl. destruct (decide (ticks w2 ≤ t)) as [Hw2|Hw2].
    + by rewrite Hmm.
    + destruct Hmm as (w1 & -> & Hw1). by eexists.
Qed.

Lemma agree_for_each {A} (l : list A) (body' body : A → prog World unit) :
  (∀ x, agree_until (body' x) (body x)) →
  agree_until (for_each l body') (for_each l body).
Proof.
  intros Hbody. induction l as [|x l IH]; [apply agree_ret|].
  simpl. apply agree_bind; [apply Hbody|done].
Qed.

Lemma agree_forever n (body' body : prog World unit) :
  agree_until body' body → agree_until (forever n body') (forever n body).
Proof.
  intros Hbody. induction n as [|n IH]; [apply agree_ret|].
  simpl. by apply agree_bind.
Qed.

(** ** The loop of the script *)

Lemma polling_loop_agree n vehicle_name lidar_names time_stamp :
  quiet env →
  agree_until (polling_loop with_interrupt n vehicle_name lidar_names time_stamp)
    (polling_loop env n vehicle_name lidar_names time_stamp).
Proof.
  intros Hquiet.
  assert (Hround : ∀ c, agree_until
            (round_ with_interrupt vehicle_name lidar_names time_stamp c)
            (round_ env vehicle_name lidar_names time_stamp c)).
  { intros c. unfold round_, scan, point_body, write_point, checkpoint,
      py_open, getLidarData, getMultirotorState, time_time, f_write, f_close.
    repeat first
      [ apply agree_bind | apply agree_for_each | apply agree_lift
      | apply agree_prim; [done|intros k w; simpl; by repeat case_match]
      | intros ? ]. }
  destruct n as [|n]; [apply agree_ret|]. cbn [polling_loop].
  apply agree_bind; [done|]. intros _. by apply agree_forever.
Qed.

(** Every sensor takes its ticks, and every round at least one. *)
Lemma round_lines_later vehicle_name names t0 tr k :
  round_lines env vehicle_name t0 names = Some (tr, k) → t0 ≤ k.
Proof.
  revert t0 tr k. induction names as [|name rest IH]; intros t0 tr k; simpl.
  { intros [= _ <-]. lia. }
  repeat case_match; try done.
  destruct (round_lines _ _ _ rest) as [[tr' k']|] eqn:Hrest; [|done].
  intros [= _ <-]. apply IH in Hrest. lia.
Qed.

Lemma loop_lines_later vehicle_name lidar_names n t0 trs k :
  loop_lines env vehicle_name lidar_names n t0 = Some (trs, k) → t0 + n ≤ k.
Proof.
  revert t0 trs k. induction n as [|n IH]; intros t0 trs k; simpl.
  { intros [= _ <-]. lia. }
  destruct (round_lines _ _ _ _) as [[tr t1]|] eqn:Hr; [|done]. simpl.
  destruct (loop_lines _ _ _ n t1) as [[trs' k']|] eqn:Hl; [|done].
  intros [= _ <-]. apply round_lines_later in Hr. apply IH in Hl. lia.
Qed.

(** In a healthy environment the loop runs past every tick. *)
Lemma polling_loop_passes vehicle_name lidar_names time_stamp w :
  healthy env vehicle_name lidar_names → handle w = None →
  ∃ n w2, polling_loop env n vehicle_name lidar_names time_stamp w = (Ok tt, w2)
          ∧ t < ticks w2.
Proof.
  intros Hhealthy Hh.
  destruct (loop_lines_total env vehicle_name lidar_names (S t) (ticks w))
    as [[trs k] Hl]; [done|].
  exists (S t). eexists. split.
  - by apply polling_loop_quiet; [apply Hhealthy|..].
  - apply loop_lines_later in Hl. simpl. lia.
Qed.

(** The interrupt at tick [t] ends the loop at tick [t], wherever the loop
    is at that tick. *)
Lemma polling_exits_interrupt vehicle_name lidar_names time_stamp w :
  healthy env vehicle_name lidar_names → handle w = None → ticks w ≤ t →
  ∃ w1, polling_exits with_interrupt vehicle_name lidar_names time_stamp w
          KeyboardInterrupt w1
        ∧ ticks w1 = S t ∧ stdout w1 = stdout w.
Proof.
  intros Hhealthy Hh Hw.
  destruct (polling_loop_passes vehicle_name lidar_names time_stamp w)
    as (n & w2 & Hrun & Hw2); [done..|].
  destruct (polling_loop_agree n vehicle_name lidar_names time_stamp
              (proj1 Hhealthy)) as [_ Hagree].
  specialize (Hagree w Hw). rewrite Hrun, decide_False in Hagree by (simpl; lia).
  destruct Hagree as (w1 & Hrun1 & Hw1). exists w1. split_and!; [|done|].
  - by eapply polling_loop_exits.
  - by eapply (polling_loop_same_stdout with_interrupt).
Qed.

(** C18: A CTRL+C at tick [t], after the loop of an otherwise healthy run has
    been entered, stops the script: the loop ends at that tick, the handler
    asks for a key and prints "Done!", and [execute] returns. *)
Theorem interrupt_is_handled vehicle_name lidar_names w :
  healthy env vehicle_name lidar_names → handle w = None → ticks w + 3 ≤ t →
  ∃ w', execute_ends with_interrupt vehicle_name lidar_names w (Ok tt) w'
        ∧ stdout w' = stdout w ++ banner ++ farewell
        ∧ ticks w' = t + 3.
Proof.
  intros Hhealthy Hh Ht.
  assert (Hoff : ∀ k, k ≠ t → env_interrupt with_interrupt k = false).
  { intros k Hk. simpl. rewrite (proj1 Hhealthy).
    by rewrite bool_decide_eq_false_2. }
  pose proof (execute_start_run with_interrupt w) as Hs.
  rewrite !Hoff in Hs by lia. specialize (Hs eq_refl eq_refl eq_refl).
  destruct (polling_exits_interrupt vehicle_name lidar_names
              (env_time env (ticks w + 2))
              (mkWorld (files w) (handle w) (stdout w ++ banner) (ticks w + 3)))
    as (w1 & Hexit & Hw1 & Hout); [done|done|simpl; lia|].
  eexists. split; [eapply ends_handled; [exact Hs|exact Hexit|]|].
  - apply on_interrupt_run; apply Hoff; lia.
  - simpl. rewrite Hout. simpl. rewrite <- app_assoc. split; [done|lia].
Qed.

(** C30: A CTRL+C that arrives before the [try] is entered, during the two
    opening messages or the reading of the clock, is not handled:
    [execute] ends with [KeyboardInterrupt], "Done!" is not printed, and no
    file has been touched. *)
Theorem interrupt_before_try vehicle_name lidar_names w :
  quiet env → ticks w ≤ t < ticks w + 3 →
  execute_ends with_interrupt vehicle_name lidar_names w
    (Raise KeyboardInterrupt)
    (mkWorld (files w) (handle w) (stdout w ++ take (t - ticks w) banner)
       (S t)).
Proof.
  intros Hquiet Ht. apply ends_before_loop.
  assert (Hi : ∀ k, env_interrupt with_interrupt k = bool_decide (k = t)).
  { intros k. simpl. by rewrite Hquiet, orb_false_r. }
  unfold execute_start, py_print, time_time.
  destruct (decide (t = ticks w)) as [->|].
  { rewrite run_prim_bind, Hi, bool_decide_eq_true_2 by done.
    rewrite Nat.sub_diag. simpl. by rewrite app_nil_r. }
  rewrite run_prim_bind, Hi, bool_decide_eq_false_2 by done.
  destruct (decide (t = S (ticks w))) as [->|].
  { rewrite run_prim_bind, Hi, bool_decide_eq_true_2 by done.
    by replace (S (ticks w) - ticks w) with 1 by lia. }
  rewrite run_prim_bind, Hi, bool_decide_eq_false_2 by done.
  rewrite prim_interrupt by (rewrite Hi; apply bool_decide_eq_true_2; simpl; lia).
  replace (t - ticks w) with 2 by lia. unfold tick, add_stdout. simpl.
  rewrite <- app_assoc. do 2 f_equal. lia.
Qed.

End interrupt.

(** ** The theorems at the worked example *)

Section example.
Local Open Scope float_scope.

(** CTRL+C at tick 10 of the run of the worked example: the first scan is
    over, the second round has begun. *)
Lemma interrupt_is_handled_witness :
  ∃ w', execute_ends (with_interrupt (sim_env never [3; 4; 0]) 10)
          "Drone1" ["LidarSensor1"] w0 (Ok tt) w'
        ∧ stdout w' = stdout w0 ++ banner ++ farewell
        ∧ ticks w' = (10 + 3)%nat.
Proof.
  apply (interrupt_is_handled (sim_env never [3; 4; 0]) 10);
    [apply sim_healthy|done|simpl; lia].
Defined.

(** CTRL+C while the second message is printed. *)
Lemma interrupt_before_try_witness :
  execute_ends (with_interrupt (sim_env never [3; 4; 0]) 1)
    "Drone1" ["LidarSensor1"] w0 (Raise KeyboardInterrupt)
    (mkWorld ∅ None ["Scanning Has Started" +:+ nl] 2).
Proof.
  apply (interrupt_before_try (sim_env never [3; 4; 0]) 1 _ _ w0);
    [apply sim_quiet|simpl; lia].
Defined.

End example.
