(* ===== verification/Invariant.v ===== *)
(** * Invariant: the worlds the script can reach are well formed

    A world is well formed when the open file object, if there is one,
    belongs to a file that exists: [open] creates the file before it
    returns the object, and nothing in the script removes a file.  Every
    primitive keeps the invariant and the set of files, on every outcome,
    so every run of [execute] and of the main block does, interrupted or
    not, bounded or not.  The invariant is one of the model of the file
    system: it holds of every program built from the primitives.  Which
    file object this program can hold is in [Module.v]. *)

From stdpp Require Import base tactics strings list gmap.
From Stdlib Require Import Floats.
From S2P Require Import Prelude Loop Scalar PyList Transform Record World.
From S2P Require Import FloatModel Scenario Rounds Execute Safety Run.

(** The open file object belongs to an existing file. *)
Definition wf_world (w : World) : Prop :=
  ∀ h, handle w = Some h → h_name h ∈ dom (files w).

#[export] Instance wf_world_dec w : Decision (wf_world w).
Proof.
  unfold wf_world. destruct (handle w) as [h|].
  - destruct (decide (h_name h ∈ dom (files w))) as [Hin|Hout].
    + left. by intros ? [= <-].
    + right. intros Hwf. by apply Hout, Hwf.
  - left. by intros ?.
Defined.

(** No file disappears, and a well-formed world stays well formed. *)
Definition grows : relation World := λ w w',
  dom (files w) ⊆ dom (files w') ∧ (wf_world w → wf_world w').

#[export] Instance grows_preorder : PreOrder grows.
Proof.
  split; [by intros w|]. intros w1 w2 w3 [Hd12 Hw12] [Hd23 Hw23].
  split; [set_solver|auto].
Qed.

Section invariant.
Context {T : Type} `{Scalar T} `{Format T}.
Context (env : Env T).

(** ** The primitives *)

(** A primitive that leaves the files and the file object alone. *)
Lemma grows_observer {A} (act : nat → World → result A * World) :
  (∀ k w, files (act k w).2 = files w ∧ handle (act k w).2 = handle w) →
  steps grows (prim env act).
Proof.
  intros Hact. apply steps_prim; [apply _|done|]. intros k w.
  destruct (Hact k w) as [Hf Hh]. unfold grows, wf_world.
  by rewrite Hf, Hh.
Qed.

Lemma py_open_grows name mode : steps grows (py_open env name mode).
Proof.
  apply steps_prim; [apply _|done|]. intros k w.
  destruct (env_open env k); [|done]. unfold grows, wf_world.
  simpl. rewrite dom_open_files. split; [set_solver|].
  intros _ h [= <-]. simpl. set_solver.
Qed.

Lemma f_write_grows s : steps grows (f_write env s).
Proof.
  apply steps_prim; [apply _|done|]. intros k w. unfold grows, wf_world.
  destruct (handle w) as [h|] eqn:Hh; simpl; [|by rewrite Hh].
  rewrite dom_write_files. split; [set_solver|].
  intros _ h' [= <-]. simpl. set_solver.
Qed.

Lemma f_close_grows : steps grows (f_close env).
Proof.
  apply steps_prim; [apply _|done|]. intros k w. unfold grows, wf_world.
  destruct (handle w) as [h|] eqn:Hh; simpl; [|by rewrite Hh].
  rewrite dom_flush_files. split; [set_solver|done].
Qed.

(** ** The program *)

Lemma round_grows vehicle_name lidar_names time_stamp cleared :
  steps grows (round_ env vehicle_name lidar_names time_stamp cleared).
Proof.
  unfold round_, scan, point_body, write_point, checkpoint,
    getLidarData, getMultirotorState, time_time.
  repeat first
    [ apply py_open_grows | apply f_write_grows | apply f_close_grows
    | apply grows_observer; by intros
    | steps_rule ].
Qed.

Lemma polling_loop_grows n vehicle_name lidar_names time_stamp :
  steps grows (polling_loop env n vehicle_name lidar_names time_stamp).
Proof.
  destruct n as [|n]; cbn [polling_loop]; repeat steps_rule;
    apply round_grows.
Qed.

Lemma execute_grows n vehicle_name lidar_names :
  steps grows (execute env n vehicle_name lidar_names).
Proof.
  unfold execute, on_interrupt, py_print, wait_key, time_time.
  repeat first
    [ apply grows_observer; by intros
    | apply polling_loop_grows
    | steps_rule ].
Qed.

Lemma main_grows n : steps grows (main env n).
Proof.
  unfold main, init, confirmConnection, py_print.
  repeat first
    [ apply grows_observer; by intros | apply execute_grows
    | steps_rule ].
Qed.

(** Every run of the script from a well-formed world ends in a well-formed
    world that has all the files it started with, whatever the simulator
    answers, whenever CTRL+C is pressed and however long the loop runs. *)
Theorem main_well_formed n w r w' :
  wf_world w → main env n w = (r, w') →
  wf_world w' ∧ dom (files w) ⊆ dom (files w').
Proof. intros Hwf Hrun. apply main_grows in Hrun as [Hd Hw]. auto. Qed.

(** The same for the ends of the unbounded [execute]. *)
Theorem execute_ends_well_formed vehicle_name lidar_names w r w' :
  wf_world w → execute_ends env vehicle_name lidar_names w r w' →
  wf_world w' ∧ dom (files w) ⊆ dom (files w').
Proof.
  intros Hwf [n Hn]%execute_ends_stable.
  specialize (Hn n (le_n n)). apply execute_grows in Hn as [Hd Hw]. auto.
Qed.

End invariant.

(** ** The theorems at the worked example *)

Section example.
Local Open Scope float_scope.

(** Three rounds of the worked example. *)
Lemma main_well_formed_witness :
  wf_world (main (sim_env never [3; 4; 0]) 3 w0).2
  ∧ dom (files w0) ⊆ dom (files (main (sim_env never [3; 4; 0]) 3 w0).2).
Proof.
  apply (main_well_formed (sim_env never [3; 4; 0]) 3 w0
           (main (sim_env never [3; 4; 0]) 3 w0).1);
    [by intros ?|apply surjective_pairing].
Defined.

End example.
