(* ===== verification/Module.v ===== *)
(** * Module: what loading the file does

    Python runs the file from top to bottom: the six imports of lines
    51-56, the class statement, and the main block of lines 120-122 when
    the file is run as a script and not imported.  An import is a primitive
    like any other: CTRL+C can arrive at it, and it raises
    [ModuleNotFoundError] when the module cannot be found.  Which modules
    can be found is a parameter, [installed]; that [setup_path] extends the
    search path for [airsim] is part of it.  [script] is the whole file.

    The theorems say what a missing module does, that importing the file
    runs nothing, that running it runs the main block, that a run of the
    file changes one file and no other, and that it never holds a file
    object other than that of this file, which then exists. *)

From stdpp Require Import base strings list gmap.
From Stdlib Require Import Floats.
From S2P Require Import Prelude Scalar Transform Record FloatModel World.
From S2P Require Import Scenario Rounds Execute Safety Invariant.

(** Lines 51-56: the modules the file imports, in the order of the file. *)
Definition imports : list string :=
  ["setup_path"; "airsim"; "numpy"; "time"; "math"; "scipy.spatial.transform"].

(** The files and the file object are as before. *)
Definition same_files : relation World := λ w w',
  files w' = files w ∧ handle w' = handle w.

#[local] Instance same_files_preorder : PreOrder same_files.
Proof.
  split; [done|]. intros w1 w2 w3 [Hf Hh] [Hf' Hh']. split; congruence.
Qed.

(** The world [k] ticks later. *)
Definition after (k : nat) (w : World) : World :=
  mkWorld (files w) (handle w) (stdout w) (ticks w + k).

Section module.
Context {T : Type} `{Scalar T} `{Format T}.
Context (env : Env T) (installed : string → bool).

(** ** The program *)

(** [import name] *)
Definition py_import (name : string) : prog World unit :=
  prim env (λ _ w,
    (if installed name then Ok tt else Raise (ModuleNotFoundError name), w)).

(** Lines 51-56. *)
Definition load_modules : prog World unit := for_each imports py_import.

(** The file, loaded under the name [name]: the imports, then the main
    block when the name is "__main__". *)
Definition script (name : string) (n : nat) : prog World unit :=
  _ ← load_modules;
  if bool_decide (name = "__main__") then main env n else mret tt.

(** No interrupt arrives at the [k] ticks that follow [w]. *)
Definition quiet_for (k : nat) (w : World) : Prop :=
  ∀ i, i < k → env_interrupt env (ticks w + i) = false.

(** ** Imports *)

Lemma after_0 w : after 0 w = w.
Proof. destruct w. unfold after. simpl. by rewrite Nat.add_0_r. Qed.

Lemma after_tick k w : after k (tick w) = after (S k) w.
Proof. unfold after, tick. simpl. f_equal. lia. Qed.

Lemma quiet_for_tick k w : quiet_for (S k) w → quiet_for k (tick w).
Proof.
  intros Hq i Hi. cbn [tick ticks].
  replace (S (ticks w) + i) with (ticks w + S i) by lia. apply Hq. lia.
Qed.

Lemma py_import_run name w :
  quiet_for 1 w →
  py_import name w =
  (if installed name then Ok tt else Raise (ModuleNotFoundError name), tick w).
Proof.
  intros Hq. unfold py_import. rewrite prim_quiet; [done|].
  rewrite <- (Nat.add_0_r (ticks w)). apply Hq. lia.
Qed.

(** A run of imports that are all found takes one tick each and changes
    nothing else. *)
Lemma imports_found names w :
  quiet_for (length names) w → Forall (λ m, installed m = true) names →
  for_each names py_import w = (Ok tt, after (length names) w).
Proof.
  revert w. induction names as [|m names IH]; intros w Hq Hall.
  - by rewrite for_each_nil, after_0.
  - apply Forall_cons in Hall as [Hm Hall].
    rewrite for_each_cons, py_import_run, Hm by (intros i Hi; apply Hq; simpl; lia).
    rewrite IH by (done || by apply quiet_for_tick). by rewrite after_tick.
Qed.

(** The first module that is not found stops the loading. *)
Lemma imports_missing found missing rest w :
  quiet_for (S (length found)) w →
  Forall (λ m, installed m = true) found → installed missing = false →
  for_each (found ++ missing :: rest) py_import w =
  (Raise (ModuleNotFoundError missing), after (S (length found)) w).
Proof.
  intros Hq Hall Hm.
  rewrite for_each_app, imports_found by (done || intros i Hi; apply Hq; lia).
  rewrite for_each_cons, py_import_run, Hm.
  - unfold after, tick. simpl. do 2 f_equal. lia.
  - intros i Hi. simpl. rewrite <- Nat.add_assoc. apply Hq. lia.
Qed.

(** ** The file *)

(** C39: a module that cannot be found stops the script at its import, with
    [ModuleNotFoundError] for the first such module in the order of the
    file: nothing is printed, no file is touched and the simulator is not
    contacted, whether the file is run or imported. *)
Theorem script_missing_module name n found missing rest w :
  imports = found ++ missing :: rest →
  Forall (λ m, installed m = true) found → installed missing = false →
  quiet_for (S (length found)) w →
  script name n w =
  (Raise (ModuleNotFoundError missing), after (S (length found)) w).
Proof.
  intros Himports Hall Hm Hq. unfold script, load_modules.
  by rewrite run_bind, Himports, imports_missing.
Qed.

(** With every module found, the file run as a script is the main block,
    six ticks later. *)
Theorem script_as_main n w :
  Forall (λ m, installed m = true) imports → quiet_for 6 w →
  script "__main__" n w = main env n (after 6 w).
Proof.
  intros Hall Hq. unfold script, load_modules.
  by rewrite run_bind, imports_found.
Qed.

(** Imported under another name the file only loads its modules: the main
    block does not run. *)
Theorem script_imported name n w :
  name ≠ "__main__" →
  Forall (λ m, installed m = true) imports → quiet_for 6 w →
  script name n w = (Ok tt, after 6 w).
Proof.
  intros Hname Hall Hq. unfold script, load_modules.
  rewrite run_bind, imports_found by done. by rewrite bool_decide_eq_false_2.
Qed.

(** ** The files the script can change *)

Lemma same_files_observer {A} (act : nat → World → result A * World) :
  (∀ k w, handle (act k w).2 = handle w ∧ files (act k w).2 = files w) →
  steps same_files (prim env act).
Proof. apply steps_observer; [apply _|by intros]. Qed.

Lemma load_modules_same_files : steps same_files load_modules.
Proof.
  apply steps_for_each; [apply _|]. intros m _. by apply same_files_observer.
Qed.

Lemma init_same_files : steps same_files (init env).
Proof.
  unfold init, confirmConnection, py_print.
  steps_rule; [|intros ?]; by apply same_files_observer.
Qed.

(** A loop of primitives that goes through takes one tick each. *)
Lemma for_each_ticks {A} (l : list A) (body : A → prog World unit) w w' :
  (∀ x w0 r w1, body x w0 = (r, w1) → ticks w1 = S (ticks w0)) →
  for_each l body w = (Ok tt, w') → ticks w' = ticks w + length l.
Proof.
  intros Hbody. revert w. induction l as [|x l IH]; intros w.
  - intros [= <-]. simpl. lia.
  - rewrite for_each_cons. destruct (body x w) as [[[]|e] w1] eqn:Hx; [|done].
    intros Hrest. apply IH in Hrest. apply Hbody in Hx. simpl. lia.
Qed.

Lemma load_modules_ticks w w' :
  load_modules w = (Ok tt, w') → ticks w' = ticks w + 6.
Proof.
  apply (for_each_ticks imports). intros m w0 r w1.
  by apply prim_ticks.
Qed.

Lemma init_ticks w w' : init env w = (Ok tt, w') → ticks w' = ticks w + 2.
Proof.
  unfold init, confirmConnection, py_print. rewrite run_bind.
  destruct (prim env _ w) as [[[]|e] w1] eqn:Hc; [|done].
  intros Hp. apply prim_ticks in Hc, Hp; [lia|done..].
Qed.

(** The frame of a run of the file: the file of "LidarSensor1" for the
    start time, which [execute] reads ten ticks after the start. *)
Lemma script_frame name n w r w' :
  handle w = None → script name n w = (r, w') →
  touches_only
    (sensor_files (env_time env (ticks w + 10)) main_lidar_names) w w'.
Proof.
  intros Hh Hrun. unfold script in Hrun. rewrite run_bind in Hrun.
  destruct (load_modules w) as [[[]|e] w1] eqn:Hload.
  2: { injection Hrun as _ <-. apply load_modules_same_files in Hload as [? ?].
       by apply touches_only_same. }
  pose proof (load_modules_ticks _ _ Hload) as Ht1.
  apply load_modules_same_files in Hload as [Hf1 Hh1].
  case_bool_decide; [|injection Hrun as _ <-; by apply touches_only_same].
  unfold main in Hrun. rewrite run_bind in Hrun.
  destruct (init env w1) as [[[]|e] w2] eqn:Hinit.
  2: { injection Hrun as _ <-. apply init_same_files in Hinit as [Hf2 Hh2].
       apply touches_only_same; congruence. }
  pose proof (init_ticks _ _ Hinit) as Ht2.
  apply init_same_files in Hinit as [Hf2 Hh2].
  apply execute_frame in Hrun.
  replace (ticks w2 + 2) with (ticks w + 10) in Hrun by lia.
  intros _. rewrite <- Hf1, <- Hf2. apply Hrun.
  intros h. by rewrite Hh2, Hh1, Hh.
Qed.

(** C21: every run of the file, however it ends, changes no file but one:
    the file of "LidarSensor1" for the start time, which [execute] reads
    ten ticks after the start.  Whatever else is on the disk is as it was
    when the script stops. *)
Theorem script_touches_only name n w r w' f :
  handle w = None → script name n w = (r, w') →
  f ≠ file_name (env_time env (ticks w + 10)) "LidarSensor1" →
  files w' !! f = files w !! f.
Proof.
  intros Hh Hrun Hf. destruct (script_frame _ _ _ _ _ Hh Hrun) as [_ Hfiles].
  - intros h. by rewrite Hh.
  - apply Hfiles. by intros (x & ->%list_elem_of_singleton & ->).
Qed.

(** ** The invariant *)

Lemma script_grows name n : steps grows (script name n).
Proof.
  unfold script, load_modules, py_import.
  repeat first
    [ apply grows_observer; by intros | apply main_grows
    | case_bool_decide | steps_rule ].
Qed.

(** C28: every run of the file that starts with no open file ends with
    at most one file object, that of the output file of "LidarSensor1"
    for the start time, and this file exists; no file of the start is
    missing: whichever modules are found, whether the file is run or
    imported, whatever the simulator and the file system answer, whenever
    CTRL+C is pressed and however long the loop runs. *)
Theorem script_well_formed name n w r w' :
  handle w = None → script name n w = (r, w') →
  wf_world w' ∧ dom (files w) ⊆ dom (files w')
  ∧ ∀ h, handle w' = Some h →
      h_name h = file_name (env_time env (ticks w + 10)) "LidarSensor1".
Proof.
  intros Hh Hrun. pose proof (script_grows _ _ _ _ _ Hrun) as [Hd Hw].
  split_and!; [apply Hw; intros h; by rewrite Hh|done|].
  destruct (script_frame _ _ _ _ _ Hh Hrun) as [Hopen _];
    [intros h; by rewrite Hh|].
  by intros h (x & ->%list_elem_of_singleton & ->)%Hopen.
Qed.

End module.

(** ** The theorems at the worked example *)

Section example.
Local Open Scope float_scope.

(** Everything is installed but SciPy. *)
Definition without_scipy : string → bool :=
  λ m, bool_decide (m ≠ "scipy.spatial.transform").

Definition everything : string → bool := λ _, true.

Lemma script_missing_module_witness :
  script (sim_env never [3; 4; 0]) without_scipy "__main__" 2 w0
  = (Raise (ModuleNotFoundError "scipy.spatial.transform"), mkWorld ∅ None [] 6).
Proof.
  apply (script_missing_module (sim_env never [3; 4; 0]) without_scipy
           "__main__" 2
           ["setup_path"; "airsim"; "numpy"; "time"; "math"]
           "scipy.spatial.transform" [] w0);
    [reflexivity|by repeat constructor|reflexivity|by intros i _].
Defined.

Lemma script_as_main_witness :
  script (sim_env never [3; 4; 0]) everything "__main__" 2 w0
  = main (sim_env never [3; 4; 0]) 2 (mkWorld ∅ None [] 6).
Proof.
  apply (script_as_main (sim_env never [3; 4; 0]) everything 2 w0);
    [by repeat constructor|by intros i _].
Defined.

Lemma script_imported_witness :
  script (sim_env never [3; 4; 0]) everything "sensorframe_lidar_pointcloud"
    2 w0
  = (Ok tt, mkWorld ∅ None [] 6).
Proof.
  apply (script_imported (sim_env never [3; 4; 0]) everything
           "sensorframe_lidar_pointcloud" 2 w0);
    [done|by repeat constructor|by intros i _].
Defined.

(** The notes beside the output of two rounds are not touched. *)
Lemma script_touches_only_witness :
  files (script (sim_env never [3; 4; 0]) everything "__main__" 2 w_notes).2
    !! "notes.txt"
  = files w_notes !! "notes.txt".
Proof.
  apply (script_touches_only (sim_env never [3; 4; 0]) everything "__main__"
           2 w_notes
           (script (sim_env never [3; 4; 0]) everything "__main__" 2
              w_notes).1 _ "notes.txt");
    [reflexivity|apply surjective_pairing|by vm_compute].
Defined.

(** The worked example, interrupted at tick 15, in the first point: the
    handler returns and the file object of the output file is left. *)
Definition sim_stopped : Env float := sim_env (at_tick 15) [3; 4; 0].

Lemma script_well_formed_witness :
  let w' := (script sim_stopped everything "__main__" 2 w0).2 in
  wf_world w' ∧ dom (files w0) ⊆ dom (files w')
  ∧ ∀ h, handle w' = Some h →
      h_name h = file_name (env_time sim_stopped (ticks w0 + 10)) "LidarSensor1".
Proof.
  apply (script_well_formed sim_stopped everything "__main__" 2
           w0 (script sim_stopped everything "__main__" 2 w0).1);
    [done|apply surjective_pairing].
Defined.

Example script_stopped_handle :
  handle (script sim_stopped everything "__main__" 2 w0).2
  = Some (mkHandle sim_file "").
Proof. vm_compute. reflexivity. Qed.

End example.
