(* ===== verification/Settings.v ===== *)
(** * Settings: the sample [settings.json] of the module docstring

    Lines 4-50 of the script hold the settings the script was written for:
    one vehicle, "Drone1", with two lidar sensors that report their points
    in the frame of the sensor.  The script does not read the text, the
    simulator does; the script depends on it through the names it passes
    to [execute] ([main_vehicle_name] and [main_lidar_names] of
    [Execute.v]) and through the frame of the points it receives.

    [json] is the document model, [sample_settings] the document of the
    docstring, field by field.  [field] and [path] look values up,
    [lidar_setting] reads the fields of one lidar sensor and [lidars_of]
    lists the lidar sensors of a vehicle.  The reading is strict: a sensor
    counts only when every field of the sample is present with the type
    the sample gives it; the defaults the simulator would supply are not
    modelled.

    The theorems: looking up a path in a document without duplicate keys
    yields a document without duplicate keys, and finds exactly the
    members of the objects on the way; the vehicle and the sensors that
    the main block polls are lidar sensors of the sample, enabled, in
    "SensorLocalFrame", on a simulator in the mode of the client. *)

From Stdlib Require Import ZArith.
From stdpp Require Import base tactics option strings list.
From S2P Require Import Prelude Scalar Record World Execute.

Local Open Scope Z_scope.

(** ** Documents *)

Unset Elimination Schemes.

Inductive json : Type :=
| JNull
| JBool (b : bool)
| JInt (n : Z)
(** [digits / 10 ^ places], as written: 1.2 is [JDecimal 12 1] *)
| JDecimal (digits : Z) (places : nat)
| JString (s : string)
| JArray (items : list json)
| JObject (members : list (string * json)).

Set Elimination Schemes.

(** The first member of the name [k]. *)
Fixpoint assoc (k : string) (members : list (string * json)) : option json :=
  match members with
  | [] => None
  | (k', v) :: rest => if decide (k' = k) then Some v else assoc k rest
  end.

Definition field (k : string) (j : json) : option json :=
  match j with
  | JObject members => assoc k members
  | _ => None
  end.

(** The value at the end of a path of member names. *)
Fixpoint path (ks : list string) (j : json) : option json :=
  match ks with
  | [] => Some j
  | k :: rest => field k j ≫= path rest
  end.

Definition as_int (j : json) : option Z :=
  match j with JInt n => Some n | _ => None end.

Definition as_bool (j : json) : option bool :=
  match j with JBool b => Some b | _ => None end.

Definition as_string (j : json) : option string :=
  match j with JString s => Some s | _ => None end.

(** No object of the document has two members of the same name. *)
Fixpoint wf_json (j : json) : bool :=
  match j with
  | JArray items => forallb wf_json items
  | JObject members =>
      bool_decide (NoDup members.*1) && forallb (λ kv, wf_json (snd kv)) members
  | _ => true
  end.

(** ** The sample *)

(** Lines 4-50. *)
Definition sample_settings : json :=
  JObject [
    ("SeeDocsAt", JString "https://github.com/Microsoft/AirSim/blob/master/docs/settings_json.md");
    ("SettingsVersion", JDecimal 12 1);
    ("SimMode", JString "Multirotor");
    ("Vehicles", JObject [
      ("Drone1", JObject [
        ("VehicleType", JString "SimpleFlight");
        ("AutoCreate", JBool true);
        ("Sensors", JObject [
          ("LidarSensor1", JObject [
            ("SensorType", JInt 6);
            ("Enabled", JBool true);
            ("NumberOfChannels", JInt 1);
            ("RotationsPerSecond", JInt 10);
            ("Range", JInt 12);
            ("PointsPerSecond", JInt 8000);
            ("X", JInt 0); ("Y", JInt 0); ("Z", JInt (-1));
            ("Roll", JInt 0); ("Pitch", JInt 90); ("Yaw", JInt 0);
            ("VerticalFOVUpper", JInt 0);
            ("VerticalFOVLower", JInt 0);
            ("HorizontalFOVStart", JInt 0);
            ("HorizontalFOVEnd", JInt 0);
            ("DrawDebugPoints", JBool true);
            ("DataFrame", JString "SensorLocalFrame")
          ]);
          ("LidarSensor2", JObject [
            ("SensorType", JInt 6);
            ("Enabled", JBool true);
            ("NumberOfChannels", JInt 1);
            ("RotationsPerSecond", JInt 10);
            ("Range", JInt 12);
            ("PointsPerSecond", JInt 8000);
            ("X", JInt 0); ("Y", JInt 0); ("Z", JInt (-1));
            ("Roll", JInt 90); ("Pitch", JInt 90); ("Yaw", JInt 0);
            ("VerticalFOVUpper", JInt 0);
            ("VerticalFOVLower", JInt 0);
            ("HorizontalFOVStart", JInt 0);
            ("HorizontalFOVEnd", JInt 0);
            ("DrawDebugPoints", JBool true);
            ("DataFrame", JString "SensorLocalFrame")
          ])
        ])
      ])
    ])
  ].

(** ** Lidar sensors *)

(** The sensor type of a lidar in the settings of the simulator. *)
Definition lidar_sensor_type : Z := 6.

(** The fields of a lidar sensor; angles in degrees, lengths in metres. *)
Record LidarSetting : Type := mkLidarSetting {
  ls_enabled : bool;
  ls_channels : Z;
  ls_rotations_per_second : Z;
  ls_range : Z;
  ls_points_per_second : Z;
  ls_position : Z * Z * Z;
  ls_roll_pitch_yaw : Z * Z * Z;
  ls_vertical_fov : Z * Z;
  ls_horizontal_fov : Z * Z;
  ls_draw_debug_points : bool;
  ls_data_frame : string;
}.

Definition int_field (k : string) (j : json) : option Z := field k j ≫= as_int.
Definition bool_field (k : string) (j : json) : option bool :=
  field k j ≫= as_bool.
Definition string_field (k : string) (j : json) : option string :=
  field k j ≫= as_string.

(** The setting of a sensor, when the sensor is a lidar. *)
Definition lidar_setting (j : json) : option LidarSetting :=
  ty ← int_field "SensorType" j;
  guard (ty = lidar_sensor_type);;
  enabled ← bool_field "Enabled" j;
  channels ← int_field "NumberOfChannels" j;
  rotations ← int_field "RotationsPerSecond" j;
  range ← int_field "Range" j;
  points ← int_field "PointsPerSecond" j;
  x ← int_field "X" j; y ← int_field "Y" j; z ← int_field "Z" j;
  roll ← int_field "Roll" j; pitch ← int_field "Pitch" j;
  yaw ← int_field "Yaw" j;
  vupper ← int_field "VerticalFOVUpper" j;
  vlower ← int_field "VerticalFOVLower" j;
  hstart ← int_field "HorizontalFOVStart" j;
  hend ← int_field "HorizontalFOVEnd" j;
  draw ← bool_field "DrawDebugPoints" j;
  frame ← string_field "DataFrame" j;
  Some (mkLidarSetting enabled channels rotations range points (x, y, z)
          (roll, pitch, yaw) (vupper, vlower) (hstart, hend) draw frame).

(** The lidar sensors of a vehicle, in the order of the document. *)
Definition lidars_of (settings : json) (vehicle : string)
    : list (string * LidarSetting) :=
  match path ["Vehicles"; vehicle; "Sensors"] settings with
  | Some (JObject sensors) =>
      omap (λ kv, (λ ls, (fst kv, ls)) <$> lidar_setting (snd kv)) sensors
  | _ => []
  end.

(** A sensor the script can poll: a lidar of the vehicle that is enabled
    and reports its points in the frame of the sensor (line 2). *)
Definition pollable (settings : json) (vehicle name : string) : Prop :=
  ∃ ls, (name, ls) ∈ lidars_of settings vehicle
        ∧ ls_enabled ls = true
        ∧ ls_data_frame ls = "SensorLocalFrame".

(** ** Facts about lookup *)

Lemma assoc_elem_of k members v :
  assoc k members = Some v → (k, v) ∈ members.
Proof.
  induction members as [|[k' v'] rest IH]; simpl; [done|].
  case_decide as Hk; [intros [= ->]; subst; left|right; auto].
Qed.

Lemma elem_of_assoc k members v :
  NoDup members.*1 → (k, v) ∈ members → assoc k members = Some v.
Proof.
  induction members as [|[k' v'] rest IH]; simpl.
  { by intros _ ?%elem_of_nil. }
  intros [Hk' Hnd]%NoDup_cons [[= -> ->]|Hin]%elem_of_cons.
  - by rewrite decide_True.
  - rewrite decide_False; [auto|]. intros ->. apply Hk'.
    by apply (list_elem_of_fmap_2 fst _ (k, v)).
Qed.

Lemma wf_json_object members :
  wf_json (JObject members) = true ↔
  NoDup members.*1 ∧ ∀ k v, (k, v) ∈ members → wf_json v = true.
Proof.
  cbn [wf_json]. rewrite andb_true_iff, bool_decide_eq_true, forallb_forall.
  split; intros [Hnd Hall]; (split; [done|]).
  - intros k v Hin. by apply (Hall (k, v)), list_elem_of_In.
  - intros [k v] Hin. by apply (Hall k), list_elem_of_In.
Qed.

Lemma field_wf k j v : wf_json j = true → field k j = Some v → wf_json v = true.
Proof.
  destruct j; try done. intros [_ Hall]%wf_json_object Hf%assoc_elem_of.
  eauto.
Qed.

(** In a well-formed object a lookup finds exactly the members. *)
Lemma field_iff k members v :
  wf_json (JObject members) = true →
  field k (JObject members) = Some v ↔ (k, v) ∈ members.
Proof.
  intros [Hnd _]%wf_json_object. split;
    [apply assoc_elem_of|by apply elem_of_assoc].
Qed.

Lemma path_snoc ks k j : path (ks ++ [k]) j = path ks j ≫= field k.
Proof.
  revert j. induction ks as [|k0 ks IH]; intros j; simpl.
  - by destruct (field k j).
  - destruct (field k0 j) as [j'|]; simpl; [apply IH|done].
Qed.

Lemma path_well_formed ks j v :
  wf_json j = true → path ks j = Some v → wf_json v = true.
Proof.
  revert j. induction ks as [|k0 ks IH]; intros j Hwf; simpl.
  - by intros [= <-].
  - destruct (field k0 j) as [j'|] eqn:Hf; [|done]. simpl.
    apply IH. by eapply field_wf.
Qed.

(** Every value of a well-formed document is reached without ambiguity: the
    value at the end of a path is well formed, and the path can be
    prolonged by exactly the members of the object it ends in. *)
Theorem path_wf ks j v :
  wf_json j = true → path ks j = Some v →
  wf_json v = true
  ∧ ∀ k members u, v = JObject members →
      path (ks ++ [k]) j = Some u ↔ (k, u) ∈ members.
Proof.
  intros Hwf Hp. pose proof (path_well_formed ks j v Hwf Hp) as Hv.
  split; [done|]. intros k members u ->.
  by rewrite path_snoc, Hp, <- field_iff.
Qed.

(** [lidars_of] lists the lidar sensors of the vehicle and nothing else:
    a sensor is listed with a setting exactly when the document has a
    member of its name under the sensors of the vehicle that reads as this
    lidar setting. *)
Theorem lidars_of_iff settings vehicle name ls :
  wf_json settings = true →
  (name, ls) ∈ lidars_of settings vehicle ↔
  ∃ j, path ["Vehicles"; vehicle; "Sensors"; name] settings = Some j
       ∧ lidar_setting j = Some ls.
Proof.
  intros Hwf. unfold lidars_of.
  change ["Vehicles"; vehicle; "Sensors"; name]
    with (["Vehicles"; vehicle; "Sensors"] ++ [name]).
  rewrite path_snoc.
  destruct (path ["Vehicles"; vehicle; "Sensors"] settings) as [v|] eqn:Hp;
    [|split; [by intros ?%elem_of_nil|by intros (? & ? & ?)]].
  apply (path_well_formed _ _ _ Hwf) in Hp.
  destruct v as [| | | | | |sensors];
    try (split; [by intros ?%elem_of_nil|by intros (? & ? & ?)]).
  rewrite list_elem_of_omap. simpl. split.
  - intros ([k j] & Hin & Hls). simpl in Hls.
    destruct (lidar_setting j) as [ls'|] eqn:Hj; [|done].
    injection Hls as -> ->. exists j. split; [|done].
    by apply (field_iff name sensors j Hp).
  - intros (j & Hf & Hj). exists (name, j).
    split; [by apply (field_iff name sensors j Hp)|]. simpl. by rewrite Hj.
Qed.

(** The sensors the main block polls ([main_lidar_names] of [Execute.v],
    line 122) are lidar sensors of the vehicle in the sample settings,
    enabled, with their points in "SensorLocalFrame", and the simulator
    runs in the mode of the client the script creates. *)
Theorem main_sensors_pollable :
  path ["SimMode"] sample_settings = Some (JString "Multirotor")
  ∧ Forall (pollable sample_settings main_vehicle_name) main_lidar_names.
Proof.
  split; [done|]. apply Forall_forall. intros name [->|[]%elem_of_nil]%elem_of_cons.
  eexists. split; [vm_compute; left|]. by split.
Qed.

(** ** The theorems at the sample *)

(** The sensors of "Drone1" in the sample. *)
Definition sample_sensors : json :=
  default JNull (path ["Vehicles"; "Drone1"; "Sensors"] sample_settings).

Lemma path_wf_witness :
  wf_json sample_sensors = true
  ∧ ∀ k members u, sample_sensors = JObject members →
      path (["Vehicles"; "Drone1"; "Sensors"] ++ [k]) sample_settings = Some u
      ↔ (k, u) ∈ members.
Proof.
  apply (path_wf ["Vehicles"; "Drone1"; "Sensors"] sample_settings
           sample_sensors); reflexivity.
Defined.

(** The second sensor of the sample is listed although the main block does
    not poll it. *)
Lemma lidars_of_iff_witness :
  ("LidarSensor2",
   mkLidarSetting true 1 10 12 8000 (0, 0, -1) (90, 90, 0) (0, 0) (0, 0) true
     "SensorLocalFrame") ∈ lidars_of sample_settings "Drone1".
Proof.
  apply (lidars_of_iff sample_settings "Drone1"); [reflexivity|].
  eexists. split; reflexivity.
Defined.

Lemma sample_lidar_names :
  (lidars_of sample_settings "Drone1").*1 = ["LidarSensor1"; "LidarSensor2"].
Proof. reflexivity. Qed.
